(** * Emergent-Civilizations: population lifecycle and governance engine

    A shallow embedding of the Python package [genesis]
    (civilization_agent.py, death.py, reproduction.py, governance.py,
    society_metrics.py, dynasty.py) and the proofs of its specification
    and of further properties of the code.

    Modelling conventions

    - Python [float] wealth is modelled by exact rationals [Q]; equalities
      between wealths are stated with [==] ([Qeq]).  The entropy metric,
      which calls [np.log], is modelled over the real numbers [R].
    - A rational neither overflows nor underflows: the OverflowError of
      [int / 100], of an int-to-float conversion and of [**], and the
      rounding of a positive weight to [0.0], are not modelled.  The
      hypotheses [PyText.short_number] and [short_numbers] (numbers
      parsed in a rule), [weights_in_range] (vote weights) and
      [exact_in_binary64] (a result that has to be exact) keep the
      numbers of a statement in the range where binary64 does none of
      this.
    - The functions of a module are modelled by their bodies.  For
      death.py, whose top level raises before its functions are defined,
      the top-level statements are modelled as well ([PyModule],
      [death_py]).
    - Agents are mutable Python objects.  A population is a list of
      references into an object store; every function that mutates an
      agent is a computation in the monad [M], which threads the store
      and may raise an exception.  As in Python, a raised exception does
      not undo the mutations performed before it.
    - Text is ASCII: [str.lower], [str.strip], the [in] operator and the
      regular expressions of governance.py are modelled on [string].
    - The language-model collaborator (votes, offspring prompts), the uuid
      generator and [GenesisAgent.get_best_task_type] (agent.py is not part
      of the sources) are section variables. *)

From Stdlib Require Import List String Ascii Bool Arith ZArith Lia.
From Stdlib Require Import QArith Qminmax Qround Qabs.
From Stdlib Require Import Reals Psatz.
From Stdlib Require Import Permutation Sorted.
Import ListNotations.

Local Open Scope string_scope.
Local Open Scope list_scope.
Local Open Scope Z_scope.
Local Open Scope Q_scope.

(** ** Python text primitives *)

Module PyText.

Definition is_upper (c : ascii) : bool :=
  let n := nat_of_ascii c in ((65 <=? n) && (n <=? 90))%nat.

(** [\d] on ASCII text. *)
Definition is_digit (c : ascii) : bool :=
  let n := nat_of_ascii c in ((48 <=? n) && (n <=? 57))%nat.

(** [\s] on ASCII text: tab, newline, vertical tab, form feed, carriage
    return, the four separators 0x1c-0x1f, and space. *)
Definition is_space (c : ascii) : bool :=
  let n := nat_of_ascii c in
  (((9 <=? n) && (n <=? 13)) || ((28 <=? n) && (n <=? 32)))%nat.

Definition lower_char (c : ascii) : ascii :=
  if is_upper c then ascii_of_nat (nat_of_ascii c + 32) else c.

(** [s.lower()] *)
Fixpoint lower (s : string) : string :=
  match s with
  | EmptyString => EmptyString
  | String c s' => String (lower_char c) (lower s')
  end.

(** [s.startswith(p)], returning the remainder of [s] after [p]. *)
Fixpoint strip_prefix (p s : string) : option string :=
  match p, s with
  | EmptyString, _ => Some s
  | String a p', String b s' =>
      if Ascii.eqb a b then strip_prefix p' s' else None
  | String _ _, EmptyString => None
  end.

(** [sub in s] *)
Fixpoint contains (sub s : string) : bool :=
  match strip_prefix sub s with
  | Some _ => true
  | None =>
      match s with
      | EmptyString => false
      | String _ s' => contains sub s'
      end
  end.

(** Greedy [\d*]: the longest run of digits at the head of [s], and the
    rest of [s]. *)
Fixpoint span_digits (s : string) : string * string :=
  match s with
  | String c s' =>
      if is_digit c
      then let (d, r) := span_digits s' in (String c d, r)
      else (EmptyString, s)
  | EmptyString => (EmptyString, EmptyString)
  end.

(** Greedy [\s*]: what is left of [s] after its leading white space. *)
Fixpoint skip_spaces (s : string) : string :=
  match s with
  | String c s' => if is_space c then skip_spaces s' else s
  | EmptyString => EmptyString
  end.

(** [(\d+)] with nothing required after it: the captured group. *)
Definition digits_group (s : string) : option string :=
  match fst (span_digits s) with
  | EmptyString => None
  | d => Some d
  end.

(** [re.match(r'(\d+)%', s)]: group 1 when the pattern matches at the
    head of [s].  A shorter run of digits can never be followed by [%],
    so the greedy run is the only candidate. *)
Definition match_rate_at (s : string) : option string :=
  match span_digits s with
  | (String c d, String "%" _) => Some (String c d)
  | _ => None
  end.

(** [re.match(r'wealth\s*>\s*(\d+)', s)] *)
Definition match_threshold_at (s : string) : option string :=
  match strip_prefix "wealth" s with
  | Some r =>
      match skip_spaces r with
      | String ">" r' => digits_group (skip_spaces r')
      | _ => None
      end
  | None => None
  end.

(** [re.match] of the minimum-wealth pattern: the word [minimum], then
    [\s*], then an optional non-capturing group made of [of] and [\s*],
    then [(\d+)].  When the optional group matches, skipping it instead
    leaves the letter [o] in front of [(\d+)], so the greedy choice is
    the only candidate. *)
Definition match_minimum_at (s : string) : option string :=
  match strip_prefix "minimum" s with
  | Some r =>
      let r1 := skip_spaces r in
      match strip_prefix "of" r1 with
      | Some r2 => digits_group (skip_spaces r2)
      | None => digits_group r1
      end
  | None => None
  end.

(** [re.search]: the match at the leftmost position of [s] where the
    anchored matcher [m] succeeds (the empty suffix is tried too). *)
Fixpoint re_search (m : string -> option string) (s : string)
  : option string :=
  match m s with
  | Some g => Some g
  | None =>
      match s with
      | EmptyString => None
      | String _ s' => re_search m s'
      end
  end.

Definition digit_value (c : ascii) : Z := Z.of_nat (nat_of_ascii c - 48).

Fixpoint int_acc (acc : Z) (s : string) : Z :=
  match s with
  | EmptyString => acc
  | String c s' => int_acc (10 * acc + digit_value c)%Z s'
  end.

(** [int(s)] for a string of decimal digits. *)
Definition int (s : string) : Z := int_acc 0 s.

(** [int(s)] is a Python integer of any size.  The transforms of
    governance.py go on to use it in float arithmetic ([int(..) / 100],
    [min_wealth - a.wealth]), which raises OverflowError once the integer
    is beyond the largest binary64 number, about 1.8e308, and [int]
    itself refuses a string of more than 4300 digits in recent
    interpreters.  [short_number m] says that the match [m], if there is
    one, has at most 308 digits, so that neither happens. *)
Definition short_number (m : option string) : bool :=
  match m with
  | Some g => (String.length g <=? 308)%nat
  | None => true
  end.

(** [x or default] for an optional string: [None] and [""] are falsy. *)
Definition or_else (x : option string) (default : string) : string :=
  match x with
  | Some (String c s) => String c s
  | _ => default
  end.

End PyText.

(** ** Python numbers, lists and dictionaries *)

Module Py.

Definition Qlt_bool (x y : Q) : bool := negb (Qle_bool y x).

(** [sum(xs)]: starts from [0] and adds from the left. *)
Definition sum (xs : list Q) : Q := fold_left Qplus xs 0.

Definition sumZ (xs : list Z) : Z := fold_left Z.add xs 0%Z.

(** [max(a, b)] returns [a] unless [b > a]; [min(a, b)] returns [a]
    unless [b < a]. *)
Definition max (a b : Q) : Q := if Qlt_bool a b then b else a.
Definition min (a b : Q) : Q := if Qlt_bool b a then b else a.

(** [int(x)] on a float: truncation towards zero. *)
Definition int (x : Q) : Z := Z.quot (Qnum x) (Zpos (Qden x)).

Definition len {A} (l : list A) : Z := Z.of_nat (List.length l).

(** [l[:n]] *)
Definition slice_to {A} (l : list A) (n : Z) : list A :=
  if (0 <=? n)%Z then firstn (Z.to_nat n) l
  else firstn (Z.to_nat (len l + n)) l.

(** [sorted(l, key=key)]: Python's sort is stable, and the stable
    ordering of a list by a key is unique; it is computed here by
    insertion. *)
Fixpoint insert_by {A} (key : A -> Q) (x : A) (l : list A) : list A :=
  match l with
  | [] => [x]
  | y :: l' =>
      if Qle_bool (key x) (key y) then x :: y :: l'
      else y :: insert_by key x l'
  end.

Fixpoint sorted {A} (key : A -> Q) (l : list A) : list A :=
  match l with
  | [] => []
  | x :: l' => insert_by key x (sorted key l')
  end.

(** A [dict] with string keys, in insertion order. *)
Definition dict (V : Type) := list (string * V).

(** [d[k] = v] *)
Fixpoint dict_set {V} (d : dict V) (k : string) (v : V) : dict V :=
  match d with
  | [] => [(k, v)]
  | (k', v') :: d' =>
      if String.eqb k' k then (k', v) :: d'
      else (k', v') :: dict_set d' k v
  end.

(** [d.get(k)] *)
Fixpoint dict_get {V} (d : dict V) (k : string) : option V :=
  match d with
  | [] => None
  | (k', v') :: d' => if String.eqb k' k then Some v' else dict_get d' k
  end.

Definition keys {V} (d : dict V) : list string := map fst d.
Definition values {V} (d : dict V) : list V := map snd d.

(** [{k: v for (k, v) in kvs}] *)
Definition dict_of {V} (kvs : list (string * V)) : dict V :=
  fold_left (fun d kv => dict_set d (fst kv) (snd kv)) kvs [].

(** [Counter(xs)] *)
Definition Counter (xs : list string) : dict Z :=
  fold_left
    (fun d x =>
       dict_set d x (match dict_get d x with Some n => n + 1 | None => 1 end)%Z)
    xs [].

End Py.

(** ** Exceptions *)

Inductive exn : Type :=
| ValueError          (* raised by [reproduce] for an ineligible parent *)
| ZeroDivisionError   (* raised by [/] on a zero divisor *)
| KeyError            (* raised by [d[k]] on a missing key *)
| OracleError.        (* any exception of the language-model client *)

(** ** Loading a module

    Python runs the statements at the top level of a module in order, in
    the namespace of the module.  The names that a statement reads when
    it runs (the decorators of a class, then the expressions of its
    body; the defaults and annotations of a [def]; the annotation of a
    module variable) are looked up at that moment, and a name that is
    not bound yet raises NameError.  The body of a [def] is not run.  An
    import statement is taken to succeed. *)

Module PyModule.

Inductive stmt : Type :=
| ImportFrom (module : string) (names : list string)
| Import (name : string)
| ClassDef (decorators : list string) (name : string) (body : list string)
| AnnAssign (target : string) (reads : list string)
| FunctionDef (name : string) (reads : list string).

Inductive error : Type :=
| NameError (name : string)     (* name 'x' is not defined *)
| ImportError (name : string).  (* cannot import name 'x' from the module *)

Definition namespace : Type := list string.

(** The built-in names that the annotations of death.py read. *)
Definition builtins : namespace := ["str"; "int"; "float"].

Definition bound (name : string) (ns : namespace) : bool :=
  existsb (String.eqb name) ns.

(** The first of the names [reads], in the order of evaluation, that is
    not bound in [ns]. *)
Fixpoint first_unbound (reads : list string) (ns : namespace)
  : option string :=
  match reads with
  | [] => None
  | x :: reads' => if bound x ns then first_unbound reads' ns else Some x
  end.

Definition exec_stmt (st : stmt) (ns : namespace) : namespace + error :=
  match st with
  | ImportFrom _ names => inl (ns ++ names)
  | Import name => inl (ns ++ [name])
  | ClassDef decorators name body =>
      match first_unbound (decorators ++ body) ns with
      | Some x => inr (NameError x)
      | None => inl (ns ++ [name])
      end
  | AnnAssign target reads =>
      match first_unbound reads ns with
      | Some x => inr (NameError x)
      | None => inl (ns ++ [target])
      end
  | FunctionDef name reads =>
      match first_unbound reads ns with
      | Some x => inr (NameError x)
      | None => inl (ns ++ [name])
      end
  end.

(** The module body, statement by statement; the first exception ends
    the import. *)
Fixpoint exec_module (body : list stmt) (ns : namespace)
  : namespace + error :=
  match body with
  | [] => inl ns
  | st :: rest =>
      match exec_stmt st ns with
      | inl ns' => exec_module rest ns'
      | inr e => inr e
      end
  end.

(** [from m import name], for a module [m] of body [body] that has not
    been imported before. *)
Definition import_from (body : list stmt) (name : string) : unit + error :=
  match exec_module body builtins with
  | inl ns => if bound name ns then inl tt else inr (ImportError name)
  | inr e => inr e
  end.

(** The module with its last statement moved to the top. *)
Definition last_statement_first (body : list stmt) : list stmt :=
  match rev body with
  | [] => []
  | st :: front => st :: rev front
  end.

End PyModule.

(** The top level of death.py, in the order of the file: the imports of
    lines 7-12, the decorated class [ExtinctionRecord] (lines 15-25), the
    module ledger (line 29), the six functions, and the import of
    [dataclass] and [field] on the last line (line 141).  The docstring
    reads and binds no name. *)
Definition death_py : list PyModule.stmt :=
  [PyModule.ImportFrom "typing" ["List"; "Tuple"; "Dict"];
   PyModule.ImportFrom "datetime" ["datetime"];
   PyModule.Import "json";
   PyModule.ImportFrom "pathlib" ["Path"];
   PyModule.ImportFrom ".civilization_agent" ["CivilizationAgent"];
   PyModule.ClassDef ["dataclass"] "ExtinctionRecord"
     ["str"; "str"; "int"; "int"; "float"; "str"; "str";
      "field"; "datetime"; "datetime"];
   PyModule.AnnAssign "_extinction_log" ["List"; "ExtinctionRecord"];
   PyModule.FunctionDef "process_deaths"
     ["List"; "CivilizationAgent"; "int";
      "Tuple"; "List"; "CivilizationAgent"; "List"; "CivilizationAgent"];
   PyModule.FunctionDef "log_extinction"
     ["CivilizationAgent"; "int"; "str"; "ExtinctionRecord"];
   PyModule.FunctionDef "get_extinction_log" ["List"; "ExtinctionRecord"];
   PyModule.FunctionDef "clear_extinction_log" [];
   PyModule.FunctionDef "get_extinction_statistics"
     ["List"; "ExtinctionRecord"; "Dict"];
   PyModule.FunctionDef "save_extinction_log" ["str"];
   PyModule.ImportFrom "dataclasses" ["dataclass"; "field"]].

(** ** civilization_agent.py *)

Definition STARTING_WEALTH : Q := 100.
Definition REPRODUCTION_COST : Q := 200.
Definition CHILD_STARTING_WEALTH : Q := 50.
Definition PARTICIPATION_COST : Q := 1.

Module CivilizationAgent.

(** The dataclass; [id], [system_prompt] and [generation] are inherited
    from [GenesisAgent], whose remaining fields are left to their
    defaults by every constructor call of these sources. *)
Record t : Type := Build {
  id : string;
  system_prompt : string;
  generation : Z;
  wealth : Q;
  age : Z;
  parent_id : option string;
  children_ids : list string;
  dynasty_id : option string
}.

Definition with_wealth (a : t) (w : Q) : t :=
  Build (id a) (system_prompt a) (generation a) w (age a)
        (parent_id a) (children_ids a) (dynasty_id a).

Definition with_children_ids (a : t) (c : list string) : t :=
  Build (id a) (system_prompt a) (generation a) (wealth a) (age a)
        (parent_id a) c (dynasty_id a).

Definition can_reproduce (self : t) : bool :=
  Qle_bool REPRODUCTION_COST (wealth self).

Definition is_alive (self : t) : bool :=
  Py.Qlt_bool 0 (wealth self).

End CivilizationAgent.

(** ** death.py: the extinction record *)

Module ExtinctionRecord.

(** The [timestamp] field (wall-clock time of the record's creation) is
    not modelled. *)
Record t : Type := Build {
  agent_id : string;
  dynasty_id : string;
  generation : Z;
  age_at_death : Z;
  final_wealth : Q;
  cause : string;
  specialization : string
}.

End ExtinctionRecord.

(** ** The object store and the monad of agent computations *)

(** A reference is the identity of an agent object. *)
Definition ref : Type := nat.

Record Store : Type := mkStore {
  objects : ref -> CivilizationAgent.t;          (* the agent objects *)
  next_ref : ref;                                (* first unused reference *)
  _extinction_log : list ExtinctionRecord.t      (* death.py's module-level list *)
}.

Definition update (h : ref -> CivilizationAgent.t) (r : ref)
  (a : CivilizationAgent.t) : ref -> CivilizationAgent.t :=
  fun r' => if Nat.eqb r' r then a else h r'.

(** A computation returns a value or raises, and leaves a store. *)
Definition M (A : Type) : Type := Store -> (A + exn) * Store.

Definition ret {A} (a : A) : M A := fun s => (inl a, s).

Definition bind {A B} (m : M A) (k : A -> M B) : M B :=
  fun s =>
    match m s with
    | (inl a, s') => k a s'
    | (inr e, s') => (inr e, s')
    end.

Definition raise {A} (e : exn) : M A := fun s => (inr e, s).

(** [try: m except Exception as e: h e] *)
Definition try_except {A} (m : M A) (h : exn -> M A) : M A :=
  fun s =>
    match m s with
    | (inl a, s') => (inl a, s')
    | (inr e, s') => h e s'
    end.

Declare Scope py_scope.
Delimit Scope py_scope with py.
Notation "x <- m ;; k" := (bind m (fun x => k))
  (at level 61, m at next level, right associativity) : py_scope.
Notation "' pat <- m ;; k" := (bind m (fun x => match x with pat => k end))
  (at level 61, pat pattern, m at next level, right associativity) : py_scope.
Notation "m ;; k" := (bind m (fun _ => k))
  (at level 61, right associativity) : py_scope.
Local Open Scope py_scope.

(** Reading an agent object, and the two attribute assignments of the
    sources. *)
Definition read (r : ref) : M CivilizationAgent.t :=
  fun s => (inl (objects s r), s).

Definition write (r : ref) (a : CivilizationAgent.t) : M unit :=
  fun s => (inl tt, mkStore (update (objects s) r a) (next_ref s)
                            (_extinction_log s)).

(** [agent.wealth = w] *)
Definition set_wealth (r : ref) (w : Q) : M unit :=
  a <- read r ;; write r (CivilizationAgent.with_wealth a w).

(** Creation of a new agent object. *)
Definition alloc (a : CivilizationAgent.t) : M ref :=
  fun s => (inl (next_ref s),
            mkStore (update (objects s) (next_ref s) a) (S (next_ref s))
                    (_extinction_log s)).

(** [_extinction_log.append(record)] *)
Definition log_append (record : ExtinctionRecord.t) : M unit :=
  fun s => (inl tt, mkStore (objects s) (next_ref s)
                            (_extinction_log s ++ [record])).

Definition get_store : M Store := fun s => (inl s, s).

(** [a / b] *)
Definition py_div (a b : Q) : M Q :=
  if Qeq_bool b 0 then raise ZeroDivisionError else ret (a / b).

(** [for x in l: acc = body x acc], for a loop whose body updates the
    local variables [acc]. *)
Fixpoint for_acc {A B} (l : list A) (acc : B) (body : A -> B -> M B) : M B :=
  match l with
  | [] => ret acc
  | x :: l' => acc' <- body x acc ;; for_acc l' acc' body
  end.

(** [for x in l: body x] *)
Fixpoint for_each {A} (l : list A) (body : A -> M unit) : M unit :=
  match l with
  | [] => ret tt
  | x :: l' => body x ;; for_each l' body
  end.

Definition wealth_of (s : Store) (r : ref) : Q :=
  CivilizationAgent.wealth (objects s r).

(** ** governance.py: data *)

Inductive RuleCategory : Type :=
| TAXATION | MERITOCRACY | WELFARE | OLIGARCHY
| REPRODUCTION | COMPETITION | OTHER.

(** [category.value] *)
Definition RuleCategory_value (c : RuleCategory) : string :=
  match c with
  | TAXATION => "taxation"
  | MERITOCRACY => "meritocracy"
  | WELFARE => "welfare"
  | OLIGARCHY => "oligarchy"
  | REPRODUCTION => "reproduction"
  | COMPETITION => "competition"
  | OTHER => "other"
  end.

(** The members of the enumeration, as [len(RuleCategory)] iterates them. *)
Definition RuleCategory_members : list RuleCategory :=
  [TAXATION; MERITOCRACY; WELFARE; OLIGARCHY; REPRODUCTION; COMPETITION; OTHER].

Inductive VotingSystem : Type :=
| EQUAL              (* one agent, one vote *)
| WEALTH_WEIGHTED    (* votes proportional to wealth *)
| STAKE_WEIGHTED.    (* votes proportional to wealth squared *)

Module Rule.

Record t : Type := Build {
  id : string;
  proposer_id : string;
  description : string;
  effect : string;
  category : RuleCategory;
  generation_proposed : Z;
  votes_for : Z;
  votes_against : Z;
  passed : bool;
  generation_enacted : option Z
}.

(** The tally assignments of [run_voting]. *)
Definition with_tally (r : t) (vf va : Z) : t :=
  Build (id r) (proposer_id r) (description r) (effect r) (category r)
        (generation_proposed r) vf va (passed r) (generation_enacted r).

(** [rule.passed = p] *)
Definition with_passed (r : t) (p : bool) : t :=
  Build (id r) (proposer_id r) (description r) (effect r) (category r)
        (generation_proposed r) (votes_for r) (votes_against r) p
        (generation_enacted r).

(** [rule.generation_enacted = g] *)
Definition with_generation_enacted (r : t) (g : Z) : t :=
  Build (id r) (proposer_id r) (description r) (effect r) (category r)
        (generation_proposed r) (votes_for r) (votes_against r) (passed r)
        (Some g).

Definition vote_ratio (self : t) : Q :=
  let total := (votes_for self + votes_against self)%Z in
  if (total =? 0)%Z then 0
  else inject_Z (votes_for self) / inject_Z total.

End Rule.

(** [d[k]] *)
Definition dict_lookup {V} (d : Py.dict V) (k : string) : M V :=
  match Py.dict_get d k with
  | Some v => ret v
  | None => raise KeyError
  end.

Section Genesis.

(** [GenesisAgent.get_best_task_type], defined in agent.py. *)
Variable get_best_task_type : CivilizationAgent.t -> option string.

(** [str(uuid.uuid4())[:8]], as drawn for the object created at a given
    reference. *)
Variable uuid4 : ref -> string.

(** The answer of the language model to [vote_on_rule]: whether the
    reply contains YES. *)
Variable vote_on_rule : CivilizationAgent.t -> Rule.t -> bool.

(** The answer of the language model to [_generate_offspring_prompt];
    [None] stands for any exception of the client. *)
Variable llm_offspring_prompt : CivilizationAgent.t -> Q -> option string.

(** *** civilization_agent.py: methods that mutate the agent *)

Definition pay_participation_cost (self : ref) : M unit :=
  a <- read self ;;
  set_wealth self (CivilizationAgent.wealth a - PARTICIPATION_COST).

Definition receive_reward (self : ref) (amount : Q) : M unit :=
  a <- read self ;;
  set_wealth self (CivilizationAgent.wealth a + amount).

Definition pay_reproduction_cost (self : ref) : M unit :=
  a <- read self ;;
  set_wealth self (CivilizationAgent.wealth a - REPRODUCTION_COST).

Definition create_offspring (parent : ref) (child_prompt : string) : M ref :=
  s <- get_store ;;
  let child_id := uuid4 (next_ref s) in
  p <- read parent ;;
  child <- alloc (CivilizationAgent.Build
                    child_id
                    child_prompt
                    (CivilizationAgent.generation p + 1)
                    CHILD_STARTING_WEALTH
                    0
                    (Some (CivilizationAgent.id p))
                    []
                    (CivilizationAgent.dynasty_id p)) ;;
  p <- read parent ;;
  write parent (CivilizationAgent.with_children_ids p
                  (CivilizationAgent.children_ids p ++ [child_id])) ;;
  ret child.

(** *** death.py *)

Definition log_extinction (agent : ref) (generation : Z) (cause : string)
  : M ExtinctionRecord.t :=
  a <- read agent ;;
  let record :=
    ExtinctionRecord.Build
      (CivilizationAgent.id a)
      (PyText.or_else (CivilizationAgent.dynasty_id a) "unknown")
      generation
      (CivilizationAgent.age a)
      (CivilizationAgent.wealth a)
      cause
      (PyText.or_else (get_best_task_type a) "generalist") in
  log_append record ;;
  ret record.

Definition process_deaths (agents : list ref) (generation : Z)
  : M (list ref * list ref) :=
  for_acc agents ([], [])
    (fun agent '(survivors, deceased) =>
       a <- read agent ;;
       if CivilizationAgent.is_alive a
       then ret (survivors ++ [agent], deceased)
       else
         log_extinction agent generation "bankruptcy" ;;
         ret (survivors, deceased ++ [agent])).

(** [from .death import process_deaths] (line 23 of __init__.py), then a
    call of the function: the call takes place only when the import of
    the module, of top level [module], has bound the name. *)
Definition imported_process_deaths (module : list PyModule.stmt)
  (agents : list ref) (generation : Z) (s : Store)
  : PyModule.error + (list ref * list ref + exn) * Store :=
  match PyModule.import_from module "process_deaths" with
  | inl _ => inr (process_deaths agents generation s)
  | inr e => inl e
  end.

(** *** reproduction.py *)

Definition _generate_offspring_prompt (parent : ref) (mutation_rate : Q)
  : M string :=
  p <- read parent ;;
  match llm_offspring_prompt p mutation_rate with
  | Some prompt => ret prompt
  | None => raise OracleError
  end.

Definition reproduce (parent : ref) (mutation_rate : Q) : M ref :=
  p <- read parent ;;
  if negb (CivilizationAgent.can_reproduce p) then raise ValueError
  else
    child_prompt <- _generate_offspring_prompt parent mutation_rate ;;
    pay_reproduction_cost parent ;;
    child <- create_offspring parent child_prompt ;;
    ret child.

Definition get_reproducible_agents (agents : list ref) : M (list ref) :=
  s <- get_store ;;
  ret (filter (fun a => CivilizationAgent.can_reproduce (objects s a)) agents).

(** Truth value of an [Optional[int]]: [None] and [0] are falsy. *)
Definition truthy (n : option Z) : bool :=
  match n with
  | Some k => negb (k =? 0)%Z
  | None => false
  end.

Definition reproduction_phase (agents : list ref)
  (max_offspring_per_gen : option Z) (mutation_rate : Q) : M (list ref) :=
  reproducible <- get_reproducible_agents agents ;;
  reproducible <-
    (if truthy max_offspring_per_gen then
       s <- get_store ;;
       let reproducible :=
         Py.sorted (fun a => - wealth_of s a) reproducible in
       ret (Py.slice_to reproducible
              (match max_offspring_per_gen with Some k => k | None => 0%Z end))
     else ret reproducible) ;;
  for_acc reproducible []
    (fun parent offspring =>
       try_except
         (child <- reproduce parent mutation_rate ;;
          ret (offspring ++ [child]))
         (fun e => ret offspring)).

(** *** governance.py

    A [Rule] is a mutable object too, but a single one is in play in each
    function; it is passed in and returned explicitly.

    In [run_voting] the weights are rationals.  In the sources
    [a.wealth ** 2] raises OverflowError on a square beyond the binary64
    range and rounds a square below it to [0.0]; neither is modelled
    ([weights_in_range] excludes them). *)

Definition run_voting (agents : list ref) (rule : Rule.t)
  (voting_system : VotingSystem) (threshold : Q) : M (bool * Rule.t) :=
  votes <- for_acc agents []
             (fun agent votes =>
                a <- read agent ;;
                let vote := vote_on_rule a rule in
                ret (Py.dict_set votes (CivilizationAgent.id a) vote)) ;;
  s <- get_store ;;
  '(passed, rule) <-
    match voting_system with
    | EQUAL =>
        let yes_votes :=
          Py.sumZ (map (fun v : bool => if v then 1%Z else 0%Z)
                       (Py.values votes)) in
        let total_votes := Py.len votes in
        ratio <- py_div (inject_Z yes_votes) (inject_Z total_votes) ;;
        let passed := Qle_bool threshold ratio in
        ret (passed,
             Rule.with_tally rule yes_votes (total_votes - yes_votes)%Z)
    | WEALTH_WEIGHTED =>
        let wealth_map :=
          Py.dict_of
            (map (fun a => (CivilizationAgent.id (objects s a), wealth_of s a))
                 agents) in
        yes_weight <- for_acc votes 0
                        (fun '(aid, v) acc =>
                           if v : bool
                           then w <- dict_lookup wealth_map aid ;; ret (acc + w)
                           else ret acc) ;;
        let total_weight := Py.sum (Py.values wealth_map) in
        ratio <- py_div yes_weight total_weight ;;
        let passed := Qle_bool threshold ratio in
        ret (passed,
             Rule.with_tally rule (Py.int yes_weight)
               (Py.int (total_weight - yes_weight)))
    | STAKE_WEIGHTED =>
        let wealth_map :=
          Py.dict_of
            (map (fun a =>
                    (CivilizationAgent.id (objects s a), wealth_of s a ^ 2))
                 agents) in
        yes_weight <- for_acc votes 0
                        (fun '(aid, v) acc =>
                           if v : bool
                           then w <- dict_lookup wealth_map aid ;; ret (acc + w)
                           else ret acc) ;;
        let total_weight := Py.sum (Py.values wealth_map) in
        ratio <- py_div yes_weight total_weight ;;
        let passed := Qle_bool threshold ratio in
        ret (passed,
             Rule.with_tally rule (Py.int yes_weight)
               (Py.int (total_weight - yes_weight)))
    end ;;
  let rule := Rule.with_passed rule passed in
  ret (passed, rule).

(** The rate and threshold that [_apply_taxation] reads in the effect.
    The quotient is a rational: the OverflowError of [int(..) / 100] on a
    percentage beyond the binary64 range is not modelled
    ([PyText.short_number] excludes it). *)
Definition tax_rate_of (effect : string) : Q :=
  match PyText.re_search PyText.match_rate_at effect with
  | Some g => inject_Z (PyText.int g) / 100
  | None => 1 # 10
  end.

Definition wealth_threshold_of (effect : string) : Q :=
  match PyText.re_search PyText.match_threshold_at effect with
  | Some g => inject_Z (PyText.int g)
  | None => 0
  end.

Definition _apply_taxation (rule : Rule.t) (agents : list ref)
  : M (list ref) :=
  let effect := PyText.lower (Rule.effect rule) in
  let tax_rate := tax_rate_of effect in
  let wealth_threshold := wealth_threshold_of effect in
  (* Collect taxes *)
  total_tax <- for_acc agents 0
                 (fun agent total_tax =>
                    a <- read agent ;;
                    if Py.Qlt_bool wealth_threshold (CivilizationAgent.wealth a)
                    then
                      let tax := CivilizationAgent.wealth a * tax_rate in
                      set_wealth agent (CivilizationAgent.wealth a - tax) ;;
                      ret (total_tax + tax)
                    else ret total_tax) ;;
  (* Distribute equally *)
  (if Py.Qlt_bool 0 total_tax then
     share <- py_div total_tax (inject_Z (Py.len agents)) ;;
     for_each agents
       (fun agent =>
          a <- read agent ;;
          set_wealth agent (CivilizationAgent.wealth a + share))
   else ret tt) ;;
  ret agents.

(** The floor that [_apply_welfare] reads in the effect.  It is a Python
    integer: the OverflowError of [min_wealth - a.wealth] on a floor
    beyond the binary64 range is not modelled ([PyText.short_number]
    excludes it). *)
Definition min_wealth_of (effect : string) : Q :=
  match PyText.re_search PyText.match_minimum_at effect with
  | Some g => inject_Z (PyText.int g)
  | None => 20
  end.

Definition _apply_welfare (rule : Rule.t) (agents : list ref)
  : M (list ref) :=
  let effect := PyText.lower (Rule.effect rule) in
  let min_wealth := min_wealth_of effect in
  (* Calculate needed welfare *)
  s <- get_store ;;
  let total_needed :=
    Py.sum (map (fun a => Py.max 0 (min_wealth - wealth_of s a)) agents) in
  (if Py.Qlt_bool 0 total_needed then
     (* Take from wealthy agents *)
     let wealthy :=
       filter (fun a => Py.Qlt_bool (min_wealth * 2) (wealth_of s a)) agents in
     match wealthy with
     | _ :: _ =>
         contribution_per <- py_div total_needed (inject_Z (Py.len wealthy)) ;;
         for_each wealthy
           (fun agent =>
              a <- read agent ;;
              set_wealth agent
                (CivilizationAgent.wealth a
                 - Py.min contribution_per
                     (CivilizationAgent.wealth a * (1 # 10))))
     | [] => ret tt
     end ;;
     (* Give to poor agents *)
     for_each agents
       (fun agent =>
          a <- read agent ;;
          if Py.Qlt_bool (CivilizationAgent.wealth a) min_wealth
          then set_wealth agent min_wealth
          else ret tt)
   else ret tt) ;;
  ret agents.

Definition apply_rule (rule : Rule.t) (agents : list ref) (generation : Z)
  : M (Rule.t * list ref) :=
  if negb (Rule.passed rule) then ret (rule, agents)
  else
    let rule := Rule.with_generation_enacted rule generation in
    let effect_lower := PyText.lower (Rule.effect rule) in
    (* Parse and apply different rule types *)
    agents <-
      (if PyText.contains "tax" effect_lower
          || PyText.contains "pay" effect_lower
       then _apply_taxation rule agents
       else ret agents) ;;
    agents <-
      (if PyText.contains "minimum" effect_lower
          || PyText.contains "welfare" effect_lower
       then _apply_welfare rule agents
       else ret agents) ;;
    (if PyText.contains "double" effect_lower
        && PyText.contains "vote" effect_lower
     then ret tt   (* voting power changes handled in voting system *)
     else ret tt) ;;
    (if PyText.contains "reproduce" effect_lower
        || PyText.contains "offspring" effect_lower
     then ret tt   (* reproduction restrictions handled in reproduction phase *)
     else ret tt) ;;
    ret (rule, agents).

End Genesis.

(** ** society_metrics.py *)

(** The guard [1e-10] inside the logarithm. *)
Definition log_guard : R := (/ 10 ^ 10)%R.

Definition sumR (xs : list R) : R := fold_left Rplus xs 0%R.

Definition compute_governance_entropy (rules : list Rule.t) : R :=
  let passed_rules := filter Rule.passed rules in
  match passed_rules with
  | [] => 0%R
  | _ :: _ =>
      (* Count categories *)
      let categories :=
        map (fun r => RuleCategory_value (Rule.category r)) passed_rules in
      let counts := Py.Counter categories in
      (* Compute entropy *)
      let total := Py.sumZ (Py.values counts) in
      let probs := map (fun c => (IZR c / IZR total)%R) (Py.values counts) in
      let entropy :=
        (- sumR (map (fun p => p * ln (p + log_guard)) probs))%R in
      (* Normalize by max possible entropy *)
      let max_entropy := ln (IZR (Py.len RuleCategory_members)) in
      (entropy / max_entropy)%R
  end.

(** ** Vocabulary of the statements *)

(** [Subseq l1 l2]: [l1] is [l2] with some elements removed, the others
    keeping their relative order. *)
Inductive Subseq {A : Type} : list A -> list A -> Prop :=
| Subseq_nil : Subseq [] []
| Subseq_keep : forall x l1 l2, Subseq l1 l2 -> Subseq (x :: l1) (x :: l2)
| Subseq_drop : forall x l1 l2, Subseq l1 l2 -> Subseq l1 (x :: l2).

(** Sum of a list of rationals, from the right. *)
Fixpoint Qsum (xs : list Q) : Q :=
  match xs with
  | [] => 0
  | x :: xs' => x + Qsum xs'
  end.

(** The wealth held by the agents of [l] in the store [s]. *)
Definition total_wealth (s : Store) (l : list ref) : Q :=
  Qsum (map (wealth_of s) l).

(** [s'] differs from [s] at most in the wealth of its agents. *)
Definition only_wealth_changed (s s' : Store) : Prop :=
  next_ref s' = next_ref s
  /\ _extinction_log s' = _extinction_log s
  /\ forall r, objects s' r
               = CivilizationAgent.with_wealth (objects s r) (wealth_of s' r).

(** The record that [log_extinction] builds for the agent at [r]. *)
Definition extinction_record
  (get_best_task_type : CivilizationAgent.t -> option string)
  (s : Store) (generation : Z) (cause : string) (r : ref)
  : ExtinctionRecord.t :=
  let a := objects s r in
  ExtinctionRecord.Build
    (CivilizationAgent.id a)
    (PyText.or_else (CivilizationAgent.dynasty_id a) "unknown")
    generation
    (CivilizationAgent.age a)
    (CivilizationAgent.wealth a)
    cause
    (PyText.or_else (get_best_task_type a) "generalist").

(** The store after a successful call of [reproduce], spelled out. *)
Definition store_after_reproduce (uuid4 : ref -> string) (parent : ref)
  (child_prompt : string) (s : Store) : Store :=
  let p := objects s parent in
  let child := next_ref s in
  let child_id := uuid4 child in
  let h1 :=
    update (objects s) parent
      (CivilizationAgent.with_wealth p
         (CivilizationAgent.wealth p - REPRODUCTION_COST)) in
  let h2 :=
    update h1 child
      (CivilizationAgent.Build child_id child_prompt
         (CivilizationAgent.generation (h1 parent) + 1)
         CHILD_STARTING_WEALTH 0
         (Some (CivilizationAgent.id (h1 parent))) []
         (CivilizationAgent.dynasty_id (h1 parent))) in
  let h3 :=
    update h2 parent
      (CivilizationAgent.with_children_ids (h2 parent)
         (CivilizationAgent.children_ids (h2 parent) ++ [child_id])) in
  mkStore h3 (S child) (_extinction_log s).

(** The store after the assignment [agent.wealth = w] at [r]. *)
Definition set_wealth_store (s : Store) (r : ref) (w : Q) : Store :=
  mkStore (update (objects s) r (CivilizationAgent.with_wealth (objects s r) w))
          (next_ref s) (_extinction_log s).

(** What an agent of wealth [w] owes under a tax of rate [rate] on the
    wealths strictly above [threshold]. *)
Definition tax_due (rate threshold w : Q) : Q :=
  if Py.Qlt_bool threshold w then w * rate else 0.

(** The body of the collecting loop of [_apply_taxation], as a step on the
    store. *)
Definition collects (rate threshold : Q) (body : ref -> Q -> M Q) : Prop :=
  forall (x : ref) (acc : Q) (s : Store),
    body x acc s
    = if Py.Qlt_bool threshold (wealth_of s x)
      then (inl (acc + wealth_of s x * rate),
            set_wealth_store s x (wealth_of s x - wealth_of s x * rate))
      else (inl acc, s).

(** The body of a loop that adds [share] to every agent. *)
Definition distributes (share : Q) (body : ref -> M unit) : Prop :=
  forall (x : ref) (s : Store),
    body x s = (inl tt, set_wealth_store s x (wealth_of s x + share)).

(** The body of a loop that replaces the wealth [w] of each agent by
    [g w] and touches nothing else. *)
Definition rewrites_wealth (g : Q -> Q) (body : ref -> M unit) : Prop :=
  forall (x : ref) (s : Store),
  exists sx : Store,
    body x s = (inl tt, sx)
    /\ wealth_of sx x = g (wealth_of s x)
    /\ (forall r, r <> x -> wealth_of sx r = wealth_of s r)
    /\ only_wealth_changed s sx.

Definition RuleCategory_eq_dec (c1 c2 : RuleCategory) : {c1 = c2} + {c1 <> c2}.
Proof. decide equality. Defined.

(** The step of [Counter]: one more occurrence of [x]. *)
Definition count_one (d : Py.dict Z) (x : string) : Py.dict Z :=
  Py.dict_set d x (match Py.dict_get d x with Some n => n + 1 | None => 1 end)%Z.

(** The category strings of the passed rules, as [compute_governance_entropy]
    counts them. *)
Definition passed_categories (rules : list Rule.t) : list string :=
  map (fun r => RuleCategory_value (Rule.category r)) (filter Rule.passed rules).

(** The populations of zero total vote weight: an empty list under the
    equal scheme, agents all of wealth 0 under the weighted schemes. *)
Definition zero_vote_weight (s : Store) (agents : list ref)
  (voting_system : VotingSystem) : Prop :=
  match voting_system with
  | EQUAL => agents = []
  | WEALTH_WEIGHTED | STAKE_WEIGHTED =>
      forall r, In r agents -> wealth_of s r == 0
  end.

(** None of the keyword tests of [apply_rule] succeeds on [effect_lower]. *)
Definition dispatch_keywords_absent (effect_lower : string) : Prop :=
  PyText.contains "tax" effect_lower = false
  /\ PyText.contains "pay" effect_lower = false
  /\ PyText.contains "minimum" effect_lower = false
  /\ PyText.contains "welfare" effect_lower = false
  /\ PyText.contains "double" effect_lower && PyText.contains "vote" effect_lower
     = false
  /\ PyText.contains "reproduce" effect_lower = false
  /\ PyText.contains "offspring" effect_lower = false.

(** ** Example populations *)

(** A founder as [CivilizationAgent.create] builds it, with a given id. *)
Definition founder (i : string) (w : Q) : CivilizationAgent.t :=
  CivilizationAgent.Build i "I am a general-purpose AI assistant." 0 w 0
                          None [] (Some i).

(** The store that holds the agents of [l] at the references [0], [1], ... *)
Definition store_of (l : list CivilizationAgent.t) : Store :=
  mkStore (fun r => nth r l (founder "" 0)) (List.length l) [].

Definition example_rule (category : RuleCategory) (effect : string)
  (passed : bool) : Rule.t :=
  Rule.Build "rule0001" "a" "An example rule" effect category 0 0 0 passed None.

(** Two passed rules of one category, and one passed rule in each of the
    seven categories. *)
Definition rules_one_category : list Rule.t :=
  [example_rule TAXATION "Everyone pays 10% to a common pool" true;
   example_rule TAXATION "Agents with wealth > 500 pay 5%" true].

Definition rules_all_categories : list Rule.t :=
  map (fun c => example_rule c "An effect" true) RuleCategory_members.

(** Four agents with wealths 1000, 0, 0, 0. *)
Definition store_1000 : Store :=
  store_of [founder "a" 1000; founder "b" 0; founder "c" 0; founder "d" 0].

(** Two agents with wealths 50 and 0. *)
Definition store_50 : Store := store_of [founder "a" 50; founder "b" 0].

(** Three agents with wealths 300, 200, 100. *)
Definition store_300 : Store :=
  store_of [founder "a" 300; founder "b" 200; founder "c" 100].

(** ** Further Python primitives *)

Module PyList.

(** An index of a slice, brought into [0, len]. *)
Definition clamp (len i : Z) : Z :=
  if (i <? 0)%Z then Z.max 0 (len + i) else Z.min i len.

(** [l[a:b]] *)
Definition slice {A} (l : list A) (a b : Z) : list A :=
  let a' := clamp (Py.len l) a in
  let b' := clamp (Py.len l) b in
  firstn (Z.to_nat (b' - a')) (skipn (Z.to_nat a') l).

(** [list(enumerate(l))] *)
Definition enumerate {A} (l : list A) : list (Z * A) :=
  combine (map Z.of_nat (seq 0 (List.length l))) l.

(** [max(l)] on integers: [None] stands for the [ValueError] of an empty
    argument. *)
Fixpoint maxZ_from (m : Z) (l : list Z) : Z :=
  match l with
  | [] => m
  | x :: l' => maxZ_from (if (m <? x)%Z then x else m) l'
  end.

Definition maxZ (l : list Z) : option Z :=
  match l with
  | [] => None
  | x :: l' => Some (maxZ_from x l')
  end.

(** [max(l)] on floats. *)
Fixpoint maxQ_from (m : Q) (l : list Q) : Q :=
  match l with
  | [] => m
  | x :: l' => maxQ_from (if Py.Qlt_bool m x then x else m) l'
  end.

Definition maxQ (l : list Q) : option Q :=
  match l with
  | [] => None
  | x :: l' => Some (maxQ_from x l')
  end.

(** [min(l, key=key)]: the first element of least key. *)
Fixpoint min_by_from {A} (key : A -> Z) (m : A) (l : list A) : A :=
  match l with
  | [] => m
  | x :: l' => min_by_from key (if (key x <? key m)%Z then x else m) l'
  end.

Definition min_by {A} (key : A -> Z) (l : list A) : option A :=
  match l with
  | [] => None
  | x :: l' => Some (min_by_from key x l')
  end.

(** [sorted(l, key=key, reverse=True)]: the list is reversed, sorted and
    reversed again, so that elements of equal key keep their order. *)
Definition sorted_reverse {A} (key : A -> Q) (l : list A) : list A :=
  rev (Py.sorted key (rev l)).

(** [d.get(k, default)] *)
Definition dict_get_default {V} (d : Py.dict V) (k : string) (default : V) : V :=
  match Py.dict_get d k with
  | Some v => v
  | None => default
  end.

(** [len(set(l))] on integers. *)
Definition len_set (l : list Z) : Z := Py.len (nodup Z.eq_dec l).

End PyList.

(** [max(l)] and [min(l, key=...)] as computations. *)
Definition py_maxZ (l : list Z) : M Z :=
  match PyList.maxZ l with
  | Some m => ret m
  | None => raise ValueError
  end.

Definition py_maxQ (l : list Q) : M Q :=
  match PyList.maxQ l with
  | Some m => ret m
  | None => raise ValueError
  end.

(** ** civilization_agent.py: the remaining methods *)

(** [self.age = n] *)
Definition with_age (a : CivilizationAgent.t) (n : Z) : CivilizationAgent.t :=
  CivilizationAgent.Build
    (CivilizationAgent.id a) (CivilizationAgent.system_prompt a)
    (CivilizationAgent.generation a) (CivilizationAgent.wealth a) n
    (CivilizationAgent.parent_id a) (CivilizationAgent.children_ids a)
    (CivilizationAgent.dynasty_id a).

Definition age_one_generation (self : ref) : M unit :=
  a <- read self ;;
  write self (with_age a (CivilizationAgent.age a + 1)).

(** The loop of [get_lineage_depth].  The Python loop has no bound; the
    model stops after [fuel] iterations and then answers [None]. *)
Fixpoint lineage_loop (fuel : nat) (s : Store) (agents_by_id : Py.dict ref)
  (current : ref) (depth : Z) : option Z :=
  match fuel with
  | O => None
  | S fuel' =>
      match CivilizationAgent.parent_id (objects s current) with
      | Some (String c p) =>
          match Py.dict_get agents_by_id (String c p) with
          | Some parent =>
              lineage_loop fuel' s agents_by_id parent (depth + 1)
          | None => Some depth
          end
      | _ => Some depth
      end
  end.

Definition get_lineage_depth (fuel : nat) (s : Store) (self : ref)
  (agents_by_id : Py.dict ref) : option Z :=
  lineage_loop fuel s agents_by_id self 0.

Section GenesisFounders.

Variable uuid4 : ref -> string.

(** The default of [GenesisAgent.generation], declared in agent.py. *)
Variable generation_default : Z.

Definition default_prompt : string :=
  "I am a general-purpose AI assistant. I can help with various tasks including math, coding, logic, and language.".

(** [CivilizationAgent.create] *)
Definition create (initial_prompt : option string) (wealth : Q) : M ref :=
  s <- get_store ;;
  let agent_id := uuid4 (next_ref s) in
  let initial_prompt :=
    match initial_prompt with
    | None => default_prompt
    | Some p => p
    end in
  alloc (CivilizationAgent.Build agent_id initial_prompt generation_default
           wealth 0 None [] (Some agent_id)).

(** [[f() for _ in range(n)]] *)
Fixpoint repeat_M {A} (n : nat) (m : M A) : M (list A) :=
  match n with
  | O => ret []
  | S n' => x <- m ;; xs <- repeat_M n' m ;; ret (x :: xs)
  end.

Definition create_civilization_population (n_agents : Z)
  (initial_prompt : option string) (initial_wealth : Q) : M (list ref) :=
  repeat_M (Z.to_nat n_agents) (create initial_prompt initial_wealth).

End GenesisFounders.

(** ** death.py: the ledger *)

Definition get_extinction_log : M (list ExtinctionRecord.t) :=
  s <- get_store ;; ret (_extinction_log s).

Definition clear_extinction_log : M unit :=
  fun s => (inl tt, mkStore (objects s) (next_ref s) []).

(** The dictionary that [get_extinction_statistics] returns: either
    [{"total": 0}] or the six entries. *)
Inductive ExtinctionStatistics : Type :=
| NoExtinction
| Extinctions
    (total : Z)
    (mean_age_at_death : Q)
    (max_age_at_death : Z)
    (extinction_by_specialization : Py.dict Z)
    (extinction_by_dynasty : Py.dict Z)
    (generations_with_extinctions : Z).

(** [counts[k] = counts.get(k, 0) + 1] for each [k] of [ks]. *)
Definition tally (ks : list string) : Py.dict Z :=
  fold_left
    (fun counts k =>
       Py.dict_set counts k (PyList.dict_get_default counts k 0 + 1)%Z)
    ks [].

Definition get_extinction_statistics (records : option (list ExtinctionRecord.t))
  : M ExtinctionStatistics :=
  s <- get_store ;;
  let records :=
    match records with
    | None => _extinction_log s
    | Some l => l
    end in
  match records with
  | [] => ret NoExtinction
  | _ :: _ =>
      let ages := map ExtinctionRecord.age_at_death records in
      let generations := map ExtinctionRecord.generation records in
      (* Count by specialization *)
      let spec_counts := tally (map ExtinctionRecord.specialization records) in
      (* Count by dynasty *)
      let dynasty_counts := tally (map ExtinctionRecord.dynasty_id records) in
      mean <- py_div (inject_Z (Py.sumZ ages)) (inject_Z (Py.len ages)) ;;
      max_age <- py_maxZ ages ;;
      ret (Extinctions (Py.len records) mean max_age spec_counts dynasty_counts
             (PyList.len_set generations))
  end.

(** ** reproduction.py: the eligibility test *)

Definition can_reproduce (agent : ref) : M bool :=
  a <- read agent ;; ret (CivilizationAgent.can_reproduce a).

(** [child] is the offspring that a call of [reproduce] on [parent] made
    between the stores [s] and [s']. *)
Definition born_of (s s' : Store) (parent child : ref) : Prop :=
  let p := objects s parent in
  let c := objects s' child in
  CivilizationAgent.parent_id c = Some (CivilizationAgent.id p)
  /\ CivilizationAgent.dynasty_id c = CivilizationAgent.dynasty_id p
  /\ CivilizationAgent.generation c = (CivilizationAgent.generation p + 1)%Z
  /\ CivilizationAgent.wealth c = CHILD_STARTING_WEALTH
  /\ wealth_of s' parent = wealth_of s parent - REPRODUCTION_COST
  /\ CivilizationAgent.children_ids (objects s' parent)
     = CivilizationAgent.children_ids p ++ [CivilizationAgent.id c].

(** ** society_metrics.py: the wealth metrics *)

(** [a // b] on integers. *)
Definition py_floordiv (a b : Z) : M Z :=
  if (b =? 0)%Z then raise ZeroDivisionError else ret (a / b)%Z.

(** [np.cumsum(wealths)] is computed by the source and never used; it is
    left out. *)
Definition compute_gini (agents : list ref) : M Q :=
  match agents with
  | [] => ret 0
  | _ :: _ =>
      s <- get_store ;;
      let wealths := Py.sorted (fun w => w) (map (wealth_of s) agents) in
      let n := Py.len wealths in
      if (n =? 1)%Z then ret 0
      else
        let numerator :=
          2 * Py.sum (map (fun '(i, x) => inject_Z (i + 1) * x)
                          (PyList.enumerate wealths)) in
        let denominator := inject_Z n * Py.sum wealths in
        if Qeq_bool denominator 0 then ret 0
        else
          q <- py_div numerator denominator ;;
          c <- py_div (inject_Z (n + 1)) (inject_Z n) ;;
          let gini := q - c in
          ret (Py.max 0 (Py.min 1 gini))
  end.

Definition compute_wealth_concentration (agents : list ref) (top_n : Z)
  : M Q :=
  match agents with
  | [] => ret 0
  | _ :: _ =>
      s <- get_store ;;
      let wealths :=
        PyList.sorted_reverse (fun w => w) (map (wealth_of s) agents) in
      let total := Py.sum wealths in
      if Qeq_bool total 0 then ret 0
      else
        let top_wealth := Py.sum (Py.slice_to wealths top_n) in
        py_div top_wealth total
  end.

(** The dictionary that [compute_social_mobility] returns: either the
    three zeros, or the three fractions and [total_continuing]. *)
Inductive SocialMobility : Type :=
| NoMobility
| Mobility (upward downward stable : Q) (total_continuing : Z).

Definition compute_social_mobility (agents : list ref)
  (previous_wealths : Py.dict Q) : M SocialMobility :=
  match agents, previous_wealths with
  | [], _ | _, [] => ret NoMobility
  | _ :: _, _ :: _ =>
      s <- get_store ;;
      (* Get agents that existed in both periods *)
      let continuing :=
        filter
          (fun a =>
             match Py.dict_get previous_wealths
                     (CivilizationAgent.id (objects s a)) with
             | Some _ => true
             | None => false
             end)
          agents in
      match continuing with
      | [] => ret NoMobility
      | _ :: _ =>
          (* Previous ranks *)
          let prev_sorted :=
            Py.sorted (fun x : string * Q => - snd x) previous_wealths in
          let prev_ranks :=
            Py.dict_of
              (map (fun '(i, (aid, _)) => (aid, i))
                   (PyList.enumerate prev_sorted)) in
          (* Current ranks *)
          let curr_sorted := Py.sorted (fun a => - wealth_of s a) continuing in
          let curr_ranks :=
            Py.dict_of
              (map (fun '(i, a) => (CivilizationAgent.id (objects s a), i))
                   (PyList.enumerate curr_sorted)) in
          (* Count mobility *)
          '(upward, downward, stable) <-
            for_acc continuing (0, 0, 0)%Z
              (fun agent '(upward, downward, stable) =>
                 let aid := CivilizationAgent.id (objects s agent) in
                 let prev_rank :=
                   PyList.dict_get_default prev_ranks aid (Py.len prev_ranks) in
                 let curr_rank :=
                   PyList.dict_get_default curr_ranks aid (Py.len curr_ranks) in
                 if (curr_rank <? prev_rank - 1)%Z
                 then ret (upward + 1, downward, stable)%Z
                 else if (prev_rank + 1 <? curr_rank)%Z
                      then ret (upward, downward + 1, stable)%Z
                      else ret (upward, downward, stable + 1)%Z) ;;
          let total := Py.len continuing in
          u <- py_div (inject_Z upward) (inject_Z total) ;;
          d <- py_div (inject_Z downward) (inject_Z total) ;;
          st <- py_div (inject_Z stable) (inject_Z total) ;;
          ret (Mobility u d st total)
      end
  end.

Section GenesisClasses.

Variable get_best_task_type : CivilizationAgent.t -> option string.

Definition compute_specialization_by_class (agents : list ref) (n_classes : Z)
  : M (Py.dict (Py.dict Q)) :=
  match agents with
  | [] => ret []
  | _ :: _ =>
      s <- get_store ;;
      (* Sort by wealth and divide into classes *)
      let sorted_agents := Py.sorted (fun a => - wealth_of s a) agents in
      class_size <- py_floordiv (Py.len sorted_agents) n_classes ;;
      let class_names := Py.slice_to ["upper"; "middle"; "lower"] n_classes in
      for_acc (PyList.enumerate class_names) []
        (fun '(i, class_name) result =>
           let start := (i * class_size)%Z in
           let end_ :=
             if (i <? n_classes - 1)%Z then ((i + 1) * class_size)%Z
             else Py.len sorted_agents in
           let class_agents := PyList.slice sorted_agents start end_ in
           (* Count specializations *)
           let specs :=
             map (fun a =>
                    PyText.or_else (get_best_task_type (objects s a)) "generalist")
                 class_agents in
           let counts := Py.Counter specs in
           let total := Py.len specs in
           dist <- for_acc counts []
                     (fun '(spec, count) dist =>
                        q <- py_div (inject_Z count) (inject_Z total) ;;
                        ret (Py.dict_set dist spec q)) ;;
           ret (Py.dict_set result class_name dist))
  end.

End GenesisClasses.

(** The sum of the values of [xs] weighted by their ranks [k + 1],
    [k + 2], ... *)
Fixpoint rank_weighted (k : Q) (xs : list Q) : Q :=
  match xs with
  | [] => 0
  | x :: xs' => (k + 1) * x + rank_weighted (k + 1) xs'
  end.

(** ** dynasty.py *)

Module Dynasty.

Record t : Type := Build {
  founder_id : string;
  founder_prompt : string;
  founder_generation : Z;
  (* Current state *)
  current_members : list string;
  total_members_ever : Z;
  (* Statistics *)
  total_wealth : Q;
  generations_survived : Z;
  max_wealth_achieved : Q;
  (* Specialization *)
  specialization_type : option string;
  (* Extinction tracking *)
  is_extinct : bool;
  extinction_generation : option Z
}.

End Dynasty.

Module DynastyAnalysis.

Record t : Type := Build {
  n_active_dynasties : Z;
  n_extinct_dynasties : Z;
  largest_dynasty_size : Z;
  oldest_dynasty_age : Z;
  total_population : Z;
  top3_wealth_share : Q;
  top3_population_share : Q;
  specialization_distribution : Py.dict Z;
  survival_by_specialization : Py.dict Q
}.

End DynastyAnalysis.

Definition py_min_by {A} (key : A -> Z) (l : list A) : M A :=
  match PyList.min_by key l with
  | Some x => ret x
  | None => raise ValueError
  end.

(** [max(d.items(), key=itemgetter(1))], which is what
    [Counter.most_common(1)] computes: the first entry of greatest count. *)
Fixpoint max_count_from (m : string * Z) (l : list (string * Z))
  : string * Z :=
  match l with
  | [] => m
  | x :: l' => max_count_from (if (snd m <? snd x)%Z then x else m) l'
  end.

(** [counts.most_common(1)]: a list of at most one entry. *)
Definition most_common_1 (counts : Py.dict Z) : list (string * Z) :=
  match counts with
  | [] => []
  | x :: l => [max_count_from x l]
  end.

(** A dictionary of lists used as [defaultdict(list)]:
    [d[k].append(x)]. *)
Definition group_append {A} (d : Py.dict (list A)) (k : string) (x : A)
  : Py.dict (list A) :=
  Py.dict_set d k (PyList.dict_get_default d k [] ++ [x]).

(** A dictionary of integers used as [defaultdict(int)]: [d[k] += n]. *)
Definition count_add (d : Py.dict Z) (k : string) (n : Z) : Py.dict Z :=
  Py.dict_set d k (PyList.dict_get_default d k 0%Z + n)%Z.

(** [not l] on a list. *)
Definition is_empty {A} (l : list A) : bool :=
  match l with
  | [] => true
  | _ :: _ => false
  end.

Section GenesisDynasties.

Variable get_best_task_type : CivilizationAgent.t -> option string.

(** [[m.get_best_task_type() for m in members if m.get_best_task_type()]];
    [None] and the empty string are falsy. *)
Definition member_specs (s : Store) (members : list ref) : list string :=
  flat_map
    (fun m =>
       match get_best_task_type (objects s m) with
       | Some (String c x) => [String c x]
       | _ => []
       end)
    members.

(** [Counter(specs).most_common(1)[0][0]] when [specs] is not empty.  The
    index [[0]] on an empty list raises IndexError, a LookupError as
    KeyError is; it stands as [KeyError] here. *)
Definition specialization_of (specs : list string) (current : option string)
  : M (option string) :=
  match specs with
  | [] => ret current
  | _ :: _ =>
      match most_common_1 (Py.Counter specs) with
      | (spec, _) :: _ => ret (Some spec)
      | [] => raise KeyError
      end
  end.

(** [Dynasty.update_statistics]; the updated dynasty is returned. *)
Definition update_statistics (self : Dynasty.t) (current_gen : Z)
  (members : list ref) : M Dynasty.t :=
  s <- get_store ;;
  let current_members :=
    map (fun m => CivilizationAgent.id (objects s m)) members in
  let total_wealth := Py.sum (map (wealth_of s) members) in
  let generations_survived :=
    (current_gen - Dynasty.founder_generation self)%Z in
  match members with
  | [] =>
      ret (Dynasty.Build
             (Dynasty.founder_id self) (Dynasty.founder_prompt self)
             (Dynasty.founder_generation self)
             current_members (Dynasty.total_members_ever self)
             total_wealth generations_survived
             (Dynasty.max_wealth_achieved self)
             (Dynasty.specialization_type self)
             (Dynasty.is_extinct self) (Dynasty.extinction_generation self))
  | _ :: _ =>
      m <- py_maxQ (map (wealth_of s) members) ;;
      let max_wealth_achieved := Py.max (Dynasty.max_wealth_achieved self) m in
      (* Determine specialization from most common best task type *)
      specialization_type <-
        specialization_of (member_specs s members)
          (Dynasty.specialization_type self) ;;
      ret (Dynasty.Build
             (Dynasty.founder_id self) (Dynasty.founder_prompt self)
             (Dynasty.founder_generation self)
             current_members (Dynasty.total_members_ever self)
             total_wealth generations_survived
             max_wealth_achieved
             specialization_type
             (Dynasty.is_extinct self) (Dynasty.extinction_generation self))
  end.

(** [agent.dynasty_id or agent.id] *)
Definition dynasty_key (a : CivilizationAgent.t) : string :=
  PyText.or_else (CivilizationAgent.dynasty_id a) (CivilizationAgent.id a).

(** [build_dynasty_tree].  An agent object is truthy (agent.py, which is
    not part of these sources, is taken to define neither [__bool__] nor
    [__len__]), so [founder.system_prompt if founder else ""] is
    [founder.system_prompt]. *)
Definition build_dynasty_tree (agents : list ref)
  (all_agents_ever : option (Py.dict ref)) : M (Py.dict Dynasty.t) :=
  s <- get_store ;;
  (* Group agents by dynasty *)
  let dynasty_members :=
    fold_left
      (fun d agent => group_append d (dynasty_key (objects s agent)) agent)
      agents [] in
  (* Create Dynasty objects *)
  for_acc dynasty_members []
    (fun '(dynasty_id, members) dynasties =>
       (* Find founder (oldest member or the one with this id) *)
       founder <-
         match all_agents_ever with
         | Some (e :: ever) =>
             match Py.dict_get (e :: ever) dynasty_id with
             | Some f => ret f
             | None =>
                 py_min_by
                   (fun a => CivilizationAgent.generation (objects s a)) members
             end
         | _ =>
             (* Use oldest current member as proxy *)
             py_min_by
               (fun a => CivilizationAgent.generation (objects s a)) members
         end ;;
       let current_members :=
         map (fun m => CivilizationAgent.id (objects s m)) members in
       let total_wealth := Py.sum (map (wealth_of s) members) in
       dynasty <-
         match members with
         | [] =>
             ret (Dynasty.Build dynasty_id
                    (CivilizationAgent.system_prompt (objects s founder))
                    (CivilizationAgent.generation (objects s founder))
                    current_members (Py.len members) total_wealth 0 0 None
                    false None)
         | _ :: _ =>
             generations_survived <-
               py_maxZ (map (fun m => CivilizationAgent.age (objects s m))
                          members) ;;
             max_wealth_achieved <- py_maxQ (map (wealth_of s) members) ;;
             (* Specialization *)
             specialization_type <-
               specialization_of (member_specs s members) None ;;
             ret (Dynasty.Build dynasty_id
                    (CivilizationAgent.system_prompt (objects s founder))
                    (CivilizationAgent.generation (objects s founder))
                    current_members (Py.len members) total_wealth
                    generations_survived max_wealth_achieved
                    specialization_type false None)
         end ;;
       ret (Py.dict_set dynasties dynasty_id dynasty)).

End GenesisDynasties.

(** [not d.is_extinct and d.current_members] *)
Definition is_active (d : Dynasty.t) : bool :=
  negb (Dynasty.is_extinct d) && negb (is_empty (Dynasty.current_members d)).

Definition analyze_dynasties (dynasties : Py.dict Dynasty.t)
  (total_wealth : option Q) : M DynastyAnalysis.t :=
  let active := filter is_active (Py.values dynasties) in
  let extinct :=
    filter
      (fun d =>
         Dynasty.is_extinct d || is_empty (Dynasty.current_members d))
      (Py.values dynasties) in
  match active with
  | [] =>
      ret (DynastyAnalysis.Build 0 (Py.len extinct) 0 0 0 0 0 [] [])
  | _ :: _ =>
      (* Basic statistics *)
      let sizes := map (fun d => Py.len (Dynasty.current_members d)) active in
      let ages := map Dynasty.generations_survived active in
      (* Wealth concentration *)
      let total_wealth :=
        match total_wealth with
        | None => Py.sum (map Dynasty.total_wealth active)
        | Some w => w
        end in
      let sorted_by_wealth :=
        Py.sorted (fun d => - Dynasty.total_wealth d) active in
      let top3_wealth :=
        Py.sum (map Dynasty.total_wealth (Py.slice_to sorted_by_wealth 3)) in
      top3_wealth_share <-
        (if Py.Qlt_bool 0 total_wealth
         then py_div top3_wealth total_wealth
         else ret 0) ;;
      (* Population concentration *)
      let total_pop := Py.sumZ sizes in
      let sorted_by_size :=
        Py.sorted
          (fun d => - inject_Z (Py.len (Dynasty.current_members d))) active in
      let top3_pop :=
        Py.sumZ
          (map (fun d => Py.len (Dynasty.current_members d))
             (Py.slice_to sorted_by_size 3)) in
      top3_pop_share <-
        (if (0 <? total_pop)%Z
         then py_div (inject_Z top3_pop) (inject_Z total_pop)
         else ret 0) ;;
      (* Specialization distribution *)
      let spec_dist :=
        fold_left
          (fun spec_dist d =>
             match Dynasty.specialization_type d with
             | Some (String c x) =>
                 count_add spec_dist (String c x)
                   (Py.len (Dynasty.current_members d))
             | _ => spec_dist
             end)
          active [] in
      (* Survival by specialization *)
      let all_dynasties := Py.values dynasties in
      let '(spec_totals, spec_survivors) :=
        fold_left
          (fun '(spec_totals, spec_survivors) d =>
             match Dynasty.specialization_type d with
             | Some (String c x) =>
                 (count_add spec_totals (String c x) 1,
                  if is_active d
                  then count_add spec_survivors (String c x) 1
                  else spec_survivors)
             | _ => (spec_totals, spec_survivors)
             end)
          all_dynasties ([], []) in
      spec_survival <-
        for_acc (Py.keys spec_totals) []
          (fun spec spec_survival =>
             q <- py_div
                    (inject_Z (PyList.dict_get_default spec_survivors spec 0%Z))
                    (inject_Z (PyList.dict_get_default spec_totals spec 0%Z)) ;;
             ret (Py.dict_set spec_survival spec q)) ;;
      largest <- py_maxZ sizes ;;
      oldest <- py_maxZ ages ;;
      ret (DynastyAnalysis.Build (Py.len active) (Py.len extinct) largest
             oldest total_pop top3_wealth_share top3_pop_share spec_dist
             spec_survival)
  end.

(** ** society_metrics.py: all the metrics *)

Module SocietyMetrics.

(** The dictionary that [compute_all_society_metrics] returns.  The three
    governance entries are present when [rules] is truthy, and
    [social_mobility] when [previous_wealths] is. *)
Record t : Type := Build {
  population : Z;
  total_wealth : Q;
  mean_wealth : Q;
  gini : Q;
  wealth_concentration_top3 : Q;
  wealth_concentration_top10pct : Q;
  specialization_by_class : Py.dict (Py.dict Q);
  governance_entropy : option R;
  n_passed_rules : option Z;
  rules_by_category : option (Py.dict Z);
  social_mobility : option SocialMobility
}.

End SocietyMetrics.

Section GenesisAllMetrics.

Variable get_best_task_type : CivilizationAgent.t -> option string.

(** [np.mean] of a list that is not empty is its sum divided by its
    length. *)
Definition compute_all_society_metrics (agents : list ref)
  (rules : option (list Rule.t)) (previous_wealths : option (Py.dict Q))
  : M SocietyMetrics.t :=
  gini <- compute_gini agents ;;
  s <- get_store ;;
  let population := Py.len agents in
  let total_wealth := Py.sum (map (wealth_of s) agents) in
  let mean_wealth :=
    match agents with
    | [] => 0
    | _ :: _ => Py.sum (map (wealth_of s) agents) / inject_Z (Py.len agents)
    end in
  top3 <- compute_wealth_concentration agents 3 ;;
  top10pct <-
    compute_wealth_concentration agents
      (if (1 <? Py.len agents / 10)%Z then (Py.len agents / 10)%Z else 1%Z) ;;
  by_class <- compute_specialization_by_class get_best_task_type agents 3 ;;
  let governance :=
    match rules with
    | Some (r :: rs) =>
        (Some (compute_governance_entropy (r :: rs)),
         Some (Py.len (filter Rule.passed (r :: rs))),
         Some (Py.Counter
                 (map (fun r => RuleCategory_value (Rule.category r))
                    (filter Rule.passed (r :: rs)))))
    | _ => (None, None, None)
    end in
  mobility <-
    match previous_wealths with
    | Some (p :: ps) =>
        m <- compute_social_mobility agents (p :: ps) ;; ret (Some m)
    | _ => ret None
    end ;;
  ret (SocietyMetrics.Build population total_wealth mean_wealth gini top3
         top10pct by_class (fst (fst governance)) (snd (fst governance))
         (snd governance) mobility).

End GenesisAllMetrics.

(** ** governance.py: reading a proposal *)

Module PyRe.

Definition is_lower (c : ascii) : bool :=
  let n := nat_of_ascii c in ((97 <=? n) && (n <=? 122))%nat.

(** [\w] on ASCII text: letters, digits and the underscore. *)
Definition is_word (c : ascii) : bool :=
  PyText.is_upper c || is_lower c || PyText.is_digit c || Ascii.eqb c "_".

(** Greedy [\w*]: the longest run of word characters at the head of [s],
    and the rest of [s]. *)
Fixpoint span_word (s : string) : string * string :=
  match s with
  | String c s' =>
      if is_word c
      then let (w, r) := span_word s' in (String c w, r)
      else (EmptyString, s)
  | EmptyString => (EmptyString, EmptyString)
  end.

(** [(\w+)] with nothing required after it: the captured group. *)
Definition word_group (s : string) : option string :=
  match fst (span_word s) with
  | EmptyString => None
  | w => Some w
  end.

(** The end-of-text anchor without MULTILINE: at the end of the text, or
    before a newline that ends it. *)
Definition at_end (s : string) : bool :=
  match s with
  | EmptyString => true
  | String c EmptyString => Ascii.eqb c "010"
  | _ => false
  end.

Definition has_prefix (p s : string) : bool :=
  match PyText.strip_prefix p s with
  | Some _ => true
  | None => false
  end.

(** The lazy group [(.+?)] under DOTALL, followed by the lookahead for
    [stop] or the end of the text: the shortest prefix of [s] of at least
    one character after which the lookahead holds. *)
Fixpoint lazy_until (stop s : string) : option string :=
  match s with
  | EmptyString => None
  | String c s' =>
      if has_prefix stop s' || at_end s' then Some (String c EmptyString)
      else
        match lazy_until stop s' with
        | Some g => Some (String c g)
        | None => None
        end
  end.

(** Greedy [\s*] in front of the lazy group: the longest run of white
    space is tried first, and its characters are given back one at a
    time as long as the rest does not match. *)
Fixpoint spaces_then_lazy (stop s : string) : option string :=
  match s with
  | String c s' =>
      if PyText.is_space c
      then
        match spaces_then_lazy stop s' with
        | Some g => Some g
        | None => lazy_until stop s
        end
      else lazy_until stop s
  | EmptyString => None
  end.

(** [re.match] of [key], then [\s*], then the lazy group up to [stop] or
    the end of the text: the captured group. *)
Definition match_field_at (key stop s : string) : option string :=
  match PyText.strip_prefix key s with
  | Some r => spaces_then_lazy stop r
  | None => None
  end.

(** [re.match(r'CATEGORY:\s*(\w+)', s)]: white space is no word
    character, so the greedy run of white space is the only candidate. *)
Definition match_category_at (s : string) : option string :=
  match PyText.strip_prefix "CATEGORY:" s with
  | Some r => word_group (PyText.skip_spaces r)
  | None => None
  end.

(** [s.rstrip()] and [s.strip()] *)
Fixpoint rstrip (s : string) : string :=
  match s with
  | EmptyString => EmptyString
  | String c s' =>
      match rstrip s' with
      | EmptyString => if PyText.is_space c then EmptyString
                       else String c EmptyString
      | r => String c r
      end
  end.

Definition strip (s : string) : string := rstrip (PyText.skip_spaces s).

End PyRe.

(** [RuleCategory(value)]: the member of that value; [None] stands for
    the [ValueError] of an unknown value. *)
Definition RuleCategory_of_value (v : string) : option RuleCategory :=
  find (fun c => String.eqb (RuleCategory_value c) v) RuleCategory_members.

Section GenesisProposals.

(** The text of [str(uuid.uuid4())] that the call draws. *)
Variable uuid4_text : string.

Definition _parse_rule_response (response proposer_id : string)
  (generation : Z) : Rule.t :=
  (* Extract components using regex *)
  let rule_match :=
    PyText.re_search (PyRe.match_field_at "RULE:" "EFFECT:") response in
  let effect_match :=
    PyText.re_search (PyRe.match_field_at "EFFECT:" "CATEGORY:") response in
  let category_match := PyText.re_search PyRe.match_category_at response in
  let description :=
    match rule_match with
    | Some g => PyRe.strip g
    | None => "Unknown rule"
    end in
  let effect :=
    match effect_match with
    | Some g => PyRe.strip g
    | None => "Unknown effect"
    end in
  let category_str :=
    match category_match with
    | Some g => PyText.lower g
    | None => "other"
    end in
  (* Map to category enum *)
  let category :=
    match RuleCategory_of_value category_str with
    | Some c => c
    | None => OTHER
    end in
  Rule.Build (substring 0 8 uuid4_text) proposer_id description effect
    category generation 0 0 false None.

End GenesisProposals.

(** [c in s] for a character. *)
Fixpoint has_char (c : ascii) (s : string) : bool :=
  match s with
  | EmptyString => false
  | String a s' => Ascii.eqb a c || has_char c s'
  end.

(** The reply that the prompt of [propose_rule] asks for. *)
Definition proposal_text (description effect : string) (c : RuleCategory)
  : string :=
  ("RULE: " ++ description ++ String "010" ("EFFECT: " ++ effect
     ++ String "010" ("CATEGORY: " ++ RuleCategory_value c)))%string.

(** ** Binary64 range

    The hypotheses under which the rational model raises no fewer
    exceptions than the float arithmetic of the sources. *)

(** [sys.float_info.max], the largest finite binary64 number. *)
Definition float_max : Q := inject_Z (2 ^ 1024 - 2 ^ 971).

(** The three numbers that the transforms of governance.py parse in an
    effect are short: [int(..) / 100] and [min_wealth - a.wealth] do not
    raise OverflowError. *)
Definition short_numbers (effect : string) : bool :=
  PyText.short_number (PyText.re_search PyText.match_rate_at effect)
  && PyText.short_number (PyText.re_search PyText.match_threshold_at effect)
  && PyText.short_number (PyText.re_search PyText.match_minimum_at effect).


(** [n] agents of the same whole-number wealth [k] on which binary64 is
    exact in [compute_gini]: the sums and products that the function
    forms are integers of magnitude at most [n * (n + 1) * |k|], below
    2^53, and its two quotients are the correctly rounded values of the
    same rational. *)
Definition exact_in_binary64 (n k : Z) : Prop :=
  (n * (n + 1) * Z.abs k < 2 ^ 53)%Z.

(** Every character of [s] is a decimal digit. *)
Fixpoint all_digits (s : string) : bool :=
  match s with
  | EmptyString => true
  | String c s' => PyText.is_digit c && all_digits s'
  end.

(** ** More example data *)

(** A founder and its child, and the dictionary of the two by id. *)
Definition store_family : Store :=
  store_of
    [CivilizationAgent.Build "a" "I am a general-purpose AI assistant." 0 100 1
       None ["b"] (Some "a");
     CivilizationAgent.Build "b" "I am a careful AI assistant." 1 50 0
       (Some "a") [] (Some "a")].

Definition family_by_id : Py.dict ref := [("a", 0%nat); ("b", 1%nat)].

(** An agent recorded as its own parent. *)
Definition store_cycle : Store :=
  store_of
    [CivilizationAgent.Build "a" "I am a general-purpose AI assistant." 0 100 0
       (Some "a") [] (Some "a")].

Definition cycle_by_id : Py.dict ref := [("a", 0%nat)].

(** Three agents of wealth 100 each. *)
Definition store_equal : Store :=
  store_of [founder "a" 100; founder "b" 100; founder "c" 100].

(** Two extinction records of one dynasty. *)
Definition example_records : list ExtinctionRecord.t :=
  [ExtinctionRecord.Build "b" "a" 3 2 0 "bankruptcy" "math";
   ExtinctionRecord.Build "c" "a" 4 1 (-5) "bankruptcy" "generalist"].

(** A dynasty of two members and one that has none left. *)
Definition example_dynasties : Py.dict Dynasty.t :=
  [("a", Dynasty.Build "a" "I am a general-purpose AI assistant." 0
           ["a"; "c"] 2 150 3 100 (Some "math") false None);
   ("b", Dynasty.Build "b" "I am a careful AI assistant." 0
           [] 1 0 2 40 (Some "math") false None)].

(** ** Proofs: arithmetic and list helpers *)

(** Splits a conjunction into its parts, without touching them. *)
Ltac split_all :=
  repeat match goal with |- _ /\ _ => split end.

Lemma Qlt_bool_iff (x y : Q) : Py.Qlt_bool x y = true <-> x < y.
Proof.
  unfold Py.Qlt_bool. rewrite negb_true_iff.
  split; intros H.
  - apply Qnot_le_lt. intros Hle. apply Qle_bool_iff in Hle. congruence.
  - destruct (Qle_bool y x) eqn:E; [|reflexivity].
    apply Qle_bool_iff in E. exfalso. apply (Qlt_not_le _ _ H E).
Qed.

Lemma Qlt_bool_false_iff (x y : Q) : Py.Qlt_bool x y = false <-> y <= x.
Proof.
  unfold Py.Qlt_bool. rewrite negb_false_iff. apply Qle_bool_iff.
Qed.

Lemma Qsum_app (l1 l2 : list Q) : Qsum (l1 ++ l2) == Qsum l1 + Qsum l2.
Proof.
  induction l1 as [|x l1 IH]; simpl.
  - ring.
  - rewrite IH. ring.
Qed.

Lemma fold_left_Qplus (l : list Q) (a : Q) :
  fold_left Qplus l a == a + Qsum l.
Proof.
  revert a. induction l as [|x l IH]; intros a; simpl.
  - ring.
  - rewrite IH. ring.
Qed.

Lemma Py_sum_Qsum (l : list Q) : Py.sum l == Qsum l.
Proof. unfold Py.sum. rewrite fold_left_Qplus. ring. Qed.

Lemma len_cons {A} (x : A) (l : list A) :
  inject_Z (Py.len (x :: l)) == inject_Z (Py.len l) + 1.
Proof.
  unfold Py.len. cbn [List.length]. rewrite Nat2Z.inj_succ. unfold Z.succ.
  rewrite inject_Z_plus. reflexivity.
Qed.

Lemma Subseq_refl {A} (l : list A) : Subseq l l.
Proof. induction l; constructor; assumption. Qed.

Lemma Subseq_filter {A} (f : A -> bool) (l : list A) : Subseq (filter f l) l.
Proof.
  induction l as [|x l IH]; simpl.
  - constructor.
  - destruct (f x); constructor; assumption.
Qed.

Lemma Permutation_filter_split {A} (f : A -> bool) (l : list A) :
  Permutation (filter f l ++ filter (fun x => negb (f x)) l) l.
Proof.
  induction l as [|x l IH]; simpl.
  - constructor.
  - destruct (f x); simpl.
    + constructor. exact IH.
    + symmetry. apply Permutation_cons_app. symmetry. exact IH.
Qed.

(** ** Proofs: death.py *)

Section DeathProofs.

Variable get_best_task_type : CivilizationAgent.t -> option string.

Lemma is_alive_iff (a : CivilizationAgent.t) :
  CivilizationAgent.is_alive a = true <-> 0 < CivilizationAgent.wealth a.
Proof. apply Qlt_bool_iff. Qed.

(** The loop of [process_deaths], from any intermediate state. *)
Lemma process_deaths_loop (generation : Z) (agents : list ref) :
  forall (survivors deceased : list ref) (s : Store),
    for_acc agents (survivors, deceased)
      (fun agent '(survivors, deceased) =>
         a <- read agent ;;
         if CivilizationAgent.is_alive a
         then ret (survivors ++ [agent], deceased)
         else
           log_extinction get_best_task_type agent generation "bankruptcy" ;;
           ret (survivors, deceased ++ [agent])) s
    = (inl (survivors
              ++ filter (fun r => CivilizationAgent.is_alive (objects s r)) agents,
            deceased
              ++ filter (fun r => negb (CivilizationAgent.is_alive (objects s r)))
                   agents),
       mkStore (objects s) (next_ref s)
         (_extinction_log s
            ++ map (extinction_record get_best_task_type s generation "bankruptcy")
                 (filter (fun r => negb (CivilizationAgent.is_alive (objects s r)))
                    agents))).
Proof.
  induction agents as [|x agents IH]; intros survivors deceased s.
  - simpl. rewrite !app_nil_r. destruct s; reflexivity.
  - simpl. unfold bind at 1. unfold bind at 1. unfold read at 1.
    destruct (CivilizationAgent.is_alive (objects s x)) eqn:E; simpl.
    + rewrite IH. rewrite <- app_assoc. reflexivity.
    + unfold bind at 1. simpl. rewrite IH. simpl.
      rewrite <- !app_assoc. reflexivity.
Qed.

(** The body of the mortality sweep, once the function exists,
    partitions its input by the predicate
    [wealth > 0]: it returns normally with two lists, the survivors
    (the agents of the input with positive wealth) and the deceased
    (the others); no agent is in both, none is lost or duplicated
    (the two lists together are a permutation of the input), each list
    keeps the order of the input, no agent object is modified, and the
    ledger grows by exactly one record per deceased agent, in order,
    each with cause "bankruptcy". *)
Theorem process_deaths_partitions (agents : list ref) (generation : Z)
  (s : Store) :
  exists (survivors deceased : list ref) (s' : Store),
    process_deaths get_best_task_type agents generation s
    = (inl (survivors, deceased), s')
    /\ (forall r, In r survivors <-> In r agents /\ 0 < wealth_of s r)
    /\ (forall r, In r deceased <-> In r agents /\ ~ 0 < wealth_of s r)
    /\ (forall r, ~ (In r survivors /\ In r deceased))
    /\ Permutation (survivors ++ deceased) agents
    /\ Subseq survivors agents
    /\ Subseq deceased agents
    /\ objects s' = objects s
    /\ next_ref s' = next_ref s
    /\ _extinction_log s'
       = _extinction_log s
         ++ map (extinction_record get_best_task_type s generation "bankruptcy")
              deceased
    /\ List.length (_extinction_log s')
       = (List.length (_extinction_log s) + List.length deceased)%nat
    /\ Forall (fun record => ExtinctionRecord.cause record = "bankruptcy")
         (skipn (List.length (_extinction_log s)) (_extinction_log s')).
Proof.
  set (alive := fun r => CivilizationAgent.is_alive (objects s r)).
  exists (filter alive agents), (filter (fun r => negb (alive r)) agents).
  eexists. split.
  { unfold process_deaths. rewrite process_deaths_loop. reflexivity. }
  assert (Halive : forall r, alive r = true <-> 0 < wealth_of s r).
  { intros r. apply is_alive_iff. }
  simpl. split_all.
  - intros r. rewrite filter_In, Halive. reflexivity.
  - intros r. rewrite filter_In, negb_true_iff, <- Halive.
    destruct (alive r); intuition congruence.
  - intros r [H1 H2]. apply filter_In in H1. apply filter_In in H2.
    destruct H1 as [_ H1]. destruct H2 as [_ H2].
    rewrite H1 in H2. discriminate.
  - apply Permutation_filter_split.
  - apply Subseq_filter.
  - apply Subseq_filter.
  - reflexivity.
  - reflexivity.
  - reflexivity.
  - rewrite length_app, length_map. reflexivity.
  - rewrite skipn_app, skipn_all, Nat.sub_diag. simpl.
    apply Forall_forall. intros record H. apply in_map_iff in H.
    destruct H as [r [H _]]. subst record. reflexivity.
Qed.

(** A class whose first decorator is not bound when the class statement
    is reached ends the import with NameError on that decorator, whatever
    follows the class in the file. *)
Lemma exec_module_unbound_decorator (front rest : list PyModule.stmt)
  (ns0 ns : PyModule.namespace) (d : string) (decorators : list string)
  (name : string) (body : list string) :
  PyModule.exec_module front ns0 = inl ns ->
  PyModule.bound d ns = false ->
  PyModule.exec_module
    (front ++ PyModule.ClassDef (d :: decorators) name body :: rest) ns0
  = inr (PyModule.NameError d).
Proof.
  revert ns0. induction front as [|st front IH]; intros ns0 Hfront Hd.
  - injection Hfront as <-. simpl. rewrite Hd. reflexivity.
  - simpl in Hfront |- *.
    destruct (PyModule.exec_stmt st ns0) as [ns1|e]; [|discriminate].
    apply IH; assumption.
Qed.

(** C3. As shipped, the mortality sweep cannot be called: the import of
    death.py raises NameError on [dataclass], the decorator of
    [ExtinctionRecord] at line 15, which the module imports only on its
    last line; the import ends there, before [process_deaths] is
    defined, so for every population and generation the import of the
    function followed by its call ends in that NameError instead of
    returning the two lists.  With the last line of the file moved to
    the top, the import succeeds and the call is the call of the
    function body. *)
Theorem process_deaths_import_raises :
  PyModule.exec_module death_py PyModule.builtins
  = inr (PyModule.NameError "dataclass")
  /\ (forall (agents : list ref) (generation : Z) (s : Store),
         imported_process_deaths get_best_task_type death_py
           agents generation s
         = inl (PyModule.NameError "dataclass"))
  /\ (forall (agents : list ref) (generation : Z) (s : Store),
         imported_process_deaths get_best_task_type
           (PyModule.last_statement_first death_py) agents generation s
         = inr (process_deaths get_best_task_type agents generation s)).
Proof.
  assert (H : PyModule.exec_module death_py PyModule.builtins
              = inr (PyModule.NameError "dataclass")).
  { apply (exec_module_unbound_decorator
             (firstn 5 death_py) (skipn 6 death_py) PyModule.builtins
             (PyModule.builtins
                ++ ["List"; "Tuple"; "Dict"; "datetime"; "json"; "Path";
                    "CivilizationAgent"])).
    - reflexivity.
    - reflexivity. }
  split; [exact H|]. split.
  - intros agents generation s.
    unfold imported_process_deaths, PyModule.import_from.
    rewrite H. reflexivity.
  - intros agents generation s. reflexivity.
Qed.

End DeathProofs.

(** ** Proofs: reproduction.py *)

Section ReproductionProofs.

Variable uuid4 : ref -> string.
Variable llm_offspring_prompt : CivilizationAgent.t -> Q -> option string.

Lemma can_reproduce_iff (a : CivilizationAgent.t) :
  CivilizationAgent.can_reproduce a = true
  <-> REPRODUCTION_COST <= CivilizationAgent.wealth a.
Proof. apply Qle_bool_iff. Qed.

Lemma can_reproduce_false_iff (a : CivilizationAgent.t) :
  CivilizationAgent.can_reproduce a = false
  <-> CivilizationAgent.wealth a < REPRODUCTION_COST.
Proof.
  rewrite <- not_true_iff_false, can_reproduce_iff.
  split; [apply Qnot_le_lt | apply Qlt_not_le].
Qed.

(** The three outcomes of [reproduce]. *)
Lemma reproduce_ineligible (parent : ref) (mutation_rate : Q) (s : Store) :
  CivilizationAgent.can_reproduce (objects s parent) = false ->
  reproduce uuid4 llm_offspring_prompt parent mutation_rate s = (inr ValueError, s).
Proof.
  intros H. unfold reproduce, bind, read.
  rewrite H. reflexivity.
Qed.

Lemma reproduce_oracle_failure (parent : ref) (mutation_rate : Q) (s : Store) :
  CivilizationAgent.can_reproduce (objects s parent) = true ->
  llm_offspring_prompt (objects s parent) mutation_rate = None ->
  reproduce uuid4 llm_offspring_prompt parent mutation_rate s = (inr OracleError, s).
Proof.
  intros H Hllm.
  unfold reproduce, _generate_offspring_prompt, bind, read.
  rewrite H. simpl. rewrite Hllm. reflexivity.
Qed.

Lemma reproduce_ok (parent : ref) (mutation_rate : Q) (s : Store)
  (child_prompt : string) :
  CivilizationAgent.can_reproduce (objects s parent) = true ->
  llm_offspring_prompt (objects s parent) mutation_rate = Some child_prompt ->
  reproduce uuid4 llm_offspring_prompt parent mutation_rate s
  = (inl (next_ref s), store_after_reproduce uuid4 parent child_prompt s).
Proof.
  intros H Hllm.
  unfold reproduce, _generate_offspring_prompt, bind, read.
  rewrite H. simpl. rewrite Hllm. reflexivity.
Qed.

(** Every call falls in one of the three cases. *)
Lemma reproduce_cases (parent : ref) (mutation_rate : Q) (s : Store) :
  (CivilizationAgent.can_reproduce (objects s parent) = false
   /\ reproduce uuid4 llm_offspring_prompt parent mutation_rate s = (inr ValueError, s))
  \/ (CivilizationAgent.can_reproduce (objects s parent) = true
      /\ llm_offspring_prompt (objects s parent) mutation_rate = None
      /\ reproduce uuid4 llm_offspring_prompt parent mutation_rate s = (inr OracleError, s))
  \/ (exists child_prompt,
        CivilizationAgent.can_reproduce (objects s parent) = true
        /\ llm_offspring_prompt (objects s parent) mutation_rate
           = Some child_prompt
        /\ reproduce uuid4 llm_offspring_prompt parent mutation_rate s
           = (inl (next_ref s), store_after_reproduce uuid4 parent child_prompt s)).
Proof.
  destruct (CivilizationAgent.can_reproduce (objects s parent)) eqn:E.
  - destruct (llm_offspring_prompt (objects s parent) mutation_rate)
      as [child_prompt|] eqn:Hllm.
    + right; right. exists child_prompt.
      split_all; auto using reproduce_ok.
    + right; left. split_all; auto using reproduce_oracle_failure.
  - left. split; auto using reproduce_ineligible.
Qed.

Lemma update_same h r a : update h r a r = a.
Proof. unfold update. rewrite Nat.eqb_refl. reflexivity. Qed.

Lemma update_other h r a r' : r' <> r -> update h r a r' = h r'.
Proof.
  intros H. unfold update. destruct (Nat.eqb_spec r' r); congruence.
Qed.

(** C4. For a parent object of the store that holds at least the
    reproduction cost (200), a call of [reproduce] that returns a child
    has deducted exactly 200
    from the parent's wealth, so that a parent starting at exactly 200
    ends at 0; the child is a new object with wealth 50, whose
    parent id is the parent's id, whose dynasty id is the parent's
    dynasty id, and whose generation is the parent's plus one; the
    child's id is appended to the parent's children list; the parent's
    other fields are unchanged. *)
Theorem reproduce_success (parent child : ref) (mutation_rate : Q)
  (s : Store) :
  (parent < next_ref s)%nat ->
  REPRODUCTION_COST <= wealth_of s parent ->
  fst (reproduce uuid4 llm_offspring_prompt parent mutation_rate s) = inl child ->
  let p := objects s parent in
  let s' := snd (reproduce uuid4 llm_offspring_prompt parent mutation_rate s) in
  let p' := objects s' parent in
  let c := objects s' child in
  child = next_ref s
  /\ child <> parent
  /\ CivilizationAgent.wealth p' = CivilizationAgent.wealth p - 200
  /\ (CivilizationAgent.wealth p == 200 -> CivilizationAgent.wealth p' == 0)
  /\ CivilizationAgent.wealth c = 50
  /\ CivilizationAgent.parent_id c = Some (CivilizationAgent.id p)
  /\ CivilizationAgent.dynasty_id c = CivilizationAgent.dynasty_id p
  /\ CivilizationAgent.generation c = (CivilizationAgent.generation p + 1)%Z
  /\ CivilizationAgent.children_ids p'
     = CivilizationAgent.children_ids p ++ [CivilizationAgent.id c]
  /\ CivilizationAgent.id p' = CivilizationAgent.id p
  /\ CivilizationAgent.dynasty_id p' = CivilizationAgent.dynasty_id p
  /\ CivilizationAgent.parent_id p' = CivilizationAgent.parent_id p
  /\ CivilizationAgent.generation p' = CivilizationAgent.generation p
  /\ (forall r, r <> parent -> r <> child -> objects s' r = objects s r).
Proof.
  intros Hvalid Hwealth Hok.
  destruct (reproduce_cases parent mutation_rate s)
    as [[_ H] | [[_ [_ H]] | [child_prompt [_ [_ H]]]]];
    rewrite H in Hok; simpl in Hok; try discriminate.
  injection Hok as <-.
  assert (Hneq : next_ref s <> parent) by lia.
  assert (Hneq' : parent <> next_ref s) by lia.
  cbv zeta. rewrite H. unfold store_after_reproduce. simpl.
  rewrite !update_same, !(update_other _ _ _ _ Hneq'), !update_same.
  rewrite (update_other _ _ _ _ Hneq), update_same.
  simpl. split_all; try reflexivity; try assumption.
  - intros E. rewrite E. reflexivity.
  - intros r H1 H2. rewrite !update_other by assumption. reflexivity.
Qed.

(** C5. [reproduce] raises its ineligibility error exactly when the
    parent's wealth is strictly below the reproduction cost (200); and
    whenever a call fails, for ineligibility or because the language
    model failed, the store is exactly what it was before the call: in
    particular the parent's wealth is not deducted and its children
    list is unchanged. *)
Theorem reproduce_failure_leaves_parent (parent : ref) (mutation_rate : Q)
  (s : Store) :
  (fst (reproduce uuid4 llm_offspring_prompt parent mutation_rate s) = inr ValueError
   <-> wealth_of s parent < 200)
  /\ (forall e,
        fst (reproduce uuid4 llm_offspring_prompt parent mutation_rate s) = inr e ->
        snd (reproduce uuid4 llm_offspring_prompt parent mutation_rate s) = s
        /\ wealth_of (snd (reproduce uuid4 llm_offspring_prompt parent mutation_rate s)) parent
           = wealth_of s parent
        /\ CivilizationAgent.children_ids
             (objects (snd (reproduce uuid4 llm_offspring_prompt parent mutation_rate s)) parent)
           = CivilizationAgent.children_ids (objects s parent)).
Proof.
  destruct (reproduce_cases parent mutation_rate s)
    as [[E H] | [[E [_ H]] | [child_prompt [E [_ H]]]]];
    rewrite H; simpl.
  - split.
    + split; [intros _|reflexivity]. apply can_reproduce_false_iff, E.
    + intros e _. auto.
  - split.
    + split; [discriminate|]. intros Hlt.
      apply can_reproduce_false_iff in Hlt. unfold wealth_of in *. congruence.
    + intros e _. auto.
  - split.
    + split; [discriminate|]. intros Hlt.
      apply can_reproduce_false_iff in Hlt. congruence.
    + intros e He. discriminate.
Qed.

(** The loop of [reproduction_phase]: each parent adds at most one child,
    and no failure leaves the loop. *)
Lemma reproduction_loop (mutation_rate : Q) (reproducible : list ref) :
  forall (offspring : list ref) (s : Store),
  exists (children : list ref) (s' : Store),
    for_acc reproducible offspring
      (fun parent offspring =>
         try_except
           (child <- reproduce uuid4 llm_offspring_prompt parent mutation_rate ;;
            ret (offspring ++ [child]))
           (fun e => ret offspring)) s
    = (inl (offspring ++ children), s')
    /\ (List.length children <= List.length reproducible)%nat.
Proof.
  induction reproducible as [|parent reproducible IH]; intros offspring s.
  - exists [], s. simpl. rewrite app_nil_r. split; [reflexivity|lia].
  - simpl. unfold bind at 1. unfold try_except at 1. unfold bind at 1.
    destruct (reproduce_cases parent mutation_rate s)
      as [[_ H] | [[_ [_ H]] | [child_prompt [_ [_ H]]]]]; rewrite H; simpl.
    + destruct (IH offspring s) as [children [s' [E Hlen]]].
      exists children, s'. rewrite E. split; [reflexivity|lia].
    + destruct (IH offspring s) as [children [s' [E Hlen]]].
      exists children, s'. rewrite E. split; [reflexivity|lia].
    + destruct (IH (offspring ++ [next_ref s])
                  (store_after_reproduce uuid4 parent child_prompt s))
        as [children [s' [E Hlen]]].
      exists (next_ref s :: children), s'. rewrite E.
      rewrite <- app_assoc. simpl. split; [reflexivity|lia].
Qed.

(** Failures of single parents are isolated: the phase always returns a
    list of offspring, never an exception. *)
Lemma reproduction_phase_never_raises (agents : list ref)
  (max_offspring_per_gen : option Z) (mutation_rate : Q) (s : Store) :
  exists (offspring : list ref) (s' : Store),
    reproduction_phase uuid4 llm_offspring_prompt agents
      max_offspring_per_gen mutation_rate s
    = (inl offspring, s').
Proof.
  unfold reproduction_phase, get_reproducible_agents, bind, get_store, ret.
  destruct (truthy max_offspring_per_gen);
    match goal with
    | |- context [for_acc ?l [] _ s] =>
        destruct (reproduction_loop mutation_rate l [] s)
          as [children [s' [E _]]]
    end;
    exists children, s'; exact E.
Qed.

Lemma length_slice_to {A} (l : list A) (k : Z) :
  (0 < k)%Z -> (Z.of_nat (List.length (Py.slice_to l k)) <= k)%Z.
Proof.
  intros Hk. unfold Py.slice_to.
  destruct (Z.leb_spec 0 k); [|lia].
  pose proof (firstn_le_length (Z.to_nat k) l).
  rewrite length_firstn. lia.
Qed.

(** With a positive cap, the phase produces at most that many offspring. *)
Lemma reproduction_phase_positive_cap (agents : list ref) (k : Z)
  (mutation_rate : Q) (s : Store) :
  (0 < k)%Z ->
  exists (offspring : list ref) (s' : Store),
    reproduction_phase uuid4 llm_offspring_prompt agents (Some k)
      mutation_rate s
    = (inl offspring, s')
    /\ (Z.of_nat (List.length offspring) <= k)%Z.
Proof.
  intros Hk.
  unfold reproduction_phase, get_reproducible_agents, bind, get_store, ret.
  simpl. destruct (Z.eqb_spec k 0); [lia|]. simpl.
  match goal with
  | |- context [for_acc ?l [] _ s] =>
      destruct (reproduction_loop mutation_rate l [] s)
        as [children [s' [E Hlen]]];
      pose proof (length_slice_to
                    (Py.sorted (fun a => - wealth_of s a)
                       (filter (fun a => CivilizationAgent.can_reproduce
                                           (objects s a)) agents)) k Hk)
  end.
  exists children, s'. split; [exact E|]. lia.
Qed.

(** With a positive cap [k], the parents that attempt reproduction are the
    first [k] of the eligible agents in the stable ranking by descending
    wealth. *)
Lemma reproduction_phase_positive_cap_attempts (agents : list ref) (k : Z)
  (mutation_rate : Q) (s : Store) :
  (0 < k)%Z ->
  reproduction_phase uuid4 llm_offspring_prompt agents (Some k)
    mutation_rate s
  = for_acc
      (firstn (Z.to_nat k)
         (Py.sorted (fun a => - wealth_of s a)
            (filter (fun a => CivilizationAgent.can_reproduce (objects s a))
               agents)))
      []
      (fun parent offspring =>
         try_except
           (child <- reproduce uuid4 llm_offspring_prompt parent mutation_rate ;;
            ret (offspring ++ [child]))
           (fun e => ret offspring)) s.
Proof.
  intros Hk.
  unfold reproduction_phase, get_reproducible_agents, bind, get_store, ret.
  simpl. destruct (Z.eqb_spec k 0); [lia|]. simpl.
  unfold Py.slice_to. destruct (Z.leb_spec 0 k); [reflexivity|lia].
Qed.

End ReproductionProofs.

(** Python's [sorted] by the key [-wealth] ranks by descending wealth. *)
Lemma insert_by_Permutation {A} (key : A -> Q) (x : A) (l : list A) :
  Permutation (Py.insert_by key x l) (x :: l).
Proof.
  induction l as [|y l IH]; simpl.
  - reflexivity.
  - destruct (Qle_bool (key x) (key y)).
    + reflexivity.
    + rewrite IH. apply perm_swap.
Qed.

Lemma sorted_Permutation {A} (key : A -> Q) (l : list A) :
  Permutation (Py.sorted key l) l.
Proof.
  induction l as [|x l IH]; simpl.
  - reflexivity.
  - rewrite insert_by_Permutation. constructor. exact IH.
Qed.

Lemma insert_by_Sorted {A} (key : A -> Q) (x : A) (l : list A) :
  StronglySorted (fun a b => key a <= key b) l ->
  StronglySorted (fun a b => key a <= key b) (Py.insert_by key x l).
Proof.
  induction l as [|y l IH]; intros Hs; simpl.
  - repeat constructor.
  - inversion Hs as [|? ? Hs' Hall]; subst.
    destruct (Qle_bool (key x) (key y)) eqn:E.
    + apply Qle_bool_iff in E. constructor; [exact Hs|].
      constructor; [exact E|].
      eapply Forall_impl; [|exact Hall].
      intros a Ha. simpl in Ha. eapply Qle_trans; eassumption.
    + constructor; [apply IH; exact Hs'|].
      assert (Hyx : key y <= key x).
      { apply Qlt_le_weak, Qnot_le_lt. intros Hle.
        apply Qle_bool_iff in Hle. congruence. }
      apply Forall_forall. intros a Ha.
      apply (Permutation_in _ (insert_by_Permutation key x l)) in Ha.
      destruct Ha as [<-|Ha]; [exact Hyx|].
      rewrite Forall_forall in Hall. apply Hall, Ha.
Qed.

Lemma sorted_Sorted {A} (key : A -> Q) (l : list A) :
  StronglySorted (fun a b => key a <= key b) (Py.sorted key l).
Proof.
  induction l as [|x l IH]; simpl.
  - constructor.
  - apply insert_by_Sorted, IH.
Qed.

(** When the language model fails for one parent, the other eligible
    parents still reproduce: of the agents of wealth 300 and 200, the
    first gets no prompt and the second has its child. *)
Lemma reproduction_phase_isolates_failure_example :
  fst (reproduction_phase (fun _ => "child")
         (fun p _ =>
            if String.eqb (CivilizationAgent.id p) "a" then None
            else Some "prompt")
         [0; 1; 2]%nat None (3 # 10) store_300)
  = inl [3]%nat
  /\ CivilizationAgent.parent_id
       (objects
          (snd (reproduction_phase (fun _ => "child")
                  (fun p _ =>
                     if String.eqb (CivilizationAgent.id p) "a" then None
                     else Some "prompt")
                  [0; 1; 2]%nat None (3 # 10) store_300))
          3%nat)
     = Some "b".
Proof. split; vm_compute; reflexivity. Qed.

(** C6. The cap of the batch reproduction phase is tested for truth, so
    a supplied cap of 0 is not a cap: the phase then runs exactly as with
    no cap at all, and on three agents of wealth 300, 200 and 100, with a
    cap of 0, the two eligible agents both reproduce and two offspring are
    returned. *)
Theorem reproduction_phase_zero_cap_unbounded :
  (forall uuid4 llm_offspring_prompt agents mutation_rate s,
      reproduction_phase uuid4 llm_offspring_prompt agents (Some 0%Z)
        mutation_rate s
      = reproduction_phase uuid4 llm_offspring_prompt agents None
          mutation_rate s)
  /\ fst (reproduction_phase (fun _ => "child") (fun _ _ => Some "prompt")
            [0; 1; 2]%nat (Some 0%Z) (3 # 10) store_300)
     = inl [3; 4]%nat.
Proof.
  split.
  - intros. reflexivity.
  - vm_compute. reflexivity.
Qed.

(** ** Proofs: governance.py, enactment *)

(** C9. Applying a rule that did not pass returns the population as it
    is, with the store (hence every agent's wealth) and the rule
    unchanged, so that [generation_enacted] stays unset.  Applying a passed
    rule whose lower-cased effect contains none of the dispatch keywords
    returns normally, leaves the store (hence every agent's wealth)
    unchanged, and stamps [generation_enacted] with the given generation. *)
Theorem apply_rule_failed_or_inert (rule : Rule.t) (agents : list ref)
  (generation : Z) (s : Store) :
  (Rule.passed rule = false ->
   apply_rule rule agents generation s = (inl (rule, agents), s))
  /\ (Rule.passed rule = true ->
      dispatch_keywords_absent (PyText.lower (Rule.effect rule)) ->
      exists rule',
        apply_rule rule agents generation s = (inl (rule', agents), s)
        /\ Rule.generation_enacted rule' = Some generation
        /\ rule' = Rule.with_generation_enacted rule generation).
Proof.
  split.
  - intros H. unfold apply_rule. rewrite H. reflexivity.
  - intros H (Htax & Hpay & Hmin & Hwelfare & Hvote & Hrep & Hoff).
    exists (Rule.with_generation_enacted rule generation).
    split; [|split; reflexivity].
    unfold apply_rule. rewrite H. cbn [negb Rule.effect Rule.with_generation_enacted].
    rewrite Htax, Hpay, Hmin, Hwelfare, Hvote, Hrep, Hoff. reflexivity.
Qed.

(** ** Proofs: governance.py, voting *)

Lemma dict_set_keys_In {V} (d : Py.dict V) (k k' : string) (v : V) :
  In k' (Py.keys (Py.dict_set d k v)) <-> k' = k \/ In k' (Py.keys d).
Proof.
  induction d as [|[k0 v0] d IH]; simpl.
  - intuition congruence.
  - destruct (String.eqb_spec k0 k) as [->|Hne]; simpl.
    + intuition congruence.
    + rewrite IH. intuition congruence.
Qed.

Lemma dict_set_values_Forall {V} (P : V -> Prop) (d : Py.dict V) (k : string)
  (v : V) :
  Forall P (Py.values d) -> P v -> Forall P (Py.values (Py.dict_set d k v)).
Proof.
  intros Hd Hv. induction d as [|[k0 v0] d IH]; simpl in *.
  - constructor; [exact Hv|constructor].
  - inversion Hd; subst.
    destruct (String.eqb k0 k); simpl; constructor; auto.
Qed.

Lemma dict_fold_keys_In {A V} (f : A -> string) (g : A -> V) (l : list A) :
  forall (d : Py.dict V) (k : string),
    In k (Py.keys (fold_left (fun d x => Py.dict_set d (f x) (g x)) l d))
    <-> In k (Py.keys d) \/ In k (map f l).
Proof.
  induction l as [|x l IH]; intros d k; simpl.
  - tauto.
  - rewrite IH, dict_set_keys_In. intuition congruence.
Qed.

Lemma dict_fold_values_Forall {A V} (P : V -> Prop) (f : A -> string)
  (g : A -> V) (l : list A) :
  forall d : Py.dict V,
    Forall P (Py.values d) -> (forall x, In x l -> P (g x)) ->
    Forall P (Py.values (fold_left (fun d x => Py.dict_set d (f x) (g x)) l d)).
Proof.
  induction l as [|x l IH]; intros d Hd Hl; simpl.
  - exact Hd.
  - apply IH.
    + apply dict_set_values_Forall; [exact Hd|]. apply Hl. left. reflexivity.
    + intros y Hy. apply Hl. right. exact Hy.
Qed.

Lemma dict_get_In_keys {V} (d : Py.dict V) (k : string) :
  In k (Py.keys d) ->
  exists v, Py.dict_get d k = Some v /\ In v (Py.values d).
Proof.
  induction d as [|[k0 v0] d IH]; simpl; intros H.
  - contradiction.
  - destruct (String.eqb_spec k0 k) as [->|Hne].
    + exists v0. auto.
    + destruct H as [H|H]; [congruence|].
      destruct (IH H) as [v [E Hin]]. exists v. auto.
Qed.

Lemma dict_of_map {A V} (f : A -> string) (g : A -> V) (l : list A) :
  Py.dict_of (map (fun x => (f x, g x)) l)
  = fold_left (fun d x => Py.dict_set d (f x) (g x)) l [].
Proof.
  unfold Py.dict_of. generalize (@nil (string * V)).
  induction l as [|x l IH]; intros d; simpl; [reflexivity|apply IH].
Qed.

Lemma Qsum_zero (l : list Q) : Forall (fun w => w == 0) l -> Qsum l == 0.
Proof.
  induction 1 as [|x l Hx _ IH]; simpl.
  - reflexivity.
  - rewrite Hx, IH. reflexivity.
Qed.

Lemma py_div_zero (a b : Q) (s : Store) :
  b == 0 -> py_div a b s = (inr ZeroDivisionError, s).
Proof.
  intros H. unfold py_div. apply Qeq_bool_iff in H. rewrite H. reflexivity.
Qed.

Lemma py_div_nonzero (a b : Q) (s : Store) :
  ~ b == 0 -> py_div a b s = (inl (a / b), s).
Proof.
  intros H. unfold py_div.
  destruct (Qeq_bool b 0) eqn:E; [|reflexivity].
  apply Qeq_bool_iff in E. contradiction.
Qed.

Section VotingProofs.

Variable vote_on_rule : CivilizationAgent.t -> Rule.t -> bool.

(** The first loop of [run_voting] only reads the store. *)
Lemma votes_loop (rule : Rule.t) (agents : list ref) :
  forall (votes : Py.dict bool) (s : Store),
    for_acc agents votes
      (fun agent votes =>
         a <- read agent ;;
         let vote := vote_on_rule a rule in
         ret (Py.dict_set votes (CivilizationAgent.id a) vote)) s
    = (inl (fold_left
              (fun d r =>
                 Py.dict_set d (CivilizationAgent.id (objects s r))
                   (vote_on_rule (objects s r) rule))
              agents votes),
       s).
Proof.
  induction agents as [|x agents IH]; intros votes s; simpl.
  - reflexivity.
  - unfold bind at 1. unfold bind at 1. unfold read at 1. simpl.
    apply IH.
Qed.

(** The weighted tally of the yes votes, when every voter is in the
    weight map and every weight is zero. *)
Lemma yes_weight_loop_zero (wealth_map : Py.dict Q)
  (votes : Py.dict bool) :
  Forall (fun w => w == 0) (Py.values wealth_map) ->
  (forall aid, In aid (Py.keys votes) -> In aid (Py.keys wealth_map)) ->
  forall (acc : Q) (s : Store),
  exists yes_weight,
    for_acc votes acc
      (fun '(aid, v) acc =>
         if v : bool
         then w <- dict_lookup wealth_map aid ;; ret (acc + w)
         else ret acc) s
    = (inl yes_weight, s)
    /\ yes_weight == acc.
Proof.
  intros Hzero. induction votes as [|[aid v] votes IH]; intros Hkeys acc s.
  - exists acc. split; reflexivity.
  - simpl. unfold bind at 1. destruct v.
    + destruct (dict_get_In_keys wealth_map aid) as [w [E Hw]].
      { apply Hkeys. left. reflexivity. }
      unfold bind at 1. unfold dict_lookup. rewrite E. simpl.
      destruct (IH (fun k Hk => Hkeys k (or_intror Hk)) (acc + w) s)
        as [y [Ey Hy]].
      exists y. split; [exact Ey|].
      rewrite Forall_forall in Hzero. rewrite Hy, (Hzero w Hw). ring.
    + simpl.
      destruct (IH (fun k Hk => Hkeys k (or_intror Hk)) acc s)
        as [y [Ey Hy]].
      exists y. split; assumption.
Qed.

(** The weighted branches of [run_voting] raise on a weight map of
    zeros. *)
Lemma weighted_tally_zero (weight : Store -> ref -> Q) (agents : list ref)
  (rule : Rule.t) (threshold : Q) (s : Store) :
  (forall r, In r agents -> weight s r == 0) ->
  let votes :=
    fold_left
      (fun d r =>
         Py.dict_set d (CivilizationAgent.id (objects s r))
           (vote_on_rule (objects s r) rule))
      agents [] in
  let wealth_map :=
    Py.dict_of
      (map (fun a => (CivilizationAgent.id (objects s a), weight s a))
           agents) in
  (yes_weight <- for_acc votes 0
                   (fun '(aid, v) acc =>
                      if v : bool
                      then w <- dict_lookup wealth_map aid ;; ret (acc + w)
                      else ret acc) ;;
   let total_weight := Py.sum (Py.values wealth_map) in
   ratio <- py_div yes_weight total_weight ;;
   let passed := Qle_bool threshold ratio in
   ret (passed,
        Rule.with_tally rule (Py.int yes_weight)
          (Py.int (total_weight - yes_weight)))) s
  = (inr ZeroDivisionError, s).
Proof.
  intros Hzero votes wealth_map.
  assert (Hvalues : Forall (fun w => w == 0) (Py.values wealth_map)).
  { unfold wealth_map. rewrite dict_of_map.
    apply dict_fold_values_Forall; [constructor|exact Hzero]. }
  assert (Hkeys : forall aid,
             In aid (Py.keys votes) -> In aid (Py.keys wealth_map)).
  { intros aid. unfold votes, wealth_map. rewrite dict_of_map.
    rewrite !dict_fold_keys_In. tauto. }
  destruct (yes_weight_loop_zero wealth_map votes Hvalues Hkeys 0 s)
    as [y [Ey _]].
  unfold bind at 1. rewrite Ey. unfold bind at 1.
  rewrite py_div_zero; [reflexivity|].
  rewrite Py_sum_Qsum. apply Qsum_zero, Hvalues.
Qed.

(** C1. On a population of zero total vote weight (an empty agent list
    under the equal scheme, agents all of wealth 0 under the
    wealth-weighted and stake-weighted schemes), [run_voting] raises
    [ZeroDivisionError] under each of the three schemes: it does not
    return, and the rule is not marked as failed.  The store is
    unchanged. *)
Theorem run_voting_zero_weight_raises (agents : list ref) (rule : Rule.t)
  (voting_system : VotingSystem) (threshold : Q) (s : Store) :
  zero_vote_weight s agents voting_system ->
  run_voting vote_on_rule agents rule voting_system threshold s
  = (inr ZeroDivisionError, s).
Proof.
  intros Hzero. unfold run_voting.
  unfold bind at 1. rewrite votes_loop.
  unfold bind at 1. unfold get_store at 1.
  unfold bind at 1.
  destruct voting_system; simpl in Hzero.
  - subst agents. reflexivity.
  - pose proof (weighted_tally_zero wealth_of agents rule threshold s Hzero)
      as H.
    cbv zeta in H. cbv zeta. rewrite H. reflexivity.
  - assert (Hsq : forall r, In r agents -> wealth_of s r ^ 2 == 0).
    { intros r Hr. rewrite (Hzero r Hr). reflexivity. }
    pose proof (weighted_tally_zero (fun s r => wealth_of s r ^ 2) agents rule
                  threshold s Hsq) as H.
    cbv zeta in H. cbv zeta. rewrite H. reflexivity.
Qed.

End VotingProofs.

(** ** Proofs: the store *)

Lemma set_wealth_run (r : ref) (w : Q) (s : Store) :
  set_wealth r w s = (inl tt, set_wealth_store s r w).
Proof. reflexivity. Qed.

Lemma wealth_of_set_same (s : Store) (r : ref) (w : Q) :
  wealth_of (set_wealth_store s r w) r = w.
Proof.
  unfold wealth_of, set_wealth_store, update. simpl.
  rewrite Nat.eqb_refl. reflexivity.
Qed.

Lemma wealth_of_set_other (s : Store) (r r' : ref) (w : Q) :
  r' <> r -> wealth_of (set_wealth_store s r w) r' = wealth_of s r'.
Proof.
  intros H. unfold wealth_of, set_wealth_store, update. simpl.
  destruct (Nat.eqb_spec r' r); [contradiction|reflexivity].
Qed.

Lemma total_wealth_set_notin (s : Store) (r : ref) (w : Q) (l : list ref) :
  ~ In r l -> total_wealth (set_wealth_store s r w) l = total_wealth s l.
Proof.
  unfold total_wealth. induction l as [|x l IH]; intros H; simpl.
  - reflexivity.
  - rewrite wealth_of_set_other, IH; [reflexivity| |]; simpl in H; intuition.
Qed.

Lemma total_wealth_set (s : Store) (r : ref) (w : Q) (l : list ref) :
  NoDup l -> In r l ->
  total_wealth (set_wealth_store s r w) l
  == total_wealth s l - wealth_of s r + w.
Proof.
  induction 1 as [|x l Hx Hl IH]; intros Hin.
  - contradiction.
  - destruct (Nat.eq_dec x r) as [->|Hne].
    + unfold total_wealth in *. simpl.
      rewrite wealth_of_set_same.
      fold (total_wealth (set_wealth_store s r w) l).
      rewrite (total_wealth_set_notin s r w l Hx).
      unfold total_wealth. ring.
    + destruct Hin as [Hin|Hin]; [contradiction|].
      unfold total_wealth in *. simpl.
      rewrite (wealth_of_set_other s r x w Hne), (IH Hin). ring.
Qed.

Lemma only_wealth_changed_refl (s : Store) : only_wealth_changed s s.
Proof.
  unfold only_wealth_changed, wealth_of. split_all; try reflexivity.
  intros r. destruct (objects s r); reflexivity.
Qed.

Lemma only_wealth_changed_set (s : Store) (r : ref) (w : Q) :
  only_wealth_changed s (set_wealth_store s r w).
Proof.
  unfold only_wealth_changed. split_all; try reflexivity.
  intros r'. unfold wealth_of, set_wealth_store, update. simpl.
  destruct (Nat.eqb_spec r' r) as [->|_].
  - reflexivity.
  - destruct (objects s r'); reflexivity.
Qed.

Lemma only_wealth_changed_trans (s1 s2 s3 : Store) :
  only_wealth_changed s1 s2 -> only_wealth_changed s2 s3 ->
  only_wealth_changed s1 s3.
Proof.
  intros (Hn1 & Hl1 & Ho1) (Hn2 & Hl2 & Ho2).
  unfold only_wealth_changed. split_all; try congruence.
  intros r. rewrite Ho2, Ho1. reflexivity.
Qed.

(** ** Proofs: the regular expressions of governance.py *)

(** [re.search] finds nothing exactly when the anchored matcher fails at
    every position. *)
Lemma re_search_None (m : string -> option string) (s : string) :
  PyText.re_search m s = None
  <-> forall pre t : string, s = (pre ++ t)%string -> m t = None.
Proof.
  induction s as [|c s IH]; simpl.
  - split.
    + intros H pre t E. destruct pre; simpl in E; [|discriminate].
      subst t. destruct (m ""); [discriminate|reflexivity].
    + intros H. rewrite (H "" "" eq_refl). reflexivity.
  - split.
    + intros H pre t E. destruct (m (String c s)) eqn:Em; [discriminate|].
      destruct pre as [|c' pre]; simpl in E.
      * subst t. exact Em.
      * injection E as -> E. apply (proj1 IH H pre t E).
    + intros H. rewrite (H "" (String c s) eq_refl).
      apply IH. intros pre t E. apply (H (String c pre) t).
      simpl. rewrite E. reflexivity.
Qed.

Lemma contains_false (sub s : string) :
  PyText.contains sub s = false
  <-> forall pre t : string,
        s = (pre ++ t)%string -> PyText.strip_prefix sub t = None.
Proof.
  induction s as [|c s IH]; simpl.
  - split.
    + intros H pre t E. destruct pre; simpl in E; [|discriminate].
      subst t. destruct (PyText.strip_prefix sub ""); [discriminate|reflexivity].
    + intros H. rewrite (H "" "" eq_refl). reflexivity.
  - split.
    + intros H pre t E.
      destruct (PyText.strip_prefix sub (String c s)) eqn:Em; [discriminate|].
      destruct pre as [|c' pre]; simpl in E.
      * subst t. exact Em.
      * injection E as -> E. apply (proj1 IH H pre t E).
    + intros H. rewrite (H "" (String c s) eq_refl).
      apply IH. intros pre t E. apply (H (String c pre) t).
      simpl. rewrite E. reflexivity.
Qed.

(** An effect text without the word "wealth" has the threshold 0, and one
    without the word "minimum" has the floor 20. *)
Lemma wealth_threshold_default (effect : string) :
  PyText.contains "wealth" effect = false ->
  PyText.re_search PyText.match_threshold_at effect = None
  /\ wealth_threshold_of effect = 0.
Proof.
  intros H.
  assert (E : PyText.re_search PyText.match_threshold_at effect = None).
  { apply re_search_None. intros pre t Et. unfold PyText.match_threshold_at.
    rewrite (proj1 (contains_false "wealth" effect) H pre t Et). reflexivity. }
  split; [exact E|]. unfold wealth_threshold_of. rewrite E. reflexivity.
Qed.

Lemma min_wealth_default (effect : string) :
  PyText.contains "minimum" effect = false ->
  PyText.re_search PyText.match_minimum_at effect = None
  /\ min_wealth_of effect = 20.
Proof.
  intros H.
  assert (E : PyText.re_search PyText.match_minimum_at effect = None).
  { apply re_search_None. intros pre t Et. unfold PyText.match_minimum_at.
    rewrite (proj1 (contains_false "minimum" effect) H pre t Et). reflexivity. }
  split; [exact E|]. unfold min_wealth_of. rewrite E. reflexivity.
Qed.

Lemma span_digits_empty (t r : string) :
  PyText.span_digits t = (EmptyString, r) -> t = r.
Proof.
  destruct t as [|a t]; simpl.
  - intros E. injection E as <-. reflexivity.
  - destruct (PyText.is_digit a).
    + destruct (PyText.span_digits t). discriminate.
    + intros E. injection E as <-. reflexivity.
Qed.

(** When the rate pattern matches at the head of [t], the character in
    front of its percent sign is a digit. *)
Lemma match_rate_at_digit (t : string) :
  forall (c : ascii) (d r : string),
    PyText.span_digits t = (String c d, String "%" r) ->
    exists (pre : string) (c' : ascii),
      t = (pre ++ String c' (String "%" r))%string
      /\ PyText.is_digit c' = true.
Proof.
  induction t as [|a t IH]; intros c d r E; simpl in E.
  - discriminate.
  - destruct (PyText.is_digit a) eqn:Ea; [|discriminate].
    destruct (PyText.span_digits t) as [d0 r0] eqn:Et.
    injection E as -> -> ->.
    destruct d as [|c1 d1].
    + apply span_digits_empty in Et. subst t.
      exists EmptyString, c. split; [reflexivity|exact Ea].
    + destruct (IH c1 d1 r eq_refl) as (pre & c' & -> & Hc').
      exists (String c pre), c'. split; [reflexivity|exact Hc'].
Qed.

(** The effect text holds a percentage, for [_apply_taxation], exactly when
    some digit is immediately followed by a percent sign. *)
Lemma rate_search_None (effect : string) :
  PyText.re_search PyText.match_rate_at effect = None
  <-> ~ exists (pre : string) (c : ascii) (post : string),
          effect = (pre ++ String c (String "%" post))%string
          /\ PyText.is_digit c = true.
Proof.
  rewrite re_search_None. split.
  - intros H (pre & c & post & E & Hc).
    specialize (H pre _ E). unfold PyText.match_rate_at in H.
    simpl in H. rewrite Hc in H. simpl in H. discriminate.
  - intros H pre t E. unfold PyText.match_rate_at.
    destruct (PyText.span_digits t) as [d r] eqn:Et.
    destruct d as [|c d]; [reflexivity|].
    destruct r as [|b r]; [reflexivity|].
    destruct (Ascii.eqb_spec b "%") as [->|Hb].
    + exfalso. apply H.
      destruct (match_rate_at_digit t c d r Et) as (pre' & c' & -> & Hc').
      exists (pre ++ pre')%string, c', r. split; [|exact Hc'].
      rewrite E. clear. induction pre as [|a pre IH]; simpl; congruence.
    + destruct b as [[] [] [] [] [] [] [] []]; try reflexivity.
      exfalso. apply Hb. reflexivity.
Qed.

(** ** Proofs: governance.py, taxation *)

Lemma int_acc_nonneg (s : string) :
  forall acc, (0 <= acc)%Z -> (0 <= PyText.int_acc acc s)%Z.
Proof.
  induction s as [|c s IH]; intros acc Hacc; cbn [PyText.int_acc].
  - exact Hacc.
  - apply IH. unfold PyText.digit_value. lia.
Qed.

Lemma int_nonneg (s : string) : (0 <= PyText.int s)%Z.
Proof. apply int_acc_nonneg. lia. Qed.

Lemma inject_Z_nonneg (z : Z) : (0 <= z)%Z -> 0 <= inject_Z z.
Proof.
  intros H. change 0 with (inject_Z 0). rewrite <- Zle_Qle. exact H.
Qed.

Lemma tax_rate_of_nonneg (effect : string) : 0 <= tax_rate_of effect.
Proof.
  unfold tax_rate_of.
  destruct (PyText.re_search PyText.match_rate_at effect) as [g|].
  - pose proof (inject_Z_nonneg _ (int_nonneg g)) as H.
    apply Qle_shift_div_l; [reflexivity|]. rewrite Qmult_0_l. exact H.
  - discriminate.
Qed.

Lemma wealth_threshold_of_nonneg (effect : string) :
  0 <= wealth_threshold_of effect.
Proof.
  unfold wealth_threshold_of.
  destruct (PyText.re_search PyText.match_threshold_at effect) as [g|].
  - apply inject_Z_nonneg, int_nonneg.
  - apply Qle_refl.
Qed.

Section TaxationProofs.

Variables rate threshold : Q.

Lemma collect_body :
  collects rate threshold
    (fun agent total_tax =>
       a <- read agent ;;
       if Py.Qlt_bool threshold (CivilizationAgent.wealth a)
       then
         set_wealth agent
           (CivilizationAgent.wealth a - CivilizationAgent.wealth a * rate) ;;
         ret (total_tax + CivilizationAgent.wealth a * rate)
       else ret total_tax).
Proof.
  intros x acc s. unfold bind, read. fold (wealth_of s x).
  destruct (Py.Qlt_bool threshold (wealth_of s x)); reflexivity.
Qed.

Lemma distribute_body (share : Q) :
  distributes share
    (fun agent =>
       a <- read agent ;;
       set_wealth agent (CivilizationAgent.wealth a + share)).
Proof. intros x s. reflexivity. Qed.

(** The collecting loop takes from the agents of [U] what it adds to
    the pool, whether or not an agent occurs several times in the
    list. *)
Lemma collect_loop_conserves (body : ref -> Q -> M Q) (U : list ref) :
  collects rate threshold body -> 0 <= rate -> 0 <= threshold -> NoDup U ->
  forall (agents : list ref) (acc : Q) (s : Store),
    incl agents U ->
    exists (total_tax : Q) (s1 : Store),
      for_acc agents acc body s = (inl total_tax, s1)
      /\ acc <= total_tax
      /\ total_wealth s1 U + total_tax == total_wealth s U + acc
      /\ only_wealth_changed s s1.
Proof.
  intros Hbody Hrate Hthr HS.
  induction agents as [|x agents IH]; intros acc s Hincl.
  - exists acc, s. simpl. split_all.
    + reflexivity.
    + apply Qle_refl.
    + reflexivity.
    + apply only_wealth_changed_refl.
  - simpl. unfold bind at 1. rewrite Hbody.
    assert (Hx : In x U) by (apply Hincl; left; reflexivity).
    assert (Hincl' : incl agents U).
    { intros y Hy. apply Hincl. right. exact Hy. }
    destruct (Py.Qlt_bool threshold (wealth_of s x)) eqn:E.
    + apply Qlt_bool_iff in E.
      destruct (IH (acc + wealth_of s x * rate)
                  (set_wealth_store s x (wealth_of s x - wealth_of s x * rate))
                  Hincl')
        as (t & s1 & Eloop & Hle & Htot & Hframe).
      exists t, s1. split_all.
      * exact Eloop.
      * assert (0 <= wealth_of s x * rate).
        { apply Qmult_le_0_compat; [|exact Hrate]. lra. }
        lra.
      * rewrite Htot, (total_wealth_set s x _ U HS Hx). ring.
      * eapply only_wealth_changed_trans; [|exact Hframe].
        apply only_wealth_changed_set.
    + destruct (IH acc s Hincl') as (t & s1 & Eloop & Hle & Htot & Hframe).
      exists t, s1. split_all; assumption.
Qed.

Lemma distribute_loop_conserves (share : Q) (body : ref -> M unit)
  (U : list ref) :
  distributes share body -> NoDup U ->
  forall (agents : list ref) (s : Store),
    incl agents U ->
    exists s2 : Store,
      for_each agents body s = (inl tt, s2)
      /\ total_wealth s2 U
         == total_wealth s U + inject_Z (Py.len agents) * share
      /\ only_wealth_changed s s2.
Proof.
  intros Hbody HS.
  induction agents as [|x agents IH]; intros s Hincl.
  - exists s. simpl. split_all.
    + reflexivity.
    + unfold Py.len. simpl. ring.
    + apply only_wealth_changed_refl.
  - simpl. unfold bind at 1. rewrite Hbody.
    assert (Hx : In x U) by (apply Hincl; left; reflexivity).
    assert (Hincl' : incl agents U).
    { intros y Hy. apply Hincl. right. exact Hy. }
    destruct (IH (set_wealth_store s x (wealth_of s x + share)) Hincl')
      as (s2 & Eloop & Htot & Hframe).
    exists s2. split_all.
    + exact Eloop.
    + rewrite Htot, (total_wealth_set s x _ U HS Hx).
      rewrite len_cons. ring.
    + eapply only_wealth_changed_trans; [|exact Hframe].
      apply only_wealth_changed_set.
Qed.

End TaxationProofs.

Lemma len_nonneg {A} (l : list A) : 0 <= inject_Z (Py.len l).
Proof. apply inject_Z_nonneg. unfold Py.len. lia. Qed.

(** A run of [_apply_taxation], measured on any duplicate-free list [U]
    of agents that includes the population. *)
Lemma apply_taxation_run (rule : Rule.t) (agents U : list ref) (s : Store) :
  NoDup U -> incl agents U ->
  exists s' : Store,
    _apply_taxation rule agents s = (inl agents, s')
    /\ total_wealth s' U == total_wealth s U
    /\ only_wealth_changed s s'.
Proof.
  intros HU Hincl.
  unfold _apply_taxation. cbv zeta.
  set (rate := tax_rate_of (PyText.lower (Rule.effect rule))).
  set (threshold := wealth_threshold_of (PyText.lower (Rule.effect rule))).
  assert (Hrate : 0 <= rate) by apply tax_rate_of_nonneg.
  assert (Hthr : 0 <= threshold) by apply wealth_threshold_of_nonneg.
  unfold bind at 1.
  destruct (collect_loop_conserves rate threshold _ U
              (collect_body rate threshold) Hrate Hthr HU agents 0 s Hincl)
    as (t & s1 & E & Hle & Htot & Hframe).
  rewrite E. unfold bind at 1.
  destruct (Py.Qlt_bool 0 t) eqn:Ht.
  - apply Qlt_bool_iff in Ht.
    destruct agents as [|x agents].
    { simpl in E. injection E as <- _. exfalso. apply (Qlt_irrefl 0 Ht). }
    assert (Hn : ~ inject_Z (Py.len (x :: agents)) == 0).
    { rewrite len_cons. pose proof (len_nonneg agents). lra. }
    unfold bind at 1. rewrite (py_div_nonzero _ _ _ Hn).
    destruct (distribute_loop_conserves
                (t / inject_Z (Py.len (x :: agents))) _ U
                (distribute_body _) HU (x :: agents) s1 Hincl)
      as (s2 & E2 & Htot2 & Hframe2).
    rewrite E2. exists s2. split_all.
    + reflexivity.
    + rewrite Htot2.
      setoid_replace (inject_Z (Py.len (x :: agents))
                      * (t / inject_Z (Py.len (x :: agents))))
        with t by (field; exact Hn).
      rewrite Htot. ring.
    + eapply only_wealth_changed_trans; eassumption.
  - apply Qlt_bool_false_iff in Ht.
    exists s1. split_all.
    + reflexivity.
    + lra.
    + exact Hframe.
Qed.

(** C10. [_apply_taxation] conserves total wealth, in exact arithmetic:
    for every rule (in particular every passed taxation rule) and every
    population, the call returns normally, and the sum of the wealths
    over any duplicate-free list [U] of agents that includes the
    population is the same after the call as before it; for a population
    of distinct agents, this is the sum over the population itself.
    Nothing but wealths is modified. *)
Theorem taxation_conserves_total_wealth (rule : Rule.t) (agents : list ref)
  (s : Store) :
  fst (_apply_taxation rule agents s) = inl agents
  /\ (forall U : list ref,
        NoDup U -> incl agents U ->
        total_wealth (snd (_apply_taxation rule agents s)) U
        == total_wealth s U)
  /\ (NoDup agents ->
      total_wealth (snd (_apply_taxation rule agents s)) agents
      == total_wealth s agents)
  /\ only_wealth_changed s (snd (_apply_taxation rule agents s)).
Proof.
  assert (H : forall U : list ref,
             NoDup U -> incl agents U ->
             fst (_apply_taxation rule agents s) = inl agents
             /\ total_wealth (snd (_apply_taxation rule agents s)) U
                == total_wealth s U
             /\ only_wealth_changed s (snd (_apply_taxation rule agents s))).
  { intros U HU Hincl.
    destruct (apply_taxation_run rule agents U s HU Hincl)
      as (s' & E & Htot & Hframe).
    rewrite E. simpl. auto. }
  assert (H0 : NoDup (nodup Nat.eq_dec agents)) by apply NoDup_nodup.
  assert (H1 : incl agents (nodup Nat.eq_dec agents)).
  { intros x Hx. apply nodup_In. exact Hx. }
  split_all.
  - apply (H _ H0 H1).
  - intros U HU Hincl. apply (H U HU Hincl).
  - intros Hnd. apply (H agents Hnd (incl_refl agents)).
  - apply (H _ H0 H1).
Qed.

Section TaxationEffect.

Variables rate threshold : Q.
Hypothesis rate_nonneg : 0 <= rate.
Hypothesis threshold_nonneg : 0 <= threshold.

Lemma tax_due_nonneg (w : Q) : 0 <= tax_due rate threshold w.
Proof.
  unfold tax_due. destruct (Py.Qlt_bool threshold w) eqn:E.
  - apply Qlt_bool_iff in E. apply Qmult_le_0_compat; [lra|assumption].
  - apply Qle_refl.
Qed.

Lemma Qsum_tax_due_nonneg (s : Store) (agents : list ref) :
  0 <= Qsum (map (fun r => tax_due rate threshold (wealth_of s r)) agents).
Proof.
  induction agents as [|x agents IH]; simpl.
  - apply Qle_refl.
  - pose proof (tax_due_nonneg (wealth_of s x)). lra.
Qed.

(** On distinct agents, the collecting loop charges each agent once, on
    its wealth before the call. *)
Lemma collect_loop_distinct (body : ref -> Q -> M Q) :
  collects rate threshold body ->
  forall agents : list ref,
    NoDup agents ->
    forall (acc : Q) (s : Store),
    exists (total_tax : Q) (s1 : Store),
      for_acc agents acc body s = (inl total_tax, s1)
      /\ total_tax
         == acc + Qsum (map (fun r => tax_due rate threshold (wealth_of s r))
                          agents)
      /\ (forall r, In r agents ->
                    wealth_of s1 r
                    == wealth_of s r - tax_due rate threshold (wealth_of s r))
      /\ (forall r, ~ In r agents -> wealth_of s1 r = wealth_of s r)
      /\ only_wealth_changed s s1.
Proof.
  intros Hbody agents Hnd.
  induction Hnd as [|x agents Hx Hnd IH]; intros acc s.
  - exists acc, s. simpl. split_all.
    + reflexivity.
    + ring.
    + intros r [].
    + reflexivity.
    + apply only_wealth_changed_refl.
  - simpl. unfold bind at 1. rewrite Hbody. unfold tax_due at 1.
    destruct (Py.Qlt_bool threshold (wealth_of s x)) eqn:E.
    + set (sx := set_wealth_store s x (wealth_of s x - wealth_of s x * rate)).
      destruct (IH (acc + wealth_of s x * rate) sx)
        as (t & s1 & Eloop & Ht & Hin & Hout & Hframe).
      assert (Hsame : forall r, In r agents -> wealth_of sx r = wealth_of s r).
      { intros r Hr. apply wealth_of_set_other. intros ->. contradiction. }
      exists t, s1. split_all.
      * exact Eloop.
      * rewrite Ht.
        rewrite (map_ext_in
                   (fun r => tax_due rate threshold (wealth_of sx r))
                   (fun r => tax_due rate threshold (wealth_of s r))).
        { ring. }
        intros r Hr. rewrite (Hsame r Hr). reflexivity.
      * intros r [<-|Hr].
        { rewrite (Hout x Hx). unfold sx. rewrite wealth_of_set_same.
          unfold tax_due. rewrite E. reflexivity. }
        { rewrite (Hin r Hr), (Hsame r Hr). reflexivity. }
      * intros r Hr. rewrite Hout by (simpl in Hr; tauto).
        apply wealth_of_set_other. simpl in Hr. intuition congruence.
      * eapply only_wealth_changed_trans; [|exact Hframe].
        apply only_wealth_changed_set.
    + destruct (IH acc s) as (t & s1 & Eloop & Ht & Hin & Hout & Hframe).
      exists t, s1. split_all.
      * exact Eloop.
      * rewrite Ht. ring.
      * intros r [<-|Hr].
        { rewrite (Hout x Hx). unfold tax_due. rewrite E. ring. }
        { apply Hin, Hr. }
      * intros r Hr. apply Hout. simpl in Hr. tauto.
      * exact Hframe.
Qed.

(** On distinct agents, the distributing loop credits each agent once. *)
Lemma distribute_loop_distinct (share : Q) (body : ref -> M unit) :
  distributes share body ->
  forall agents : list ref,
    NoDup agents ->
    forall s : Store,
    exists s2 : Store,
      for_each agents body s = (inl tt, s2)
      /\ (forall r, In r agents -> wealth_of s2 r = wealth_of s r + share)
      /\ (forall r, ~ In r agents -> wealth_of s2 r = wealth_of s r)
      /\ only_wealth_changed s s2.
Proof.
  intros Hbody agents Hnd.
  induction Hnd as [|x agents Hx Hnd IH]; intros s.
  - exists s. simpl. split_all.
    + reflexivity.
    + intros r [].
    + reflexivity.
    + apply only_wealth_changed_refl.
  - simpl. unfold bind at 1. rewrite Hbody.
    set (sx := set_wealth_store s x (wealth_of s x + share)).
    destruct (IH sx) as (s2 & Eloop & Hin & Hout & Hframe).
    exists s2. split_all.
    + exact Eloop.
    + intros r [<-|Hr].
      * rewrite (Hout x Hx). apply wealth_of_set_same.
      * rewrite (Hin r Hr). f_equal. apply wealth_of_set_other.
        intros ->. contradiction.
    + intros r Hr. rewrite Hout by (simpl in Hr; tauto).
      apply wealth_of_set_other. simpl in Hr. intuition congruence.
    + eapply only_wealth_changed_trans; [|exact Hframe].
      apply only_wealth_changed_set.
Qed.

End TaxationEffect.

(** The effect of [_apply_taxation] on a population of distinct agents,
    for any effect text: each agent above the threshold pays its rate into
    the pool, and every agent of the population receives an equal share of
    the pool. *)
Lemma apply_taxation_effect (rule : Rule.t) (agents : list ref) (s : Store) :
  NoDup agents ->
  let rate := tax_rate_of (PyText.lower (Rule.effect rule)) in
  let threshold := wealth_threshold_of (PyText.lower (Rule.effect rule)) in
  let pool :=
    Qsum (map (fun r => tax_due rate threshold (wealth_of s r)) agents) in
  exists s' : Store,
    _apply_taxation rule agents s = (inl agents, s')
    /\ (forall r, In r agents ->
                  wealth_of s' r
                  == wealth_of s r - tax_due rate threshold (wealth_of s r)
                     + pool / inject_Z (Py.len agents))
    /\ (forall r, ~ In r agents -> wealth_of s' r = wealth_of s r)
    /\ only_wealth_changed s s'.
Proof.
  intros Hnd rate threshold pool.
  assert (Hrate : 0 <= rate) by apply tax_rate_of_nonneg.
  assert (Hthr : 0 <= threshold) by apply wealth_threshold_of_nonneg.
  assert (Hpool : 0 <= pool) by (apply Qsum_tax_due_nonneg; assumption).
  unfold _apply_taxation. cbv zeta. fold rate. fold threshold.
  unfold bind at 1.
  destruct (collect_loop_distinct rate threshold _
              (collect_body rate threshold) agents Hnd 0 s)
    as (t & s1 & E & Ht & Hin & Hout & Hframe).
  rewrite E. fold pool in Ht. unfold bind at 1.
  destruct (Py.Qlt_bool 0 t) eqn:Hpos.
  - apply Qlt_bool_iff in Hpos.
    destruct agents as [|x agents].
    { simpl in E. injection E as <- _. exfalso. apply (Qlt_irrefl 0 Hpos). }
    assert (Hn : ~ inject_Z (Py.len (x :: agents)) == 0).
    { rewrite len_cons. pose proof (len_nonneg agents). lra. }
    unfold bind at 1. rewrite (py_div_nonzero _ _ _ Hn).
    destruct (distribute_loop_distinct
                (t / inject_Z (Py.len (x :: agents))) _
                (distribute_body _) (x :: agents) Hnd s1)
      as (s2 & E2 & Hin2 & Hout2 & Hframe2).
    rewrite E2. exists s2. split_all.
    + reflexivity.
    + intros r Hr. rewrite (Hin2 r Hr), (Hin r Hr), Ht.
      setoid_replace (0 + pool) with pool by ring. reflexivity.
    + intros r Hr. rewrite (Hout2 r Hr). apply Hout, Hr.
    + eapply only_wealth_changed_trans; eassumption.
  - apply Qlt_bool_false_iff in Hpos.
    exists s1. split_all.
    + reflexivity.
    + intros r Hr. rewrite (Hin r Hr).
      assert (Hzero : pool == 0) by lra.
      rewrite Hzero. unfold Qdiv. ring.
    + exact Hout.
    + exact Hframe.
Qed.

(** C2. When the lower-cased effect text holds no percentage and no
    threshold, [_apply_taxation] uses the rate 10% and the threshold 0: on
    a population of distinct agents it returns normally, every agent
    with wealth strictly above 0 pays a tenth of its wealth into the
    pool, and every agent of the population, payers included, receives an
    equal share of the pool; agents outside the population and all fields
    other than wealth are untouched.  On four agents with wealths 1000,
    0, 0, 0 the final wealths are 925, 25, 25, 25, with the default text
    as with a text that spells out the rate 10% and the threshold 0. *)
Theorem taxation_default_rate_and_threshold (rule : Rule.t)
  (agents : list ref) (s : Store) :
  let effect := PyText.lower (Rule.effect rule) in
  let pool := Qsum (map (fun r => tax_due (1 # 10) 0 (wealth_of s r)) agents) in
  (PyText.re_search PyText.match_rate_at effect = None ->
   PyText.re_search PyText.match_threshold_at effect = None ->
   NoDup agents ->
   tax_rate_of effect = 1 # 10
   /\ wealth_threshold_of effect = 0
   /\ exists s' : Store,
       _apply_taxation rule agents s = (inl agents, s')
       /\ (forall r, In r agents ->
                     wealth_of s' r
                     == wealth_of s r - tax_due (1 # 10) 0 (wealth_of s r)
                        + pool / inject_Z (Py.len agents))
       /\ (forall r, ~ In r agents -> wealth_of s' r = wealth_of s r)
       /\ only_wealth_changed s s')
  /\ (let run :=
        _apply_taxation
          (example_rule TAXATION "Every agent pays a tax into a common pool" true)
          [0; 1; 2; 3]%nat store_1000 in
      fst run = inl [0; 1; 2; 3]%nat
      /\ Forall2 Qeq (map (wealth_of (snd run)) [0; 1; 2; 3]%nat)
           [925; 25; 25; 25])
  /\ (let run :=
        _apply_taxation
          (example_rule TAXATION
             "Agents with wealth > 0 pay 10% to a common pool distributed equally"
             true)
          [0; 1; 2; 3]%nat store_1000 in
      fst run = inl [0; 1; 2; 3]%nat
      /\ Forall2 Qeq (map (wealth_of (snd run)) [0; 1; 2; 3]%nat)
           [925; 25; 25; 25]).
Proof.
  intros effect pool. split; [|split].
  - intros Hrate Hthr Hnd.
    assert (Er : tax_rate_of effect = 1 # 10).
    { unfold tax_rate_of. rewrite Hrate. reflexivity. }
    assert (Et : wealth_threshold_of effect = 0).
    { unfold wealth_threshold_of. rewrite Hthr. reflexivity. }
    split_all; [exact Er|exact Et|].
    pose proof (apply_taxation_effect rule agents s Hnd) as H.
    cbv zeta in H. fold effect in H. rewrite Er, Et in H. exact H.
  - cbv zeta. split; [vm_compute; reflexivity|].
    repeat constructor; vm_compute; reflexivity.
  - cbv zeta. split; [vm_compute; reflexivity|].
    repeat constructor; vm_compute; reflexivity.
Qed.

(** ** Proofs: governance.py, welfare *)

Lemma py_min_le_l (a b : Q) : Py.min a b <= a.
Proof.
  unfold Py.min. destruct (Py.Qlt_bool b a) eqn:E.
  - apply Qlt_bool_iff in E. lra.
  - apply Qle_refl.
Qed.

Lemma py_min_le_r (a b : Q) : Py.min a b <= b.
Proof.
  unfold Py.min. destruct (Py.Qlt_bool b a) eqn:E.
  - apply Qle_refl.
  - apply Qlt_bool_false_iff in E. exact E.
Qed.

Lemma py_min_pos (a b : Q) : 0 < a -> 0 < b -> 0 < Py.min a b.
Proof. intros Ha Hb. unfold Py.min. destruct (Py.Qlt_bool b a); assumption. Qed.

Lemma py_min_l (a b : Q) : a <= b -> Py.min a b = a.
Proof.
  intros H. unfold Py.min. destruct (Py.Qlt_bool b a) eqn:E; [|reflexivity].
  apply Qlt_bool_iff in E. lra.
Qed.

Lemma py_max_0_nonneg (x : Q) : 0 <= Py.max 0 x.
Proof.
  unfold Py.max. destruct (Py.Qlt_bool 0 x) eqn:E.
  - apply Qlt_bool_iff in E. lra.
  - apply Qle_refl.
Qed.

Lemma py_max_0_pos (x : Q) : 0 < x -> 0 < Py.max 0 x.
Proof.
  intros H. unfold Py.max.
  destruct (Py.Qlt_bool 0 x) eqn:E; [exact H|].
  apply Qlt_bool_false_iff in E. lra.
Qed.

Lemma Qsum_nonneg (l : list Q) : Forall (fun x => 0 <= x) l -> 0 <= Qsum l.
Proof.
  induction 1 as [|x l Hx _ IH]; simpl; [apply Qle_refl|lra].
Qed.

Lemma Qsum_pos (l : list Q) (x : Q) :
  Forall (fun y => 0 <= y) l -> In x l -> 0 < x -> 0 < Qsum l.
Proof.
  induction 1 as [|y l Hy Hl IH]; intros Hin Hx.
  - contradiction.
  - simpl. pose proof (Qsum_nonneg l Hl). destruct Hin as [->|Hin].
    + lra.
    + specialize (IH Hin Hx). lra.
Qed.

Lemma Qsum_map_le_const {A} (f : A -> Q) (l : list A) (c : Q) :
  (forall x, In x l -> f x <= c) ->
  Qsum (map f l) <= inject_Z (Py.len l) * c.
Proof.
  induction l as [|x l IH]; intros H.
  - change (inject_Z (Py.len (@nil A))) with 0. cbn [Qsum map]. lra.
  - rewrite len_cons. cbn [Qsum map].
    assert (f x <= c) by (apply H; left; reflexivity).
    assert (Qsum (map f l) <= inject_Z (Py.len l) * c).
    { apply IH. intros y Hy. apply H. right. exact Hy. }
    lra.
Qed.

Lemma Qsum_map_eq_const {A} (f : A -> Q) (l : list A) (c : Q) :
  (forall x, In x l -> f x == c) ->
  Qsum (map f l) == inject_Z (Py.len l) * c.
Proof.
  induction l as [|x l IH]; intros H.
  - change (inject_Z (Py.len (@nil A))) with 0. cbn [Qsum map]. lra.
  - rewrite len_cons. cbn [Qsum map].
    assert (f x == c) by (apply H; left; reflexivity).
    assert (Qsum (map f l) == inject_Z (Py.len l) * c).
    { apply IH. intros y Hy. apply H. right. exact Hy. }
    lra.
Qed.

(** A loop that rewrites wealths, run on distinct agents, rewrites the
    wealth of each agent of the list once. *)
Lemma for_each_distinct (g : Q -> Q) (body : ref -> M unit) :
  rewrites_wealth g body ->
  forall l : list ref,
    NoDup l ->
    forall s : Store,
    exists s2 : Store,
      for_each l body s = (inl tt, s2)
      /\ (forall r, In r l -> wealth_of s2 r = g (wealth_of s r))
      /\ (forall r, ~ In r l -> wealth_of s2 r = wealth_of s r)
      /\ only_wealth_changed s s2.
Proof.
  intros Hbody l Hnd.
  induction Hnd as [|x l Hx Hnd IH]; intros s.
  - exists s. simpl. split_all.
    + reflexivity.
    + intros r [].
    + reflexivity.
    + apply only_wealth_changed_refl.
  - simpl. unfold bind at 1.
    destruct (Hbody x s) as (sx & Ex & Hsame & Hother & Hfx).
    rewrite Ex.
    destruct (IH sx) as (s2 & Eloop & Hin & Hout & Hframe).
    exists s2. split_all.
    + exact Eloop.
    + intros r [<-|Hr].
      * rewrite (Hout x Hx). exact Hsame.
      * rewrite (Hin r Hr). f_equal. apply Hother. intros ->. contradiction.
    + intros r Hr. rewrite Hout by (simpl in Hr; tauto).
      apply Hother. simpl in Hr. intuition congruence.
    + eapply only_wealth_changed_trans; eassumption.
Qed.

Lemma contribute_body (contribution_per : Q) :
  rewrites_wealth
    (fun w => w - Py.min contribution_per (w * (1 # 10)))
    (fun agent =>
       a <- read agent ;;
       set_wealth agent
         (CivilizationAgent.wealth a
          - Py.min contribution_per (CivilizationAgent.wealth a * (1 # 10)))).
Proof.
  intros x s. eexists. split_all.
  - reflexivity.
  - apply wealth_of_set_same.
  - intros r Hr. apply wealth_of_set_other, Hr.
  - apply only_wealth_changed_set.
Qed.

Lemma raise_body (min_wealth : Q) :
  rewrites_wealth
    (fun w => if Py.Qlt_bool w min_wealth then min_wealth else w)
    (fun agent =>
       a <- read agent ;;
       if Py.Qlt_bool (CivilizationAgent.wealth a) min_wealth
       then set_wealth agent min_wealth
       else ret tt).
Proof.
  intros x s. unfold bind, read. fold (wealth_of s x).
  destruct (Py.Qlt_bool (wealth_of s x) min_wealth).
  - eexists. split_all.
    + reflexivity.
    + apply wealth_of_set_same.
    + intros r Hr. apply wealth_of_set_other, Hr.
    + apply only_wealth_changed_set.
  - exists s. split_all.
    + reflexivity.
    + reflexivity.
    + reflexivity.
    + apply only_wealth_changed_refl.
Qed.

Lemma min_wealth_of_nonneg (effect : string) : 0 <= min_wealth_of effect.
Proof.
  unfold min_wealth_of.
  destruct (PyText.re_search PyText.match_minimum_at effect) as [g|].
  - apply inject_Z_nonneg, int_nonneg.
  - discriminate.
Qed.

(** The effect of [_apply_welfare] on a population of distinct agents of
    which at least one is below the floor. *)
Lemma apply_welfare_effect (rule : Rule.t) (agents : list ref) (s : Store) :
  NoDup agents ->
  let min_wealth := min_wealth_of (PyText.lower (Rule.effect rule)) in
  let total_needed :=
    Py.sum (map (fun a => Py.max 0 (min_wealth - wealth_of s a)) agents) in
  let wealthy :=
    filter (fun a => Py.Qlt_bool (min_wealth * 2) (wealth_of s a)) agents in
  let contribution_per := total_needed / inject_Z (Py.len wealthy) in
  (exists r, In r agents /\ wealth_of s r < min_wealth) ->
  exists s' : Store,
    _apply_welfare rule agents s = (inl agents, s')
    /\ (forall r, In r agents -> wealth_of s r < min_wealth ->
                  wealth_of s' r = min_wealth)
    /\ (forall r, In r agents -> min_wealth * 2 < wealth_of s r ->
                  wealth_of s' r
                  = wealth_of s r
                    - Py.min contribution_per (wealth_of s r * (1 # 10)))
    /\ (forall r, In r agents ->
                  min_wealth <= wealth_of s r -> wealth_of s r <= min_wealth * 2 ->
                  wealth_of s' r = wealth_of s r)
    /\ (forall r, ~ In r agents -> wealth_of s' r = wealth_of s r)
    /\ only_wealth_changed s s'.
Proof.
  intros Hnd min_wealth total_needed wealthy contribution_per [poor [Hpoor Hlt]].
  assert (Hfloor : 0 <= min_wealth) by apply min_wealth_of_nonneg.
  assert (Hneeded : 0 < total_needed).
  { unfold total_needed. rewrite Py_sum_Qsum.
    apply (Qsum_pos _ (Py.max 0 (min_wealth - wealth_of s poor))).
    - apply Forall_forall. intros x Hx. apply in_map_iff in Hx.
      destruct Hx as [r [<- _]]. apply py_max_0_nonneg.
    - apply in_map_iff. exists poor. auto.
    - apply py_max_0_pos. lra. }
  assert (Hwealthy : forall r, In r wealthy
                               <-> In r agents /\ min_wealth * 2 < wealth_of s r).
  { intros r. unfold wealthy. rewrite filter_In, Qlt_bool_iff. reflexivity. }
  assert (Hndw : NoDup wealthy) by (apply NoDup_filter, Hnd).
  (* the contributions *)
  assert (Hmid :
    exists s1 : Store,
      (match wealthy with
       | _ :: _ =>
           contribution_per <- py_div total_needed (inject_Z (Py.len wealthy)) ;;
           for_each wealthy
             (fun agent =>
                a <- read agent ;;
                set_wealth agent
                  (CivilizationAgent.wealth a
                   - Py.min contribution_per
                       (CivilizationAgent.wealth a * (1 # 10))))
       | [] => ret tt
       end) s = (inl tt, s1)
      /\ (forall r, In r wealthy ->
                    wealth_of s1 r
                    = wealth_of s r
                      - Py.min contribution_per (wealth_of s r * (1 # 10)))
      /\ (forall r, ~ In r wealthy -> wealth_of s1 r = wealth_of s r)
      /\ only_wealth_changed s s1).
  { destruct wealthy as [|w0 ws] eqn:Ew.
    - exists s. split_all.
      + reflexivity.
      + intros r [].
      + reflexivity.
      + apply only_wealth_changed_refl.
    - assert (Hn : ~ inject_Z (Py.len (w0 :: ws)) == 0).
      { rewrite len_cons. pose proof (len_nonneg ws). lra. }
      unfold bind at 1. rewrite (py_div_nonzero _ _ _ Hn).
      destruct (for_each_distinct _ _ (contribute_body contribution_per)
                  (w0 :: ws) Hndw s)
        as (s1 & E1 & Hin1 & Hout1 & Hframe1).
      exists s1. split_all; assumption. }
  destruct Hmid as (s1 & E1 & Hin1 & Hout1 & Hframe1).
  destruct (for_each_distinct _ _ (raise_body min_wealth) agents Hnd s1)
    as (s2 & E2 & Hin2 & Hout2 & Hframe2).
  exists s2. split_all.
  - unfold _apply_welfare. cbv zeta.
    unfold bind at 1. unfold get_store at 1.
    fold min_wealth. fold total_needed. fold wealthy.
    apply Qlt_bool_iff in Hneeded. rewrite Hneeded.
    unfold bind at 1. unfold bind at 1.
    rewrite E1, E2. reflexivity.
  - intros r Hr Hlow. rewrite (Hin2 r Hr).
    rewrite Hout1 by (rewrite Hwealthy; intros [_ H]; lra).
    apply Qlt_bool_iff in Hlow. rewrite Hlow. reflexivity.
  - intros r Hr Hhigh. rewrite (Hin2 r Hr).
    rewrite Hin1 by (apply Hwealthy; auto).
    pose proof (py_min_le_r contribution_per (wealth_of s r * (1 # 10))).
    rewrite (proj2 (Qlt_bool_false_iff _ _)); [reflexivity|]. lra.
  - intros r Hr Hlo Hhi. rewrite (Hin2 r Hr).
    rewrite Hout1 by (rewrite Hwealthy; intros [_ H]; lra).
    rewrite (proj2 (Qlt_bool_false_iff _ _)); [reflexivity|]. exact Hlo.
  - intros r Hr. rewrite (Hout2 r Hr). apply Hout1.
    rewrite Hwealthy. tauto.
  - eapply only_wealth_changed_trans; eassumption.
Qed.

(** C8, amended.  The floor of [_apply_welfare] is 20 when the
    lower-cased effect text gives no minimum.  On a population of distinct
    agents of which at least one is below the floor, and for a floor
    written with at most 308 digits, the call returns normally and: every
    agent whose wealth was below the floor ends exactly at the floor; the
    agents whose wealth decreases are exactly those whose wealth was
    strictly above twice the floor, each giving the smaller of the equal
    share [contribution_per] and 10% of its own wealth, hence at most 10%
    of its wealth; the equal shares add up to the total shortfall, so the
    total contribution never exceeds the total shortfall.  It equals the
    shortfall when no contributor is limited by its 10%, and not in
    general. *)
Theorem welfare_floor_and_contributions (rule : Rule.t) (agents : list ref)
  (s : Store) :
  let min_wealth := min_wealth_of (PyText.lower (Rule.effect rule)) in
  let total_needed :=
    Py.sum (map (fun a => Py.max 0 (min_wealth - wealth_of s a)) agents) in
  let wealthy :=
    filter (fun a => Py.Qlt_bool (min_wealth * 2) (wealth_of s a)) agents in
  let contribution_per := total_needed / inject_Z (Py.len wealthy) in
  (PyText.re_search PyText.match_minimum_at (PyText.lower (Rule.effect rule))
   = None ->
   min_wealth = 20)
  /\ (NoDup agents ->
      PyText.short_number
        (PyText.re_search PyText.match_minimum_at
           (PyText.lower (Rule.effect rule))) = true ->
      (exists r, In r agents /\ wealth_of s r < min_wealth) ->
      exists s' : Store,
        let contribution r := wealth_of s r - wealth_of s' r in
        _apply_welfare rule agents s = (inl agents, s')
        /\ (forall r, In r agents -> wealth_of s r < min_wealth ->
                      wealth_of s' r = min_wealth)
        /\ (forall r, In r agents ->
                      (0 < contribution r <-> min_wealth * 2 < wealth_of s r))
        /\ (forall r, In r agents -> min_wealth * 2 < wealth_of s r ->
                      contribution r
                      == Py.min contribution_per (wealth_of s r * (1 # 10))
                      /\ contribution r <= (1 # 10) * wealth_of s r
                      /\ contribution r <= contribution_per)
        /\ (wealthy <> [] ->
            inject_Z (Py.len wealthy) * contribution_per == total_needed)
        /\ Qsum (map contribution wealthy) <= total_needed
        /\ (wealthy <> [] ->
            (forall r, In r wealthy ->
                       contribution_per <= wealth_of s r * (1 # 10)) ->
            Qsum (map contribution wealthy) == total_needed)
        /\ (forall r, ~ In r agents -> wealth_of s' r = wealth_of s r)
        /\ only_wealth_changed s s').
Proof.
  intros min_wealth total_needed wealthy contribution_per. split.
  { intros H. unfold min_wealth, min_wealth_of. rewrite H. reflexivity. }
  intros Hnd _ Hpoor.
  destruct (apply_welfare_effect rule agents s Hnd Hpoor)
    as (s' & Erun & Hlow & Hhigh & Hmid & Hout & Hframe).
  fold min_wealth in Hlow, Hhigh, Hmid.
  fold total_needed in Hhigh. fold wealthy in Hhigh.
  fold contribution_per in Hhigh.
  assert (Hfloor : 0 <= min_wealth) by apply min_wealth_of_nonneg.
  assert (Hneeded : 0 < total_needed).
  { destruct Hpoor as [poor [Hin Hlt]].
    unfold total_needed. rewrite Py_sum_Qsum.
    apply (Qsum_pos _ (Py.max 0 (min_wealth - wealth_of s poor))).
    - apply Forall_forall. intros x Hx. apply in_map_iff in Hx.
      destruct Hx as [r [<- _]]. apply py_max_0_nonneg.
    - apply in_map_iff. exists poor. auto.
    - apply py_max_0_pos. lra. }
  assert (Hwealthy : forall r, In r wealthy
                               <-> In r agents /\ min_wealth * 2 < wealth_of s r).
  { intros r. unfold wealthy. rewrite filter_In, Qlt_bool_iff. reflexivity. }
  assert (Hlen : wealthy <> [] -> 0 < inject_Z (Py.len wealthy)).
  { destruct wealthy as [|w0 ws]; [congruence|]. intros _.
    rewrite len_cons. pose proof (len_nonneg ws). lra. }
  assert (Hcap : wealthy <> [] ->
                 inject_Z (Py.len wealthy) * contribution_per == total_needed).
  { intros Hne. specialize (Hlen Hne). unfold contribution_per. field. lra. }
  assert (Hper : wealthy <> [] -> 0 < contribution_per).
  { intros Hne. specialize (Hlen Hne). unfold contribution_per.
    apply Qlt_shift_div_l; lra. }
  exists s'. cbv zeta. split_all.
  - exact Erun.
  - exact Hlow.
  - intros r Hr. split.
    + intros Hpos.
      destruct (Qlt_le_dec (min_wealth * 2) (wealth_of s r)) as [|Hle];
        [assumption|].
      destruct (Qlt_le_dec (wealth_of s r) min_wealth) as [Hl|Hge].
      * rewrite (Hlow r Hr Hl) in Hpos. lra.
      * rewrite (Hmid r Hr Hge Hle) in Hpos. lra.
    + intros Hgt. rewrite (Hhigh r Hr Hgt).
      assert (Hne : wealthy <> []).
      { intros E. assert (Hin : In r wealthy) by (apply Hwealthy; auto).
        rewrite E in Hin. exact Hin. }
      pose proof (py_min_pos contribution_per (wealth_of s r * (1 # 10))
                    (Hper Hne)).
      lra.
  - intros r Hr Hgt. rewrite (Hhigh r Hr Hgt).
    pose proof (py_min_le_r contribution_per (wealth_of s r * (1 # 10))).
    pose proof (py_min_le_l contribution_per (wealth_of s r * (1 # 10))).
    split_all; [ring|lra|lra].
  - exact Hcap.
  - destruct (list_eq_dec Nat.eq_dec wealthy []) as [E|Hne].
    + rewrite E. simpl. lra.
    + rewrite <- (Hcap Hne). apply Qsum_map_le_const.
      intros r Hr. apply Hwealthy in Hr. destruct Hr as [Hr Hgt].
      rewrite (Hhigh r Hr Hgt).
      pose proof (py_min_le_l contribution_per (wealth_of s r * (1 # 10))). lra.
  - intros Hne Hfree. rewrite <- (Hcap Hne). apply Qsum_map_eq_const.
    intros r Hr. pose proof (Hfree r Hr) as Hle.
    apply Hwealthy in Hr. destruct Hr as [Hr Hgt].
    rewrite (Hhigh r Hr Hgt), (py_min_l _ _ Hle). ring.
  - exact Hout.
  - exact Hframe.
Qed.

(** The total contribution does not match the total shortfall in
    general: the 10% limit can leave the floor under-funded.  With
    wealths 50 and 0 and the default floor 20, the call returns normally,
    the shortfall is 20 and the only agent above twice the floor is the
    first; its equal share is 20 but it gives 5, a tenth of its wealth,
    and ends at 45.  The poor agent is raised to 20 all the same, so the
    total contribution, 5, is not the total shortfall, 20. *)
Lemma welfare_underfunded_example :
  let rule := example_rule WELFARE "A welfare guarantee for every agent" true in
  let agents := [0; 1]%nat in
  let min_wealth := min_wealth_of (PyText.lower (Rule.effect rule)) in
  let total_needed :=
    Py.sum (map (fun a => Py.max 0 (min_wealth - wealth_of store_50 a))
              agents) in
  let wealthy :=
    filter (fun a => Py.Qlt_bool (min_wealth * 2) (wealth_of store_50 a))
      agents in
  let s' := snd (_apply_welfare rule agents store_50) in
  let contribution r := wealth_of store_50 r - wealth_of s' r in
  fst (_apply_welfare rule agents store_50) = inl agents
  /\ min_wealth = 20
  /\ wealth_of store_50 1%nat < min_wealth
  /\ wealthy = [0%nat]
  /\ total_needed == 20
  /\ Forall2 Qeq (map (wealth_of s') agents) [45; 20]
  /\ Qsum (map contribution wealthy) == 5
  /\ ~ Qsum (map contribution wealthy) == total_needed.
Proof.
  cbv zeta. split; [reflexivity|]. split; [reflexivity|].
  split; [reflexivity|]. split; [reflexivity|].
  split; [vm_compute; reflexivity|].
  split; [repeat constructor; vm_compute; reflexivity|].
  split; [vm_compute; reflexivity|].
  intros H. vm_compute in H. discriminate H.
Qed.

(** ** Proofs: society_metrics.py, the category counter *)

Lemma dict_get_set_same {V} (d : Py.dict V) (k : string) (v : V) :
  Py.dict_get (Py.dict_set d k v) k = Some v.
Proof.
  induction d as [|[k0 v0] d IH]; simpl.
  - rewrite String.eqb_refl. reflexivity.
  - destruct (String.eqb_spec k0 k) as [->|Hne]; simpl.
    + rewrite String.eqb_refl. reflexivity.
    + destruct (String.eqb_spec k0 k); [contradiction|exact IH].
Qed.

Lemma dict_get_set_other {V} (d : Py.dict V) (k k' : string) (v : V) :
  k' <> k -> Py.dict_get (Py.dict_set d k v) k' = Py.dict_get d k'.
Proof.
  intros Hne. induction d as [|[k0 v0] d IH]; simpl.
  - destruct (String.eqb_spec k k'); [congruence|reflexivity].
  - destruct (String.eqb_spec k0 k) as [->|Hne0]; simpl.
    + destruct (String.eqb_spec k k'); [congruence|reflexivity].
    + destruct (String.eqb_spec k0 k'); [reflexivity|exact IH].
Qed.

Lemma dict_get_None {V} (d : Py.dict V) (k : string) :
  Py.dict_get d k = None <-> ~ In k (Py.keys d).
Proof.
  induction d as [|[k0 v0] d IH]; simpl.
  - tauto.
  - destruct (String.eqb_spec k0 k) as [->|Hne].
    + split; [discriminate|]. intros H. exfalso. apply H. left. reflexivity.
    + rewrite IH. tauto.
Qed.

Lemma dict_set_NoDup {V} (d : Py.dict V) (k : string) (v : V) :
  NoDup (Py.keys d) -> NoDup (Py.keys (Py.dict_set d k v)).
Proof.
  induction d as [|[k0 v0] d IH]; simpl; intros Hnd.
  - constructor; [intros []|constructor].
  - inversion Hnd as [|? ? Hnotin Hnd']; subst.
    destruct (String.eqb_spec k0 k) as [->|Hne]; simpl.
    + constructor; assumption.
    + constructor; [|apply IH, Hnd'].
      rewrite dict_set_keys_In. intros [H|H]; [congruence|contradiction].
Qed.

Lemma dict_In_get {V} (d : Py.dict V) (k : string) (v : V) :
  NoDup (Py.keys d) -> In (k, v) d -> Py.dict_get d k = Some v.
Proof.
  induction d as [|[k0 v0] d IH]; simpl; intros Hnd Hin.
  - contradiction.
  - inversion Hnd as [|? ? Hnotin Hnd']; subst.
    destruct Hin as [E|Hin].
    + injection E as -> ->. rewrite String.eqb_refl. reflexivity.
    + destruct (String.eqb_spec k0 k) as [->|Hne].
      * exfalso. apply Hnotin. apply (in_map fst) in Hin. exact Hin.
      * apply IH; assumption.
Qed.

Lemma Counter_fold (xs : list string) : Py.Counter xs = fold_left count_one xs [].
Proof. reflexivity. Qed.

(** After counting [xs] on top of [d], each key holds its former count
    plus its number of occurrences in [xs]. *)
Lemma count_fold_get (xs : list string) :
  forall (d : Py.dict Z) (k : string),
    Py.dict_get (fold_left count_one xs d) k
    = match Py.dict_get d k with
      | Some n => Some (n + Z.of_nat (count_occ string_dec xs k))%Z
      | None =>
          match count_occ string_dec xs k with
          | O => None
          | S m => Some (Z.of_nat (S m))
          end
      end.
Proof.
  induction xs as [|x xs IH]; intros d k.
  - simpl. destruct (Py.dict_get d k); [f_equal; lia|reflexivity].
  - cbn [fold_left]. rewrite IH. unfold count_one.
    destruct (string_dec x k) as [->|Hne].
    + rewrite dict_get_set_same, count_occ_cons_eq by reflexivity.
      destruct (Py.dict_get d k); cbv beta iota; f_equal; lia.
    + rewrite dict_get_set_other by congruence.
      rewrite count_occ_cons_neq by exact Hne. reflexivity.
Qed.

Lemma count_fold_NoDup (xs : list string) :
  forall d : Py.dict Z,
    NoDup (Py.keys d) -> NoDup (Py.keys (fold_left count_one xs d)).
Proof.
  induction xs as [|x xs IH]; intros d Hnd; simpl.
  - exact Hnd.
  - apply IH. apply dict_set_NoDup, Hnd.
Qed.

Lemma Counter_get (xs : list string) (k : string) :
  Py.dict_get (Py.Counter xs) k
  = match count_occ string_dec xs k with
    | O => None
    | S m => Some (Z.of_nat (S m))
    end.
Proof. rewrite Counter_fold, count_fold_get. reflexivity. Qed.

Lemma Counter_NoDup (xs : list string) : NoDup (Py.keys (Py.Counter xs)).
Proof. rewrite Counter_fold. apply count_fold_NoDup. constructor. Qed.

Lemma Counter_keys_In (xs : list string) (k : string) :
  In k (Py.keys (Py.Counter xs)) <-> In k xs.
Proof.
  rewrite (count_occ_In string_dec xs k).
  destruct (in_dec string_dec k (Py.keys (Py.Counter xs))) as [Hin|Hnotin].
  - split; [intros _|auto].
    destruct (count_occ string_dec xs k) eqn:E; [|lia].
    exfalso. apply (proj1 (dict_get_None (Py.Counter xs) k)); [|exact Hin].
    rewrite Counter_get, E. reflexivity.
  - split; [contradiction|]. intros Hpos. exfalso.
    apply dict_get_None in Hnotin. rewrite Counter_get in Hnotin.
    destruct (count_occ string_dec xs k); [lia|discriminate].
Qed.

Lemma Counter_values (xs : list string) (v : Z) :
  In v (Py.values (Py.Counter xs)) ->
  exists k, In k xs /\ v = Z.of_nat (count_occ string_dec xs k).
Proof.
  intros Hin. apply in_map_iff in Hin. destruct Hin as [[k v'] [E Hin]].
  simpl in E. subst v'. exists k.
  pose proof (dict_In_get _ _ _ (Counter_NoDup xs) Hin) as Hget.
  rewrite Counter_get in Hget.
  destruct (count_occ string_dec xs k) eqn:Ec; [discriminate|].
  injection Hget as <-. split; [|reflexivity].
  apply (count_occ_In string_dec). lia.
Qed.

(** Counting [n + 1] copies of one string. *)
Lemma Counter_repeat (k : string) (n : nat) :
  Py.Counter (repeat k (S n)) = [(k, Z.of_nat (S n))].
Proof.
  rewrite Counter_fold. cbn [repeat fold_left].
  unfold count_one at 2. cbn [Py.dict_get Py.dict_set].
  assert (H : forall m z, fold_left count_one (repeat k m) [(k, z)]
                          = [(k, (z + Z.of_nat m)%Z)]).
  { induction m as [|m IH]; intros z.
    - simpl. f_equal. f_equal. lia.
    - cbn [repeat fold_left]. unfold count_one at 2.
      cbn [Py.dict_get Py.dict_set]. rewrite String.eqb_refl.
      rewrite IH. f_equal. f_equal. lia. }
  rewrite H. f_equal. f_equal. lia.
Qed.

(** ** Proofs: society_metrics.py, governance entropy *)

Section EntropyProofs.

Local Open Scope R_scope.

Lemma log_guard_pos : 0 < log_guard.
Proof. unfold log_guard. apply Rinv_0_lt_compat, pow_lt. lra. Qed.

Lemma log_guard_small : 7 * log_guard < 1.
Proof.
  unfold log_guard. apply (Rmult_lt_reg_r (10 ^ 10)); [apply pow_lt; lra|].
  rewrite Rmult_assoc, Rinv_l by (apply pow_nonzero; lra).
  simpl. lra.
Qed.

Lemma ln_1p_bounds (x : R) : 0 < x -> 0 < ln (1 + x) < x.
Proof.
  intros Hx. split.
  - rewrite <- ln_1. apply ln_increasing; lra.
  - rewrite <- (ln_exp x) at 2. apply ln_increasing; [lra|].
    apply exp_ineq1. lra.
Qed.

Lemma ln_7_gt_1 : 1 < ln 7.
Proof.
  rewrite <- (ln_exp 1) at 1. apply ln_increasing; [apply exp_pos|].
  pose proof exp_le_3. lra.
Qed.

Lemma fold_left_Rplus (xs : list R) (a : R) :
  fold_left Rplus xs a = a + fold_left Rplus xs 0.
Proof.
  revert a. induction xs as [|y xs IH]; intros a; cbn [fold_left].
  - ring.
  - rewrite (IH (a + y)), (IH (0 + y)). ring.
Qed.

Lemma sumR_cons (x : R) (xs : list R) : sumR (x :: xs) = x + sumR xs.
Proof.
  unfold sumR. cbn [fold_left]. rewrite fold_left_Rplus. ring.
Qed.

Lemma sumR_repeat (x : R) (n : nat) : sumR (repeat x n) = INR n * x.
Proof.
  induction n as [|n IH].
  - unfold sumR. simpl. ring.
  - cbn [repeat]. rewrite sumR_cons, IH, S_INR. ring.
Qed.

Lemma sumZ_repeat (z : Z) (n : nat) :
  Py.sumZ (repeat z n) = (Z.of_nat n * z)%Z.
Proof.
  unfold Py.sumZ.
  assert (H : forall a, fold_left Z.add (repeat z n) a
                        = (a + Z.of_nat n * z)%Z).
  { induction n as [|n IH]; intros a; cbn [repeat fold_left].
    - lia.
    - rewrite IH. lia. }
  rewrite H. lia.
Qed.

(** The value computed when some rule passed. *)
Lemma entropy_of_counts (rules : list Rule.t) :
  filter Rule.passed rules <> [] ->
  let counts := Py.values (Py.Counter (passed_categories rules)) in
  let total := Py.sumZ counts in
  compute_governance_entropy rules
  = - sumR (map (fun p => p * ln (p + log_guard))
                (map (fun c => IZR c / IZR total) counts))
    / ln 7.
Proof.
  intros Hne. unfold compute_governance_entropy, passed_categories.
  destruct (filter Rule.passed rules) as [|r0 rs]; [congruence|].
  reflexivity.
Qed.

(** When the counter holds [n] entries, each equal to [z > 0]. *)
Lemma entropy_of_even_counts (rules : list Rule.t) (n : nat) (z : Z) :
  filter Rule.passed rules <> [] ->
  Py.values (Py.Counter (passed_categories rules)) = repeat z (S n) ->
  (0 < z)%Z ->
  compute_governance_entropy rules
  = - ln (/ INR (S n) + log_guard) / ln 7.
Proof.
  intros Hne Hvalues Hz.
  rewrite (entropy_of_counts rules Hne). cbv zeta.
  rewrite Hvalues, !map_repeat, sumR_repeat, sumZ_repeat.
  rewrite mult_IZR, <- INR_IZR_INZ.
  assert (HS : INR (S n) <> 0) by (apply not_0_INR; discriminate).
  assert (Hz' : IZR z <> 0) by (apply not_0_IZR; lia).
  replace (IZR z / (INR (S n) * IZR z)) with (/ INR (S n)) by (field; auto).
  f_equal. field. exact HS.
Qed.

Lemma RuleCategory_value_inj (c1 c2 : RuleCategory) :
  RuleCategory_value c1 = RuleCategory_value c2 -> c1 = c2.
Proof. destruct c1, c2; simpl; intros H; try reflexivity; discriminate. Qed.

Lemma RuleCategory_members_all (c : RuleCategory) : In c RuleCategory_members.
Proof. destruct c; simpl; tauto. Qed.

Lemma RuleCategory_values_NoDup :
  NoDup (map RuleCategory_value RuleCategory_members).
Proof.
  simpl. repeat constructor; simpl; intuition discriminate.
Qed.

Lemma passed_categories_map (rules : list Rule.t) :
  passed_categories rules
  = map RuleCategory_value (map Rule.category (filter Rule.passed rules)).
Proof. unfold passed_categories. rewrite map_map. reflexivity. Qed.

Lemma count_occ_values (cs : list RuleCategory) (c : RuleCategory) :
  count_occ string_dec (map RuleCategory_value cs) (RuleCategory_value c)
  = count_occ RuleCategory_eq_dec cs c.
Proof.
  induction cs as [|c0 cs IH]; simpl; [reflexivity|].
  destruct (string_dec (RuleCategory_value c0) (RuleCategory_value c)) as [E|E];
    destruct (RuleCategory_eq_dec c0 c) as [E'|E'].
  - f_equal. exact IH.
  - apply RuleCategory_value_inj in E. contradiction.
  - subst c0. contradiction.
  - exact IH.
Qed.

(** The counter of passed rules that all have the category [c]. *)
Lemma counts_single_category (rules : list Rule.t) (c : RuleCategory) :
  filter Rule.passed rules <> [] ->
  (forall r, In r rules -> Rule.passed r = true -> Rule.category r = c) ->
  exists m : nat,
    Py.values (Py.Counter (passed_categories rules))
    = repeat (Z.of_nat (S m)) 1.
Proof.
  intros Hne Hall.
  assert (Hrep : passed_categories rules
                 = repeat (RuleCategory_value c)
                     (List.length (passed_categories rules))).
  { apply Forall_eq_repeat. apply Forall_forall. intros x Hx.
    unfold passed_categories in Hx. apply in_map_iff in Hx.
    destruct Hx as [r [<- Hr]]. apply filter_In in Hr.
    destruct Hr as [Hr Hp]. rewrite (Hall r Hr Hp). reflexivity. }
  destruct (List.length (passed_categories rules)) as [|m] eqn:El.
  - exfalso. unfold passed_categories in El. rewrite length_map in El.
    apply length_zero_iff_nil in El. contradiction.
  - exists m. rewrite Hrep, Counter_repeat. reflexivity.
Qed.

(** The counter of passed rules spread evenly over the seven
    categories, [k] rules in each. *)
Lemma counts_even_spread (rules : list Rule.t) (k : nat) :
  (forall c, count_occ RuleCategory_eq_dec
               (map Rule.category (filter Rule.passed rules)) c = k) ->
  (0 < k)%nat ->
  Py.values (Py.Counter (passed_categories rules)) = repeat (Z.of_nat k) 7.
Proof.
  intros Heven Hk.
  set (xs := passed_categories rules).
  assert (Hcount : forall c,
             count_occ string_dec xs (RuleCategory_value c) = k).
  { intros c. unfold xs. rewrite passed_categories_map, count_occ_values.
    apply Heven. }
  assert (Hxs : forall x, In x xs <-> In x (map RuleCategory_value
                                              RuleCategory_members)).
  { intros x. split; intros Hx.
    - unfold xs in Hx. rewrite passed_categories_map in Hx.
      apply in_map_iff in Hx. destruct Hx as [c [<- _]].
      apply in_map, RuleCategory_members_all.
    - apply in_map_iff in Hx. destruct Hx as [c [<- _]].
      apply (count_occ_In string_dec). rewrite Hcount. exact Hk. }
  assert (Hlen : List.length (Py.values (Py.Counter xs)) = 7%nat).
  { unfold Py.values. rewrite length_map.
    rewrite <- (length_map fst). fold (Py.keys (Py.Counter xs)).
    rewrite (Permutation_length
               (l' := map RuleCategory_value RuleCategory_members));
      [reflexivity|].
    apply NoDup_Permutation.
    - apply Counter_NoDup.
    - apply RuleCategory_values_NoDup.
    - intros x. rewrite Counter_keys_In. apply Hxs. }
  rewrite <- Hlen. apply Forall_eq_repeat. apply Forall_forall.
  intros v Hv. apply Counter_values in Hv. destruct Hv as [x [Hx ->]].
  apply Hxs in Hx. apply in_map_iff in Hx. destruct Hx as [c [<- _]].
  rewrite Hcount. reflexivity.
Qed.

Lemma even_spread_nonempty (rules : list Rule.t) (k : nat) :
  (forall c, count_occ RuleCategory_eq_dec
               (map Rule.category (filter Rule.passed rules)) c = k) ->
  (0 < k)%nat ->
  filter Rule.passed rules <> [].
Proof.
  intros Heven Hk E. specialize (Heven TAXATION). rewrite E in Heven.
  simpl in Heven. lia.
Qed.

(** The two values that the guard inside the logarithm moves away from
    0 and 1. *)
Lemma single_category_value :
  - log_guard < - ln (/ INR 1 + log_guard) / ln 7 < 0.
Proof.
  pose proof log_guard_pos as Hg. pose proof ln_7_gt_1 as H7.
  destruct (ln_1p_bounds log_guard Hg) as [Hlo Hhi].
  replace (/ INR 1 + log_guard) with (1 + log_guard) by (simpl; field).
  set (a := ln (1 + log_guard)) in *.
  assert (Hq : 0 < a / ln 7 < a).
  { split.
    - apply Rdiv_lt_0_compat; lra.
    - apply (Rmult_lt_reg_r (ln 7)); [lra|].
      unfold Rdiv. rewrite Rmult_assoc, Rinv_l by lra. nra. }
  replace (- a / ln 7) with (- (a / ln 7)) by (field; lra).
  lra.
Qed.

Lemma even_spread_value :
  - ln (/ INR 7 + log_guard) / ln 7 = 1 - ln (1 + 7 * log_guard) / ln 7
  /\ 1 - 7 * log_guard < - ln (/ INR 7 + log_guard) / ln 7 < 1.
Proof.
  pose proof log_guard_pos as Hg. pose proof ln_7_gt_1 as H7.
  assert (Hg7 : 0 < 7 * log_guard) by lra.
  destruct (ln_1p_bounds (7 * log_guard) Hg7) as [Hlo Hhi].
  assert (E : ln (/ INR 7 + log_guard) = ln (1 + 7 * log_guard) - ln 7).
  { replace (/ INR 7 + log_guard) with ((1 + 7 * log_guard) * / 7)
      by (simpl; field).
    rewrite ln_mult, ln_Rinv by lra. ring. }
  rewrite E.
  set (a := ln (1 + 7 * log_guard)) in *.
  assert (Hq : 0 < a / ln 7 < a).
  { split.
    - apply Rdiv_lt_0_compat; lra.
    - apply (Rmult_lt_reg_r (ln 7)); [lra|].
      unfold Rdiv. rewrite Rmult_assoc, Rinv_l by lra. nra. }
  assert (E' : - (a - ln 7) / ln 7 = 1 - a / ln 7) by (field; lra).
  rewrite E'. split; [reflexivity|lra].
Qed.

Lemma entropy_single_category (rules : list Rule.t) (c : RuleCategory) :
  filter Rule.passed rules <> [] ->
  (forall r, In r rules -> Rule.passed r = true -> Rule.category r = c) ->
  compute_governance_entropy rules = - ln (1 + log_guard) / ln 7
  /\ - log_guard < compute_governance_entropy rules < 0.
Proof.
  intros Hne Hall.
  destruct (counts_single_category rules c Hne Hall) as [m Hm].
  assert (E : compute_governance_entropy rules
              = - ln (/ INR 1 + log_guard) / ln 7).
  { apply (entropy_of_even_counts rules 0 (Z.of_nat (S m)) Hne Hm). lia. }
  split.
  - rewrite E. f_equal. f_equal. f_equal. simpl. field.
  - rewrite E. apply single_category_value.
Qed.

Lemma entropy_even_spread (rules : list Rule.t) (k : nat) :
  (0 < k)%nat ->
  (forall c, count_occ RuleCategory_eq_dec
               (map Rule.category (filter Rule.passed rules)) c = k) ->
  compute_governance_entropy rules = 1 - ln (1 + 7 * log_guard) / ln 7
  /\ 1 - 7 * log_guard < compute_governance_entropy rules < 1.
Proof.
  intros Hk Heven.
  assert (E : compute_governance_entropy rules
              = - ln (/ INR 7 + log_guard) / ln 7).
  { apply (entropy_of_even_counts rules 6 (Z.of_nat k)).
    - apply (even_spread_nonempty rules k Heven Hk).
    - apply (counts_even_spread rules k Heven Hk).
    - lia. }
  rewrite E. apply even_spread_value.
Qed.

(** C7, with the guard of the logarithm taken into account.  The
    governance entropy is exactly 0 when no rule
    of the input has passed.  When the passed rules all share one
    category it is [- ln (1 + 1e-10) / ln 7], strictly negative and less
    than [1e-10] away from 0; when they are spread evenly over the seven
    categories it is [1 - ln (1 + 7e-10) / ln 7], strictly below 1 and
    less than [7e-10] away from 1.  The normalisation divides by the
    logarithm of the number of categories, 7. *)
Theorem governance_entropy_guarded (rules : list Rule.t) :
  (filter Rule.passed rules = [] -> compute_governance_entropy rules = 0)
  /\ (forall c : RuleCategory,
        filter Rule.passed rules <> [] ->
        (forall r, In r rules -> Rule.passed r = true -> Rule.category r = c) ->
        compute_governance_entropy rules = - ln (1 + log_guard) / ln 7
        /\ - log_guard < compute_governance_entropy rules < 0)
  /\ (forall k : nat,
        (0 < k)%nat ->
        (forall c, count_occ RuleCategory_eq_dec
                     (map Rule.category (filter Rule.passed rules)) c = k) ->
        compute_governance_entropy rules = 1 - ln (1 + 7 * log_guard) / ln 7
        /\ 1 - 7 * log_guard < compute_governance_entropy rules < 1)
  /\ IZR (Py.len RuleCategory_members) = 7
  /\ log_guard = / 10000000000.
Proof.
  split_all.
  - intros H. unfold compute_governance_entropy. rewrite H. reflexivity.
  - apply entropy_single_category.
  - apply entropy_even_spread.
  - reflexivity.
  - unfold log_guard. f_equal. simpl. ring.
Qed.

(** C7, counterexample: with two passed rules of one category the
    entropy is not 0, and with one passed rule in each of the seven
    categories it is not 1. *)
Lemma governance_entropy_not_exact :
  compute_governance_entropy rules_one_category <> 0
  /\ compute_governance_entropy rules_all_categories <> 1.
Proof.
  split.
  - assert (H : - log_guard < compute_governance_entropy rules_one_category < 0).
    { apply (entropy_single_category rules_one_category TAXATION).
      - discriminate.
      - intros r [<-|[<-|[]]] _; reflexivity. }
    lra.
  - assert (H : 1 - 7 * log_guard
                < compute_governance_entropy rules_all_categories < 1).
    { apply (entropy_even_spread rules_all_categories 1).
      - lia.
      - intros c. destruct c; reflexivity. }
    lra.
Qed.

End EntropyProofs.

(** ** The theorems at concrete inputs *)

Lemma NoDup_0123 : NoDup [0; 1; 2; 3]%nat.
Proof.
  repeat constructor; simpl; intros H;
    repeat (destruct H as [H|H]; [discriminate H|]); exact H.
Defined.

(** Three agents of wealth 0 vote under the wealth-weighted scheme. *)
Lemma run_voting_zero_weight_raises_witness :
  zero_vote_weight store_1000 [1; 2; 3]%nat WEALTH_WEIGHTED
  /\ run_voting (fun _ _ => true) [1; 2; 3]%nat
       (example_rule OTHER "An effect" false) WEALTH_WEIGHTED (1 # 2) store_1000
     = (inr ZeroDivisionError, store_1000).
Proof.
  assert (H : zero_vote_weight store_1000 [1; 2; 3]%nat WEALTH_WEIGHTED).
  { intros r [<-|[<-|[<-|[]]]]; reflexivity. }
  split; [exact H|].
  exact (run_voting_zero_weight_raises (fun _ _ => true) [1; 2; 3]%nat
           (example_rule OTHER "An effect" false) WEALTH_WEIGHTED (1 # 2)
           store_1000 H).
Defined.

(** The default rate and threshold on the four agents of [store_1000]. *)
Lemma taxation_default_rate_and_threshold_witness :
  NoDup [0; 1; 2; 3]%nat
  /\ tax_rate_of
       (PyText.lower "Every agent pays a tax into a common pool") = 1 # 10
  /\ wealth_threshold_of
       (PyText.lower "Every agent pays a tax into a common pool") = 0.
Proof.
  split; [exact NoDup_0123|].
  destruct (proj1 (taxation_default_rate_and_threshold
                     (example_rule TAXATION
                        "Every agent pays a tax into a common pool" true)
                     [0; 1; 2; 3]%nat store_1000)
              eq_refl eq_refl NoDup_0123) as (Hrate & Hthr & _).
  split; [exact Hrate|exact Hthr].
Defined.

(** A parent holding exactly the reproduction cost ends at 0. *)
Lemma reproduce_success_witness :
  (1 < next_ref store_300)%nat
  /\ REPRODUCTION_COST <= wealth_of store_300 1%nat
  /\ CivilizationAgent.wealth
       (objects (snd (reproduce (fun _ => "child001") (fun _ _ => Some "prompt")
                        1%nat (3 # 10) store_300)) 1%nat) == 0
  /\ CivilizationAgent.wealth
       (objects (snd (reproduce (fun _ => "child001") (fun _ _ => Some "prompt")
                        1%nat (3 # 10) store_300)) 3%nat) = 50.
Proof.
  assert (H1 : (1 < next_ref store_300)%nat) by (simpl; lia).
  assert (H2 : REPRODUCTION_COST <= wealth_of store_300 1%nat).
  { apply Qle_bool_iff. reflexivity. }
  pose proof (reproduce_success (fun _ => "child001") (fun _ _ => Some "prompt")
                1%nat 3%nat (3 # 10) store_300 H1 H2 eq_refl) as H.
  cbv zeta in H.
  destruct H as (_ & _ & _ & Hzero & Hchild & _).
  split_all; [exact H1|exact H2|apply Hzero; reflexivity|exact Hchild].
Defined.

(** A parent of wealth 100 is refused and left as it was. *)
Lemma reproduce_failure_leaves_parent_witness :
  fst (reproduce (fun _ => "child001") (fun _ _ => Some "prompt")
         2%nat (3 # 10) store_300) = inr ValueError
  /\ snd (reproduce (fun _ => "child001") (fun _ _ => Some "prompt")
            2%nat (3 # 10) store_300) = store_300.
Proof.
  split; [reflexivity|].
  exact (proj1 (proj2 (reproduce_failure_leaves_parent
                         (fun _ => "child001") (fun _ _ => Some "prompt")
                         2%nat (3 # 10) store_300)
                  ValueError eq_refl)).
Defined.

(** Two passed taxation rules. *)
Lemma governance_entropy_guarded_witness :
  filter Rule.passed rules_one_category <> []
  /\ (- log_guard < compute_governance_entropy rules_one_category < 0)%R.
Proof.
  assert (H1 : filter Rule.passed rules_one_category <> []) by discriminate.
  assert (H2 : forall r, In r rules_one_category -> Rule.passed r = true ->
                         Rule.category r = TAXATION).
  { intros r [<-|[<-|[]]] _; reflexivity. }
  split; [exact H1|].
  exact (proj2 (proj1 (proj2 (governance_entropy_guarded rules_one_category))
                  TAXATION H1 H2)).
Defined.

(** The default floor on the four agents of [store_1000]. *)
Lemma welfare_floor_and_contributions_witness :
  min_wealth_of (PyText.lower "A welfare guarantee for every agent") = 20
  /\ exists s' : Store,
      _apply_welfare
        (example_rule WELFARE "A welfare guarantee for every agent" true)
        [0; 1; 2; 3]%nat store_1000
      = (inl [0; 1; 2; 3]%nat, s')
      /\ wealth_of s' 1%nat = 20.
Proof.
  pose proof (welfare_floor_and_contributions
                (example_rule WELFARE "A welfare guarantee for every agent" true)
                [0; 1; 2; 3]%nat store_1000) as H.
  cbv zeta in H. destruct H as [Hfloor Hrun].
  split; [exact (Hfloor eq_refl)|].
  assert (Hpoor : exists r, In r [0; 1; 2; 3]%nat
                            /\ wealth_of store_1000 r
                               < min_wealth_of
                                   (PyText.lower
                                      (Rule.effect
                                         (example_rule WELFARE
                                            "A welfare guarantee for every agent"
                                            true)))).
  { exists 1%nat. split; [simpl; tauto|reflexivity]. }
  destruct (Hrun NoDup_0123 eq_refl Hpoor) as (s' & Erun & Hlow & _).
  exists s'. split; [exact Erun|].
  apply (Hlow 1%nat); [simpl; tauto|reflexivity].
Defined.

(** A passed rule that names no mechanism. *)
Lemma apply_rule_failed_or_inert_witness :
  dispatch_keywords_absent (PyText.lower "Agents should be kind to each other")
  /\ exists rule',
      apply_rule (example_rule OTHER "Agents should be kind to each other" true)
        [0; 1; 2; 3]%nat 5%Z store_1000
      = (inl (rule', [0; 1; 2; 3]%nat), store_1000)
      /\ Rule.generation_enacted rule' = Some 5%Z.
Proof.
  assert (H : dispatch_keywords_absent
                (PyText.lower "Agents should be kind to each other")).
  { unfold dispatch_keywords_absent. split_all; reflexivity. }
  split; [exact H|].
  destruct (proj2 (apply_rule_failed_or_inert
                     (example_rule OTHER "Agents should be kind to each other"
                        true)
                     [0; 1; 2; 3]%nat 5%Z store_1000) eq_refl H)
    as (rule' & Erun & Hgen & _).
  exists rule'. split; [exact Erun|exact Hgen].
Defined.

(** The total wealth of the four agents of [store_1000] under a 25% tax. *)
Lemma taxation_conserves_total_wealth_witness :
  NoDup [0; 1; 2; 3]%nat
  /\ total_wealth
       (snd (_apply_taxation
               (example_rule TAXATION "Agents with wealth > 500 pay 25%" true)
               [0; 1; 2; 3]%nat store_1000))
       [0; 1; 2; 3]%nat
     == total_wealth store_1000 [0; 1; 2; 3]%nat.
Proof.
  split; [exact NoDup_0123|].
  exact (proj1 (proj2 (proj2 (taxation_conserves_total_wealth
                                (example_rule TAXATION
                                   "Agents with wealth > 500 pay 25%" true)
                                [0; 1; 2; 3]%nat store_1000)))
           NoDup_0123).
Defined.

(** ** Further proofs: civilization_agent.py *)

Section FoundersProofs.

Variable uuid4 : ref -> string.
Variable generation_default : Z.

Lemma create_run (initial_prompt : option string) (w : Q) (s : Store) :
  create uuid4 generation_default initial_prompt w s
  = (inl (next_ref s),
     mkStore
       (update (objects s) (next_ref s)
          (CivilizationAgent.Build (uuid4 (next_ref s))
             (match initial_prompt with
              | None => default_prompt
              | Some p => p
              end)
             generation_default w 0 None [] (Some (uuid4 (next_ref s)))))
       (S (next_ref s)) (_extinction_log s)).
Proof. reflexivity. Qed.

(** [create_civilization_population] returns [n_agents] new, distinct
    agent objects (none when [n_agents] is not positive), leaves the
    objects that existed untouched, and every new agent is a founder:
    it holds the initial wealth, has no parent and no child, age 0, and
    its dynasty id is its own id. *)
Theorem create_civilization_population_founders (n_agents : Z)
  (initial_prompt : option string) (initial_wealth : Q) (s : Store) :
  exists s' : Store,
    create_civilization_population uuid4 generation_default n_agents
      initial_prompt initial_wealth s
    = (inl (seq (next_ref s) (Z.to_nat n_agents)), s')
    /\ next_ref s' = (next_ref s + Z.to_nat n_agents)%nat
    /\ _extinction_log s' = _extinction_log s
    /\ (forall r, (r < next_ref s)%nat -> objects s' r = objects s r)
    /\ (forall r, (next_ref s <= r < next_ref s')%nat ->
          let a := objects s' r in
          CivilizationAgent.wealth a = initial_wealth
          /\ CivilizationAgent.dynasty_id a = Some (CivilizationAgent.id a)
          /\ CivilizationAgent.parent_id a = None
          /\ CivilizationAgent.children_ids a = []
          /\ CivilizationAgent.age a = 0%Z).
Proof.
  unfold create_civilization_population.
  generalize (Z.to_nat n_agents) as n. intros n. revert s.
  induction n as [|n IH]; intros s.
  - exists s. simpl. split_all; try reflexivity.
    + lia.
    + intros r Hr. lia.
  - cbn [repeat_M]. unfold bind at 1. rewrite create_run.
    cbv beta iota. unfold bind at 1.
    match goal with
    | |- context [repeat_M n _ ?s1] => destruct (IH s1) as (s' & E & Hn & Hl & Hold & Hnew)
    end.
    rewrite E. simpl in Hn, Hl, Hold, Hnew |- *.
    exists s'. split_all.
    + reflexivity.
    + lia.
    + exact Hl.
    + intros r Hr. rewrite Hold by lia. apply update_other. lia.
    + intros r Hr.
      destruct (Nat.eq_dec r (next_ref s)) as [->|Hne].
      * rewrite Hold by lia. rewrite update_same. simpl. auto.
      * apply Hnew. lia.
Qed.

End FoundersProofs.

(** The loop of [get_lineage_depth] on parent links along which the
    generation strictly decreases and stays non-negative. *)
Lemma lineage_loop_decreasing (s : Store) (agents_by_id : Py.dict ref) :
  (forall r c p parent,
      CivilizationAgent.parent_id (objects s r) = Some (String c p) ->
      Py.dict_get agents_by_id (String c p) = Some parent ->
      (0 <= CivilizationAgent.generation (objects s parent)
       < CivilizationAgent.generation (objects s r))%Z) ->
  forall (fuel : nat) (current : ref) (depth : Z),
    (Z.to_nat (CivilizationAgent.generation (objects s current)) < fuel)%nat ->
    exists d : Z,
      lineage_loop fuel s agents_by_id current depth = Some d
      /\ (depth <= d
          <= depth + Z.max 0 (CivilizationAgent.generation (objects s current)))%Z
      /\ forall fuel', (fuel <= fuel')%nat ->
                       lineage_loop fuel' s agents_by_id current depth = Some d.
Proof.
  intros Hdec. induction fuel as [|fuel IH]; intros current depth Hfuel.
  - lia.
  - cbn [lineage_loop].
    destruct (CivilizationAgent.parent_id (objects s current))
      as [[|c p]|] eqn:Ep.
    + exists depth. split_all; [reflexivity|lia|lia|].
      intros [|fuel'] Hle; [lia|]. cbn [lineage_loop]. rewrite Ep. reflexivity.
    + destruct (Py.dict_get agents_by_id (String c p)) as [parent|] eqn:Eg.
      * pose proof (Hdec current c p parent Ep Eg) as Hgen.
        destruct (IH parent (depth + 1)%Z) as (d & E & Hd & Hmore); [lia|].
        exists d. split_all; [exact E|lia|lia|].
        intros [|fuel'] Hle; [lia|]. cbn [lineage_loop]. rewrite Ep, Eg.
        apply Hmore. lia.
      * exists depth. split_all; [reflexivity|lia|lia|].
        intros [|fuel'] Hle; [lia|]. cbn [lineage_loop]. rewrite Ep, Eg.
        reflexivity.
    + exists depth. split_all; [reflexivity|lia|lia|].
      intros [|fuel'] Hle; [lia|]. cbn [lineage_loop]. rewrite Ep. reflexivity.
Qed.

(** On parent links along which the generation strictly decreases and
    stays non-negative, as [create_offspring] builds them, the loop of
    [get_lineage_depth] ends within [generation + 1] iterations, with a
    depth between 0 and the agent's generation; more iterations give the
    same answer. *)
Theorem get_lineage_depth_terminates (s : Store) (agents_by_id : Py.dict ref)
  (self : ref) :
  (forall r c p parent,
      CivilizationAgent.parent_id (objects s r) = Some (String c p) ->
      Py.dict_get agents_by_id (String c p) = Some parent ->
      (0 <= CivilizationAgent.generation (objects s parent)
       < CivilizationAgent.generation (objects s r))%Z) ->
  exists depth : Z,
    (0 <= depth <= Z.max 0 (CivilizationAgent.generation (objects s self)))%Z
    /\ forall fuel,
         (Z.to_nat (CivilizationAgent.generation (objects s self)) < fuel)%nat ->
         get_lineage_depth fuel s self agents_by_id = Some depth.
Proof.
  intros Hdec.
  destruct (lineage_loop_decreasing s agents_by_id Hdec
              (S (Z.to_nat (CivilizationAgent.generation (objects s self))))
              self 0%Z) as (d & E & Hd & Hmore); [lia|].
  exists d. split; [lia|].
  intros fuel Hfuel. apply Hmore. lia.
Qed.

(** When the dictionary maps the parent id of an agent back to the agent
    itself, the loop of [get_lineage_depth] never ends: no number of
    iterations yields a depth. *)
Theorem get_lineage_depth_cycle_diverges (s : Store)
  (agents_by_id : Py.dict ref) (self : ref) (c : ascii) (p : string) :
  CivilizationAgent.parent_id (objects s self) = Some (String c p) ->
  Py.dict_get agents_by_id (String c p) = Some self ->
  forall fuel, get_lineage_depth fuel s self agents_by_id = None.
Proof.
  intros Ep Eg fuel. unfold get_lineage_depth. generalize 0%Z.
  induction fuel as [|fuel IH]; intros depth; cbn [lineage_loop].
  - reflexivity.
  - rewrite Ep, Eg. apply IH.
Qed.

(** ** Further proofs: death.py *)

Lemma fold_left_Zadd (l : list Z) (a : Z) :
  fold_left Z.add l a = (a + fold_left Z.add l 0)%Z.
Proof.
  revert a. induction l as [|x l IH]; intros a; cbn [fold_left].
  - lia.
  - rewrite (IH (a + x)%Z), (IH (0 + x)%Z). lia.
Qed.

Lemma sumZ_cons (x : Z) (l : list Z) : Py.sumZ (x :: l) = (x + Py.sumZ l)%Z.
Proof. unfold Py.sumZ. cbn [fold_left]. rewrite fold_left_Zadd. lia. Qed.

Lemma sumZ_nil : Py.sumZ [] = 0%Z.
Proof. reflexivity. Qed.

(** Assigning to a key changes the sum of the values by the difference. *)
Lemma dict_set_sum (d : Py.dict Z) (k : string) (v : Z) :
  Py.sumZ (Py.values (Py.dict_set d k v))
  = (Py.sumZ (Py.values d) - PyList.dict_get_default d k 0 + v)%Z.
Proof.
  unfold PyList.dict_get_default.
  induction d as [|[k0 v0] d IH]; cbn [Py.dict_set Py.dict_get].
  - unfold Py.values. cbn [map snd]. rewrite sumZ_cons, sumZ_nil. lia.
  - destruct (String.eqb k0 k).
    + unfold Py.values. cbn [map snd]. rewrite !sumZ_cons. lia.
    + unfold Py.values in *. cbn [map snd]. rewrite !sumZ_cons, IH. lia.
Qed.

Lemma tally_fold_sum (ks : list string) :
  forall d : Py.dict Z,
    Py.sumZ
      (Py.values
         (fold_left
            (fun counts k =>
               Py.dict_set counts k (PyList.dict_get_default counts k 0 + 1)%Z)
            ks d))
    = (Py.sumZ (Py.values d) + Py.len ks)%Z.
Proof.
  induction ks as [|k ks IH]; intros d; cbn [fold_left].
  - unfold Py.len. simpl. lia.
  - rewrite IH, dict_set_sum. unfold Py.len. cbn [List.length]. lia.
Qed.

Lemma tally_sum (ks : list string) : Py.sumZ (Py.values (tally ks)) = Py.len ks.
Proof. unfold tally. rewrite tally_fold_sum. reflexivity. Qed.

Lemma tally_Counter (ks : list string) : tally ks = Py.Counter ks.
Proof.
  unfold tally. rewrite Counter_fold. generalize (@nil (string * Z)).
  induction ks as [|k ks IH]; intros d; cbn [fold_left].
  - reflexivity.
  - rewrite IH. f_equal. unfold count_one, PyList.dict_get_default.
    destruct (Py.dict_get d k); reflexivity.
Qed.

Lemma maxZ_from_spec (l : list Z) :
  forall m : Z,
    (PyList.maxZ_from m l = m \/ In (PyList.maxZ_from m l) l)
    /\ (m <= PyList.maxZ_from m l)%Z
    /\ (forall x, In x l -> (x <= PyList.maxZ_from m l)%Z).
Proof.
  induction l as [|x l IH]; intros m; cbn [PyList.maxZ_from].
  - split_all; [left; reflexivity|lia|intros x []].
  - destruct (IH (if (m <? x)%Z then x else m)) as (Hin & Hle & Hall).
    destruct (Z.ltb_spec m x).
    + split_all.
      * right. destruct Hin as [->|Hin]; [left; reflexivity|right; exact Hin].
      * lia.
      * intros y [<-|Hy]; [exact Hle|apply Hall, Hy].
    + split_all.
      * destruct Hin as [->|Hin]; [left; reflexivity|right; right; exact Hin].
      * exact Hle.
      * intros y [<-|Hy]; [lia|apply Hall, Hy].
Qed.

Lemma maxZ_spec (l : list Z) (m : Z) :
  PyList.maxZ l = Some m -> In m l /\ forall x, In x l -> (x <= m)%Z.
Proof.
  destruct l as [|x l]; cbn [PyList.maxZ]; [discriminate|].
  intros E. injection E as <-.
  destruct (maxZ_from_spec l x) as (Hin & Hle & Hall). split.
  - destruct Hin as [->|Hin]; [left; reflexivity|right; exact Hin].
  - intros y [<-|Hy]; [exact Hle|apply Hall, Hy].
Qed.

Lemma len_set_bounds (l : list Z) :
  l <> [] -> (1 <= PyList.len_set l <= Py.len l)%Z.
Proof.
  intros Hne. unfold PyList.len_set, Py.len.
  pose proof (NoDup_incl_length (NoDup_nodup Z.eq_dec l)
                (fun x Hx => proj1 (nodup_In Z.eq_dec l x) Hx)) as Hle.
  destruct l as [|x l]; [congruence|].
  assert (Hin : In x (nodup Z.eq_dec (x :: l))).
  { apply nodup_In. left. reflexivity. }
  destruct (nodup Z.eq_dec (x :: l)) as [|y n]; [contradiction|].
  cbn [List.length] in *. lia.
Qed.

(** [get_extinction_statistics] on the records given, or on the ledger
    when none are given: without records the answer is [{"total": 0}];
    otherwise the call returns normally, the total is the number of
    records, the mean age times the total is the sum of the ages, the
    maximum age is the age of some record and bounds them all, the counts
    by specialization and the counts by dynasty each add up to the total
    and hold, for each key, its number of records, and the number of
    generations with extinctions lies between 1 and the total.  The store
    is not modified. *)
Theorem get_extinction_statistics_consistent
  (records : option (list ExtinctionRecord.t)) (s : Store) :
  let actual :=
    match records with
    | None => _extinction_log s
    | Some l => l
    end in
  let ages := map ExtinctionRecord.age_at_death actual in
  (actual = [] -> get_extinction_statistics records s = (inl NoExtinction, s))
  /\ (actual <> [] ->
      exists (mean : Q) (max_age : Z) (by_spec by_dynasty : Py.dict Z) (gens : Z),
        get_extinction_statistics records s
        = (inl (Extinctions (Py.len actual) mean max_age by_spec by_dynasty gens),
           s)
        /\ mean * inject_Z (Py.len actual) == inject_Z (Py.sumZ ages)
        /\ In max_age ages
        /\ (forall a, In a ages -> (a <= max_age)%Z)
        /\ Py.sumZ (Py.values by_spec) = Py.len actual
        /\ Py.sumZ (Py.values by_dynasty) = Py.len actual
        /\ (forall k n,
              Py.dict_get by_spec k = Some n ->
              n = Z.of_nat
                    (count_occ string_dec
                       (map ExtinctionRecord.specialization actual) k))
        /\ (forall k n,
              Py.dict_get by_dynasty k = Some n ->
              n = Z.of_nat
                    (count_occ string_dec
                       (map ExtinctionRecord.dynasty_id actual) k))
        /\ (1 <= gens <= Py.len actual)%Z).
Proof.
  intros actual ages. subst ages.
  assert (Hrun :
    get_extinction_statistics records s
    = match actual with
      | [] => ret NoExtinction
      | _ :: _ =>
          (mean <- py_div
                     (inject_Z (Py.sumZ (map ExtinctionRecord.age_at_death actual)))
                     (inject_Z (Py.len (map ExtinctionRecord.age_at_death actual))) ;;
           max_age <- py_maxZ (map ExtinctionRecord.age_at_death actual) ;;
           ret (Extinctions (Py.len actual) mean max_age
                  (tally (map ExtinctionRecord.specialization actual))
                  (tally (map ExtinctionRecord.dynasty_id actual))
                  (PyList.len_set (map ExtinctionRecord.generation actual))))
      end s) by reflexivity.
  rewrite Hrun. clear Hrun. clearbody actual.
  set (ages := map ExtinctionRecord.age_at_death actual).
  split.
  - intros ->. reflexivity.
  - intros Hne.
    assert (Hages : Py.len ages = Py.len actual).
    { unfold ages, Py.len. rewrite length_map. reflexivity. }
    assert (Hlen : ~ inject_Z (Py.len ages) == 0).
    { rewrite Hages. destruct actual as [|r rs]; [congruence|].
      rewrite len_cons. pose proof (len_nonneg rs). lra. }
    destruct (PyList.maxZ ages) as [m|] eqn:Em.
    2:{ unfold ages in Em. destruct actual; [congruence|discriminate]. }
    destruct (maxZ_spec ages m Em) as [Hin Hall].
    assert (Hgens : (1 <= PyList.len_set (map ExtinctionRecord.generation actual)
                     <= Py.len actual)%Z).
    { pose proof (len_set_bounds (map ExtinctionRecord.generation actual)) as H.
      replace (Py.len (map ExtinctionRecord.generation actual))
        with (Py.len actual) in H
        by (unfold Py.len; rewrite length_map; reflexivity).
      apply H. destruct actual; [congruence|discriminate]. }
    exists (inject_Z (Py.sumZ ages) / inject_Z (Py.len ages)), m,
      (tally (map ExtinctionRecord.specialization actual)),
      (tally (map ExtinctionRecord.dynasty_id actual)),
      (PyList.len_set (map ExtinctionRecord.generation actual)).
    split_all.
    + destruct actual as [|r rs] eqn:Ea; [congruence|]. rewrite <- Ea in *.
      unfold bind at 1. rewrite (py_div_nonzero _ _ _ Hlen).
      unfold bind at 1. unfold py_maxZ. fold ages. rewrite Em. reflexivity.
    + rewrite <- Hages. field. exact Hlen.
    + exact Hin.
    + exact Hall.
    + rewrite tally_sum. unfold Py.len. rewrite length_map. reflexivity.
    + rewrite tally_sum. unfold Py.len. rewrite length_map. reflexivity.
    + intros k n Hk. rewrite tally_Counter, Counter_get in Hk.
      destruct (count_occ string_dec _ k); [discriminate|].
      injection Hk as <-. reflexivity.
    + intros k n Hk. rewrite tally_Counter, Counter_get in Hk.
      destruct (count_occ string_dec _ k); [discriminate|].
      injection Hk as <-. reflexivity.
    + apply Hgens.
    + apply Hgens.
Qed.

Section SweepProofs.

Variable get_best_task_type : CivilizationAgent.t -> option string.

Lemma process_deaths_run (agents : list ref) (generation : Z) (s : Store) :
  process_deaths get_best_task_type agents generation s
  = (inl (filter (fun r => CivilizationAgent.is_alive (objects s r)) agents,
          filter (fun r => negb (CivilizationAgent.is_alive (objects s r)))
            agents),
     mkStore (objects s) (next_ref s)
       (_extinction_log s
          ++ map (extinction_record get_best_task_type s generation "bankruptcy")
               (filter (fun r => negb (CivilizationAgent.is_alive (objects s r)))
                  agents))).
Proof. unfold process_deaths. rewrite process_deaths_loop. reflexivity. Qed.

(** An agent that pays the participation cost is removed by the next
    mortality sweep exactly when its wealth was at most the cost; the
    fate of the other agents does not depend on the payment. *)
Theorem participation_cost_then_sweep (agents : list ref) (generation : Z)
  (r : ref) (s : Store) :
  In r agents ->
  exists (survivors deceased : list ref) (s2 : Store),
    process_deaths get_best_task_type agents generation
      (snd (pay_participation_cost r s))
    = (inl (survivors, deceased), s2)
    /\ (In r deceased <-> wealth_of s r <= PARTICIPATION_COST)
    /\ (In r survivors <-> PARTICIPATION_COST < wealth_of s r)
    /\ (forall r', r' <> r ->
                   (In r' survivors <-> In r' agents /\ 0 < wealth_of s r')).
Proof.
  intros Hin. rewrite process_deaths_run. do 3 eexists.
  split; [reflexivity|].
  change (snd (pay_participation_cost r s))
    with (set_wealth_store s r (wealth_of s r - PARTICIPATION_COST)).
  set (s1 := set_wealth_store s r (wealth_of s r - PARTICIPATION_COST)).
  assert (Hr : wealth_of s1 r = wealth_of s r - PARTICIPATION_COST)
    by apply wealth_of_set_same.
  assert (Halive : forall x, CivilizationAgent.is_alive (objects s1 x) = true
                             <-> 0 < wealth_of s1 x).
  { intros x. apply is_alive_iff. }
  split_all.
  - rewrite filter_In, negb_true_iff, <- not_true_iff_false, Halive, Hr.
    unfold PARTICIPATION_COST. split.
    + intros [_ H]. apply Qnot_lt_le. intros Hlt. apply H. lra.
    + intros H. split; [exact Hin|]. lra.
  - rewrite filter_In, Halive, Hr. unfold PARTICIPATION_COST. split.
    + intros [_ H]. lra.
    + intros H. split; [exact Hin|]. lra.
  - intros r' Hne. rewrite filter_In, Halive.
    unfold s1. rewrite (wealth_of_set_other s r r' _ Hne). reflexivity.
Qed.

Lemma len_set_repeat (z : Z) (n : nat) : PyList.len_set (repeat z (S n)) = 1%Z.
Proof.
  unfold PyList.len_set.
  assert (H : nodup Z.eq_dec (repeat z (S n)) = [z]).
  { induction n as [|n IH].
    - reflexivity.
    - change (repeat z (S (S n))) with (z :: repeat z (S n)).
      cbn [nodup]. destruct (in_dec Z.eq_dec z (repeat z (S n))) as [_|H].
      + exact IH.
      + exfalso. apply H. left. reflexivity. }
  rewrite H. reflexivity.
Qed.

Lemma get_extinction_statistics_nonempty
  (records : option (list ExtinctionRecord.t)) (s : Store) :
  let actual :=
    match records with
    | None => _extinction_log s
    | Some l => l
    end in
  actual <> [] ->
  exists (mean : Q) (max_age : Z),
    get_extinction_statistics records s
    = (inl (Extinctions (Py.len actual) mean max_age
              (tally (map ExtinctionRecord.specialization actual))
              (tally (map ExtinctionRecord.dynasty_id actual))
              (PyList.len_set (map ExtinctionRecord.generation actual))),
       s).
Proof.
  intros actual Hne.
  unfold get_extinction_statistics, bind at 1, get_store. fold actual.
  clearbody actual. destruct actual as [|r rs] eqn:Ea; [congruence|].
  rewrite <- Ea.
  set (ages := map ExtinctionRecord.age_at_death actual).
  assert (Hlen : ~ inject_Z (Py.len ages) == 0).
  { unfold ages. rewrite Ea. cbn [map]. rewrite len_cons.
    pose proof (len_nonneg (map ExtinctionRecord.age_at_death rs)). lra. }
  destruct (PyList.maxZ ages) as [m|] eqn:Em.
  2:{ unfold ages in Em. rewrite Ea in Em. discriminate. }
  exists (inject_Z (Py.sumZ ages) / inject_Z (Py.len ages)), m.
  unfold bind at 1. rewrite (py_div_nonzero _ _ _ Hlen).
  unfold bind at 1. unfold py_maxZ. rewrite Em. reflexivity.
Qed.

(** After the ledger is cleared, a mortality sweep followed by
    [get_extinction_statistics()] reports exactly the agents of the
    population with non-positive wealth: nothing when there are none,
    otherwise their number as the total, and one generation with
    extinctions. *)
Theorem sweep_then_statistics (agents : list ref) (generation : Z) (s : Store) :
  let dead :=
    filter (fun r => negb (CivilizationAgent.is_alive (objects s r))) agents in
  let run :=
    (clear_extinction_log ;;
     process_deaths get_best_task_type agents generation ;;
     get_extinction_statistics None) in
  (dead = [] -> fst (run s) = inl NoExtinction)
  /\ (dead <> [] ->
      exists (mean : Q) (max_age : Z) (by_spec by_dynasty : Py.dict Z),
        fst (run s)
        = inl (Extinctions (Py.len dead) mean max_age by_spec by_dynasty 1)).
Proof.
  intros dead run.
  set (s1 := mkStore (objects s) (next_ref s)
               (map (extinction_record get_best_task_type
                       (mkStore (objects s) (next_ref s) []) generation
                       "bankruptcy") dead)).
  assert (Hrun : run s = get_extinction_statistics None s1).
  { unfold run. unfold bind at 1. unfold clear_extinction_log at 1.
    unfold bind at 1. rewrite process_deaths_run. reflexivity. }
  rewrite Hrun. clear Hrun. clearbody dead.
  split.
  - intros E. unfold s1. rewrite E. reflexivity.
  - intros Hne.
    destruct (get_extinction_statistics_nonempty None s1)
      as (mean & max_age & E).
    { cbn [_extinction_log s1]. destruct dead; [congruence|discriminate]. }
    cbn [_extinction_log s1] in E.
    exists mean, max_age. do 2 eexists. rewrite E. cbn [fst].
    f_equal. f_equal.
    + unfold Py.len. rewrite length_map. reflexivity.
    + rewrite map_map. cbn [ExtinctionRecord.generation extinction_record].
      assert (Hrep : forall l : list ref,
                 map (fun _ => generation) l = repeat generation (List.length l)).
      { induction l as [|u l IH]; simpl; [reflexivity|f_equal; exact IH]. }
      rewrite Hrep. destruct dead as [|d ds]; [congruence|].
      cbn [List.length]. apply len_set_repeat.
Qed.

Lemma filter_filter_same {A} (f : A -> bool) (l : list A) :
  filter f (filter f l) = filter f l.
Proof.
  induction l as [|x l IH]; cbn [filter]; [reflexivity|].
  destruct (f x) eqn:E; cbn [filter]; [rewrite E, IH; reflexivity|exact IH].
Qed.

Lemma filter_filter_negb {A} (f : A -> bool) (l : list A) :
  filter (fun x => negb (f x)) (filter f l) = [].
Proof.
  induction l as [|x l IH]; cbn [filter]; [reflexivity|].
  destruct (f x) eqn:E; cbn [filter]; [rewrite E; exact IH|exact IH].
Qed.

(** A second mortality sweep.  On the survivors of the first it finds
    nobody to remove and records nothing.  On the same population it
    returns the same two lists, and the ledger, which has no notion of an
    agent that is already recorded, gets a second record for every
    deceased agent. *)
Theorem sweep_twice (agents : list ref) (generation next_generation : Z)
  (s : Store) :
  exists (survivors deceased : list ref) (s1 : Store),
    process_deaths get_best_task_type agents generation s
    = (inl (survivors, deceased), s1)
    /\ process_deaths get_best_task_type survivors next_generation s1
       = (inl (survivors, []), s1)
    /\ exists s2 : Store,
        process_deaths get_best_task_type agents next_generation s1
        = (inl (survivors, deceased), s2)
        /\ List.length (_extinction_log s2)
           = (List.length (_extinction_log s) + 2 * List.length deceased)%nat
        /\ (deceased <> [] -> _extinction_log s2 <> _extinction_log s1).
Proof.
  rewrite process_deaths_run. do 3 eexists. split; [reflexivity|].
  split.
  - rewrite process_deaths_run. cbn [objects next_ref _extinction_log].
    rewrite filter_filter_same, filter_filter_negb. cbn [map].
    rewrite app_nil_r. reflexivity.
  - rewrite process_deaths_run. cbn [objects next_ref _extinction_log].
    eexists. split; [reflexivity|]. cbn [_extinction_log]. split.
    + rewrite !length_app, !length_map. lia.
    + intros Hne Heq.
      apply (f_equal (@List.length ExtinctionRecord.t)) in Heq.
      rewrite !length_app, !length_map in Heq.
      destruct (filter _ agents); [congruence|].
      cbn [List.length] in Heq. lia.
Qed.

End SweepProofs.

(** ** Further proofs: reproduction.py *)

Lemma Forall2_impl_In {A B} (R1 R2 : A -> B -> Prop) (l1 : list A)
  (l2 : list B) :
  (forall a b, In a l1 -> R1 a b -> R2 a b) ->
  Forall2 R1 l1 l2 -> Forall2 R2 l1 l2.
Proof.
  intros H HF. induction HF as [|a b l1 l2 Hab HF IH].
  - constructor.
  - constructor.
    + apply H; [left; reflexivity|exact Hab].
    + apply IH. intros a' b' Hin. apply H. right. exact Hin.
Qed.

Section ReproductionMoreProofs.

Variable uuid4 : ref -> string.
Variable llm_offspring_prompt : CivilizationAgent.t -> Q -> option string.

(** The books of a successful reproduction: parent and child together
    hold 150 less than the parent did, the newborn is alive but cannot
    itself reproduce, the parent can reproduce again exactly when it held
    at least 400, and it stays alive exactly when it held more than 200. *)
Theorem reproduce_accounting (parent child : ref) (mutation_rate : Q)
  (s : Store) :
  (parent < next_ref s)%nat ->
  fst (reproduce uuid4 llm_offspring_prompt parent mutation_rate s) = inl child ->
  let s' := snd (reproduce uuid4 llm_offspring_prompt parent mutation_rate s) in
  wealth_of s' parent + wealth_of s' child == wealth_of s parent - 150
  /\ CivilizationAgent.can_reproduce (objects s' child) = false
  /\ CivilizationAgent.is_alive (objects s' child) = true
  /\ (CivilizationAgent.can_reproduce (objects s' parent) = true
      <-> 400 <= wealth_of s parent)
  /\ (CivilizationAgent.is_alive (objects s' parent) = true
      <-> 200 < wealth_of s parent).
Proof.
  intros Hvalid Hok.
  destruct (reproduce_cases uuid4 llm_offspring_prompt parent mutation_rate s)
    as [[_ H] | [[_ [_ H]] | [child_prompt [_ [_ H]]]]];
    rewrite H in Hok; simpl in Hok; try discriminate.
  injection Hok as <-.
  assert (Hneq : next_ref s <> parent) by lia.
  assert (Hneq' : parent <> next_ref s) by lia.
  cbv zeta. rewrite H. cbn [snd].
  assert (Hp : wealth_of (store_after_reproduce uuid4 parent child_prompt s) parent
               = wealth_of s parent - REPRODUCTION_COST).
  { unfold wealth_of, store_after_reproduce. cbn [objects].
    rewrite update_same, (update_other _ _ _ _ Hneq'), update_same. reflexivity. }
  assert (Hc : objects (store_after_reproduce uuid4 parent child_prompt s)
                 (next_ref s)
               = CivilizationAgent.Build (uuid4 (next_ref s)) child_prompt
                   (CivilizationAgent.generation (objects s parent) + 1)
                   CHILD_STARTING_WEALTH 0
                   (Some (CivilizationAgent.id (objects s parent))) []
                   (CivilizationAgent.dynasty_id (objects s parent))).
  { unfold store_after_reproduce. cbn [objects].
    rewrite (update_other _ _ _ _ Hneq), update_same, update_same. reflexivity. }
  assert (Hcw : wealth_of (store_after_reproduce uuid4 parent child_prompt s)
                  (next_ref s) = CHILD_STARTING_WEALTH).
  { unfold wealth_of. rewrite Hc. reflexivity. }
  split_all.
  - rewrite Hp, Hcw.
    unfold REPRODUCTION_COST, CHILD_STARTING_WEALTH. ring.
  - rewrite Hc. reflexivity.
  - rewrite Hc. reflexivity.
  - rewrite can_reproduce_iff. fold (wealth_of (store_after_reproduce uuid4 parent child_prompt s) parent).
    rewrite Hp. unfold REPRODUCTION_COST. split; intros; lra.
  - rewrite is_alive_iff. fold (wealth_of (store_after_reproduce uuid4 parent child_prompt s) parent).
    rewrite Hp. unfold REPRODUCTION_COST. split; intros; lra.
Qed.

Lemma store_after_reproduce_other (parent : ref) (child_prompt : string)
  (s : Store) (r : ref) :
  r <> parent -> r <> next_ref s ->
  objects (store_after_reproduce uuid4 parent child_prompt s) r = objects s r.
Proof.
  intros H1 H2. unfold store_after_reproduce. cbn [objects].
  rewrite !update_other by assumption. reflexivity.
Qed.

Lemma store_after_reproduce_born (parent : ref) (child_prompt : string)
  (s : Store) :
  (parent < next_ref s)%nat ->
  born_of s (store_after_reproduce uuid4 parent child_prompt s) parent
    (next_ref s).
Proof.
  intros Hvalid.
  assert (Hneq : next_ref s <> parent) by lia.
  assert (Hneq' : parent <> next_ref s) by lia.
  unfold born_of, wealth_of, store_after_reproduce. cbn [objects].
  rewrite !update_same, !(update_other _ _ _ _ Hneq'), !update_same.
  rewrite (update_other _ _ _ _ Hneq), update_same.
  cbn. split_all; reflexivity.
Qed.

(** The loop of the phase on distinct, eligible parents, when the
    language model answers every request. *)
Lemma reproduction_loop_all (mutation_rate : Q) :
  (forall a, llm_offspring_prompt a mutation_rate <> None) ->
  forall (parents : list ref),
    NoDup parents ->
    forall (offspring : list ref) (s : Store),
      (forall r, In r parents -> (r < next_ref s)%nat) ->
      (forall r, In r parents ->
                 CivilizationAgent.can_reproduce (objects s r) = true) ->
      exists s' : Store,
        for_acc parents offspring
          (fun parent offspring =>
             try_except
               (child <- reproduce uuid4 llm_offspring_prompt parent mutation_rate ;;
                ret (offspring ++ [child]))
               (fun e => ret offspring)) s
        = (inl (offspring ++ seq (next_ref s) (List.length parents)), s')
        /\ next_ref s' = (next_ref s + List.length parents)%nat
        /\ _extinction_log s' = _extinction_log s
        /\ (forall r, (r < next_ref s)%nat -> ~ In r parents ->
                      objects s' r = objects s r)
        /\ Forall2 (born_of s s') parents
             (seq (next_ref s) (List.length parents)).
Proof.
  intros Hllm parents Hnd.
  induction Hnd as [|x parents Hx Hnd IH]; intros offspring s Hvalid Helig.
  - exists s. simpl. rewrite app_nil_r. split_all; try reflexivity.
    + lia.
    + constructor.
  - assert (Hxv : (x < next_ref s)%nat) by (apply Hvalid; left; reflexivity).
    destruct (llm_offspring_prompt (objects s x) mutation_rate)
      as [child_prompt|] eqn:El; [|exfalso; apply (Hllm _ El)].
    pose proof (reproduce_ok uuid4 llm_offspring_prompt x mutation_rate s
                  child_prompt (Helig x (or_introl eq_refl)) El) as Erun.
    set (s1 := store_after_reproduce uuid4 x child_prompt s) in *.
    assert (Hsame : forall r, In r parents -> objects s1 r = objects s r).
    { intros r Hr. apply store_after_reproduce_other.
      - intros ->. contradiction.
      - specialize (Hvalid r (or_intror Hr)). lia. }
    destruct (IH (offspring ++ [next_ref s]) s1) as (s' & E & Hn & Hl & Hold & Hborn).
    { intros r Hr. specialize (Hvalid r (or_intror Hr)). simpl. lia. }
    { intros r Hr. rewrite (Hsame r Hr). apply Helig. right. exact Hr. }
    exists s'. cbn [for_acc]. unfold bind at 1. unfold try_except at 1.
    unfold bind at 1. rewrite Erun. cbv beta iota.
    change (ret (offspring ++ [next_ref s]) s1)
      with (@inl (list ref) exn (offspring ++ [next_ref s]), s1).
    cbv beta iota. rewrite E. simpl in Hn, Hl |- *.
    assert (Hx' : objects s' x = objects s1 x).
    { apply Hold; [simpl; lia|exact Hx]. }
    assert (Hc' : objects s' (next_ref s) = objects s1 (next_ref s)).
    { apply Hold; [simpl; lia|].
      intros Hin. specialize (Hvalid _ (or_intror Hin)). lia. }
    split_all.
    + rewrite <- app_assoc. reflexivity.
    + lia.
    + exact Hl.
    + intros r Hr Hnot. rewrite Hold.
      * apply store_after_reproduce_other; [|lia].
        intros ->. apply Hnot. left. reflexivity.
      * simpl. lia.
      * intros Hin. apply Hnot. right. exact Hin.
    + constructor.
      * pose proof (store_after_reproduce_born x child_prompt s Hxv) as Hb.
        fold s1 in Hb. unfold born_of, wealth_of in *. rewrite Hx', Hc'.
        exact Hb.
      * simpl in Hborn.
        eapply Forall2_impl_In; [|exact Hborn].
        intros parent child Hp Hb.
        unfold born_of, wealth_of in *. rewrite <- (Hsame parent Hp). exact Hb.
Qed.

Lemma firstn_incl {A} (n : nat) (l : list A) (x : A) :
  In x (firstn n l) -> In x l.
Proof.
  revert l. induction n as [|n IH]; intros [|y l]; simpl; try tauto.
  intros [H|H]; [left; exact H|right; apply IH, H].
Qed.

Lemma firstn_NoDup {A} (n : nat) (l : list A) : NoDup l -> NoDup (firstn n l).
Proof.
  revert l. induction n as [|n IH]; intros [|y l] Hnd; simpl; try constructor.
  - inversion Hnd; subst. intros Hin. apply firstn_incl in Hin. contradiction.
  - inversion Hnd; subst. apply IH. assumption.
Qed.

(** When the language model answers every request, each parent that the
    phase lets attempt (all the eligible agents without a cap, the first
    of the ranking under a cap) gets exactly one child: the offspring
    are new objects, one per attempting parent and in the same order,
    each linked to its parent, each parent is charged once, and every
    other agent is untouched. *)
Theorem reproduction_phase_all_succeed (agents : list ref)
  (max_offspring_per_gen : option Z) (mutation_rate : Q) (s : Store) :
  NoDup agents ->
  (forall r, In r agents -> (r < next_ref s)%nat) ->
  (forall a, llm_offspring_prompt a mutation_rate <> None) ->
  let eligible :=
    filter (fun a => CivilizationAgent.can_reproduce (objects s a)) agents in
  let attempting :=
    if truthy max_offspring_per_gen
    then Py.slice_to (Py.sorted (fun a => - wealth_of s a) eligible)
           (match max_offspring_per_gen with Some k => k | None => 0%Z end)
    else eligible in
  let offspring := seq (next_ref s) (List.length attempting) in
  exists s' : Store,
    reproduction_phase uuid4 llm_offspring_prompt agents max_offspring_per_gen
      mutation_rate s
    = (inl offspring, s')
    /\ Forall2 (born_of s s') attempting offspring
    /\ (forall r, (r < next_ref s)%nat -> ~ In r attempting ->
                  objects s' r = objects s r)
    /\ next_ref s' = (next_ref s + List.length attempting)%nat
    /\ (forall r, In r attempting -> In r eligible).
Proof.
  intros Hnd Hvalid Hllm eligible attempting offspring.
  assert (Hnde : NoDup eligible) by (apply NoDup_filter, Hnd).
  assert (Hsub : forall r, In r attempting -> In r eligible).
  { intros r. unfold attempting.
    destruct (truthy max_offspring_per_gen); [|tauto].
    unfold Py.slice_to.
    destruct (0 <=? _)%Z; intros Hin; apply firstn_incl in Hin;
      apply (Permutation_in _ (sorted_Permutation _ _) Hin). }
  assert (Hnda : NoDup attempting).
  { unfold attempting. destruct (truthy max_offspring_per_gen); [|exact Hnde].
    unfold Py.slice_to.
    destruct (0 <=? _)%Z; apply firstn_NoDup;
      apply (Permutation_NoDup (Permutation_sym (sorted_Permutation _ _)) Hnde). }
  destruct (reproduction_loop_all mutation_rate Hllm attempting Hnda [] s)
    as (s' & E & Hn & _ & Hold & Hborn).
  { intros r Hr. apply Hvalid. apply Hsub in Hr. apply filter_In in Hr. tauto. }
  { intros r Hr. apply Hsub in Hr. apply filter_In in Hr. tauto. }
  exists s'. split_all; try assumption.
  unfold reproduction_phase, get_reproducible_agents.
  unfold bind at 1. unfold bind at 1. unfold get_store at 1. unfold ret at 1.
  unfold bind at 1. fold eligible.
  destruct (truthy max_offspring_per_gen) eqn:Et.
  - unfold bind at 1. unfold get_store at 1. unfold ret at 1.
    cbv beta iota. exact E.
  - unfold ret at 1. cbv beta iota. exact E.
Qed.

Lemma lineage_loop_shift (s : Store) (agents_by_id : Py.dict ref) (k : Z) :
  forall (fuel : nat) (current : ref) (depth d : Z),
    lineage_loop fuel s agents_by_id current depth = Some d ->
    lineage_loop fuel s agents_by_id current (depth + k) = Some (d + k)%Z.
Proof.
  induction fuel as [|fuel IH]; intros current depth d H; [discriminate H|].
  cbn [lineage_loop] in *.
  destruct (CivilizationAgent.parent_id (objects s current)) as [[|c p]|].
  - injection H as <-. reflexivity.
  - destruct (Py.dict_get agents_by_id (String c p)) as [parent|].
    + replace (depth + k + 1)%Z with (depth + 1 + k)%Z by lia.
      apply IH, H.
    + injection H as <-. reflexivity.
  - injection H as <-. reflexivity.
Qed.

(** A newborn is one generation deeper than its parent: after a
    successful [reproduce], when the dictionary maps the id of the
    parent, which is not empty, to the parent, the lineage depth of the
    child is that of the parent plus one, in one more iteration. *)
Theorem offspring_lineage_depth (parent child : ref) (mutation_rate : Q)
  (s : Store) (agents_by_id : Py.dict ref) (fuel : nat) (depth : Z) :
  (parent < next_ref s)%nat ->
  fst (reproduce uuid4 llm_offspring_prompt parent mutation_rate s) = inl child ->
  let s' := snd (reproduce uuid4 llm_offspring_prompt parent mutation_rate s) in
  CivilizationAgent.id (objects s parent) <> ""%string ->
  Py.dict_get agents_by_id (CivilizationAgent.id (objects s parent))
  = Some parent ->
  get_lineage_depth fuel s' parent agents_by_id = Some depth ->
  get_lineage_depth (S fuel) s' child agents_by_id = Some (depth + 1)%Z.
Proof.
  intros Hvalid Hok s' Hid Hget Hdepth.
  destruct (reproduce_cases uuid4 llm_offspring_prompt parent mutation_rate s)
    as [[_ H]|[(_ & _ & H)|(child_prompt & _ & _ & H)]];
    try (rewrite H in Hok; discriminate Hok).
  rewrite H in Hok. cbn [fst] in Hok. injection Hok as <-.
  subst s'. rewrite H in *. cbn [snd] in *.
  destruct (store_after_reproduce_born parent child_prompt s Hvalid)
    as (Hpid & _).
  unfold get_lineage_depth in *. cbn [lineage_loop]. rewrite Hpid.
  destruct (CivilizationAgent.id (objects s parent)) as [|c i] eqn:Eid;
    [congruence|].
  rewrite Hget.
  apply (lineage_loop_shift _ _ 1 fuel parent 0 depth Hdepth).
Qed.

End ReproductionMoreProofs.

(** ** Further proofs: governance.py, voting *)

Lemma dict_set_fresh {V} (d : Py.dict V) (k : string) (v : V) :
  ~ In k (Py.keys d) -> Py.dict_set d k v = d ++ [(k, v)].
Proof.
  induction d as [|[k0 v0] d IH]; simpl; intros H.
  - reflexivity.
  - destruct (String.eqb_spec k0 k) as [->|Hne].
    + exfalso. apply H. left. reflexivity.
    + f_equal. apply IH. tauto.
Qed.


Lemma dict_fold_NoDup {A V} (f : A -> string) (g : A -> V) (l : list A) :
  forall d : Py.dict V,
    NoDup (Py.keys d) ->
    NoDup (Py.keys (fold_left (fun d x => Py.dict_set d (f x) (g x)) l d)).
Proof.
  induction l as [|x l IH]; intros d Hnd; simpl.
  - exact Hnd.
  - apply IH, dict_set_NoDup, Hnd.
Qed.


Lemma yes_count_bounds (votes : list bool) :
  (0 <= Py.sumZ (map (fun v : bool => if v then 1 else 0) votes)
   <= Py.len votes)%Z.
Proof.
  induction votes as [|v votes IH].
  - unfold Py.len. simpl. rewrite sumZ_nil. lia.
  - cbn [map]. rewrite sumZ_cons. unfold Py.len in *. cbn [List.length].
    destruct v; lia.
Qed.

Lemma Qle_bool_true_iff (x y : Q) : Qle_bool x y = true <-> x <= y.
Proof. apply Qle_bool_iff. Qed.

(** [Rule.vote_ratio] lies between 0 and 1 on non-negative tallies, and
    is 0 when no vote was cast. *)
Theorem vote_ratio_range (rule : Rule.t) :
  (0 <= Rule.votes_for rule)%Z -> (0 <= Rule.votes_against rule)%Z ->
  0 <= Rule.vote_ratio rule <= 1
  /\ ((Rule.votes_for rule + Rule.votes_against rule = 0)%Z ->
      Rule.vote_ratio rule = 0).
Proof.
  intros Hf Ha. unfold Rule.vote_ratio.
  destruct (Z.eqb_spec (Rule.votes_for rule + Rule.votes_against rule) 0)
    as [E|Hne].
  - split; [split; discriminate|reflexivity].
  - split; [|intros E; contradiction].
    assert (Hpos : 0 < inject_Z (Rule.votes_for rule + Rule.votes_against rule)).
    { change 0 with (inject_Z 0). rewrite <- Zlt_Qlt. lia. }
    split.
    + apply Qle_shift_div_l; [exact Hpos|]. rewrite Qmult_0_l.
      apply inject_Z_nonneg, Hf.
    + apply Qle_shift_div_r; [exact Hpos|]. rewrite Qmult_1_l.
      rewrite <- Zle_Qle. lia.
Qed.

Section VotingMoreProofs.

Variable vote_on_rule : CivilizationAgent.t -> Rule.t -> bool.

(** Under the equal scheme, on a population that is not empty,
    [run_voting] returns normally and leaves the store as it was; the
    two tallies of the returned rule are non-negative and add up to the
    number of distinct agent ids; the rule is marked passed exactly when
    its [vote_ratio] reaches the threshold; and the other fields of the
    rule are unchanged. *)
Theorem run_voting_equal_tally (agents : list ref) (rule : Rule.t)
  (threshold : Q) (s : Store) :
  agents <> [] ->
  exists (passed : bool) (rule' : Rule.t),
    run_voting vote_on_rule agents rule EQUAL threshold s
    = (inl (passed, rule'), s)
    /\ Rule.passed rule' = passed
    /\ (0 <= Rule.votes_for rule')%Z
    /\ (0 <= Rule.votes_against rule')%Z
    /\ (Rule.votes_for rule' + Rule.votes_against rule')%Z
       = Py.len (nodup string_dec
                   (map (fun r => CivilizationAgent.id (objects s r)) agents))
    /\ (0 < Rule.votes_for rule' + Rule.votes_against rule')%Z
    /\ (passed = true <-> threshold <= Rule.vote_ratio rule')
    /\ Rule.effect rule' = Rule.effect rule
    /\ Rule.category rule' = Rule.category rule
    /\ Rule.generation_enacted rule' = Rule.generation_enacted rule.
Proof.
  intros Hne.
  set (votes :=
         fold_left
           (fun d r =>
              Py.dict_set d (CivilizationAgent.id (objects s r))
                (vote_on_rule (objects s r) rule)) agents []).
  set (yes := Py.sumZ (map (fun v : bool => if v then 1 else 0)%Z
                           (Py.values votes))).
  assert (Hlen : Py.len votes
                 = Py.len (nodup string_dec
                             (map (fun r => CivilizationAgent.id (objects s r))
                                  agents))).
  { unfold Py.len. f_equal. rewrite <- (length_map fst votes).
    apply Permutation_length, NoDup_Permutation.
    - apply (dict_fold_NoDup _ _ agents []). constructor.
    - apply NoDup_nodup.
    - intros k. fold (Py.keys votes). unfold votes.
      rewrite dict_fold_keys_In, nodup_In. simpl. tauto. }
  assert (Hpos : (0 < Py.len votes)%Z).
  { rewrite Hlen. destruct agents as [|a agents]; [congruence|].
    assert (Hin : In (CivilizationAgent.id (objects s a))
                    (nodup string_dec
                       (map (fun r => CivilizationAgent.id (objects s r))
                            (a :: agents)))).
    { apply nodup_In. left. reflexivity. }
    destruct (nodup string_dec _) as [|k ks]; [contradiction|].
    unfold Py.len. cbn [List.length]. lia. }
  pose proof (yes_count_bounds (Py.values votes)) as Hyes. fold yes in Hyes.
  assert (Hvl : Py.len (Py.values votes) = Py.len votes).
  { unfold Py.len, Py.values. rewrite length_map. reflexivity. }
  rewrite Hvl in Hyes.
  assert (Hnz : ~ inject_Z (Py.len votes) == 0).
  { change 0 with (inject_Z 0). rewrite inject_Z_injective. lia. }
  exists (Qle_bool threshold (inject_Z yes / inject_Z (Py.len votes))),
    (Rule.with_passed
       (Rule.with_tally rule yes (Py.len votes - yes))
       (Qle_bool threshold (inject_Z yes / inject_Z (Py.len votes)))).
  split_all.
  - unfold run_voting. unfold bind at 1. rewrite votes_loop. fold votes.
    unfold bind at 1. unfold get_store at 1. unfold bind at 1.
    unfold bind at 1. fold yes. rewrite (py_div_nonzero _ _ _ Hnz).
    reflexivity.
  - reflexivity.
  - simpl. lia.
  - simpl. lia.
  - simpl. rewrite <- Hlen. lia.
  - simpl. lia.
  - rewrite Qle_bool_true_iff. unfold Rule.vote_ratio. simpl.
    replace (yes + (Py.len votes - yes))%Z with (Py.len votes) by lia.
    destruct (Z.eqb_spec (Py.len votes) 0); [lia|]. reflexivity.
  - reflexivity.
  - reflexivity.
  - reflexivity.
Qed.






End VotingMoreProofs.

(** ** Further proofs: governance.py, the transforms at large *)

Lemma Qsum_nonneg_le_0 (l : list Q) :
  Forall (fun x => 0 <= x) l -> Qsum l <= 0 -> forall x, In x l -> x <= 0.
Proof.
  induction 1 as [|y l Hy Hl IH]; intros Hsum x Hin.
  - contradiction.
  - simpl in Hsum. pose proof (Qsum_nonneg l Hl) as Hs.
    destruct Hin as [<-|Hin]; [lra|]. apply IH; [lra|exact Hin].
Qed.

Lemma py_max_0_le_0 (x : Q) : Py.max 0 x <= 0 -> x <= 0.
Proof.
  unfold Py.max. destruct (Py.Qlt_bool 0 x) eqn:E; [tauto|].
  intros _. apply Qlt_bool_false_iff, E.
Qed.

(** When the shortfall is not positive, every agent is at the floor or
    above. *)
Lemma no_shortfall_all_above (min_wealth : Q) (s : Store) (agents : list ref) :
  Py.Qlt_bool 0
    (Py.sum (map (fun a => Py.max 0 (min_wealth - wealth_of s a)) agents))
  = false ->
  forall r, In r agents -> min_wealth <= wealth_of s r.
Proof.
  intros H r Hr. apply Qlt_bool_false_iff in H. rewrite Py_sum_Qsum in H.
  assert (Hx : Py.max 0 (min_wealth - wealth_of s r) <= 0).
  { apply (Qsum_nonneg_le_0
             (map (fun a => Py.max 0 (min_wealth - wealth_of s a)) agents));
      [|exact H|].
    - apply Forall_forall. intros x Hx. apply in_map_iff in Hx.
      destruct Hx as [a [<- _]]. apply py_max_0_nonneg.
    - apply in_map_iff. exists r. auto. }
  apply py_max_0_le_0 in Hx. lra.
Qed.

Lemma all_above_no_shortfall (min_wealth : Q) (s : Store) (agents : list ref) :
  (forall r, In r agents -> min_wealth <= wealth_of s r) ->
  Py.Qlt_bool 0
    (Py.sum (map (fun a => Py.max 0 (min_wealth - wealth_of s a)) agents))
  = false.
Proof.
  intros H. apply Qlt_bool_false_iff. rewrite Py_sum_Qsum.
  induction agents as [|a agents IH]; simpl.
  - apply Qle_refl.
  - assert (Ha : Py.max 0 (min_wealth - wealth_of s a) = 0).
    { unfold Py.max. destruct (Py.Qlt_bool 0 _) eqn:E; [|reflexivity].
      apply Qlt_bool_iff in E. specialize (H a (or_introl eq_refl)). lra. }
    rewrite Ha. specialize (IH (fun r Hr => H r (or_intror Hr))). lra.
Qed.

(** A loop that rewrites wealths returns normally on every list, and
    changes nothing but wealths. *)
Lemma for_each_total (g : Q -> Q) (body : ref -> M unit) :
  rewrites_wealth g body ->
  forall (l : list ref) (s : Store),
  exists s2 : Store,
    for_each l body s = (inl tt, s2) /\ only_wealth_changed s s2.
Proof.
  intros Hbody. induction l as [|x l IH]; intros s.
  - exists s. split; [reflexivity|apply only_wealth_changed_refl].
  - destruct (Hbody x s) as (sx & Ex & _ & _ & Hfx).
    destruct (IH sx) as (s2 & E2 & Hf2).
    exists s2. split.
    + cbn [for_each]. unfold bind at 1. rewrite Ex. exact E2.
    + eapply only_wealth_changed_trans; eassumption.
Qed.

(** The last loop of [_apply_welfare] leaves every agent of the list at
    the floor or above, and lowers nobody, whether or not an agent occurs
    several times in the list. *)
Lemma raise_loop (min_wealth : Q) (body : ref -> M unit) :
  rewrites_wealth
    (fun w => if Py.Qlt_bool w min_wealth then min_wealth else w) body ->
  forall (l : list ref) (s : Store),
  exists s2 : Store,
    for_each l body s = (inl tt, s2)
    /\ (forall r, In r l -> min_wealth <= wealth_of s2 r)
    /\ (forall r, min_wealth <= wealth_of s r -> min_wealth <= wealth_of s2 r)
    /\ only_wealth_changed s s2.
Proof.
  intros Hbody. induction l as [|x l IH]; intros s.
  - exists s. split_all.
    + reflexivity.
    + intros r [].
    + tauto.
    + apply only_wealth_changed_refl.
  - destruct (Hbody x s) as (sx & Ex & Hsame & Hother & Hfx).
    destruct (IH sx) as (s2 & E2 & Hin & Hmono & Hf2).
    assert (Hx : min_wealth <= wealth_of sx x).
    { rewrite Hsame. destruct (Py.Qlt_bool (wealth_of s x) min_wealth) eqn:E.
      - apply Qle_refl.
      - apply Qlt_bool_false_iff, E. }
    exists s2. split_all.
    + cbn [for_each]. unfold bind at 1. rewrite Ex. exact E2.
    + intros r [<-|Hr]; [apply Hmono, Hx|apply Hin, Hr].
    + intros r Hr. apply Hmono.
      destruct (Nat.eq_dec r x) as [->|Hne]; [exact Hx|].
      rewrite (Hother r Hne). exact Hr.
    + eapply only_wealth_changed_trans; eassumption.
Qed.

(** A run of [_apply_welfare], whatever the rule and the population. *)
Lemma apply_welfare_total (rule : Rule.t) (agents : list ref) (s : Store) :
  exists s' : Store,
    _apply_welfare rule agents s = (inl agents, s')
    /\ (forall r, In r agents ->
                  min_wealth_of (PyText.lower (Rule.effect rule))
                  <= wealth_of s' r)
    /\ only_wealth_changed s s'.
Proof.
  unfold _apply_welfare. cbv zeta.
  set (min_wealth := min_wealth_of (PyText.lower (Rule.effect rule))).
  unfold bind at 1. unfold get_store at 1.
  set (total_needed :=
         Py.sum (map (fun a => Py.max 0 (min_wealth - wealth_of s a)) agents)).
  destruct (Py.Qlt_bool 0 total_needed) eqn:Hneed.
  - set (wealthy :=
           filter (fun a => Py.Qlt_bool (min_wealth * 2) (wealth_of s a)) agents).
    assert (Hmid :
      exists s1 : Store,
        (match wealthy with
         | _ :: _ =>
             contribution_per <- py_div total_needed (inject_Z (Py.len wealthy)) ;;
             for_each wealthy
               (fun agent =>
                  a <- read agent ;;
                  set_wealth agent
                    (CivilizationAgent.wealth a
                     - Py.min contribution_per
                         (CivilizationAgent.wealth a * (1 # 10))))
         | [] => ret tt
         end) s = (inl tt, s1)
        /\ only_wealth_changed s s1).
    { destruct wealthy as [|w0 ws] eqn:Ew.
      - exists s. split; [reflexivity|apply only_wealth_changed_refl].
      - assert (Hn : ~ inject_Z (Py.len (w0 :: ws)) == 0).
        { rewrite len_cons. pose proof (len_nonneg ws). lra. }
        unfold bind at 1. rewrite (py_div_nonzero _ _ _ Hn).
        apply (for_each_total _ _ (contribute_body _)). }
    destruct Hmid as (s1 & E1 & Hf1).
    destruct (raise_loop min_wealth _ (raise_body min_wealth) agents s1)
      as (s2 & E2 & Hin & _ & Hf2).
    exists s2. unfold bind at 1. unfold bind at 1.
    rewrite E1, E2. split_all.
    + reflexivity.
    + exact Hin.
    + eapply only_wealth_changed_trans; eassumption.
  - exists s. split_all.
    + reflexivity.
    + apply (no_shortfall_all_above min_wealth s agents Hneed).
    + apply only_wealth_changed_refl.
Qed.

Lemma for_each_outside (g : Q -> Q) (body : ref -> M unit) :
  rewrites_wealth g body ->
  forall (l : list ref) (s : Store),
  exists s2 : Store,
    for_each l body s = (inl tt, s2)
    /\ forall r, ~ In r l -> wealth_of s2 r = wealth_of s r.
Proof.
  intros Hbody. induction l as [|x l IH]; intros s.
  - exists s. split; [reflexivity|reflexivity].
  - destruct (Hbody x s) as (sx & Ex & _ & Hother & _).
    destruct (IH sx) as (s2 & E2 & Hout).
    exists s2. split.
    + cbn [for_each]. unfold bind at 1. rewrite Ex. exact E2.
    + intros r Hr. rewrite Hout, Hother; [reflexivity| |].
      * intros ->. apply Hr. left. reflexivity.
      * intros Hin. apply Hr. right. exact Hin.
Qed.

Lemma raise_loop_fixed (min_wealth : Q) (body : ref -> M unit) :
  rewrites_wealth
    (fun w => if Py.Qlt_bool w min_wealth then min_wealth else w) body ->
  forall (l : list ref) (s : Store),
  exists s2 : Store,
    for_each l body s = (inl tt, s2)
    /\ forall r, min_wealth <= wealth_of s r -> wealth_of s2 r = wealth_of s r.
Proof.
  intros Hbody. induction l as [|x l IH]; intros s.
  - exists s. split; [reflexivity|reflexivity].
  - destruct (Hbody x s) as (sx & Ex & Hsame & Hother & _).
    destruct (IH sx) as (s2 & E2 & Hfix).
    exists s2. split.
    + cbn [for_each]. unfold bind at 1. rewrite Ex. exact E2.
    + intros r Hr.
      assert (Hx : wealth_of sx r = wealth_of s r).
      { destruct (Nat.eq_dec r x) as [->|Hne]; [|apply Hother, Hne].
        rewrite Hsame.
        destruct (Py.Qlt_bool (wealth_of s x) min_wealth) eqn:E;
          [|reflexivity].
        apply Qlt_bool_iff in E. lra. }
      rewrite Hfix; [exact Hx|]. rewrite Hx. exact Hr.
Qed.

(** [_apply_welfare] leaves alone the agents between the floor and twice
    the floor. *)
Lemma apply_welfare_middle (rule : Rule.t) (agents : list ref) (s : Store) :
  exists s' : Store,
    _apply_welfare rule agents s = (inl agents, s')
    /\ forall r,
         min_wealth_of (PyText.lower (Rule.effect rule)) <= wealth_of s r ->
         wealth_of s r
         <= min_wealth_of (PyText.lower (Rule.effect rule)) * 2 ->
         wealth_of s' r = wealth_of s r.
Proof.
  unfold _apply_welfare. cbv zeta.
  set (min_wealth := min_wealth_of (PyText.lower (Rule.effect rule))).
  unfold bind at 1. unfold get_store at 1.
  set (total_needed :=
         Py.sum (map (fun a => Py.max 0 (min_wealth - wealth_of s a)) agents)).
  destruct (Py.Qlt_bool 0 total_needed) eqn:Hneed.
  - set (wealthy :=
           filter (fun a => Py.Qlt_bool (min_wealth * 2) (wealth_of s a)) agents).
    assert (Hmid :
      exists s1 : Store,
        (match wealthy with
         | _ :: _ =>
             contribution_per <- py_div total_needed (inject_Z (Py.len wealthy)) ;;
             for_each wealthy
               (fun agent =>
                  a <- read agent ;;
                  set_wealth agent
                    (CivilizationAgent.wealth a
                     - Py.min contribution_per
                         (CivilizationAgent.wealth a * (1 # 10))))
         | [] => ret tt
         end) s = (inl tt, s1)
        /\ forall r, ~ In r wealthy -> wealth_of s1 r = wealth_of s r).
    { destruct wealthy as [|w0 ws] eqn:Ew.
      - exists s. split; [reflexivity|reflexivity].
      - assert (Hn : ~ inject_Z (Py.len (w0 :: ws)) == 0).
        { rewrite len_cons. pose proof (len_nonneg ws). lra. }
        unfold bind at 1. rewrite (py_div_nonzero _ _ _ Hn).
        apply (for_each_outside _ _ (contribute_body _)). }
    destruct Hmid as (s1 & E1 & Hout).
    destruct (raise_loop_fixed min_wealth _ (raise_body min_wealth) agents s1)
      as (s2 & E2 & Hfix).
    exists s2. unfold bind at 1. unfold bind at 1.
    rewrite E1, E2. split; [reflexivity|].
    intros r Hlo Hhi.
    assert (Hr : wealth_of s1 r = wealth_of s r).
    { apply Hout. unfold wealthy. rewrite filter_In. intros [_ Hw].
      apply Qlt_bool_iff in Hw. lra. }
    rewrite Hfix; [exact Hr|]. rewrite Hr. exact Hlo.
  - exists s. split; [reflexivity|reflexivity].
Qed.

(** The minimum wealth guarantee: for every rule whose floor is written
    with at most 308 digits and every population, also one that lists an
    agent several times, [_apply_welfare] returns normally, changes
    nothing but wealths, leaves every agent of the population with at
    least the floor, and leaves alone every agent whose wealth was
    between the floor and twice the floor. *)
Theorem welfare_guarantees_floor (rule : Rule.t) (agents : list ref)
  (s : Store) :
  PyText.short_number
    (PyText.re_search PyText.match_minimum_at
       (PyText.lower (Rule.effect rule))) = true ->
  exists s' : Store,
    _apply_welfare rule agents s = (inl agents, s')
    /\ (forall r, In r agents ->
                  min_wealth_of (PyText.lower (Rule.effect rule))
                  <= wealth_of s' r)
    /\ (forall r,
           min_wealth_of (PyText.lower (Rule.effect rule)) <= wealth_of s r ->
           wealth_of s r
           <= min_wealth_of (PyText.lower (Rule.effect rule)) * 2 ->
           wealth_of s' r = wealth_of s r)
    /\ only_wealth_changed s s'.
Proof.
  intros _.
  destruct (apply_welfare_total rule agents s) as (s' & E & Hfloor & Hframe).
  destruct (apply_welfare_middle rule agents s) as (s'' & E' & Hmid).
  rewrite E in E'. injection E' as <-.
  exists s'. split_all; assumption.
Qed.

(** The transforms are idle when nobody is concerned: [_apply_taxation]
    leaves the store untouched when no agent of the population is
    strictly above the threshold, and [_apply_welfare] leaves it untouched
    when no agent is strictly below the floor. *)
Theorem transforms_idle (rule : Rule.t) (agents : list ref) (s : Store) :
  ((forall r, In r agents ->
              wealth_of s r
              <= wealth_threshold_of (PyText.lower (Rule.effect rule))) ->
   _apply_taxation rule agents s = (inl agents, s))
  /\ ((forall r, In r agents ->
                 min_wealth_of (PyText.lower (Rule.effect rule))
                 <= wealth_of s r) ->
      _apply_welfare rule agents s = (inl agents, s)).
Proof.
  split.
  - intros H. unfold _apply_taxation. cbv zeta.
    set (rate := tax_rate_of (PyText.lower (Rule.effect rule))).
    set (threshold := wealth_threshold_of (PyText.lower (Rule.effect rule))) in *.
    assert (Hloop : forall l acc,
               (forall r, In r l -> wealth_of s r <= threshold) ->
               for_acc l acc
                 (fun agent total_tax =>
                    a <- read agent ;;
                    if Py.Qlt_bool threshold (CivilizationAgent.wealth a)
                    then
                      set_wealth agent
                        (CivilizationAgent.wealth a
                         - CivilizationAgent.wealth a * rate) ;;
                      ret (total_tax + CivilizationAgent.wealth a * rate)
                    else ret total_tax) s
               = (inl acc, s)).
    { induction l as [|x l IH]; intros acc Hl; [reflexivity|].
      cbn [for_acc]. unfold bind at 1.
      rewrite (collect_body rate threshold x acc s).
      rewrite (proj2 (Qlt_bool_false_iff _ _) (Hl x (or_introl eq_refl))).
      apply IH. intros r Hr. apply Hl. right. exact Hr. }
    unfold bind at 1. rewrite (Hloop agents 0 H). reflexivity.
  - intros H. unfold _apply_welfare. cbv zeta.
    unfold bind at 1. unfold get_store at 1.
    rewrite (all_above_no_shortfall _ s agents H). reflexivity.
Qed.



(** ** Further proofs: society_metrics.py, inequality *)

Lemma Qsum_Permutation (l1 l2 : list Q) :
  Permutation l1 l2 -> Qsum l1 == Qsum l2.
Proof.
  induction 1 as [|x l1 l2 _ IH|x y l|l1 l2 l3 _ IH1 _ IH2]; simpl.
  - reflexivity.
  - rewrite IH. reflexivity.
  - ring.
  - rewrite IH1. exact IH2.
Qed.

Lemma len_Permutation {A} (l1 l2 : list A) :
  Permutation l1 l2 -> Py.len l1 = Py.len l2.
Proof. intros H. unfold Py.len. rewrite (Permutation_length H). reflexivity. Qed.

Lemma len_pos {A} (x : A) (l : list A) : 0 < inject_Z (Py.len (x :: l)).
Proof. rewrite len_cons. pose proof (len_nonneg l). lra. Qed.

Lemma enumerate_rank_sum (l : list Q) :
  forall a : nat,
    Qsum (map (fun '(i, x) => inject_Z (i + 1) * x)
              (combine (map Z.of_nat (seq a (List.length l))) l))
    == rank_weighted (inject_Z (Z.of_nat a)) l.
Proof.
  induction l as [|x l IH]; intros a; cbn [List.length seq map combine Qsum
                                            rank_weighted].
  - reflexivity.
  - rewrite IH, Nat2Z.inj_succ. unfold Z.succ. rewrite !inject_Z_plus.
    reflexivity.
Qed.

Lemma rank_weighted_ext (l : list Q) :
  forall a b : Q, a == b -> rank_weighted a l == rank_weighted b l.
Proof.
  induction l as [|y l IH]; intros a b Hab; cbn [rank_weighted].
  - reflexivity.
  - rewrite (IH (a + 1) (b + 1)) by (rewrite Hab; reflexivity).
    rewrite Hab. reflexivity.
Qed.

Lemma rank_weighted_app (l1 l2 : list Q) :
  forall k : Q,
    rank_weighted k (l1 ++ l2)
    == rank_weighted k l1 + rank_weighted (k + inject_Z (Py.len l1)) l2.
Proof.
  induction l1 as [|x l1 IH]; intros k.
  - change (Py.len (@nil Q)) with 0%Z. change (inject_Z 0) with 0.
    cbn [app rank_weighted].
    rewrite (rank_weighted_ext l2 (k + 0) k) by ring. ring.
  - cbn [app rank_weighted]. rewrite IH.
    rewrite (rank_weighted_ext l2 (k + inject_Z (Py.len (x :: l1)))
               (k + 1 + inject_Z (Py.len l1))) by (rewrite len_cons; ring).
    ring.
Qed.

Lemma rank_weighted_zeros (l : list Q) :
  Forall (fun x => x == 0) l -> forall k, rank_weighted k l == 0.
Proof.
  induction 1 as [|x l Hx _ IH]; intros k; cbn [rank_weighted].
  - reflexivity.
  - rewrite Hx, IH. ring.
Qed.

Lemma rank_weighted_constant (w : Q) (l : list Q) :
  Forall (fun x => x == w) l ->
  forall k,
    2 * rank_weighted k l
    == w * (2 * inject_Z (Py.len l) * k
            + inject_Z (Py.len l) * (inject_Z (Py.len l) + 1)).
Proof.
  induction 1 as [|x l Hx _ IH]; intros k.
  - change (Py.len (@nil Q)) with 0%Z. change (inject_Z 0) with 0.
    cbn [rank_weighted]. ring.
  - cbn [rank_weighted]. rewrite len_cons.
    setoid_replace (2 * ((k + 1) * x + rank_weighted (k + 1) l))
      with (2 * (k + 1) * x + 2 * rank_weighted (k + 1) l) by ring.
    rewrite IH, Hx. ring.
Qed.

Lemma Qsum_constant (w : Q) (l : list Q) :
  Forall (fun x => x == w) l -> Qsum l == inject_Z (Py.len l) * w.
Proof.
  induction 1 as [|x l Hx _ IH].
  - change (Py.len (@nil Q)) with 0%Z. change (inject_Z 0) with 0. simpl. ring.
  - rewrite len_cons. cbn [Qsum]. rewrite IH, Hx. ring.
Qed.

Lemma clamp_range (x : Q) : 0 <= Py.max 0 (Py.min 1 x) <= 1.
Proof.
  unfold Py.max, Py.min.
  destruct (Py.Qlt_bool x 1) eqn:E1.
  - apply Qlt_bool_iff in E1.
    destruct (Py.Qlt_bool 0 x) eqn:E0.
    + apply Qlt_bool_iff in E0. lra.
    + lra.
  - destruct (Py.Qlt_bool 0 1) eqn:E0; lra.
Qed.

Lemma clamp_inside (x : Q) : 0 <= x -> x <= 1 -> Py.max 0 (Py.min 1 x) == x.
Proof.
  intros H0 H1. unfold Py.max, Py.min.
  destruct (Py.Qlt_bool x 1) eqn:E1.
  - destruct (Py.Qlt_bool 0 x) eqn:E0; [reflexivity|].
    apply Qlt_bool_false_iff in E0. lra.
  - apply Qlt_bool_false_iff in E1.
    destruct (Py.Qlt_bool 0 1) eqn:E0; [lra|].
    apply Qlt_bool_false_iff in E0. lra.
Qed.

(** What [compute_gini] computes on more than one agent. *)
Lemma compute_gini_run (a : ref) (agents : list ref) (s : Store) :
  let wealths := Py.sorted (fun w => w) (map (wealth_of s) (a :: agents)) in
  let n := inject_Z (Py.len (a :: agents)) in
  Py.len wealths = Py.len (a :: agents)
  /\ Permutation wealths (map (wealth_of s) (a :: agents))
  /\ (agents = [] -> compute_gini (a :: agents) s = (inl 0, s))
  /\ (n * Qsum wealths == 0 -> compute_gini (a :: agents) s = (inl 0, s))
  /\ (agents <> [] -> ~ n * Qsum wealths == 0 ->
      exists g : Q,
        compute_gini (a :: agents) s = (inl (Py.max 0 (Py.min 1 g)), s)
        /\ g == 2 * rank_weighted 0 wealths / (n * Qsum wealths) - (n + 1) / n).
Proof.
  intros wealths n.
  assert (Hperm : Permutation wealths (map (wealth_of s) (a :: agents)))
    by apply sorted_Permutation.
  assert (Hlen : Py.len wealths = Py.len (a :: agents)).
  { rewrite (len_Permutation _ _ Hperm). unfold Py.len. rewrite length_map.
    reflexivity. }
  assert (Hn : 0 < n) by apply len_pos.
  split_all; [exact Hlen|exact Hperm| | |].
  - intros ->. unfold compute_gini, bind, get_store. fold wealths.
    rewrite Hlen. reflexivity.
  - intros Hz. unfold compute_gini, bind, get_store. fold wealths.
    rewrite Hlen. destruct (Py.len (a :: agents) =? 1)%Z; [reflexivity|].
    assert (E : Qeq_bool (inject_Z (Py.len (a :: agents)) * Py.sum wealths) 0
                = true).
    { apply Qeq_bool_iff. rewrite Py_sum_Qsum. exact Hz. }
    rewrite E. reflexivity.
  - intros Hne Hnz.
    assert (Hn1 : (Py.len (a :: agents) =? 1)%Z = false).
    { apply Z.eqb_neq. destruct agents as [|b l]; [congruence|].
      unfold Py.len. cbn [List.length]. lia. }
    assert (E : Qeq_bool (inject_Z (Py.len (a :: agents)) * Py.sum wealths) 0
                = false).
    { destruct (Qeq_bool _ 0) eqn:Eq; [|reflexivity].
      apply Qeq_bool_iff in Eq. rewrite Py_sum_Qsum in Eq. contradiction. }
    eexists. split.
    + unfold compute_gini. unfold bind at 1. unfold get_store at 1.
      fold wealths. rewrite Hlen, Hn1, E.
      unfold bind at 1. rewrite py_div_nonzero.
      2:{ rewrite Py_sum_Qsum. exact Hnz. }
      unfold bind at 1. rewrite py_div_nonzero.
      2:{ fold n. lra. }
      reflexivity.
    + rewrite !Py_sum_Qsum. unfold PyList.enumerate.
      rewrite (enumerate_rank_sum wealths 0). rewrite inject_Z_plus.
      fold n. reflexivity.
Qed.

(** [compute_gini] returns, with a result between 0 and 1. *)
Lemma compute_gini_returns (agents : list ref) (s : Store) :
  exists g : Q, compute_gini agents s = (inl g, s) /\ 0 <= g <= 1.
Proof.
  destruct agents as [|a agents].
  - exists 0. split; [reflexivity|lra].
  - destruct (compute_gini_run a agents s) as (_ & _ & H1 & H0 & Hg).
    cbv zeta in H0, Hg.
    destruct agents as [|b agents].
    + exists 0. split; [apply H1; reflexivity|lra].
    + destruct (Qeq_dec
                  (inject_Z (Py.len (a :: b :: agents))
                   * Qsum (Py.sorted (fun w => w)
                             (map (wealth_of s) (a :: b :: agents)))) 0)
        as [Hz|Hnz].
      * exists 0. split; [apply H0, Hz|lra].
      * destruct (Hg ltac:(discriminate) Hnz) as (g & E & _).
        eexists. split; [exact E|apply clamp_range].
Qed.

(** [compute_gini] never raises, whatever the population and its wealths,
    leaves the store as it is, and its result lies between 0 and 1; it is
    0 on fewer than two agents and when the wealths add up to zero. *)
Theorem compute_gini_range (agents : list ref) (s : Store) :
  exists g : Q,
    compute_gini agents s = (inl g, s)
    /\ 0 <= g <= 1
    /\ ((Py.len agents <= 1)%Z -> g = 0)
    /\ (Qsum (map (wealth_of s) agents) == 0 -> g = 0).
Proof.
  destruct (compute_gini_returns agents s) as (g & E & Hg).
  exists g. split; [exact E|]. split; [exact Hg|].
  destruct agents as [|a agents].
  { injection E as <-. split; reflexivity. }
  destruct (compute_gini_run a agents s) as (_ & Hperm & H1 & H0 & _).
  cbv zeta in Hperm, H0. split.
  - intros Hlen. destruct agents as [|b agents].
    + rewrite (H1 eq_refl) in E. injection E as <-. reflexivity.
    + unfold Py.len in Hlen. cbn [List.length] in Hlen. lia.
  - intros Hz. rewrite H0 in E; [injection E as <-; reflexivity|].
    rewrite (Qsum_Permutation _ _ Hperm), Hz. ring.
Qed.

Lemma Forall_Permutation {A} (P : A -> Prop) (l1 l2 : list A) :
  Permutation l1 l2 -> Forall P l2 -> Forall P l1.
Proof.
  intros Hp Hf. apply Forall_forall. intros x Hx.
  rewrite Forall_forall in Hf. apply Hf. apply (Permutation_in _ Hp Hx).
Qed.

(** When all the agents of the population hold the same whole-number
    wealth [k], small enough for binary64 to be exact
    ([exact_in_binary64]), the Gini coefficient is 0. *)
Theorem compute_gini_equal_wealth (agents : list ref) (k : Z) (s : Store) :
  exact_in_binary64 (Py.len agents) k ->
  (forall r, In r agents -> wealth_of s r == inject_Z k) ->
  exists g : Q, compute_gini agents s = (inl g, s) /\ g == 0.
Proof.
  intros _ Heq. set (w := inject_Z k) in Heq. clearbody w.
  destruct agents as [|a agents].
  - exists 0. split; reflexivity.
  - destruct (compute_gini_run a agents s) as (Hlen & Hperm & H1 & H0 & Hg).
    cbv zeta in Hlen, Hperm, H0, Hg.
    set (wealths := Py.sorted (fun w => w) (map (wealth_of s) (a :: agents))) in *.
    set (n := inject_Z (Py.len (a :: agents))) in *.
    assert (Hn : 0 < n) by apply len_pos.
    assert (Hall : Forall (fun x => x == w) wealths).
    { apply (Forall_Permutation _ _ _ Hperm). apply Forall_forall.
      intros x Hx. apply in_map_iff in Hx. destruct Hx as [r [<- Hr]].
      apply Heq, Hr. }
    assert (Hsum : Qsum wealths == n * w).
    { rewrite (Qsum_constant w wealths Hall), Hlen. reflexivity. }
    destruct agents as [|b agents].
    { exists 0. split; [apply H1; reflexivity|reflexivity]. }
    destruct (Qeq_dec w 0) as [Hw|Hw].
    + exists 0. split; [|reflexivity]. apply H0. rewrite Hsum, Hw. ring.
    + assert (Hnz : ~ n * Qsum wealths == 0).
      { rewrite Hsum. intros Hz.
        assert (Hz' : n * n * w == 0) by (rewrite <- Hz; ring).
        apply Qmult_integral in Hz'. destruct Hz' as [Hz'|Hz']; [|contradiction].
        apply Qmult_integral in Hz'. destruct Hz'; lra. }
      destruct (Hg ltac:(discriminate) Hnz) as (g & E & Hgv).
      eexists. split; [exact E|].
      assert (Hg0 : g == 0).
      { rewrite Hgv.
        pose proof (rank_weighted_constant w wealths Hall 0) as Hr.
        rewrite Hlen in Hr. fold n in Hr. rewrite Hr, Hsum. field. lra. }
      rewrite (clamp_inside g); [exact Hg0|lra|lra].
Qed.

(** ** Further proofs: one agent holds everything *)

Lemma insert_zero_front (z w : Q) (zs : list Q) :
  z == 0 -> 0 < w -> Forall (fun x => x == 0) zs ->
  Py.insert_by (fun x => x) z (zs ++ [w]) = z :: zs ++ [w].
Proof.
  intros Hz Hw Hzs. destruct zs as [|y zs]; cbn [app Py.insert_by].
  - assert (E : Qle_bool z w = true) by (apply Qle_bool_iff; lra).
    rewrite E. reflexivity.
  - inversion Hzs as [|? ? Hy _]; subst.
    assert (E : Qle_bool z y = true) by (apply Qle_bool_iff; lra).
    rewrite E. reflexivity.
Qed.

Lemma insert_top_back (w : Q) (zs : list Q) :
  0 < w -> Forall (fun x => x == 0) zs ->
  Py.insert_by (fun x => x) w zs = zs ++ [w].
Proof.
  intros Hw. induction 1 as [|y zs Hy _ IH]; cbn [app Py.insert_by].
  - reflexivity.
  - assert (E : Qle_bool w y = false).
    { destruct (Qle_bool w y) eqn:E; [|reflexivity].
      apply Qle_bool_iff in E. lra. }
    rewrite E, IH. reflexivity.
Qed.

Lemma sorted_zeros (l : list Q) :
  Forall (fun x => x == 0) l -> Forall (fun x => x == 0) (Py.sorted (fun x => x) l).
Proof.
  intros H. apply (Forall_Permutation _ _ _ (sorted_Permutation _ l) H).
Qed.

Lemma sorted_one_positive (l1 l2 : list Q) (w : Q) :
  0 < w -> Forall (fun x => x == 0) l1 -> Forall (fun x => x == 0) l2 ->
  exists zs : list Q,
    Py.sorted (fun x => x) (l1 ++ w :: l2) = zs ++ [w]
    /\ Forall (fun x => x == 0) zs.
Proof.
  intros Hw H1 H2. induction H1 as [|z l1 Hz _ IH]; cbn [app Py.sorted].
  - exists (Py.sorted (fun x => x) l2). split.
    + apply insert_top_back; [exact Hw|apply sorted_zeros, H2].
    + apply sorted_zeros, H2.
  - destruct IH as (zs & E & Hzs). exists (z :: zs). split.
    + rewrite E. apply insert_zero_front; assumption.
    + constructor; assumption.
Qed.

(** When one agent holds a positive wealth and every other agent of the
    population holds none, the Gini coefficient of [n] agents is
    [(n - 1) / n]: it approaches 1 with the size of the population and
    never reaches it. *)
Theorem compute_gini_one_holds_all (l1 l2 : list ref) (r0 : ref) (s : Store) :
  0 < wealth_of s r0 ->
  (forall r, In r (l1 ++ l2) -> wealth_of s r == 0) ->
  let n := inject_Z (Py.len (l1 ++ r0 :: l2)) in
  exists g : Q,
    compute_gini (l1 ++ r0 :: l2) s = (inl g, s) /\ g == (n - 1) / n.
Proof.
  intros Hw Hz n.
  destruct (l1 ++ r0 :: l2) as [|a agents] eqn:Eag.
  { destruct l1; discriminate. }
  destruct (compute_gini_run a agents s) as (Hlen & _ & H1 & _ & Hg).
  cbv zeta in Hlen, H1, Hg.
  assert (Hn : 0 < n) by apply len_pos.
  destruct agents as [|b agents].
  { exists 0. split; [apply H1; reflexivity|].
    subst n. change (inject_Z (Py.len [a])) with 1. reflexivity. }
  assert (Hzs : exists zs,
             Py.sorted (fun x => x) (map (wealth_of s) (a :: b :: agents))
             = zs ++ [wealth_of s r0]
             /\ Forall (fun x => x == 0) zs).
  { rewrite <- Eag, map_app. cbn [map].
    apply sorted_one_positive; [exact Hw| |]; apply Forall_forall;
      intros x Hx; apply in_map_iff in Hx; destruct Hx as [r [<- Hr]];
      apply Hz, in_or_app; [left|right]; exact Hr. }
  destruct Hzs as (zs & Ezs & Hzs).
  rewrite Ezs in Hlen, Hg. fold n in Hg.
  assert (Hsum : Qsum (zs ++ [wealth_of s r0]) == wealth_of s r0).
  { rewrite Qsum_app. cbn [Qsum]. rewrite (Qsum_constant 0 zs Hzs). ring. }
  assert (Hk : inject_Z (Py.len zs) + 1 == n).
  { subst n. rewrite <- Hlen. unfold Py.len. rewrite length_app.
    cbn [List.length]. rewrite Nat2Z.inj_add, inject_Z_plus. reflexivity. }
  assert (Hrank : rank_weighted 0 (zs ++ [wealth_of s r0])
                  == n * wealth_of s r0).
  { rewrite rank_weighted_app, (rank_weighted_zeros zs Hzs).
    cbn [rank_weighted]. rewrite <- Hk. ring. }
  assert (Hnz : ~ n * Qsum (zs ++ [wealth_of s r0]) == 0).
  { rewrite Hsum. intros Hc. apply Qmult_integral in Hc. destruct Hc; lra. }
  destruct (Hg ltac:(discriminate) Hnz) as (g & E & Hgv).
  assert (Hg' : g == (n - 1) / n).
  { rewrite Hgv, Hrank, Hsum. field. lra. }
  eexists. split; [exact E|].
  assert (H0 : 0 <= (n - 1) / n).
  { apply Qle_shift_div_l; [exact Hn|].
    subst n. rewrite len_cons. pose proof (len_nonneg (b :: agents)). lra. }
  assert (H1' : (n - 1) / n <= 1).
  { apply Qle_shift_div_r; [exact Hn|lra]. }
  rewrite (clamp_inside g); [exact Hg'|lra|lra].
Qed.

(** ** Further proofs: wealth concentration *)

Lemma sorted_reverse_Permutation {A} (key : A -> Q) (l : list A) :
  Permutation (PyList.sorted_reverse key l) l.
Proof.
  unfold PyList.sorted_reverse.
  rewrite <- Permutation_rev, sorted_Permutation, <- Permutation_rev.
  reflexivity.
Qed.

Lemma Qsum_firstn_le (l : list Q) :
  Forall (fun x => 0 <= x) l ->
  forall k : nat, 0 <= Qsum (firstn k l) <= Qsum l.
Proof.
  induction 1 as [|x l Hx Hl IH]; intros k.
  - rewrite firstn_nil. cbn [Qsum]. lra.
  - destruct k as [|k]; cbn [firstn Qsum].
    + pose proof (Qsum_nonneg l Hl). lra.
    + specialize (IH k). lra.
Qed.

Lemma slice_to_all {A} (l : list A) (n : Z) :
  (Py.len l <= n)%Z -> Py.slice_to l n = l.
Proof.
  intros H. unfold Py.slice_to.
  assert (E : (0 <=? n)%Z = true) by (apply Z.leb_le; unfold Py.len in H; lia).
  rewrite E. apply firstn_all2. unfold Py.len in H. lia.
Qed.

Lemma slice_to_firstn {A} (l : list A) (n : Z) :
  exists k : nat, Py.slice_to l n = firstn k l.
Proof.
  unfold Py.slice_to. destruct (0 <=? n)%Z; eexists; reflexivity.
Qed.

(** What [compute_wealth_concentration] computes on a nonempty population. *)
Lemma compute_wealth_concentration_run (a : ref) (agents : list ref)
  (top_n : Z) (s : Store) :
  let wealths :=
    PyList.sorted_reverse (fun w => w) (map (wealth_of s) (a :: agents)) in
  (Qsum wealths == 0 ->
   compute_wealth_concentration (a :: agents) top_n s = (inl 0, s))
  /\ (~ Qsum wealths == 0 ->
      compute_wealth_concentration (a :: agents) top_n s
      = (inl (Py.sum (Py.slice_to wealths top_n) / Py.sum wealths), s)).
Proof.
  intros wealths. split; intros H.
  - unfold compute_wealth_concentration, bind, get_store. fold wealths.
    assert (E : Qeq_bool (Py.sum wealths) 0 = true).
    { apply Qeq_bool_iff. rewrite Py_sum_Qsum. exact H. }
    rewrite E. reflexivity.
  - unfold compute_wealth_concentration, bind, get_store. fold wealths.
    assert (E : Qeq_bool (Py.sum wealths) 0 = false).
    { destruct (Qeq_bool _ 0) eqn:Eq; [|reflexivity].
      apply Qeq_bool_iff in Eq. rewrite Py_sum_Qsum in Eq. contradiction. }
    rewrite E. apply py_div_nonzero. rewrite Py_sum_Qsum. exact H.
Qed.

(** [compute_wealth_concentration] never raises and leaves the store as
    it is.  On a population without debts the share lies between 0 and 1
    for any [top_n], negative ones included; and when [top_n] is at least
    the size of the population and the total wealth is not zero, the
    share is 1. *)
Theorem compute_wealth_concentration_share (agents : list ref) (top_n : Z)
  (s : Store) :
  exists c : Q,
    compute_wealth_concentration agents top_n s = (inl c, s)
    /\ ((forall r, In r agents -> 0 <= wealth_of s r) -> 0 <= c <= 1)
    /\ ((Py.len agents <= top_n)%Z ->
        ~ Qsum (map (wealth_of s) agents) == 0 -> c == 1).
Proof.
  destruct agents as [|a agents].
  { exists 0. split_all; [reflexivity|intros _; split; lra|].
    intros _ H. exfalso. apply H. reflexivity. }
  destruct (compute_wealth_concentration_run a agents top_n s) as [Hz Hnz].
  cbv zeta in Hz, Hnz.
  set (wealths :=
         PyList.sorted_reverse (fun w => w) (map (wealth_of s) (a :: agents)))
    in *.
  assert (Hperm : Permutation wealths (map (wealth_of s) (a :: agents)))
    by apply sorted_reverse_Permutation.
  assert (Hsum : Qsum wealths == Qsum (map (wealth_of s) (a :: agents)))
    by apply (Qsum_Permutation _ _ Hperm).
  destruct (Qeq_dec (Qsum wealths) 0) as [H0|H0].
  - exists 0. split_all; [apply Hz, H0|intros _; split; lra|].
    intros _ H. exfalso. apply H. rewrite <- Hsum. exact H0.
  - eexists. split_all; [apply Hnz, H0| |].
    + intros Hpos.
      assert (Hall : Forall (fun x => 0 <= x) wealths).
      { apply (Forall_Permutation _ _ _ Hperm). apply Forall_forall.
        intros x Hx. apply in_map_iff in Hx. destruct Hx as [r [<- Hr]].
        apply Hpos, Hr. }
      destruct (slice_to_firstn wealths top_n) as [k ->].
      rewrite !Py_sum_Qsum.
      pose proof (Qsum_firstn_le wealths Hall k) as [Hlo Hhi].
      pose proof (Qsum_nonneg wealths Hall) as Hs.
      split; [apply Qle_shift_div_l; [lra|]; lra|].
      apply Qle_shift_div_r; [lra|]. lra.
    + intros Hn _. rewrite slice_to_all.
      * rewrite Py_sum_Qsum. field. exact H0.
      * rewrite (len_Permutation _ _ Hperm). unfold Py.len in *.
        rewrite length_map. exact Hn.
Qed.

(** ** Further proofs: social mobility *)

Lemma mobility_loop (body : ref -> Z * Z * Z -> M (Z * Z * Z)) :
  (forall x u d st s,
      exists u' d' st',
        body x (u, d, st) s = (inl (u', d', st'), s)
        /\ (u' + d' + st' = u + d + st + 1)%Z
        /\ (u <= u')%Z /\ (d <= d')%Z /\ (st <= st')%Z) ->
  forall (l : list ref) u d st s,
    exists u' d' st',
      for_acc l (u, d, st) body s = (inl (u', d', st'), s)
      /\ (u' + d' + st' = u + d + st + Py.len l)%Z
      /\ (u <= u')%Z /\ (d <= d')%Z /\ (st <= st')%Z.
Proof.
  intros Hbody. induction l as [|x l IH]; intros u d st s.
  - exists u, d, st. unfold Py.len. cbn [List.length for_acc].
    split; [reflexivity|lia].
  - destruct (Hbody x u d st s) as (u1 & d1 & st1 & E1 & Hs1 & Hu1 & Hd1 & Hst1).
    destruct (IH u1 d1 st1 s) as (u2 & d2 & st2 & E2 & Hs2 & Hu2 & Hd2 & Hst2).
    exists u2, d2, st2. cbn [for_acc]. unfold bind at 1. rewrite E1, E2.
    unfold Py.len in *. cbn [List.length]. split; [reflexivity|lia].
Qed.

Lemma filter_none {A} (f : A -> bool) (l : list A) :
  (forall x, f x = false) -> filter f l = [].
Proof.
  intros H. induction l as [|x l IH]; cbn [filter]; [reflexivity|].
  rewrite H. exact IH.
Qed.

(** A run of [compute_social_mobility], in terms of the three counts. *)
Lemma compute_social_mobility_run (agents : list ref)
  (previous_wealths : Py.dict Q) (s : Store) :
  let continuing :=
    filter
      (fun a =>
         match Py.dict_get previous_wealths
                 (CivilizationAgent.id (objects s a)) with
         | Some _ => true
         | None => false
         end)
      agents in
  match continuing with
  | [] => compute_social_mobility agents previous_wealths s = (inl NoMobility, s)
  | _ :: _ =>
      exists upward downward stable : Z,
        compute_social_mobility agents previous_wealths s
        = (inl (Mobility
                  (inject_Z upward / inject_Z (Py.len continuing))
                  (inject_Z downward / inject_Z (Py.len continuing))
                  (inject_Z stable / inject_Z (Py.len continuing))
                  (Py.len continuing)), s)
        /\ (upward + downward + stable = Py.len continuing)%Z
        /\ (0 <= upward)%Z /\ (0 <= downward)%Z /\ (0 <= stable)%Z
  end.
Proof.
  intros continuing.
  destruct agents as [|a agents]; [reflexivity|].
  destruct previous_wealths as [|p previous_wealths].
  { subst continuing. rewrite filter_none by reflexivity. reflexivity. }
  subst continuing.
  destruct (filter _ (a :: agents)) as [|c cs] eqn:Ec.
  { unfold compute_social_mobility, bind, get_store. rewrite Ec. reflexivity. }
  unfold compute_social_mobility. unfold bind at 1. unfold get_store at 1.
  cbv beta iota. rewrite Ec. cbv beta iota.
  set (continuing := c :: cs).
  match goal with
  | |- context [for_acc ?ll ?acc ?b] =>
      pose proof (fun H => mobility_loop b H ll 0%Z 0%Z 0%Z s) as Hloop
  end.
  lapply Hloop; [clear Hloop|].
  2:{ intros x u d st s0.
      match goal with
      | |- context [if ?c1 then _ else if ?c2 then _ else _] =>
          destruct c1; [|destruct c2]
      end; do 3 eexists; (split; [reflexivity|lia]). }
  intros (u' & d' & st' & E & Hsum & Hu & Hd & Hst).
  unfold bind at 1. rewrite E. cbv beta iota.
  assert (Hn : 0 < inject_Z (Py.len continuing)) by apply len_pos.
  clearbody continuing.
  unfold bind at 1. rewrite py_div_nonzero by lra.
  unfold bind at 1. rewrite py_div_nonzero by lra.
  unfold bind at 1. rewrite py_div_nonzero by lra.
  exists u', d', st'. split; [reflexivity|]. lia.
Qed.

(** [compute_social_mobility] never raises.  It reports the three zeros
    when no agent of the population has an entry in [previous_wealths];
    otherwise [total_continuing] is the number of agents that have one,
    and the three fractions are not negative and add up to 1. *)
Theorem compute_social_mobility_fractions (agents : list ref)
  (previous_wealths : Py.dict Q) (s : Store) :
  let continuing :=
    filter
      (fun a =>
         match Py.dict_get previous_wealths
                 (CivilizationAgent.id (objects s a)) with
         | Some _ => true
         | None => false
         end)
      agents in
  match continuing with
  | [] => compute_social_mobility agents previous_wealths s = (inl NoMobility, s)
  | _ :: _ =>
      exists u d st : Q,
        compute_social_mobility agents previous_wealths s
        = (inl (Mobility u d st (Py.len continuing)), s)
        /\ 0 <= u /\ 0 <= d /\ 0 <= st /\ u + d + st == 1
  end.
Proof.
  pose proof (compute_social_mobility_run agents previous_wealths s) as H.
  cbv zeta in *.
  destruct (filter _ agents) as [|c cs]; [exact H|].
  destruct H as (u' & d' & st' & E & Hsum & Hu & Hd & Hst).
  set (continuing := c :: cs) in *.
  assert (Hn : 0 < inject_Z (Py.len continuing)) by apply len_pos.
  clearbody continuing.
  do 3 eexists. split; [exact E|].
  assert (Hq : inject_Z u' + inject_Z d' + inject_Z st'
               == inject_Z (Py.len continuing)).
  { rewrite <- !inject_Z_plus. rewrite Hsum. reflexivity. }
  assert (Hu' : 0 <= inject_Z u') by (apply inject_Z_nonneg; lia).
  assert (Hd' : 0 <= inject_Z d') by (apply inject_Z_nonneg; lia).
  assert (Hst' : 0 <= inject_Z st') by (apply inject_Z_nonneg; lia).
  split_all.
  - apply Qle_shift_div_l; [exact Hn|lra].
  - apply Qle_shift_div_l; [exact Hn|lra].
  - apply Qle_shift_div_l; [exact Hn|lra].
  - setoid_replace
      (inject_Z u' / inject_Z (Py.len continuing)
       + inject_Z d' / inject_Z (Py.len continuing)
       + inject_Z st' / inject_Z (Py.len continuing))
      with ((inject_Z u' + inject_Z d' + inject_Z st')
            / inject_Z (Py.len continuing))
      by (field; lra).
    rewrite Hq. field. lra.
Qed.

(** ** Further proofs: specialization by wealth class *)

Lemma dict_set_In {V} (d : Py.dict V) (k k' : string) (v v' : V) :
  In (k', v') (Py.dict_set d k v) -> (k' = k /\ v' = v) \/ In (k', v') d.
Proof.
  induction d as [|[k0 v0] d IH]; cbn [Py.dict_set]; intros H.
  - destruct H as [H|[]]. inversion H. left. split; reflexivity.
  - destruct (String.eqb_spec k0 k) as [->|Hne].
    + destruct H as [H|H]; [inversion H; left; split; reflexivity|].
      right. right. exact H.
    + destruct H as [H|H]; [right; left; exact H|].
      destruct (IH H) as [Hk|Hin]; [left; exact Hk|right; right; exact Hin].
Qed.

Lemma enumerate_snd {A} (l : list A) : map snd (PyList.enumerate l) = l.
Proof.
  unfold PyList.enumerate. generalize 0%nat.
  induction l as [|x l IH]; intros a; cbn [List.length seq map combine].
  - reflexivity.
  - cbn [snd]. rewrite IH. reflexivity.
Qed.

Lemma Qsum_shares (total : Q) (cs : list Z) :
  ~ total == 0 ->
  Qsum (map (fun c => inject_Z c / total) cs) == inject_Z (Py.sumZ cs) / total.
Proof.
  intros Ht. induction cs as [|c cs IH].
  - rewrite sumZ_nil. cbn [map Qsum]. field. exact Ht.
  - rewrite sumZ_cons, inject_Z_plus. cbn [map Qsum]. rewrite IH. field.
    exact Ht.
Qed.

(** The inner loop of [compute_specialization_by_class]: the counts of a
    class are divided by its size, key by key. *)
Lemma shares_loop (total : Q) (s : Store) :
  ~ total == 0 ->
  forall (counts : Py.dict Z) (dist : Py.dict Q),
    NoDup (Py.keys dist ++ Py.keys counts) ->
    for_acc counts dist
      (fun '(spec, count) dist =>
         q <- py_div (inject_Z count) total ;;
         ret (Py.dict_set dist spec q)) s
    = (inl (dist ++ map (fun kc => (fst kc, inject_Z (snd kc) / total)) counts),
       s).
Proof.
  intros Ht. induction counts as [|[k c] counts IH]; intros dist Hnd.
  - cbn [for_acc map]. rewrite app_nil_r. reflexivity.
  - cbn [for_acc]. unfold bind at 1. unfold bind at 1.
    rewrite py_div_nonzero by exact Ht.
    change (ret (Py.dict_set dist k (inject_Z c / total)) s)
      with (@inl _ exn (Py.dict_set dist k (inject_Z c / total)), s).
    cbv beta iota.
    assert (Hk : ~ In k (Py.keys dist)).
    { intros Hin. cbn [Py.keys map fst] in Hnd. apply NoDup_remove_2 in Hnd.
      apply Hnd, in_or_app. left. exact Hin. }
    rewrite (dict_set_fresh dist k _ Hk), IH.
    + rewrite <- app_assoc. reflexivity.
    + unfold Py.keys in *. rewrite map_app. cbn [map fst] in *.
      rewrite <- app_assoc. exact Hnd.
Qed.

Section ClassProofs.

Variable get_best_task_type : CivilizationAgent.t -> option string.

(** The outer loop: every class name receives a distribution that is
    empty or sums to 1. *)
Lemma classes_loop (body : Z * string -> Py.dict (Py.dict Q) -> M (Py.dict (Py.dict Q)))
  (s : Store) :
  (forall x result,
      exists dist,
        body x result s = (inl (Py.dict_set result (snd x) dist), s)
        /\ (dist = [] \/ Qsum (Py.values dist) == 1)) ->
  forall (l : list (Z * string)) (result : Py.dict (Py.dict Q)),
    NoDup (Py.keys result ++ map snd l) ->
    (forall name dist,
        In (name, dist) result -> dist = [] \/ Qsum (Py.values dist) == 1) ->
    exists result',
      for_acc l result body s = (inl result', s)
      /\ Py.keys result' = Py.keys result ++ map snd l
      /\ (forall name dist,
             In (name, dist) result' ->
             dist = [] \/ Qsum (Py.values dist) == 1).
Proof.
  intros Hbody. induction l as [|x l IH]; intros result Hnd Hgood.
  - exists result. cbn [for_acc map]. rewrite app_nil_r.
    split_all; [reflexivity|reflexivity|exact Hgood].
  - destruct (Hbody x result) as (dist & E & Hdist).
    assert (Hx : ~ In (snd x) (Py.keys result)).
    { intros Hin. cbn [map] in Hnd. apply NoDup_remove_2 in Hnd.
      apply Hnd, in_or_app. left. exact Hin. }
    destruct (IH (Py.dict_set result (snd x) dist)) as (result' & E' & Hk & Hg).
    + rewrite (dict_set_fresh result _ _ Hx). unfold Py.keys in *.
      rewrite map_app. cbn [map fst]. rewrite <- app_assoc. exact Hnd.
    + intros name d Hin. apply dict_set_In in Hin.
      destruct Hin as [[_ ->]|Hin]; [exact Hdist|exact (Hgood name d Hin)].
    + exists result'. cbn [for_acc]. unfold bind at 1. rewrite E, E'.
      split_all; [reflexivity| |exact Hg].
      rewrite Hk, (dict_set_fresh result _ _ Hx). unfold Py.keys.
      rewrite map_app. cbn [map fst]. rewrite <- app_assoc. reflexivity.
Qed.

Lemma class_names_NoDup (n_classes : Z) :
  NoDup (Py.slice_to ["upper"; "middle"; "lower"] n_classes).
Proof.
  destruct (slice_to_firstn ["upper"; "middle"; "lower"] n_classes) as [k ->].
  destruct k as [|[|[|k]]]; cbn [firstn]; rewrite ?firstn_nil;
    repeat (constructor; [intros H; cbn [In] in H; intuition discriminate|]);
    constructor.
Qed.

(** A run of [compute_specialization_by_class] on a population that is
    not empty, for a number of classes that is not 0. *)
Lemma compute_specialization_by_class_run (agents : list ref)
  (n_classes : Z) (s : Store) :
  agents <> [] -> n_classes <> 0%Z ->
  exists result,
    compute_specialization_by_class get_best_task_type agents n_classes s
    = (inl result, s)
    /\ Py.keys result = Py.slice_to ["upper"; "middle"; "lower"] n_classes
    /\ (forall name dist,
           In (name, dist) result ->
           dist = [] \/ Qsum (Py.values dist) == 1).
Proof.
  intros Hne Hn. destruct agents as [|a agents]; [congruence|].
  unfold compute_specialization_by_class. unfold bind at 1.
  unfold get_store at 1. cbv beta iota. unfold bind at 1.
  unfold py_floordiv.
  assert (En : (n_classes =? 0)%Z = false) by (apply Z.eqb_neq; exact Hn).
  rewrite En.
  match goal with
  | |- context [ret ?v s] => change (ret v s) with (@inl _ exn v, s)
  end.
  cbv beta iota.
  match goal with
  | |- context [for_acc ?ll ?acc ?b] =>
      pose proof (fun H => classes_loop b s H ll []) as Hloop
  end.
  lapply Hloop; [clear Hloop; intros Hloop|].
  + destruct Hloop as (result & E & Hk & Hg).
    * rewrite enumerate_snd. apply class_names_NoDup.
    * intros name dist [].
    * exists result. rewrite enumerate_snd in Hk.
      split_all; [exact E|exact Hk|exact Hg].
  + intros [i class_name] result. cbv beta iota zeta.
    match goal with
    | |- context [Py.Counter ?sp] => remember sp as specs eqn:Es
    end.
    clear Es. destruct specs as [|x specs'].
    * exists []. split; [reflexivity|left; reflexivity].
    * set (specs := x :: specs').
      assert (Hpos : ~ inject_Z (Py.len specs) == 0).
      { pose proof (len_pos x specs'). subst specs. lra. }
      clearbody specs.
      eexists. split.
      -- unfold bind at 1.
         pose proof (shares_loop (inject_Z (Py.len specs)) s Hpos
                       (Py.Counter specs) [] (Counter_NoDup specs)) as Hs.
         unfold Py.dict in *. rewrite Hs. reflexivity.
      -- right. cbn [app]. unfold Py.values. rewrite map_map. cbn [snd].
         rewrite <- (map_map snd (fun c => inject_Z c / inject_Z (Py.len specs))).
         rewrite (Qsum_shares _ _ Hpos).
         change (map snd (Py.Counter specs)) with (Py.values (Py.Counter specs)).
         rewrite <- tally_Counter, tally_sum. field. exact Hpos.
Qed.

(** [compute_specialization_by_class] raises ZeroDivisionError exactly
    when [n_classes] is 0 on a population that is not empty.  Otherwise
    it returns one entry per class name of ["upper", "middle",
    "lower"][:n_classes], in that order, and the shares of each class add
    up to 1 unless the class is empty; the store is left as it is. *)
Theorem compute_specialization_by_class_shares (agents : list ref)
  (n_classes : Z) (s : Store) :
  (agents <> [] -> n_classes = 0%Z ->
   compute_specialization_by_class get_best_task_type agents n_classes s
   = (inr ZeroDivisionError, s))
  /\ (agents = [] ->
      compute_specialization_by_class get_best_task_type agents n_classes s
      = (inl [], s))
  /\ (agents <> [] -> n_classes <> 0%Z ->
      exists result,
        compute_specialization_by_class get_best_task_type agents n_classes s
        = (inl result, s)
        /\ Py.keys result = Py.slice_to ["upper"; "middle"; "lower"] n_classes
        /\ (forall name dist,
               In (name, dist) result ->
               dist = [] \/ Qsum (Py.values dist) == 1)).
Proof.
  split_all.
  - intros Hne ->. destruct agents as [|a agents]; [congruence|].
    reflexivity.
  - intros ->. reflexivity.
  - apply compute_specialization_by_class_run.
Qed.

End ClassProofs.

(** ** Further proofs: dynasty.py, the analysis *)

Lemma sumZ_app (l1 l2 : list Z) :
  Py.sumZ (l1 ++ l2) = (Py.sumZ l1 + Py.sumZ l2)%Z.
Proof.
  induction l1 as [|x l1 IH]; cbn [app].
  - rewrite sumZ_nil. lia.
  - rewrite !sumZ_cons, IH. lia.
Qed.

Lemma sumZ_Permutation (l1 l2 : list Z) :
  Permutation l1 l2 -> Py.sumZ l1 = Py.sumZ l2.
Proof.
  induction 1 as [|x l1 l2 _ IH|x y l|l1 l2 l3 _ IH1 _ IH2].
  - reflexivity.
  - rewrite !sumZ_cons, IH. reflexivity.
  - rewrite !sumZ_cons. lia.
  - rewrite IH1. exact IH2.
Qed.

Lemma sumZ_nonneg (l : list Z) :
  Forall (fun x => 0 <= x)%Z l -> (0 <= Py.sumZ l)%Z.
Proof.
  induction 1 as [|x l Hx _ IH]; [rewrite sumZ_nil|rewrite sumZ_cons]; lia.
Qed.

Lemma sumZ_firstn_le (l : list Z) :
  Forall (fun x => 0 <= x)%Z l ->
  forall k : nat, (0 <= Py.sumZ (firstn k l) <= Py.sumZ l)%Z.
Proof.
  induction 1 as [|x l Hx Hl IH]; intros k.
  - rewrite firstn_nil, sumZ_nil. lia.
  - destruct k as [|k]; cbn [firstn]; rewrite ?sumZ_cons, ?sumZ_nil.
    + pose proof (sumZ_nonneg l Hl). lia.
    + specialize (IH k). lia.
Qed.

Lemma sumZ_ge_len (l : list Z) :
  Forall (fun x => 1 <= x)%Z l -> (Py.len l <= Py.sumZ l)%Z.
Proof.
  induction 1 as [|x l Hx _ IH].
  - rewrite sumZ_nil. unfold Py.len. cbn. lia.
  - rewrite sumZ_cons. unfold Py.len in *. cbn [List.length].
    rewrite Nat2Z.inj_succ. lia.
Qed.

Lemma filter_split_len {A} (f g : A -> bool) (l : list A) :
  (forall x, g x = negb (f x)) ->
  (Py.len (filter f l) + Py.len (filter g l))%Z = Py.len l.
Proof.
  intros Hfg. unfold Py.len. induction l as [|x l IH]; cbn [filter List.length].
  - reflexivity.
  - rewrite Hfg. destruct (f x); cbn [negb List.length]; lia.
Qed.

Lemma py_maxZ_nonempty (l : list Z) (s : Store) :
  l <> [] ->
  exists m : Z,
    py_maxZ l s = (inl m, s) /\ In m l /\ forall x, In x l -> (x <= m)%Z.
Proof.
  intros Hne. destruct l as [|x l]; [congruence|].
  unfold py_maxZ. destruct (PyList.maxZ (x :: l)) as [m|] eqn:E.
  - exists m. split; [reflexivity|]. apply maxZ_spec, E.
  - discriminate E.
Qed.

Lemma count_add_get (d : Py.dict Z) (k k' : string) (n : Z) :
  PyList.dict_get_default (count_add d k n) k' 0%Z
  = if String.eqb k k'
    then (PyList.dict_get_default d k 0 + n)%Z
    else PyList.dict_get_default d k' 0%Z.
Proof.
  unfold count_add, PyList.dict_get_default.
  destruct (String.eqb_spec k k') as [<-|Hne].
  - rewrite dict_get_set_same. reflexivity.
  - rewrite dict_get_set_other by congruence. reflexivity.
Qed.

Lemma count_add_keys (d : Py.dict Z) (k k' : string) (n : Z) :
  In k' (Py.keys (count_add d k n)) <-> k' = k \/ In k' (Py.keys d).
Proof. unfold count_add. apply dict_set_keys_In. Qed.

(** The counts of [analyze_dynasties]: no specialization has more
    survivors than dynasties, and every listed one has a dynasty. *)
Lemma survival_counts (l : list Dynasty.t) :
  forall totals survivors : Py.dict Z,
    (forall k,
        (0 <= PyList.dict_get_default survivors k 0
         <= PyList.dict_get_default totals k 0)%Z
        /\ (In k (Py.keys totals) ->
            (1 <= PyList.dict_get_default totals k 0)%Z)) ->
    forall k,
      (0 <= PyList.dict_get_default
              (snd (fold_left
                      (fun '(spec_totals, spec_survivors) d =>
                         match Dynasty.specialization_type d with
                         | Some (String c x) =>
                             (count_add spec_totals (String c x) 1,
                              if is_active d
                              then count_add spec_survivors (String c x) 1
                              else spec_survivors)
                         | _ => (spec_totals, spec_survivors)
                         end)
                      l (totals, survivors))) k 0
       <= PyList.dict_get_default
            (fst (fold_left
                    (fun '(spec_totals, spec_survivors) d =>
                       match Dynasty.specialization_type d with
                       | Some (String c x) =>
                           (count_add spec_totals (String c x) 1,
                            if is_active d
                            then count_add spec_survivors (String c x) 1
                            else spec_survivors)
                       | _ => (spec_totals, spec_survivors)
                       end)
                    l (totals, survivors))) k 0)%Z
      /\ (In k (Py.keys
                  (fst (fold_left
                          (fun '(spec_totals, spec_survivors) d =>
                             match Dynasty.specialization_type d with
                             | Some (String c x) =>
                                 (count_add spec_totals (String c x) 1,
                                  if is_active d
                                  then count_add spec_survivors (String c x) 1
                                  else spec_survivors)
                             | _ => (spec_totals, spec_survivors)
                             end)
                          l (totals, survivors)))) ->
          (1 <= PyList.dict_get_default
                  (fst (fold_left
                          (fun '(spec_totals, spec_survivors) d =>
                             match Dynasty.specialization_type d with
                             | Some (String c x) =>
                                 (count_add spec_totals (String c x) 1,
                                  if is_active d
                                  then count_add spec_survivors (String c x) 1
                                  else spec_survivors)
                             | _ => (spec_totals, spec_survivors)
                             end)
                          l (totals, survivors))) k 0)%Z).
Proof.
  induction l as [|d l IH]; intros totals survivors Hinv k.
  - cbn [fold_left fst snd]. apply Hinv.
  - cbn [fold_left].
    destruct (Dynasty.specialization_type d) as [[|c x]|]; try (apply IH, Hinv).
    apply IH. clear k. intros k. destruct (Hinv k) as [Hk Hk1].
    destruct (Hinv (String c x)) as [Hs Hs1].
    split.
    + rewrite count_add_get. destruct (is_active d).
      * rewrite count_add_get.
        destruct (String.eqb_spec (String c x) k) as [<-|Hne]; lia.
      * destruct (String.eqb_spec (String c x) k) as [<-|Hne]; lia.
    + intros Hin. rewrite count_add_get.
      destruct (String.eqb_spec (String c x) k) as [<-|Hne]; [lia|].
      apply Hk1. apply count_add_keys in Hin.
      destruct Hin as [->|Hin]; [congruence|exact Hin].
Qed.

(** The last loop of [analyze_dynasties]: one ratio per specialization. *)
Lemma survival_loop (totals survivors : Py.dict Z) (s : Store) :
  forall (specs : list string) (acc : Py.dict Q),
    (forall k, In k specs ->
               (0 <= PyList.dict_get_default survivors k 0
                <= PyList.dict_get_default totals k 0)%Z
               /\ (1 <= PyList.dict_get_default totals k 0)%Z) ->
    Forall (fun v => 0 <= v <= 1) (Py.values acc) ->
    exists res : Py.dict Q,
      for_acc specs acc
        (fun spec spec_survival =>
           q <- py_div
                  (inject_Z (PyList.dict_get_default survivors spec 0%Z))
                  (inject_Z (PyList.dict_get_default totals spec 0%Z)) ;;
           ret (Py.dict_set spec_survival spec q)) s
      = (inl res, s)
      /\ Forall (fun v => 0 <= v <= 1) (Py.values res).
Proof.
  induction specs as [|k specs IH]; intros acc Hk Hacc.
  - exists acc. split; [reflexivity|exact Hacc].
  - destruct (Hk k (or_introl eq_refl)) as [Hrange Hpos].
    assert (Ht : 0 < inject_Z (PyList.dict_get_default totals k 0%Z)).
    { rewrite <- (Zlt_Qlt 0). lia. }
    assert (Hs : 0 <= inject_Z (PyList.dict_get_default survivors k 0%Z)).
    { apply inject_Z_nonneg. lia. }
    assert (Hle : inject_Z (PyList.dict_get_default survivors k 0%Z)
                  <= inject_Z (PyList.dict_get_default totals k 0%Z)).
    { rewrite <- Zle_Qle. lia. }
    destruct (IH (Py.dict_set acc k
                    (inject_Z (PyList.dict_get_default survivors k 0%Z)
                     / inject_Z (PyList.dict_get_default totals k 0%Z))))
      as (res & E & Hres).
    + intros k' Hk'. apply Hk. right. exact Hk'.
    + apply dict_set_values_Forall; [exact Hacc|]. split.
      * apply Qle_shift_div_l; [exact Ht|lra].
      * apply Qle_shift_div_r; [exact Ht|lra].
    + exists res. split; [|exact Hres].
      cbn [for_acc]. unfold bind at 1. unfold bind at 1.
      rewrite py_div_nonzero by lra.
      change (ret ?x s) with (@inl _ exn x, s). cbv beta iota. exact E.
Qed.

Lemma is_active_size (d : Dynasty.t) :
  is_active d = true -> (1 <= Py.len (Dynasty.current_members d))%Z.
Proof.
  unfold is_active. intros H. apply andb_true_iff in H. destruct H as [_ H].
  destruct (Dynasty.current_members d) as [|x l]; [discriminate H|].
  unfold Py.len. cbn [List.length]. lia.
Qed.

Lemma active_sizes (l : list Dynasty.t) :
  Forall (fun x => 1 <= x)%Z
    (map (fun d => Py.len (Dynasty.current_members d)) (filter is_active l)).
Proof.
  apply Forall_forall. intros x Hx. apply in_map_iff in Hx.
  destruct Hx as [d [<- Hd]]. apply filter_In in Hd.
  apply is_active_size, Hd.
Qed.

Lemma Forall_ge1_nonneg (l : list Z) :
  Forall (fun x => 1 <= x)%Z l -> Forall (fun x => 0 <= x)%Z l.
Proof. apply Forall_impl. intros x Hx. lia. Qed.

(** A run of [analyze_dynasties]. *)
Lemma analyze_dynasties_run (dynasties : Py.dict Dynasty.t)
  (total_wealth : option Q) (s : Store) :
  let active := filter is_active (Py.values dynasties) in
  let sizes := map (fun d => Py.len (Dynasty.current_members d)) active in
  exists r : DynastyAnalysis.t,
    analyze_dynasties dynasties total_wealth s = (inl r, s)
    /\ DynastyAnalysis.n_active_dynasties r = Py.len active
    /\ DynastyAnalysis.n_extinct_dynasties r
       = (Py.len dynasties - Py.len active)%Z
    /\ DynastyAnalysis.total_population r = Py.sumZ sizes
    /\ (active = [] -> DynastyAnalysis.largest_dynasty_size r = 0%Z)
    /\ (active <> [] ->
        In (DynastyAnalysis.largest_dynasty_size r) sizes
        /\ forall x, In x sizes ->
                     (x <= DynastyAnalysis.largest_dynasty_size r)%Z)
    /\ 0 <= DynastyAnalysis.top3_population_share r <= 1
    /\ (active <> [] -> (Py.len active <= 3)%Z ->
        DynastyAnalysis.top3_population_share r == 1)
    /\ (total_wealth = None ->
        (forall d, In d active -> 0 <= Dynasty.total_wealth d) ->
        0 <= DynastyAnalysis.top3_wealth_share r <= 1)
    /\ Forall (fun v => 0 <= v <= 1)
         (Py.values (DynastyAnalysis.survival_by_specialization r)).
Proof.
  cbv zeta.
  assert (Hext :
    Py.len (filter
              (fun d =>
                 Dynasty.is_extinct d || is_empty (Dynasty.current_members d))
              (Py.values dynasties))
    = (Py.len dynasties - Py.len (filter is_active (Py.values dynasties)))%Z).
  { pose proof (filter_split_len is_active
                  (fun d =>
                     Dynasty.is_extinct d
                     || is_empty (Dynasty.current_members d))
                  (Py.values dynasties)) as H.
    replace (Py.len (Py.values dynasties)) with (Py.len dynasties) in H
      by (unfold Py.len, Py.values; rewrite length_map; reflexivity).
    rewrite <- H; [lia|].
    intros d. unfold is_active. rewrite negb_andb, !negb_involutive.
    reflexivity. }
  pose proof (active_sizes (Py.values dynasties)) as Hsizes.
  unfold analyze_dynasties. rewrite Hext. clear Hext.
  destruct (filter is_active (Py.values dynasties)) as [|a0 rest].
  { eexists. split; [reflexivity|]. cbn.
    split_all; intros; try reflexivity; try lra; try congruence;
      try (split; lra); try constructor. }
  set (active := a0 :: rest) in *.
  assert (Hne : active <> []) by discriminate.
  assert (Hlen : (1 <= Py.len active)%Z).
  { unfold active, Py.len. cbn [List.length]. lia. }
  clearbody active. clear a0 rest.
  set (sizes := map (fun d => Py.len (Dynasty.current_members d)) active) in *.
  assert (Hpop : (1 <= Py.sumZ sizes)%Z).
  { pose proof (sumZ_ge_len sizes Hsizes) as H.
    replace (Py.len sizes) with (Py.len active) in H
      by (unfold sizes, Py.len; rewrite length_map; reflexivity).
    lia. }
  (* the share of wealth *)
  set (tw := match total_wealth with
             | Some w => w
             | None => Py.sum (map Dynasty.total_wealth active)
             end).
  set (by_wealth := Py.sorted (fun d => - Dynasty.total_wealth d) active).
  assert (Hw :
    exists w : Q,
      (if Py.Qlt_bool 0 tw
       then py_div
              (Py.sum (map Dynasty.total_wealth (Py.slice_to by_wealth 3))) tw
       else ret 0) s = (inl w, s)
      /\ (total_wealth = None ->
          (forall d, In d active -> 0 <= Dynasty.total_wealth d) ->
          0 <= w <= 1)).
  { destruct (Py.Qlt_bool 0 tw) eqn:E.
    - apply Qlt_bool_iff in E. eexists. split; [apply py_div_nonzero; lra|].
      intros Hnone Hpos. subst tw. subst total_wealth.
      rewrite Py_sum_Qsum in E. rewrite !Py_sum_Qsum.
      destruct (slice_to_firstn by_wealth 3) as [k ->].
      assert (Hperm : Permutation (map Dynasty.total_wealth by_wealth)
                        (map Dynasty.total_wealth active)).
      { apply Permutation_map, sorted_Permutation. }
      assert (Hall : Forall (fun x => 0 <= x)
                       (map Dynasty.total_wealth by_wealth)).
      { apply (Forall_Permutation _ _ _ Hperm). apply Forall_forall.
        intros x Hx. apply in_map_iff in Hx. destruct Hx as [d [<- Hd]].
        apply Hpos, Hd. }
      rewrite <- firstn_map.
      pose proof (Qsum_firstn_le _ Hall k) as [Hlo Hhi].
      rewrite (Qsum_Permutation _ _ Hperm) in Hhi.
      split; [apply Qle_shift_div_l; lra|apply Qle_shift_div_r; lra].
    - exists 0. split; [reflexivity|]. intros _ _. split; lra. }
  destruct Hw as (w & Ew & Hwr).
  unfold bind at 1. rewrite Ew. clear Ew.
  (* the share of the population *)
  set (by_size :=
         Py.sorted
           (fun d => - inject_Z (Py.len (Dynasty.current_members d))) active).
  assert (Hp :
    exists p : Q,
      (if (0 <? Py.sumZ sizes)%Z
       then py_div
              (inject_Z
                 (Py.sumZ
                    (map (fun d => Py.len (Dynasty.current_members d))
                       (Py.slice_to by_size 3))))
              (inject_Z (Py.sumZ sizes))
       else ret 0) s = (inl p, s)
      /\ 0 <= p <= 1
      /\ ((Py.len active <= 3)%Z -> p == 1)).
  { assert (E : (0 <? Py.sumZ sizes)%Z = true) by (apply Z.ltb_lt; lia).
    rewrite E.
    assert (Hq : 0 < inject_Z (Py.sumZ sizes)).
    { rewrite <- (Zlt_Qlt 0). lia. }
    eexists. split; [apply py_div_nonzero; lra|].
    assert (Hperm : Permutation
                      (map (fun d => Py.len (Dynasty.current_members d)) by_size)
                      sizes).
    { apply Permutation_map, sorted_Permutation. }
    assert (Hall : Forall (fun x => 0 <= x)%Z
                     (map (fun d => Py.len (Dynasty.current_members d))
                        by_size)).
    { apply Forall_ge1_nonneg.
      apply (Forall_Permutation _ _ _ Hperm), Hsizes. }
    split.
    - destruct (slice_to_firstn by_size 3) as [k ->].
      rewrite <- firstn_map.
      pose proof (sumZ_firstn_le _ Hall k) as [Hlo Hhi].
      rewrite (sumZ_Permutation _ _ Hperm) in Hhi.
      split.
      + apply Qle_shift_div_l; [exact Hq|]. rewrite Qmult_0_l.
        apply inject_Z_nonneg. exact Hlo.
      + apply Qle_shift_div_r; [exact Hq|]. rewrite Qmult_1_l.
        rewrite <- Zle_Qle. exact Hhi.
    - intros H3. rewrite slice_to_all.
      + rewrite (sumZ_Permutation _ _ Hperm). field. lra.
      + unfold by_size. rewrite (len_Permutation _ _ (sorted_Permutation _ _)).
        exact H3. }
  destruct Hp as (p & Ep & Hpr & Hp3).
  unfold bind at 1. rewrite Ep. clear Ep.
  (* survival by specialization *)
  assert (Hc0 : forall k,
             (0 <= PyList.dict_get_default [] k 0
              <= PyList.dict_get_default [] k 0)%Z
             /\ (In k (Py.keys (@nil (string * Z))) ->
                 (1 <= PyList.dict_get_default [] k 0)%Z)).
  { intros k. cbn. split; [lia|tauto]. }
  pose proof (survival_counts (Py.values dynasties) [] [] Hc0) as Hc.
  clear Hc0. unfold Py.dict in *.
  match goal with
  | |- context [fold_left ?f (Py.values dynasties) ([], [])] =>
      set (counts := fold_left f (Py.values dynasties) ([], []))
  end.
  assert (Hc' : forall k,
             (0 <= PyList.dict_get_default (snd counts) k 0
              <= PyList.dict_get_default (fst counts) k 0)%Z
             /\ (In k (Py.keys (fst counts)) ->
                 (1 <= PyList.dict_get_default (fst counts) k 0)%Z))
    by exact Hc.
  clear Hc. clearbody counts. destruct counts as [totals survivors].
  cbn [fst snd] in Hc'.
  destruct (survival_loop totals survivors s (Py.keys totals) [])
    as (survival & Es & Hsurv).
  { intros k Hk. destruct (Hc' k) as [Hr H1].
    split; [exact Hr|apply H1, Hk]. }
  { constructor. }
  unfold bind at 1. unfold Py.dict in *. rewrite Es. clear Es.
  (* the largest and the oldest *)
  destruct (py_maxZ_nonempty sizes s) as (largest & El & Hlin & Hlmax).
  { unfold sizes. destruct active; [congruence|discriminate]. }
  destruct (py_maxZ_nonempty (map Dynasty.generations_survived active) s)
    as (oldest & Eo & _).
  { destruct active; [congruence|discriminate]. }
  unfold bind at 1. rewrite El. unfold bind at 1. rewrite Eo.
  eexists. split; [reflexivity|]. cbn.
  split_all; try reflexivity; try tauto; try apply Hpr; exact Hsurv.
Qed.

Lemma In_le_sumZ (l : list Z) (x : Z) :
  Forall (fun y => 0 <= y)%Z l -> In x l -> (x <= Py.sumZ l)%Z.
Proof.
  induction 1 as [|y l Hy Hl IH]; intros Hin; [destruct Hin|].
  rewrite sumZ_cons. pose proof (sumZ_nonneg l Hl).
  destruct Hin as [->|Hin]; [lia|]. specialize (IH Hin). lia.
Qed.

(** [analyze_dynasties] never raises, whatever the dynasties and the
    total wealth given.  Every dynasty is counted once, as active or as
    extinct; the population is at least the number of active dynasties
    and at least the size of the largest one; the share of the
    population in the top three dynasties lies between 0 and 1, and is 1
    when there are one to three active dynasties; the survival ratio of
    every specialization lies between 0 and 1; and when the total wealth
    is computed and no active dynasty is in debt, the share of wealth of
    the top three lies between 0 and 1. *)
Theorem analyze_dynasties_consistent (dynasties : Py.dict Dynasty.t)
  (total_wealth : option Q) (s : Store) :
  exists r : DynastyAnalysis.t,
    analyze_dynasties dynasties total_wealth s = (inl r, s)
    /\ (DynastyAnalysis.n_active_dynasties r
        + DynastyAnalysis.n_extinct_dynasties r)%Z = Py.len dynasties
    /\ DynastyAnalysis.n_active_dynasties r
       = Py.len (filter is_active (Py.values dynasties))
    /\ (DynastyAnalysis.n_active_dynasties r
        <= DynastyAnalysis.total_population r)%Z
    /\ (DynastyAnalysis.largest_dynasty_size r
        <= DynastyAnalysis.total_population r)%Z
    /\ ((0 < DynastyAnalysis.n_active_dynasties r)%Z ->
        (1 <= DynastyAnalysis.largest_dynasty_size r)%Z)
    /\ 0 <= DynastyAnalysis.top3_population_share r <= 1
    /\ ((1 <= DynastyAnalysis.n_active_dynasties r <= 3)%Z ->
        DynastyAnalysis.top3_population_share r == 1)
    /\ (total_wealth = None ->
        (forall d, In d (Py.values dynasties) -> 0 <= Dynasty.total_wealth d) ->
        0 <= DynastyAnalysis.top3_wealth_share r <= 1)
    /\ Forall (fun v => 0 <= v <= 1)
         (Py.values (DynastyAnalysis.survival_by_specialization r)).
Proof.
  destruct (analyze_dynasties_run dynasties total_wealth s)
    as (r & E & Hn & Hx & Hpop & Hl0 & Hl & Hp & Hp3 & Hw & Hs).
  pose proof (active_sizes (Py.values dynasties)) as Hsizes.
  set (active := filter is_active (Py.values dynasties)) in *.
  set (sizes := map (fun d => Py.len (Dynasty.current_members d)) active) in *.
  assert (Hlen : Py.len sizes = Py.len active).
  { unfold sizes, Py.len. rewrite length_map. reflexivity. }
  assert (Hne : (0 < Py.len active)%Z -> active <> []).
  { intros H ->. unfold Py.len in H. cbn in H. lia. }
  exists r. split; [exact E|].
  split; [lia|]. split; [exact Hn|].
  split.
  { rewrite Hn, Hpop, <- Hlen. apply sumZ_ge_len, Hsizes. }
  split.
  { rewrite Hpop. destruct active as [|a0 rest] eqn:Ea.
    - rewrite (Hl0 eq_refl). apply sumZ_nonneg, Forall_ge1_nonneg, Hsizes.
    - apply In_le_sumZ; [apply Forall_ge1_nonneg, Hsizes|].
      apply Hl. discriminate. }
  split.
  { intros Hpos. rewrite Hn in Hpos.
    destruct (Hl (Hne Hpos)) as [Hin _].
    rewrite Forall_forall in Hsizes. apply Hsizes, Hin. }
  split; [exact Hp|].
  split.
  { intros [H1 H3]. rewrite Hn in H1, H3. apply Hp3; [apply Hne; lia|exact H3]. }
  split; [|exact Hs].
  intros Hnone Hpos. apply (Hw Hnone). intros d Hd. apply Hpos.
  apply filter_In in Hd. apply Hd.
Qed.

(** ** Further proofs: dynasty.py, the tree *)

Lemma group_fold_get {A} (key : A -> string) (l : list A) :
  forall (d : Py.dict (list A)) (k : string),
    Py.dict_get (fold_left (fun d x => group_append d (key x) x) l d) k
    = match filter (fun x => String.eqb (key x) k) l with
      | [] => Py.dict_get d k
      | y :: f => Some (PyList.dict_get_default d k [] ++ y :: f)
      end.
Proof.
  induction l as [|x l IH]; intros d k; cbn [fold_left filter].
  - reflexivity.
  - rewrite IH. unfold group_append at 1 2. unfold PyList.dict_get_default.
    destruct (String.eqb_spec (key x) k) as [->|Hne].
    + rewrite dict_get_set_same.
      destruct (filter (fun x0 => String.eqb (key x0) k) l) as [|y f].
      * reflexivity.
      * rewrite <- app_assoc. reflexivity.
    + rewrite dict_get_set_other by congruence. reflexivity.
Qed.

Lemma group_fold_NoDup {A} (key : A -> string) (l : list A) :
  forall d : Py.dict (list A),
    NoDup (Py.keys d) ->
    NoDup (Py.keys (fold_left (fun d x => group_append d (key x) x) l d)).
Proof.
  induction l as [|x l IH]; intros d Hd; cbn [fold_left].
  - exact Hd.
  - apply IH. unfold group_append. apply dict_set_NoDup, Hd.
Qed.

Lemma group_fold_keys {A} (key : A -> string) (l : list A) :
  forall (d : Py.dict (list A)) (k : string),
    In k (Py.keys (fold_left (fun d x => group_append d (key x) x) l d))
    <-> In k (Py.keys d) \/ In k (map key l).
Proof.
  induction l as [|x l IH]; intros d k; cbn [fold_left map In].
  - tauto.
  - rewrite IH. unfold group_append. rewrite dict_set_keys_In.
    split; intros H; intuition congruence.
Qed.

(** The groups of [build_dynasty_tree]: each key holds, in order, the
    elements of that key, and there is at least one. *)
Lemma group_entries {A} (key : A -> string) (l : list A) (k : string)
  (v : list A) :
  In (k, v) (fold_left (fun d x => group_append d (key x) x) l []) ->
  v = filter (fun x => String.eqb (key x) k) l /\ v <> [].
Proof.
  intros Hin.
  assert (Hget : Py.dict_get
                   (fold_left (fun d x => group_append d (key x) x) l []) k
                 = Some v).
  { apply dict_In_get; [|exact Hin]. apply group_fold_NoDup. constructor. }
  rewrite group_fold_get in Hget.
  destruct (filter (fun x => String.eqb (key x) k) l) as [|y f].
  - discriminate Hget.
  - cbn in Hget. injection Hget as <-. split; [reflexivity|discriminate].
Qed.

Lemma dict_set_measure {V} (g : V -> Q) (d : Py.dict V) (k : string) (v : V) :
  Qsum (map (fun kv => g (snd kv)) (Py.dict_set d k v))
  == Qsum (map (fun kv => g (snd kv)) d)
     - match Py.dict_get d k with
       | Some v0 => g v0
       | None => 0
       end
     + g v.
Proof.
  induction d as [|[k0 v0] d IH]; cbn [Py.dict_set Py.dict_get map Qsum snd].
  - ring.
  - destruct (String.eqb_spec k0 k) as [->|Hne]; cbn [map Qsum snd].
    + ring.
    + rewrite IH. ring.
Qed.

(** Grouping loses and repeats nothing: a sum over the groups is the sum
    over the list. *)
Lemma group_fold_measure {A} (key : A -> string) (f : A -> Q) (l : list A) :
  forall d : Py.dict (list A),
    Qsum (map (fun kv => Qsum (map f (snd kv)))
            (fold_left (fun d x => group_append d (key x) x) l d))
    == Qsum (map (fun kv => Qsum (map f (snd kv))) d) + Qsum (map f l).
Proof.
  induction l as [|x l IH]; intros d; cbn [fold_left map Qsum].
  - ring.
  - rewrite IH. unfold group_append.
    rewrite (dict_set_measure (fun v => Qsum (map f v))).
    unfold PyList.dict_get_default.
    destruct (Py.dict_get d (key x)) as [v0|];
      rewrite map_app, Qsum_app; cbn [map Qsum]; ring.
Qed.

Lemma py_min_by_nonempty {A} (key : A -> Z) (l : list A) (s : Store) :
  l <> [] -> exists x : A, py_min_by key l s = (inl x, s).
Proof.
  intros Hne. destruct l as [|x l]; [congruence|].
  eexists. reflexivity.
Qed.

Lemma maxQ_from_spec (l : list Q) :
  forall m : Q,
    (PyList.maxQ_from m l = m \/ In (PyList.maxQ_from m l) l)
    /\ m <= PyList.maxQ_from m l
    /\ (forall x, In x l -> x <= PyList.maxQ_from m l).
Proof.
  induction l as [|x l IH]; intros m; cbn [PyList.maxQ_from].
  - split_all; [left; reflexivity|apply Qle_refl|intros x []].
  - destruct (IH (if Py.Qlt_bool m x then x else m)) as (Hin & Hle & Hall).
    destruct (Py.Qlt_bool m x) eqn:E.
    + apply Qlt_bool_iff in E. split_all.
      * right. destruct Hin as [->|Hin]; [left; reflexivity|right; exact Hin].
      * lra.
      * intros y [<-|Hy]; [exact Hle|apply Hall, Hy].
    + apply Qlt_bool_false_iff in E. split_all.
      * destruct Hin as [Hin|Hin]; [left; exact Hin|right; right; exact Hin].
      * exact Hle.
      * intros y [<-|Hy]; [lra|apply Hall, Hy].
Qed.

Lemma py_maxQ_nonempty (l : list Q) (s : Store) :
  l <> [] ->
  exists m : Q,
    py_maxQ l s = (inl m, s) /\ In m l /\ forall x, In x l -> x <= m.
Proof.
  intros Hne. destruct l as [|x l]; [congruence|].
  exists (PyList.maxQ_from x l). split; [reflexivity|].
  destruct (maxQ_from_spec l x) as (Hin & Hle & Hall). split.
  - destruct Hin as [->|Hin]; [left; reflexivity|right; exact Hin].
  - intros y [<-|Hy]; [exact Hle|apply Hall, Hy].
Qed.

Lemma specialization_of_total (specs : list string) (current : option string)
  (s : Store) :
  exists sp : option string, specialization_of specs current s = (inl sp, s).
Proof.
  destruct specs as [|x specs]; [eexists; reflexivity|].
  unfold specialization_of.
  destruct (Py.Counter (x :: specs)) as [|[k n] counts] eqn:E.
  - exfalso.
    assert (Hin : In x (Py.keys (Py.Counter (x :: specs)))).
    { apply Counter_keys_In. left. reflexivity. }
    rewrite E in Hin. exact Hin.
  - cbn [most_common_1]. destruct (max_count_from (k, n) counts).
    eexists. reflexivity.
Qed.

(** A loop that stores one value under each key of a list of entries
    with distinct keys. *)
Lemma for_acc_dict_build {V W} (R : string -> V -> W -> Prop)
  (body : string * V -> Py.dict W -> M (Py.dict W)) (s : Store) :
  forall (l : list (string * V)) (acc : Py.dict W),
    (forall k v acc', In (k, v) l ->
                      exists w, body (k, v) acc' s
                                = (inl (Py.dict_set acc' k w), s)
                                /\ R k v w) ->
    NoDup (Py.keys acc ++ map fst l) ->
    exists res : Py.dict W,
      for_acc l acc body s = (inl (acc ++ res), s)
      /\ Forall2 (fun kv kw => fst kw = fst kv /\ R (fst kv) (snd kv) (snd kw))
           l res.
Proof.
  induction l as [|[k v] l IH]; intros acc Hbody Hnd.
  - exists []. rewrite app_nil_r. split; [reflexivity|constructor].
  - destruct (Hbody k v acc (or_introl eq_refl)) as (w & E & Hw).
    assert (Hk : ~ In k (Py.keys acc)).
    { intros Hin. cbn [map fst] in Hnd. apply NoDup_remove_2 in Hnd.
      apply Hnd, in_or_app. left. exact Hin. }
    rewrite (dict_set_fresh acc k w Hk) in E.
    destruct (IH (acc ++ [(k, w)])) as (res & E' & Hres).
    + intros k' v' acc' Hin. apply Hbody. right. exact Hin.
    + unfold Py.keys in *. rewrite map_app. cbn [map fst] in *.
      rewrite <- app_assoc. exact Hnd.
    + exists ((k, w) :: res). split.
      * cbn [for_acc]. unfold bind at 1. rewrite E, E'.
        rewrite <- app_assoc. reflexivity.
      * constructor; [split; [reflexivity|exact Hw]|exact Hres].
Qed.

Lemma Forall2_In_right {A B} (P : A -> B -> Prop) (l1 : list A)
  (l2 : list B) (y : B) :
  Forall2 P l1 l2 -> In y l2 -> exists x, In x l1 /\ P x y.
Proof.
  induction 1 as [|a b l1 l2 Hab _ IH]; intros Hin; [destruct Hin|].
  destruct Hin as [<-|Hin].
  - exists a. split; [left; reflexivity|exact Hab].
  - destruct (IH Hin) as (x & Hx & Hp). exists x. split; [right; exact Hx|exact Hp].
Qed.

Lemma Forall2_map_eq {A B C} (f : A -> C) (g : B -> C) (l1 : list A)
  (l2 : list B) :
  Forall2 (fun a b => f a = g b) l1 l2 -> map f l1 = map g l2.
Proof.
  induction 1 as [|a b l1 l2 Hab _ IH]; cbn [map]; [reflexivity|].
  rewrite Hab, IH. reflexivity.
Qed.

Lemma Forall2_Qsum {A B} (f : A -> Q) (g : B -> Q) (l1 : list A)
  (l2 : list B) :
  Forall2 (fun a b => f a == g b) l1 l2 ->
  Qsum (map f l1) == Qsum (map g l2).
Proof.
  induction 1 as [|a b l1 l2 Hab _ IH]; cbn [map Qsum]; [reflexivity|].
  rewrite Hab, IH. reflexivity.
Qed.

Lemma filter_all {A} (f : A -> bool) (l : list A) :
  (forall x, In x l -> f x = true) -> filter f l = l.
Proof.
  induction l as [|x l IH]; intros H; cbn [filter]; [reflexivity|].
  rewrite (H x (or_introl eq_refl)), IH; [reflexivity|].
  intros y Hy. apply H. right. exact Hy.
Qed.

Lemma dict_set_sizes {A} (d : Py.dict (list A)) (k : string) (v : list A) :
  Py.sumZ (map (fun kv => Py.len (snd kv)) (Py.dict_set d k v))
  = (Py.sumZ (map (fun kv => Py.len (snd kv)) d)
     - Py.len (PyList.dict_get_default d k []) + Py.len v)%Z.
Proof.
  unfold PyList.dict_get_default.
  induction d as [|[k0 v0] d IH]; cbn [Py.dict_set Py.dict_get map snd].
  - rewrite sumZ_cons, sumZ_nil. unfold Py.len. cbn. lia.
  - destruct (String.eqb_spec k0 k) as [->|Hne]; cbn [map snd];
      rewrite !sumZ_cons; [lia|]. rewrite IH. lia.
Qed.

(** Grouping loses and repeats nothing: the sizes of the groups add up
    to the length of the list. *)
Lemma group_fold_sizes {A} (key : A -> string) (l : list A) :
  forall d : Py.dict (list A),
    Py.sumZ (map (fun kv => Py.len (snd kv))
               (fold_left (fun d x => group_append d (key x) x) l d))
    = (Py.sumZ (map (fun kv => Py.len (snd kv)) d) + Py.len l)%Z.
Proof.
  induction l as [|x l IH]; intros d; cbn [fold_left].
  - unfold Py.len. cbn. lia.
  - rewrite IH. unfold group_append. rewrite dict_set_sizes.
    unfold Py.len. rewrite length_app. cbn [List.length]. lia.
Qed.

Section DynastyProofs.

Variable get_best_task_type : CivilizationAgent.t -> option string.

(** A run of [build_dynasty_tree]: one dynasty per group, in the order of
    the groups. *)
Lemma build_dynasty_tree_run (agents : list ref)
  (all_agents_ever : option (Py.dict ref)) (s : Store) :
  let groups :=
    fold_left
      (fun d agent => group_append d (dynasty_key (objects s agent)) agent)
      agents [] in
  exists dynasties : Py.dict Dynasty.t,
    build_dynasty_tree get_best_task_type agents all_agents_ever s
    = (inl dynasties, s)
    /\ Forall2
         (fun kv kd =>
            fst kd = fst kv
            /\ Dynasty.founder_id (snd kd) = fst kv
            /\ Dynasty.current_members (snd kd)
               = map (fun m => CivilizationAgent.id (objects s m)) (snd kv)
            /\ Dynasty.total_members_ever (snd kd) = Py.len (snd kv)
            /\ Dynasty.total_wealth (snd kd)
               = Py.sum (map (wealth_of s) (snd kv))
            /\ Dynasty.is_extinct (snd kd) = false
            /\ In (Dynasty.max_wealth_achieved (snd kd))
                 (map (wealth_of s) (snd kv))
            /\ (forall x, In x (map (wealth_of s) (snd kv)) ->
                          x <= Dynasty.max_wealth_achieved (snd kd))
            /\ In (Dynasty.generations_survived (snd kd))
                 (map (fun m => CivilizationAgent.age (objects s m)) (snd kv))
            /\ (forall x,
                   In x (map (fun m => CivilizationAgent.age (objects s m))
                           (snd kv)) ->
                   (x <= Dynasty.generations_survived (snd kd))%Z))
         groups dynasties.
Proof.
  intros groups. unfold build_dynasty_tree. unfold bind at 1.
  unfold get_store at 1. cbv beta iota. fold groups.
  set (R := fun (k : string) (v : list ref) (d : Dynasty.t) =>
              Dynasty.founder_id d = k
              /\ Dynasty.current_members d
                 = map (fun m => CivilizationAgent.id (objects s m)) v
              /\ Dynasty.total_members_ever d = Py.len v
              /\ Dynasty.total_wealth d = Py.sum (map (wealth_of s) v)
              /\ Dynasty.is_extinct d = false
              /\ In (Dynasty.max_wealth_achieved d) (map (wealth_of s) v)
              /\ (forall x, In x (map (wealth_of s) v) ->
                            x <= Dynasty.max_wealth_achieved d)
              /\ In (Dynasty.generations_survived d)
                   (map (fun m => CivilizationAgent.age (objects s m)) v)
              /\ (forall x,
                     In x (map (fun m => CivilizationAgent.age (objects s m))
                             v) ->
                     (x <= Dynasty.generations_survived d)%Z)).
  match goal with
  | |- context [for_acc groups [] ?b] =>
      destruct (@for_acc_dict_build (list ref) Dynasty.t R b s groups [])
        as (res & E & Hres)
  end.
  3:{ exists res. split; [exact E|]. exact Hres. }
  2:{ cbn [Py.keys map app]. apply (group_fold_NoDup _ agents []). constructor. }
  intros k v acc Hin. cbv beta iota.
  destruct (group_entries _ agents k v Hin) as [_ Hne].
  assert (Hf : forall members : list ref,
             members <> [] ->
             exists f : ref,
               match all_agents_ever with
               | Some (e :: ever) =>
                   match Py.dict_get (e :: ever) k with
                   | Some f => ret f
                   | None =>
                       py_min_by
                         (fun a => CivilizationAgent.generation (objects s a))
                         members
                   end
               | _ =>
                   py_min_by
                     (fun a => CivilizationAgent.generation (objects s a))
                     members
               end s = (inl f, s)).
  { intros members Hm. destruct all_agents_ever as [[|e ever]|];
      try apply (py_min_by_nonempty _ _ _ Hm).
    destruct (Py.dict_get (e :: ever) k) as [f|];
      [eexists; reflexivity|apply (py_min_by_nonempty _ _ _ Hm)]. }
  destruct (Hf v Hne) as (f & Ef). clear Hf.
  unfold bind at 1. rewrite Ef. clear Ef.
  destruct v as [|m ms]; [congruence|].
  set (members := m :: ms) in *.
  destruct (py_maxZ_nonempty
              (map (fun m => CivilizationAgent.age (objects s m)) members) s)
    as (g & Eg & Hgin & Hgmax); [discriminate|].
  destruct (py_maxQ_nonempty (map (wealth_of s) members) s)
    as (w & Ew & Hwin & Hwmax); [discriminate|].
  destruct (specialization_of_total
              (member_specs get_best_task_type s members) None s)
    as (sp & Esp).
  unfold bind at 1. unfold bind at 1. rewrite Eg.
  unfold bind at 1. rewrite Ew. unfold bind at 1. rewrite Esp.
  eexists. split; [reflexivity|].
  unfold R.
  cbn [fst snd Dynasty.founder_id Dynasty.current_members
         Dynasty.total_members_ever Dynasty.total_wealth Dynasty.is_extinct
         Dynasty.max_wealth_achieved Dynasty.generations_survived].
  split_all; try reflexivity; assumption.
Qed.


(** [build_dynasty_tree] never raises and leaves the store as it is.  It
    returns one dynasty per distinct key [agent.dynasty_id or agent.id]
    of the population; the dynasty of a key lists, in the order of the
    population, exactly the agents of that key, and there is at least
    one; it is not extinct, its founder id is the key, its member count
    and total wealth are those of its agents, its largest wealth is that
    of a member and bounds the others, and so does its age. *)
Theorem build_dynasty_tree_groups (agents : list ref)
  (all_agents_ever : option (Py.dict ref)) (s : Store) :
  exists dynasties : Py.dict Dynasty.t,
    build_dynasty_tree get_best_task_type agents all_agents_ever s
    = (inl dynasties, s)
    /\ NoDup (Py.keys dynasties)
    /\ (forall k, In k (Py.keys dynasties)
                  <-> exists r, In r agents /\ dynasty_key (objects s r) = k)
    /\ (forall k d,
           In (k, d) dynasties ->
           let members :=
             filter (fun r => String.eqb (dynasty_key (objects s r)) k) agents in
           members <> []
           /\ Dynasty.founder_id d = k
           /\ Dynasty.current_members d
              = map (fun m => CivilizationAgent.id (objects s m)) members
           /\ Dynasty.total_members_ever d = Py.len members
           /\ Dynasty.total_wealth d = Py.sum (map (wealth_of s) members)
           /\ Dynasty.is_extinct d = false
           /\ (exists m, In m members
                         /\ Dynasty.max_wealth_achieved d = wealth_of s m)
           /\ (forall m, In m members ->
                         wealth_of s m <= Dynasty.max_wealth_achieved d)
           /\ (exists m, In m members
                         /\ Dynasty.generations_survived d
                            = CivilizationAgent.age (objects s m))
           /\ (forall m, In m members ->
                         (CivilizationAgent.age (objects s m)
                          <= Dynasty.generations_survived d)%Z)).
Proof.
  destruct (build_dynasty_tree_run agents all_agents_ever s)
    as (dynasties & E & Hall).
  cbv zeta in Hall.
  set (groups :=
         fold_left
           (fun d agent => group_append d (dynasty_key (objects s agent)) agent)
           agents []) in *.
  assert (Hkeys : Py.keys dynasties = Py.keys groups).
  { unfold Py.keys. symmetry. apply Forall2_map_eq.
    eapply Forall2_impl; [|exact Hall]. intros a b H. symmetry. apply H. }
  exists dynasties. split; [exact E|]. split_all.
  - rewrite Hkeys. apply (group_fold_NoDup _ agents []). constructor.
  - intros k. rewrite Hkeys. unfold groups. rewrite group_fold_keys.
    cbn [Py.keys map In]. rewrite in_map_iff. split.
    + intros [[]|(r & Hr & Hin)]. exists r. split; assumption.
    + intros (r & Hin & Hr). right. exists r. split; assumption.
  - intros k d Hin.
    destruct (Forall2_In_right _ _ _ _ Hall Hin) as ([k' v] & Hv & Hk & HR).
    cbn [fst snd] in Hk, HR. subst k'.
    destruct (group_entries _ agents k v Hv) as [-> Hne].
    destruct HR as (Hf & Hm & Ht & Hw & Hx & Hmw & Hmwmax & Hg & Hgmax).
    cbv zeta. split_all; try assumption.
    + apply in_map_iff in Hmw. destruct Hmw as (m & Em & Hm').
      exists m. split; [exact Hm'|symmetry; exact Em].
    + intros m Hm'. apply Hmwmax. apply in_map. exact Hm'.
    + apply in_map_iff in Hg. destruct Hg as (m & Em & Hm').
      exists m. split; [exact Hm'|symmetry; exact Em].
    + intros m Hm'. apply Hgmax.
      apply (in_map (fun m => CivilizationAgent.age (objects s m))). exact Hm'.
Qed.


(** Building the dynasties of a population and analysing them accounts
    for every agent once: no dynasty is extinct, there are as many active
    dynasties as distinct keys [agent.dynasty_id or agent.id], the total
    population is the number of agents, and the wealths of the dynasties
    add up to the wealth of the agents. *)
Theorem analyze_built_dynasties (agents : list ref)
  (all_agents_ever : option (Py.dict ref)) (s : Store) :
  exists (dynasties : Py.dict Dynasty.t) (r : DynastyAnalysis.t),
    build_dynasty_tree get_best_task_type agents all_agents_ever s
    = (inl dynasties, s)
    /\ analyze_dynasties dynasties None s = (inl r, s)
    /\ DynastyAnalysis.n_extinct_dynasties r = 0%Z
    /\ DynastyAnalysis.n_active_dynasties r
       = Py.len (nodup string_dec
                   (map (fun a => dynasty_key (objects s a)) agents))
    /\ DynastyAnalysis.total_population r = Py.len agents
    /\ Qsum (map Dynasty.total_wealth (Py.values dynasties))
       == Qsum (map (wealth_of s) agents).
Proof.
  destruct (build_dynasty_tree_run agents all_agents_ever s)
    as (dynasties & E & Hall).
  cbv zeta in Hall.
  set (groups :=
         fold_left
           (fun d agent => group_append d (dynasty_key (objects s agent)) agent)
           agents []) in *.
  destruct (analyze_dynasties_run dynasties None s)
    as (r & Er & Hn & Hx & Hpop & _).
  cbv zeta in Hn, Hx, Hpop.
  assert (Hact : filter is_active (Py.values dynasties) = Py.values dynasties).
  { apply filter_all. intros d Hd. apply in_map_iff in Hd.
    destruct Hd as ([k d'] & <- & Hin). cbn [snd].
    destruct (Forall2_In_right _ _ _ _ Hall Hin) as ([k' v] & Hv & _ & HR).
    cbn [fst snd] in HR. destruct HR as (_ & Hm & _ & _ & Hx' & _).
    destruct (group_entries _ agents k' v Hv) as [_ Hne].
    unfold is_active. rewrite Hx', Hm.
    destruct v; [congruence|reflexivity]. }
  rewrite Hact in Hn, Hx, Hpop.
  assert (Hvals : Py.len (Py.values dynasties) = Py.len dynasties).
  { unfold Py.len, Py.values. rewrite length_map. reflexivity. }
  assert (Hlen : Py.len dynasties = Py.len groups).
  { unfold Py.len. rewrite (Forall2_length Hall). reflexivity. }
  exists dynasties, r. split; [exact E|]. split; [exact Er|].
  split_all.
  - lia.
  - rewrite Hn, Hvals, Hlen. unfold Py.len. f_equal.
    replace (List.length groups) with (List.length (Py.keys groups))
      by (unfold Py.keys; apply length_map).
    apply Permutation_length. apply NoDup_Permutation.
    + apply (group_fold_NoDup _ agents []). constructor.
    + apply NoDup_nodup.
    + intros k. unfold groups. rewrite group_fold_keys, nodup_In.
      cbn [Py.keys map In]. tauto.
  - rewrite Hpop.
    replace (map (fun d => Py.len (Dynasty.current_members d))
               (Py.values dynasties))
      with (map (fun kv : string * list ref => Py.len (snd kv)) groups).
    + unfold groups. rewrite group_fold_sizes. cbn [map]. rewrite sumZ_nil.
      lia.
    + unfold Py.values. rewrite map_map. apply Forall2_map_eq.
      eapply Forall2_impl; [|exact Hall].
      intros a b (_ & _ & Hm & _). rewrite Hm. unfold Py.len.
      rewrite length_map. reflexivity.
  - unfold Py.values. rewrite map_map.
    rewrite <- (Forall2_Qsum (fun kv : string * list ref =>
                                Qsum (map (wealth_of s) (snd kv)))
                  (fun kd => Dynasty.total_wealth (snd kd)) groups dynasties).
    + unfold groups. rewrite group_fold_measure. cbn [map Qsum]. ring.
    + eapply Forall2_impl; [|exact Hall].
      intros a b (_ & _ & _ & _ & Hw & _). rewrite Hw. symmetry.
      apply Py_sum_Qsum.
Qed.


Lemma py_max_bounds (a b : Q) : a <= Py.max a b /\ b <= Py.max a b.
Proof.
  unfold Py.max. destruct (Py.Qlt_bool a b) eqn:E.
  - apply Qlt_bool_iff in E. split; lra.
  - apply Qlt_bool_false_iff in E. split; lra.
Qed.

(** [Dynasty.update_statistics] never raises and leaves the agents as
    they are.  It keeps the founder fields, the member count ever and the
    extinction flag; it records the ids and the total wealth of the
    members given and the generations since the founder; the largest
    wealth achieved never decreases and bounds the wealth of every
    member.  With no members the largest wealth and the specialization
    are kept, and the dynasty no longer counts as active although its
    extinction flag is not set. *)
Theorem update_statistics_record (self : Dynasty.t) (current_gen : Z)
  (members : list ref) (s : Store) :
  exists d : Dynasty.t,
    update_statistics get_best_task_type self current_gen members s
    = (inl d, s)
    /\ Dynasty.founder_id d = Dynasty.founder_id self
    /\ Dynasty.founder_generation d = Dynasty.founder_generation self
    /\ Dynasty.total_members_ever d = Dynasty.total_members_ever self
    /\ Dynasty.is_extinct d = Dynasty.is_extinct self
    /\ Dynasty.current_members d
       = map (fun m => CivilizationAgent.id (objects s m)) members
    /\ Dynasty.total_wealth d = Py.sum (map (wealth_of s) members)
    /\ Dynasty.generations_survived d
       = (current_gen - Dynasty.founder_generation self)%Z
    /\ Dynasty.max_wealth_achieved self <= Dynasty.max_wealth_achieved d
    /\ (forall m, In m members ->
                  wealth_of s m <= Dynasty.max_wealth_achieved d)
    /\ (members = [] ->
        Dynasty.max_wealth_achieved d = Dynasty.max_wealth_achieved self
        /\ Dynasty.specialization_type d = Dynasty.specialization_type self
        /\ is_active d = false).
Proof.
  unfold update_statistics. unfold bind at 1. unfold get_store at 1.
  cbv beta iota zeta.
  destruct members as [|m ms].
  - eexists. split; [reflexivity|]. cbn.
    split_all; try reflexivity; try apply Qle_refl.
    + intros m [].
    + intros _. split_all; try reflexivity.
      unfold is_active. cbn. apply andb_false_r.
  - set (members := m :: ms).
    destruct (py_maxQ_nonempty (map (wealth_of s) members) s)
      as (w & Ew & _ & Hwmax); [discriminate|].
    destruct (specialization_of_total
                (member_specs get_best_task_type s members)
                (Dynasty.specialization_type self) s) as (sp & Esp).
    unfold bind at 1. rewrite Ew. unfold bind at 1. rewrite Esp.
    eexists. split; [reflexivity|]. cbn.
    pose proof (py_max_bounds (Dynasty.max_wealth_achieved self) w) as [Ha Hb].
    split_all; try reflexivity.
    + exact Ha.
    + intros x Hx.
      apply Qle_trans with w; [|exact Hb].
      apply Hwmax. apply in_map. exact Hx.
    + discriminate.
Qed.

End DynastyProofs.

(** ** Further proofs: all the metrics together *)

Lemma compute_wealth_concentration_returns (agents : list ref) (top_n : Z)
  (s : Store) :
  exists c : Q, compute_wealth_concentration agents top_n s = (inl c, s).
Proof.
  destruct agents as [|a agents]; [exists 0; reflexivity|].
  destruct (compute_wealth_concentration_run a agents top_n s) as [Hz Hnz].
  cbv zeta in Hz, Hnz.
  destruct (Qeq_dec
              (Qsum (PyList.sorted_reverse (fun w => w)
                       (map (wealth_of s) (a :: agents)))) 0) as [H|H].
  - exists 0. apply Hz, H.
  - eexists. apply Hnz, H.
Qed.

Section AllMetricsProofs.

Variable get_best_task_type : CivilizationAgent.t -> option string.

(** [compute_all_society_metrics] never raises, whatever the population,
    the rules and the previous wealths, and leaves the store as it is.
    It reports the number of agents, their total wealth, a mean that
    times the number of agents gives the total (0 without agents), a Gini
    coefficient between 0 and 1, and the three wealth classes unless the
    population is empty; the governance entries are present exactly when
    rules are given and not empty, and the social mobility exactly when
    previous wealths are given and not empty. *)
Theorem compute_all_society_metrics_total (agents : list ref)
  (rules : option (list Rule.t)) (previous_wealths : option (Py.dict Q))
  (s : Store) :
  exists m : SocietyMetrics.t,
    compute_all_society_metrics get_best_task_type agents rules
      previous_wealths s
    = (inl m, s)
    /\ SocietyMetrics.population m = Py.len agents
    /\ SocietyMetrics.total_wealth m = Py.sum (map (wealth_of s) agents)
    /\ (agents = [] -> SocietyMetrics.mean_wealth m = 0)
    /\ (agents <> [] ->
        SocietyMetrics.mean_wealth m * inject_Z (Py.len agents)
        == SocietyMetrics.total_wealth m)
    /\ 0 <= SocietyMetrics.gini m <= 1
    /\ (agents = [] -> SocietyMetrics.specialization_by_class m = [])
    /\ (agents <> [] ->
        Py.keys (SocietyMetrics.specialization_by_class m)
        = ["upper"; "middle"; "lower"])
    /\ (SocietyMetrics.governance_entropy m = None
        <-> rules = None \/ rules = Some [])
    /\ (forall l, rules = Some l -> l <> [] ->
                  SocietyMetrics.n_passed_rules m
                  = Some (Py.len (filter Rule.passed l)))
    /\ (SocietyMetrics.social_mobility m = None
        <-> previous_wealths = None \/ previous_wealths = Some []).
Proof.
  destruct (compute_gini_returns agents s) as (g & Eg & Hg).
  destruct (compute_wealth_concentration_returns agents 3 s) as (c3 & E3).
  destruct (compute_wealth_concentration_returns agents
              (if (1 <? Py.len agents / 10)%Z
               then (Py.len agents / 10)%Z else 1%Z) s) as (c10 & E10).
  assert (Hclass :
    exists by_class,
      compute_specialization_by_class get_best_task_type agents 3 s
      = (inl by_class, s)
      /\ (agents = [] -> by_class = [])
      /\ (agents <> [] -> Py.keys by_class = ["upper"; "middle"; "lower"])).
  { destruct agents as [|a agents].
    - exists []. split_all; [reflexivity|reflexivity|congruence].
    - destruct (compute_specialization_by_class_run get_best_task_type
                  (a :: agents) 3 s) as (res & E & Hk & _);
        [discriminate|discriminate|].
      exists res. split_all; [exact E|discriminate|intros _; exact Hk]. }
  destruct Hclass as (by_class & Ec & Hc0 & Hc1).
  assert (Hmob :
    exists mobility,
      match previous_wealths with
      | Some (p :: ps) =>
          m <- compute_social_mobility agents (p :: ps) ;; ret (Some m)
      | _ => ret None
      end s = (inl mobility, s)
      /\ (mobility = None
          <-> previous_wealths = None \/ previous_wealths = Some [])).
  { destruct previous_wealths as [[|p ps]|].
    - exists None. split; [reflexivity|]. split; [right; reflexivity|reflexivity].
    - pose proof (compute_social_mobility_run agents (p :: ps) s) as H.
      cbv zeta in H.
      assert (Hm : exists m, compute_social_mobility agents (p :: ps) s
                             = (inl m, s)).
      { destruct (filter _ agents) as [|c cs].
        - eexists. exact H.
        - destruct H as (u & d & st & E & _). eexists. exact E. }
      destruct Hm as (m & Em). exists (Some m). split.
      + unfold bind. rewrite Em. reflexivity.
      + split; [discriminate|]. intros [H'|H']; discriminate H'.
    - exists None. split; [reflexivity|]. split; [left; reflexivity|reflexivity]. }
  destruct Hmob as (mobility & Em & Hm).
  unfold compute_all_society_metrics.
  unfold bind at 1. rewrite Eg.
  unfold bind at 1. unfold get_store at 1. cbv beta iota.
  unfold bind at 1. rewrite E3.
  unfold bind at 1. rewrite E10.
  unfold bind at 1. rewrite Ec.
  unfold bind at 1. rewrite Em.
  eexists. split; [reflexivity|].
  cbn [SocietyMetrics.population SocietyMetrics.total_wealth
         SocietyMetrics.mean_wealth SocietyMetrics.gini
         SocietyMetrics.specialization_by_class
         SocietyMetrics.governance_entropy SocietyMetrics.n_passed_rules
         SocietyMetrics.social_mobility].
  split_all; try reflexivity; try apply Hg; try assumption.
  - intros ->. reflexivity.
  - intros Hne. destruct agents as [|a agents]; [congruence|].
    field. pose proof (len_pos a agents). lra.
  - destruct rules as [[|r rs]|]; cbn [fst snd].
    + split; [intros _; right; reflexivity|reflexivity].
    + split; [discriminate|intros [H|H]; discriminate H].
    + split; [intros _; left; reflexivity|reflexivity].
  - intros l -> Hl. destruct l as [|r rs]; [congruence|]. reflexivity.
Qed.

End AllMetricsProofs.

(** ** Further proofs: governance.py, reading a proposal *)

Lemma string_app_assoc (a b c : string) :
  ((a ++ b) ++ c = a ++ (b ++ c))%string.
Proof.
  induction a as [|x a IH]; cbn [append]; [reflexivity|].
  rewrite IH. reflexivity.
Qed.

Lemma string_app_nil_r (a : string) : (a ++ "" = a)%string.
Proof.
  induction a as [|x a IH]; cbn [append]; [reflexivity|].
  rewrite IH. reflexivity.
Qed.

(** A key that does not hold the character [c] begins at no place where
    [c] would fall inside it. *)
Lemma strip_prefix_sep (c : ascii) (key : string) :
  has_char c key = false ->
  forall y rest : string,
    PyText.strip_prefix key y = None ->
    PyText.strip_prefix key (y ++ String c rest) = None.
Proof.
  induction key as [|a key IH]; intros Hc y rest Hy.
  - destruct y; discriminate Hy.
  - cbn [has_char] in Hc. apply orb_false_iff in Hc. destruct Hc as [Ha Hc].
    destruct y as [|b y]; cbn [append PyText.strip_prefix] in *.
    + rewrite Ha. reflexivity.
    + destruct (Ascii.eqb a b); [apply IH; assumption|reflexivity].
Qed.

Lemma contains_app_sep (c : ascii) (key a b : string) :
  key <> ""%string -> has_char c key = false ->
  PyText.contains key a = false -> PyText.contains key b = false ->
  PyText.contains key (a ++ String c b) = false.
Proof.
  intros Hne Hc Ha Hb. induction a as [|x a IH].
  - cbn [append PyText.contains].
    destruct key as [|k0 key]; [congruence|].
    cbn [has_char] in Hc. apply orb_false_iff in Hc. destruct Hc as [Hk0 _].
    cbn [PyText.strip_prefix]. rewrite Hk0. exact Hb.
  - cbn [append]. cbn [PyText.contains] in Ha |- *.
    destruct (PyText.strip_prefix key (String x a)) eqn:E; [discriminate Ha|].
    change (String x (a ++ String c b)) with (String x a ++ String c b)%string.
    rewrite (strip_prefix_sep c key Hc _ _ E). apply IH, Ha.
Qed.

(** A search skips a stretch of text, ended by [c], in which the key of
    the pattern does not occur. *)
Lemma re_search_skip (m : string -> option string) (key : string) (c : ascii) :
  (forall t, PyText.strip_prefix key t = None -> m t = None) ->
  key <> ""%string -> has_char c key = false ->
  forall pre rest : string,
    PyText.contains key pre = false ->
    PyText.re_search m (pre ++ String c rest) = PyText.re_search m rest.
Proof.
  intros Hm Hne Hc pre rest. induction pre as [|x pre IH]; intros Hpre.
  - cbn [append PyText.re_search]. rewrite Hm; [reflexivity|].
    destruct key as [|k0 key]; [congruence|].
    cbn [has_char] in Hc. apply orb_false_iff in Hc. destruct Hc as [Hk0 _].
    cbn [PyText.strip_prefix]. rewrite Hk0. reflexivity.
  - cbn [PyText.contains] in Hpre.
    destruct (PyText.strip_prefix key (String x pre)) eqn:E;
      [discriminate Hpre|].
    cbn [append PyText.re_search].
    change (String x (pre ++ String c rest))
      with (String x pre ++ String c rest)%string.
    rewrite Hm by (apply strip_prefix_sep; assumption).
    apply IH, Hpre.
Qed.

Lemma strip_prefix_app (p s : string) :
  PyText.strip_prefix p (p ++ s) = Some s.
Proof.
  induction p as [|a p IH]; cbn [append PyText.strip_prefix]; [reflexivity|].
  rewrite Ascii.eqb_refl. exact IH.
Qed.

(** The lazy group runs over a text in which the stop word does not
    occur, and over the newline that ends it. *)
Lemma lazy_until_line (stop : string) :
  stop <> ""%string -> has_char "010" stop = false ->
  forall d rest : string,
    d <> ""%string -> PyText.contains stop d = false ->
    PyRe.lazy_until stop (d ++ String "010" (stop ++ rest))
    = Some (d ++ String "010" "")%string.
Proof.
  intros Hne Hc d rest. induction d as [|x d IH]; intros Hd Hfree; [congruence|].
  cbn [append PyRe.lazy_until]. cbn [PyText.contains] in Hfree.
  destruct (PyText.strip_prefix stop (String x d)) eqn:E; [discriminate Hfree|].
  destruct d as [|y d].
  - cbn [append]. unfold PyRe.has_prefix at 1.
    assert (E1 : PyText.strip_prefix stop (String "010" (stop ++ rest)) = None).
    { destruct stop as [|k0 stop]; [congruence|].
      cbn [has_char] in Hc. apply orb_false_iff in Hc. destruct Hc as [Hk0 _].
      cbn [PyText.strip_prefix]. rewrite Hk0. reflexivity. }
    rewrite E1.
    assert (E2 : PyRe.at_end (String "010" (stop ++ rest)) = false).
    { destruct stop as [|k0 stop]; [congruence|]. reflexivity. }
    rewrite E2. cbn [orb PyRe.lazy_until].
    unfold PyRe.has_prefix. rewrite strip_prefix_app. reflexivity.
  - assert (E1 : PyRe.has_prefix stop
                   (String y d ++ String "010" (stop ++ rest)) = false).
    { unfold PyRe.has_prefix. rewrite strip_prefix_sep; [reflexivity|exact Hc|].
      cbn [PyText.contains] in Hfree.
      destruct (PyText.strip_prefix stop (String y d)); [discriminate|reflexivity]. }
    rewrite E1.
    assert (E2 : PyRe.at_end (String y d ++ String "010" (stop ++ rest)) = false).
    { cbn [append PyRe.at_end]. destruct d; reflexivity. }
    rewrite E2. cbn [orb]. rewrite IH; [reflexivity|discriminate|exact Hfree].
Qed.

Lemma rstrip_length (s : string) :
  (String.length (PyRe.rstrip s) <= String.length s)%nat.
Proof.
  induction s as [|c s IH]; cbn [PyRe.rstrip String.length]; [lia|].
  destruct (PyRe.rstrip s) as [|r0 r].
  - destruct (PyText.is_space c); cbn [String.length]; lia.
  - cbn [String.length] in *. lia.
Qed.

Lemma skip_spaces_length (s : string) :
  (String.length (PyText.skip_spaces s) <= String.length s)%nat.
Proof.
  induction s as [|c s IH]; cbn [PyText.skip_spaces String.length]; [lia|].
  destruct (PyText.is_space c); cbn [String.length]; lia.
Qed.

(** A text that [strip] leaves as it is begins with no white space, and
    [rstrip] leaves it as it is too. *)
Lemma strip_fixed (c : ascii) (d : string) :
  PyRe.strip (String c d) = String c d ->
  PyText.is_space c = false /\ PyRe.rstrip (String c d) = String c d.
Proof.
  unfold PyRe.strip. cbn [PyText.skip_spaces].
  destruct (PyText.is_space c) eqn:E.
  - intros H. exfalso.
    pose proof (rstrip_length (PyText.skip_spaces d)) as H1.
    pose proof (skip_spaces_length d) as H2.
    rewrite H in H1. cbn [String.length] in H1. lia.
  - intros H. split; [reflexivity|exact H].
Qed.

Lemma rstrip_app_newline (s : string) :
  PyRe.rstrip (s ++ String "010" "") = PyRe.rstrip s.
Proof.
  induction s as [|c s IH]; cbn [append PyRe.rstrip]; [reflexivity|].
  rewrite IH. reflexivity.
Qed.

(** A field of the reply, read back: the key, a space, the text and a
    newline, followed by the stop word. *)
Lemma match_field_line (key stop : string) (c : ascii) (d rest : string) :
  stop <> ""%string -> has_char "010" stop = false ->
  PyRe.strip (String c d) = String c d ->
  PyText.contains stop (String c d) = false ->
  PyRe.match_field_at key stop
    (key ++ String " " (String c d ++ String "010" (stop ++ rest)))
  = Some (String c d ++ String "010" "")%string
  /\ PyRe.strip (String c d ++ String "010" "") = String c d.
Proof.
  intros Hne Hc Hstrip Hfree.
  destruct (strip_fixed c d Hstrip) as [Hsp Hr].
  split.
  - unfold PyRe.match_field_at. rewrite strip_prefix_app.
    cbn [PyRe.spaces_then_lazy]. change (PyText.is_space " ") with true.
    cbv iota.
    assert (E : PyRe.spaces_then_lazy stop
                  (String c d ++ String "010" (stop ++ rest))
                = Some (String c d ++ String "010" "")%string).
    { cbn [append PyRe.spaces_then_lazy]. rewrite Hsp.
      change (String c (d ++ String "010" (stop ++ rest)))
        with (String c d ++ String "010" (stop ++ rest))%string.
      apply lazy_until_line; [exact Hne|exact Hc|discriminate|exact Hfree]. }
    rewrite E. reflexivity.
  - unfold PyRe.strip.
    assert (Es : PyText.skip_spaces (String c d ++ String "010" "")
                 = (String c d ++ String "010" "")%string).
    { cbn [append PyText.skip_spaces]. rewrite Hsp. reflexivity. }
    rewrite Es, rstrip_app_newline. exact Hr.
Qed.

Lemma re_search_here (m : string -> option string) (s g : string) :
  m s = Some g -> PyText.re_search m s = Some g.
Proof. intros H. destruct s; cbn [PyText.re_search]; rewrite H; reflexivity. Qed.

Lemma match_field_needs_key (key stop t : string) :
  PyText.strip_prefix key t = None -> PyRe.match_field_at key stop t = None.
Proof. intros H. unfold PyRe.match_field_at. rewrite H. reflexivity. Qed.

Lemma match_category_needs_key (t : string) :
  PyText.strip_prefix "CATEGORY:" t = None -> PyRe.match_category_at t = None.
Proof. intros H. unfold PyRe.match_category_at. rewrite H. reflexivity. Qed.

Lemma re_search_absent (m : string -> option string) (key s : string) :
  (forall t, PyText.strip_prefix key t = None -> m t = None) ->
  PyText.contains key s = false -> PyText.re_search m s = None.
Proof.
  intros Hm Hs. apply re_search_None. intros pre t E. apply Hm.
  apply (proj1 (contains_false key s) Hs pre t E).
Qed.

Section ProposalProofs.

Variable uuid4_text : string.

(** A reply that lacks a keyword degrades to the default of that field:
    ["Unknown rule"], ["Unknown effect"], or the category OTHER; a
    category word that is no category value gives OTHER too.  The rule
    that is returned is always a fresh proposal: of the proposer and the
    generation given, with no votes, not passed and not enacted. *)
Theorem parse_rule_response_defaults (response proposer_id : string)
  (generation : Z) :
  let rule := _parse_rule_response uuid4_text response proposer_id generation in
  (PyText.contains "RULE:" response = false ->
   Rule.description rule = "Unknown rule"%string)
  /\ (PyText.contains "EFFECT:" response = false ->
      Rule.effect rule = "Unknown effect"%string)
  /\ (PyText.contains "CATEGORY:" response = false ->
      Rule.category rule = OTHER)
  /\ (forall w, PyText.re_search PyRe.match_category_at response = Some w ->
                (forall c, RuleCategory_value c <> PyText.lower w) ->
                Rule.category rule = OTHER)
  /\ Rule.proposer_id rule = proposer_id
  /\ Rule.generation_proposed rule = generation
  /\ Rule.votes_for rule = 0%Z
  /\ Rule.votes_against rule = 0%Z
  /\ Rule.passed rule = false
  /\ Rule.generation_enacted rule = None.
Proof.
  cbv zeta. unfold _parse_rule_response.
  cbn [Rule.description Rule.effect Rule.category Rule.proposer_id
         Rule.generation_proposed Rule.votes_for Rule.votes_against
         Rule.passed Rule.generation_enacted].
  split_all; try reflexivity.
  - intros H.
    rewrite (re_search_absent _ "RULE:" response
               (match_field_needs_key "RULE:" "EFFECT:") H).
    reflexivity.
  - intros H.
    rewrite (re_search_absent _ "EFFECT:" response
               (match_field_needs_key "EFFECT:" "CATEGORY:") H).
    reflexivity.
  - intros H.
    rewrite (re_search_absent _ "CATEGORY:" response
               match_category_needs_key H).
    reflexivity.
  - intros w Hw Hnone. rewrite Hw.
    destruct (RuleCategory_of_value (PyText.lower w)) as [c|] eqn:E;
      [|reflexivity].
    exfalso. unfold RuleCategory_of_value in E. apply find_some in E.
    destruct E as [_ E]. apply String.eqb_eq in E. exact (Hnone c E).
Qed.

(** The reply that the prompt asks for is read back as it was written:
    for a description and an effect that are not empty, have no white
    space at either end and do not contain the keywords that follow
    them, and for any category, [_parse_rule_response] returns that
    description, that effect and that category. *)
Theorem parse_rule_response_round_trip (description effect : string)
  (c : RuleCategory) (proposer_id : string) (generation : Z) :
  description <> ""%string -> effect <> ""%string ->
  PyRe.strip description = description ->
  PyRe.strip effect = effect ->
  PyText.contains "EFFECT:" description = false ->
  PyText.contains "CATEGORY:" description = false ->
  PyText.contains "CATEGORY:" effect = false ->
  let rule :=
    _parse_rule_response uuid4_text (proposal_text description effect c)
      proposer_id generation in
  Rule.description rule = description
  /\ Rule.effect rule = effect
  /\ Rule.category rule = c.
Proof.
  intros Hd He Hsd Hse HdE HdC HeC. cbv zeta.
  destruct description as [|d0 d]; [congruence|].
  destruct effect as [|e0 e]; [congruence|].
  set (tail := ("CATEGORY:" ++ String " " (RuleCategory_value c))%string).
  set (mid := ("EFFECT:" ++ String " " (String e0 e ++ String "010" tail))%string).
  assert (Etext : proposal_text (String d0 d) (String e0 e) c
                  = ("RULE:" ++ String " " (String d0 d ++ String "010" mid))%string)
    by reflexivity.
  (* the description *)
  destruct (match_field_line "RULE:" "EFFECT:" d0 d
              (String " " (String e0 e ++ String "010" tail))
              ltac:(discriminate) eq_refl Hsd HdE) as [Er Hr].
  (* the effect *)
  destruct (match_field_line "EFFECT:" "CATEGORY:" e0 e
              (String " " (RuleCategory_value c))
              ltac:(discriminate) eq_refl Hse HeC) as [Ee Hee].
  assert (Eskip1 :
    PyText.re_search (PyRe.match_field_at "EFFECT:" "CATEGORY:")
      (proposal_text (String d0 d) (String e0 e) c)
    = PyText.re_search (PyRe.match_field_at "EFFECT:" "CATEGORY:") mid).
  { rewrite Etext.
    change ("RULE:" ++ String " " (String d0 d ++ String "010" mid))%string
      with ("RULE: " ++ (String d0 d ++ String "010" mid))%string.
    rewrite <- string_app_assoc.
    apply (re_search_skip _ "EFFECT:" "010"
             (match_field_needs_key "EFFECT:" "CATEGORY:"));
      [discriminate|reflexivity|].
    apply (contains_app_sep " " "EFFECT:" "RULE:" (String d0 d));
      [discriminate|reflexivity|reflexivity|exact HdE]. }
  (* the category *)
  assert (Eskip2 :
    PyText.re_search PyRe.match_category_at
      (proposal_text (String d0 d) (String e0 e) c)
    = PyText.re_search PyRe.match_category_at tail).
  { rewrite Etext.
    change ("RULE:" ++ String " " (String d0 d ++ String "010" mid))%string
      with ("RULE: " ++ (String d0 d ++ String "010" mid))%string.
    rewrite <- string_app_assoc.
    unfold mid.
    change ("EFFECT:" ++ String " " (String e0 e ++ String "010" tail))%string
      with ("EFFECT: " ++ (String e0 e ++ String "010" tail))%string.
    rewrite <- (string_app_assoc "EFFECT: " (String e0 e)).
    change (("RULE: " ++ String d0 d)
            ++ String "010" (("EFFECT: " ++ String e0 e) ++ String "010" tail))%string
      with (("RULE: " ++ String d0 d)
            ++ (String "010" ("EFFECT: " ++ String e0 e) ++ String "010" tail))%string.
    rewrite <- string_app_assoc.
    apply (re_search_skip _ "CATEGORY:" "010" match_category_needs_key);
      [discriminate|reflexivity|].
    apply (contains_app_sep "010" "CATEGORY:" ("RULE: " ++ String d0 d)
             ("EFFECT: " ++ String e0 e)); [discriminate|reflexivity| |].
    - apply (contains_app_sep " " "CATEGORY:" "RULE:" (String d0 d));
        [discriminate|reflexivity|reflexivity|exact HdC].
    - apply (contains_app_sep " " "CATEGORY:" "EFFECT:" (String e0 e));
        [discriminate|reflexivity|reflexivity|exact HeC]. }
  assert (Ed : PyText.re_search (PyRe.match_field_at "RULE:" "EFFECT:")
                 (proposal_text (String d0 d) (String e0 e) c)
               = Some (String d0 d ++ String "010" "")%string)
    by (apply re_search_here; exact Er).
  assert (Ee' : PyText.re_search (PyRe.match_field_at "EFFECT:" "CATEGORY:") mid
                = Some (String e0 e ++ String "010" "")%string)
    by (apply re_search_here; exact Ee).
  unfold _parse_rule_response.
  cbn [Rule.description Rule.effect Rule.category].
  rewrite Eskip1, Eskip2, Ed, Ee'.
  split_all; [exact Hr|exact Hee|].
  unfold tail. destruct c; reflexivity.
Qed.

End ProposalProofs.

(** ** Further proofs: taxation creates no debt *)

Lemma collect_loop_no_debt (rate threshold : Q) (body : ref -> Q -> M Q) :
  collects rate threshold body -> 0 <= rate <= 1 -> 0 <= threshold ->
  forall (agents : list ref) (acc : Q) (s : Store),
    exists (total_tax : Q) (s1 : Store),
      for_acc agents acc body s = (inl total_tax, s1)
      /\ acc <= total_tax
      /\ (forall r, 0 <= wealth_of s r -> 0 <= wealth_of s1 r).
Proof.
  intros Hbody Hrate Hthr.
  induction agents as [|x agents IH]; intros acc s.
  - exists acc, s. split_all; [reflexivity|apply Qle_refl|tauto].
  - cbn [for_acc]. unfold bind at 1. rewrite (Hbody x acc s).
    destruct (Py.Qlt_bool threshold (wealth_of s x)) eqn:E.
    + apply Qlt_bool_iff in E.
      destruct (IH (acc + wealth_of s x * rate)
                  (set_wealth_store s x
                     (wealth_of s x - wealth_of s x * rate)))
        as (t & s1 & E1 & Hle & Hinv).
      exists t, s1. split_all; [exact E1| |].
      * assert (0 <= wealth_of s x * rate) by (apply Qmult_le_0_compat; lra).
        lra.
      * intros r Hr. apply Hinv.
        destruct (Nat.eq_dec r x) as [->|Hne].
        -- rewrite wealth_of_set_same.
           assert (H : wealth_of s x * rate <= wealth_of s x * 1).
           { rewrite !(Qmult_comm (wealth_of s x)).
             apply Qmult_le_compat_r; lra. }
           lra.
        -- rewrite wealth_of_set_other by exact Hne. exact Hr.
    + destruct (IH acc s) as (t & s1 & E1 & Hle & Hinv).
      exists t, s1. split_all; assumption.
Qed.

Lemma distribute_loop_no_debt (share : Q) (body : ref -> M unit) :
  distributes share body -> 0 <= share ->
  forall (agents : list ref) (s : Store),
    exists s2 : Store,
      for_each agents body s = (inl tt, s2)
      /\ (forall r, wealth_of s r <= wealth_of s2 r).
Proof.
  intros Hbody Hshare.
  induction agents as [|x agents IH]; intros s.
  - exists s. split; [reflexivity|intros r; apply Qle_refl].
  - cbn [for_each]. unfold bind at 1. rewrite (Hbody x s).
    destruct (IH (set_wealth_store s x (wealth_of s x + share)))
      as (s2 & E2 & Hmono).
    exists s2. split; [exact E2|].
    intros r. apply Qle_trans with
      (wealth_of (set_wealth_store s x (wealth_of s x + share)) r);
      [|apply Hmono].
    destruct (Nat.eq_dec r x) as [->|Hne].
    + rewrite wealth_of_set_same. lra.
    + rewrite wealth_of_set_other by exact Hne. apply Qle_refl.
Qed.

(** With a rate of at most 100%, [_apply_taxation] puts nobody in debt:
    whatever the population, also one that lists an agent several times,
    every agent whose wealth was not negative ends with a wealth that is
    not negative. *)
Theorem taxation_creates_no_debt (rule : Rule.t) (agents : list ref)
  (s : Store) :
  tax_rate_of (PyText.lower (Rule.effect rule)) <= 1 ->
  exists s' : Store,
    _apply_taxation rule agents s = (inl agents, s')
    /\ forall r, 0 <= wealth_of s r -> 0 <= wealth_of s' r.
Proof.
  intros Hle. unfold _apply_taxation. cbv zeta.
  set (rate := tax_rate_of (PyText.lower (Rule.effect rule))) in *.
  set (threshold := wealth_threshold_of (PyText.lower (Rule.effect rule))).
  assert (Hrate : 0 <= rate) by apply tax_rate_of_nonneg.
  assert (Hthr : 0 <= threshold) by apply wealth_threshold_of_nonneg.
  unfold bind at 1.
  destruct (collect_loop_no_debt rate threshold _ (collect_body rate threshold)
              (conj Hrate Hle) Hthr agents 0 s)
    as (t & s1 & E & Ht & Hinv).
  rewrite E. unfold bind at 1.
  destruct (Py.Qlt_bool 0 t) eqn:Epos.
  - apply Qlt_bool_iff in Epos.
    destruct agents as [|x agents].
    { cbn [for_acc] in E. injection E as <- <-. lra. }
    assert (Hn : 0 < inject_Z (Py.len (x :: agents))) by apply len_pos.
    unfold bind at 1. rewrite py_div_nonzero by lra.
    destruct (distribute_loop_no_debt
                (t / inject_Z (Py.len (x :: agents))) _
                (distribute_body (t / inject_Z (Py.len (x :: agents))))
                ltac:(apply Qle_shift_div_l; lra) (x :: agents) s1)
      as (s2 & E2 & Hmono).
    rewrite E2. exists s2. split; [reflexivity|].
    intros r Hr. apply Qle_trans with (wealth_of s1 r); [apply Hinv, Hr|apply Hmono].
  - exists s1. split; [reflexivity|exact Hinv].
Qed.

(** ** Proofs: the numbers of a rule and the binary64 range *)

Lemma span_digits_all (s : string) :
  all_digits (fst (PyText.span_digits s)) = true.
Proof.
  induction s as [|c s IH]; simpl; [reflexivity|].
  destruct (PyText.is_digit c) eqn:E; [|reflexivity].
  destruct (PyText.span_digits s) as [d r]. simpl in *.
  rewrite E, IH. reflexivity.
Qed.

Lemma digits_group_all (s g : string) :
  PyText.digits_group s = Some g -> all_digits g = true.
Proof.
  unfold PyText.digits_group. intros H.
  pose proof (span_digits_all s) as Hall.
  destruct (fst (PyText.span_digits s)); [discriminate|].
  injection H as <-. exact Hall.
Qed.

Lemma match_rate_at_all (s g : string) :
  PyText.match_rate_at s = Some g -> all_digits g = true.
Proof.
  unfold PyText.match_rate_at. intros H.
  pose proof (span_digits_all s) as Hall.
  destruct (PyText.span_digits s) as [d r]. simpl in Hall.
  destruct d as [|c d]; [discriminate|].
  destruct r as [|c' r]; [discriminate|].
  destruct (Ascii.eqb_spec c' "%"); [subst c'|].
  - injection H as <-. exact Hall.
  - destruct c' as [[] [] [] [] [] [] [] []]; try discriminate H.
    contradiction n. reflexivity.
Qed.

Lemma match_threshold_at_all (s g : string) :
  PyText.match_threshold_at s = Some g -> all_digits g = true.
Proof.
  unfold PyText.match_threshold_at. intros H.
  destruct (PyText.strip_prefix "wealth" s) as [r|]; [|discriminate].
  destruct (PyText.skip_spaces r) as [|c r']; [discriminate|].
  destruct c as [[] [] [] [] [] [] [] []]; try discriminate H.
  apply (digits_group_all _ _ H).
Qed.

Lemma match_minimum_at_all (s g : string) :
  PyText.match_minimum_at s = Some g -> all_digits g = true.
Proof.
  unfold PyText.match_minimum_at. intros H.
  destruct (PyText.strip_prefix "minimum" s) as [r|]; [|discriminate].
  cbv zeta in H.
  destruct (PyText.strip_prefix "of" (PyText.skip_spaces r));
    apply (digits_group_all _ _ H).
Qed.

Lemma re_search_found (m : string -> option string) (s g : string) :
  PyText.re_search m s = Some g -> exists s', m s' = Some g.
Proof.
  induction s as [|c s IH]; simpl; intros H.
  - destruct (m EmptyString) eqn:E; [|discriminate].
    exists EmptyString. congruence.
  - destruct (m (String c s)) eqn:E.
    + exists (String c s). congruence.
    + apply IH, H.
Qed.

Lemma digit_value_le (c : ascii) :
  PyText.is_digit c = true -> (0 <= PyText.digit_value c <= 9)%Z.
Proof.
  unfold PyText.is_digit, PyText.digit_value. cbv zeta. intros H.
  apply andb_true_iff in H. destruct H as [H1 H2].
  apply Nat.leb_le in H1. apply Nat.leb_le in H2. lia.
Qed.

(** A string of [n] digits read after the number [acc] stays below
    [(acc + 1) * 10 ^ n]. *)
Lemma int_acc_lt (s : string) :
  forall acc : Z,
    all_digits s = true ->
    (0 <= acc)%Z ->
    (PyText.int_acc acc s < (acc + 1) * 10 ^ Z.of_nat (String.length s))%Z.
Proof.
  induction s as [|c s IH]; intros acc Hall Hacc.
  - simpl. lia.
  - cbn [all_digits] in Hall. apply andb_true_iff in Hall.
    destruct Hall as [Hc Hs]. pose proof (digit_value_le c Hc) as Hd.
    cbn [PyText.int_acc String.length].
    specialize (IH (10 * acc + PyText.digit_value c)%Z Hs ltac:(lia)).
    rewrite Nat2Z.inj_succ, Z.pow_succ_r by lia.
    assert (Hp : (0 < 10 ^ Z.of_nat (String.length s))%Z)
      by (apply Z.pow_pos_nonneg; lia).
    nia.
Qed.

(** A number written with at most 308 digits is below [10 ^ 308], and
    so within the binary64 range. *)
Lemma short_digits_in_range (g : string) :
  all_digits g = true ->
  (String.length g <= 308)%nat ->
  inject_Z (PyText.int g) <= float_max.
Proof.
  intros Hall Hlen. unfold float_max. rewrite <- Zle_Qle.
  pose proof (int_acc_lt g 0%Z Hall ltac:(lia)) as H.
  unfold PyText.int.
  assert (Hpow : (10 ^ Z.of_nat (String.length g) <= 10 ^ 308)%Z).
  { apply Z.pow_le_mono_r; lia. }
  assert (Hmax : (10 ^ 308 <= 2 ^ 1024 - 2 ^ 971)%Z).
  { vm_compute. discriminate. }
  lia.
Qed.

(** The numbers of an effect that satisfies [short_numbers] are within
    the binary64 range: the rate, the threshold and the floor that the
    transforms compute with are at most [float_max]. *)
Lemma short_numbers_in_range (effect : string) :
  short_numbers effect = true ->
  tax_rate_of effect <= float_max
  /\ wealth_threshold_of effect <= float_max
  /\ min_wealth_of effect <= float_max.
Proof.
  unfold short_numbers. intros H.
  apply andb_true_iff in H. destruct H as [H Hmin].
  apply andb_true_iff in H. destruct H as [Hrate Hthr].
  assert (Hsmall : forall q : Q, q <= 20 -> q <= float_max).
  { intros q Hq. apply (Qle_trans _ 20); [exact Hq|].
    apply Qle_bool_iff. vm_compute. reflexivity. }
  split_all.
  - unfold tax_rate_of.
    destruct (PyText.re_search PyText.match_rate_at effect) as [g|] eqn:E.
    + destruct (re_search_found _ _ _ E) as [s' Hs'].
      pose proof (short_digits_in_range g (match_rate_at_all _ _ Hs')
                    (proj1 (Nat.leb_le _ _) Hrate)) as Hg.
      pose proof (inject_Z_nonneg _ (int_nonneg g)) as H0.
      apply (Qle_trans _ (inject_Z (PyText.int g))); [|exact Hg].
      apply Qle_shift_div_r; [reflexivity|]. lra.
    + apply Hsmall. apply Qle_bool_iff. reflexivity.
  - unfold wealth_threshold_of.
    destruct (PyText.re_search PyText.match_threshold_at effect) as [g|] eqn:E.
    + destruct (re_search_found _ _ _ E) as [s' Hs'].
      apply (short_digits_in_range g (match_threshold_at_all _ _ Hs')
               (proj1 (Nat.leb_le _ _) Hthr)).
    + apply Hsmall. apply Qle_bool_iff. reflexivity.
  - unfold min_wealth_of.
    destruct (PyText.re_search PyText.match_minimum_at effect) as [g|] eqn:E.
    + destruct (re_search_found _ _ _ E) as [s' Hs'].
      apply (short_digits_in_range g (match_minimum_at_all _ _ Hs')
               (proj1 (Nat.leb_le _ _) Hmin)).
    + apply Hsmall. apply Qle_bool_iff. reflexivity.
Qed.

(** ** The further theorems at concrete inputs *)

Lemma NoDup_012 : NoDup [0; 1; 2]%nat.
Proof.
  repeat constructor; simpl; intros H;
    repeat (destruct H as [H|H]; [discriminate H|]); exact H.
Defined.

(** The child of [store_family] is one generation deep. *)
Lemma get_lineage_depth_terminates_witness :
  exists depth : Z,
    (0 <= depth <= 1)%Z
    /\ get_lineage_depth 2 store_family 1%nat family_by_id = Some depth.
Proof.
  destruct (get_lineage_depth_terminates store_family family_by_id 1%nat)
    as (depth & Hrange & Hfuel).
  - intros [|[|[|r]]] c p parent Hp Hd; try discriminate Hp.
    injection Hp as <- <-. injection Hd as <-. cbn. lia.
  - exists depth. split; [exact Hrange|]. apply Hfuel. cbn. lia.
Defined.

(** The agent of [store_cycle] is its own parent. *)
Lemma get_lineage_depth_cycle_diverges_witness :
  get_lineage_depth 1000 store_cycle 0%nat cycle_by_id = None.
Proof.
  exact (get_lineage_depth_cycle_diverges store_cycle cycle_by_id 0%nat
           "a"%char ""%string eq_refl eq_refl 1000%nat).
Defined.

(** Two records of one dynasty, given as argument. *)
Lemma get_extinction_statistics_consistent_witness :
  example_records <> []
  /\ exists (mean : Q) (max_age : Z) (by_spec by_dynasty : Py.dict Z) (gens : Z),
      get_extinction_statistics (Some example_records) store_1000
      = (inl (Extinctions 2 mean max_age by_spec by_dynasty gens), store_1000)
      /\ mean * 2 == 3
      /\ Py.sumZ (Py.values by_dynasty) = 2%Z.
Proof.
  assert (H : example_records <> []) by discriminate.
  split; [exact H|].
  destruct (proj2 (get_extinction_statistics_consistent (Some example_records)
                     store_1000) H)
    as (mean & max_age & by_spec & by_dynasty & gens & E & Hmean & _ & _ & _
        & Hdyn & _).
  exists mean, max_age, by_spec, by_dynasty, gens.
  split_all; [exact E|exact Hmean|exact Hdyn].
Defined.

(** An agent of wealth 0 pays the participation cost and is swept. *)
Lemma participation_cost_then_sweep_witness :
  In 1%nat [0; 1; 2; 3]%nat
  /\ exists (survivors deceased : list ref) (s2 : Store),
      process_deaths (fun _ => None) [0; 1; 2; 3]%nat 7%Z
        (snd (pay_participation_cost 1%nat store_1000))
      = (inl (survivors, deceased), s2)
      /\ In 1%nat deceased.
Proof.
  assert (H : In 1%nat [0; 1; 2; 3]%nat) by (simpl; tauto).
  split; [exact H|].
  destruct (participation_cost_then_sweep (fun _ => None) [0; 1; 2; 3]%nat 7%Z
              1%nat store_1000 H)
    as (survivors & deceased & s2 & E & Hdead & _).
  exists survivors, deceased, s2. split; [exact E|].
  apply Hdead. apply Qle_bool_iff. reflexivity.
Defined.

(** The three agents of wealth 0 of [store_1000] are reported. *)
Lemma sweep_then_statistics_witness :
  filter (fun r => negb (CivilizationAgent.is_alive (objects store_1000 r)))
    [0; 1; 2; 3]%nat <> []
  /\ exists (mean : Q) (max_age : Z) (by_spec by_dynasty : Py.dict Z),
      fst ((clear_extinction_log ;;
            process_deaths (fun _ => None) [0; 1; 2; 3]%nat 7%Z ;;
            get_extinction_statistics None) store_1000)
      = inl (Extinctions 3 mean max_age by_spec by_dynasty 1).
Proof.
  assert (H : filter
                (fun r => negb (CivilizationAgent.is_alive (objects store_1000 r)))
                [0; 1; 2; 3]%nat <> []) by discriminate.
  split; [exact H|].
  exact (proj2 (sweep_then_statistics (fun _ => None) [0; 1; 2; 3]%nat 7%Z
                  store_1000) H).
Defined.

(** The agent of wealth 300 of [store_300] has a child. *)
Lemma reproduce_accounting_witness :
  (0 < next_ref store_300)%nat
  /\ wealth_of
       (snd (reproduce (fun _ => "child001") (fun _ _ => Some "prompt")
               0%nat (3 # 10) store_300)) 0%nat
     + wealth_of
         (snd (reproduce (fun _ => "child001") (fun _ _ => Some "prompt")
                 0%nat (3 # 10) store_300)) 3%nat
     == 300 - 150.
Proof.
  assert (H1 : (0 < next_ref store_300)%nat) by (simpl; lia).
  split; [exact H1|].
  exact (proj1 (reproduce_accounting (fun _ => "child001")
                  (fun _ _ => Some "prompt") 0%nat 3%nat (3 # 10) store_300
                  H1 eq_refl)).
Defined.

(** Two of the three agents of [store_300] can reproduce, and do. *)
Lemma reproduction_phase_all_succeed_witness :
  NoDup [0; 1; 2]%nat
  /\ exists s' : Store,
      reproduction_phase (fun _ => "child001") (fun _ _ => Some "prompt")
        [0; 1; 2]%nat None (3 # 10) store_300
      = (inl [3; 4]%nat, s')
      /\ next_ref s' = 5%nat.
Proof.
  split; [exact NoDup_012|].
  destruct (reproduction_phase_all_succeed (fun _ => "child001")
              (fun _ _ => Some "prompt") [0; 1; 2]%nat None (3 # 10) store_300
              NoDup_012)
    as (s' & E & _ & _ & Hnext & _).
  - intros r [<-|[<-|[<-|[]]]]; simpl; lia.
  - intros a. discriminate.
  - exists s'. split; [exact E|exact Hnext].
Defined.

(** A rule that received 3 votes for and 1 against. *)
Lemma vote_ratio_range_witness :
  0 <= Rule.vote_ratio
         (Rule.with_tally (example_rule OTHER "An effect" false) 3 1) <= 1.
Proof.
  apply (vote_ratio_range
           (Rule.with_tally (example_rule OTHER "An effect" false) 3 1));
    simpl; lia.
Defined.

(** The three agents of [store_300] all vote yes. *)
Lemma run_voting_equal_tally_witness :
  [0; 1; 2]%nat <> []
  /\ exists (passed : bool) (rule' : Rule.t),
      run_voting (fun _ _ => true) [0; 1; 2]%nat
        (example_rule OTHER "An effect" false) EQUAL (1 # 2) store_300
      = (inl (passed, rule'), store_300)
      /\ (Rule.votes_for rule' + Rule.votes_against rule')%Z = 3%Z.
Proof.
  assert (H : [0; 1; 2]%nat <> []) by discriminate.
  split; [exact H|].
  destruct (run_voting_equal_tally (fun _ _ => true) [0; 1; 2]%nat
              (example_rule OTHER "An effect" false) (1 # 2) store_300 H)
    as (passed & rule' & E & _ & _ & _ & Hsum & _).
  exists passed, rule'. split; [exact E|exact Hsum].
Defined.


(** Nobody of [store_300] is above a threshold of 500. *)
Lemma transforms_idle_witness :
  (forall r, In r [0; 1; 2]%nat ->
             wealth_of store_300 r
             <= wealth_threshold_of
                  (PyText.lower "Agents with wealth > 500 pay 25%"))
  /\ _apply_taxation
       (example_rule TAXATION "Agents with wealth > 500 pay 25%" true)
       [0; 1; 2]%nat store_300
     = (inl [0; 1; 2]%nat, store_300).
Proof.
  assert (H : forall r, In r [0; 1; 2]%nat ->
                        wealth_of store_300 r
                        <= wealth_threshold_of
                             (PyText.lower "Agents with wealth > 500 pay 25%")).
  { intros r [<-|[<-|[<-|[]]]]; apply Qle_bool_iff; reflexivity. }
  split; [exact H|].
  exact (proj1 (transforms_idle
                  (example_rule TAXATION "Agents with wealth > 500 pay 25%" true)
                  [0; 1; 2]%nat store_300) H).
Defined.


(** Three agents of wealth 100 each. *)
Lemma compute_gini_equal_wealth_witness :
  exists g : Q,
    compute_gini [0; 1; 2]%nat store_equal = (inl g, store_equal) /\ g == 0.
Proof.
  apply (compute_gini_equal_wealth [0; 1; 2]%nat 100%Z store_equal).
  { reflexivity. }
  intros r [<-|[<-|[<-|[]]]]; reflexivity.
Defined.

(** One of the four agents of [store_1000] holds everything. *)
Lemma compute_gini_one_holds_all_witness :
  0 < wealth_of store_1000 0%nat
  /\ exists g : Q,
      compute_gini [0; 1; 2; 3]%nat store_1000 = (inl g, store_1000)
      /\ g == 3 # 4.
Proof.
  assert (H : 0 < wealth_of store_1000 0%nat) by reflexivity.
  split; [exact H|].
  destruct (compute_gini_one_holds_all [] [1; 2; 3]%nat 0%nat store_1000 H)
    as (g & E & Hg).
  - intros r [<-|[<-|[<-|[]]]]; reflexivity.
  - exists g. split; [exact E|]. rewrite Hg. reflexivity.
Defined.

(** The three agents of [store_300], and the five richest of them. *)
Lemma compute_wealth_concentration_share_witness :
  (Py.len [0; 1; 2]%nat <= 5)%Z
  /\ exists c : Q,
      compute_wealth_concentration [0; 1; 2]%nat 5 store_300
      = (inl c, store_300)
      /\ c == 1.
Proof.
  assert (H : (Py.len [0; 1; 2]%nat <= 5)%Z) by (cbn; lia).
  split; [exact H|].
  destruct (compute_wealth_concentration_share [0; 1; 2]%nat 5 store_300)
    as (c & E & _ & Hone).
  exists c. split; [exact E|].
  apply (Hone H). intros Hz. discriminate Hz.
Defined.

(** The three agents of [store_300] in no class at all, and in three. *)
Lemma compute_specialization_by_class_shares_witness :
  [0; 1; 2]%nat <> []
  /\ compute_specialization_by_class (fun _ => None) [0; 1; 2]%nat 0 store_300
     = (inr ZeroDivisionError, store_300)
  /\ exists result,
      compute_specialization_by_class (fun _ => None) [0; 1; 2]%nat 3 store_300
      = (inl result, store_300)
      /\ Py.keys result = ["upper"; "middle"; "lower"].
Proof.
  assert (H : [0; 1; 2]%nat <> []) by discriminate.
  split; [exact H|].
  destruct (compute_specialization_by_class_shares (fun _ => None)
              [0; 1; 2]%nat 0 store_300) as (Hraise & _).
  destruct (compute_specialization_by_class_shares (fun _ => None)
              [0; 1; 2]%nat 3 store_300) as (_ & _ & Hret).
  split; [exact (Hraise H eq_refl)|].
  destruct (Hret H) as (result & E & Hk & _); [discriminate|].
  exists result. split; [exact E|exact Hk].
Defined.

(** The three agents of wealth 0 of [store_1000]. *)
Lemma compute_gini_range_witness :
  Qsum (map (wealth_of store_1000) [1; 2; 3]%nat) == 0
  /\ compute_gini [1; 2; 3]%nat store_1000 = (inl 0, store_1000).
Proof.
  assert (H : Qsum (map (wealth_of store_1000) [1; 2; 3]%nat) == 0)
    by reflexivity.
  split; [exact H|].
  destruct (compute_gini_range [1; 2; 3]%nat store_1000)
    as (g & E & _ & _ & Hz).
  rewrite E, (Hz H). reflexivity.
Defined.

(** One active dynasty out of two. *)
Lemma analyze_dynasties_consistent_witness :
  exists r : DynastyAnalysis.t,
    analyze_dynasties example_dynasties None store_300 = (inl r, store_300)
    /\ (DynastyAnalysis.n_active_dynasties r
        + DynastyAnalysis.n_extinct_dynasties r)%Z = 2%Z
    /\ DynastyAnalysis.top3_population_share r == 1.
Proof.
  destruct (analyze_dynasties_consistent example_dynasties None store_300)
    as (r & E & Hsum & Hn & _ & _ & _ & _ & Hp3 & _).
  exists r. split_all; [exact E|exact Hsum|].
  apply Hp3. rewrite Hn. cbn. lia.
Defined.

(** A dynasty updated with no members left. *)
Lemma update_statistics_record_witness :
  exists d : Dynasty.t,
    update_statistics (fun _ => None)
      (Dynasty.Build "a" "I am a general-purpose AI assistant." 0
         ["a"; "c"] 2 150 3 100 (Some "math") false None)
      5%Z [] store_300
    = (inl d, store_300)
    /\ Dynasty.max_wealth_achieved d = 100
    /\ is_active d = false.
Proof.
  destruct (update_statistics_record (fun _ => None)
              (Dynasty.Build "a" "I am a general-purpose AI assistant." 0
                 ["a"; "c"] 2 150 3 100 (Some "math") false None)
              5%Z [] store_300)
    as (d & E & _ & _ & _ & _ & _ & _ & _ & _ & _ & Hempty).
  destruct (Hempty eq_refl) as (Hmax & _ & Hact).
  exists d. split_all; [exact E|exact Hmax|exact Hact].
Defined.

(** The three agents of [store_300], without rules or history. *)
Lemma compute_all_society_metrics_total_witness :
  [0; 1; 2]%nat <> []
  /\ exists m : SocietyMetrics.t,
      compute_all_society_metrics (fun _ => None) [0; 1; 2]%nat None None
        store_300
      = (inl m, store_300)
      /\ SocietyMetrics.mean_wealth m * 3 == 600
      /\ SocietyMetrics.governance_entropy m = None.
Proof.
  assert (H : [0; 1; 2]%nat <> []) by discriminate.
  split; [exact H|].
  destruct (compute_all_society_metrics_total (fun _ => None) [0; 1; 2]%nat
              None None store_300)
    as (m & E & _ & Ht & _ & Hmean & _ & _ & _ & Hgov & _).
  exists m. split_all; [exact E| |apply Hgov; left; reflexivity].
  specialize (Hmean H). rewrite Ht in Hmean. exact Hmean.
Defined.

(** A reply that follows no format. *)
Lemma parse_rule_response_defaults_witness :
  PyText.contains "RULE:" "I would rather not propose anything." = false
  /\ Rule.description
       (_parse_rule_response "1b9d6bcd-bbfd-4b2d-9b5d-ab8dfbbd4bed"
          "I would rather not propose anything." "a" 4)
     = "Unknown rule"%string.
Proof.
  assert (H : PyText.contains "RULE:" "I would rather not propose anything."
              = false) by reflexivity.
  split; [exact H|].
  exact (proj1 (parse_rule_response_defaults
                  "1b9d6bcd-bbfd-4b2d-9b5d-ab8dfbbd4bed"
                  "I would rather not propose anything." "a" 4) H).
Defined.

(** A taxation proposal written in the format of the prompt. *)
Lemma parse_rule_response_round_trip_witness :
  PyRe.strip "Tax the rich" = "Tax the rich"%string
  /\ Rule.effect
       (_parse_rule_response "1b9d6bcd-bbfd-4b2d-9b5d-ab8dfbbd4bed"
          (proposal_text "Tax the rich" "Agents with wealth > 500 pay 10%"
             TAXATION) "a" 4)
     = "Agents with wealth > 500 pay 10%"%string
  /\ Rule.category
       (_parse_rule_response "1b9d6bcd-bbfd-4b2d-9b5d-ab8dfbbd4bed"
          (proposal_text "Tax the rich" "Agents with wealth > 500 pay 10%"
             TAXATION) "a" 4)
     = TAXATION.
Proof.
  assert (H : PyRe.strip "Tax the rich" = "Tax the rich"%string)
    by reflexivity.
  split; [exact H|].
  destruct (parse_rule_response_round_trip
              "1b9d6bcd-bbfd-4b2d-9b5d-ab8dfbbd4bed"
              "Tax the rich" "Agents with wealth > 500 pay 10%" TAXATION "a" 4)
    as (_ & He & Hc); try reflexivity; try discriminate.
  split; [exact He|exact Hc].
Defined.

(** A tax of 25% on the four agents of [store_1000]. *)
Lemma taxation_creates_no_debt_witness :
  tax_rate_of (PyText.lower "Agents with wealth > 500 pay 25%") <= 1
  /\ exists s' : Store,
      _apply_taxation
        (example_rule TAXATION "Agents with wealth > 500 pay 25%" true)
        [0; 1; 2; 3]%nat store_1000
      = (inl [0; 1; 2; 3]%nat, s')
      /\ 0 <= wealth_of s' 0%nat.
Proof.
  assert (H : tax_rate_of (PyText.lower "Agents with wealth > 500 pay 25%")
              <= 1).
  { apply Qle_bool_iff. reflexivity. }
  split; [exact H|].
  destruct (taxation_creates_no_debt
              (example_rule TAXATION "Agents with wealth > 500 pay 25%" true)
              [0; 1; 2; 3]%nat store_1000 H) as (s' & E & Hpos).
  exists s'. split; [exact E|]. apply Hpos. apply Qle_bool_iff. reflexivity.
Defined.

(** Two sweeps over the four agents of [store_1000]. *)
Lemma sweep_twice_witness :
  exists (survivors deceased : list ref) (s1 s2 : Store),
    process_deaths (fun _ => None) [0; 1; 2; 3]%nat 7%Z store_1000
    = (inl (survivors, deceased), s1)
    /\ process_deaths (fun _ => None) [0; 1; 2; 3]%nat 8%Z s1
       = (inl (survivors, deceased), s2)
    /\ List.length (_extinction_log s2) = (2 * List.length deceased)%nat.
Proof.
  destruct (sweep_twice (fun _ => None) [0; 1; 2; 3]%nat 7%Z 8%Z store_1000)
    as (survivors & deceased & s1 & E1 & _ & s2 & E2 & Hlen & _).
  exists survivors, deceased, s1, s2. split_all; [exact E1|exact E2|exact Hlen].
Defined.

(** The child of the first agent of [store_300]. *)
Lemma offspring_lineage_depth_witness :
  (0 < next_ref store_300)%nat
  /\ get_lineage_depth 2
       (snd (reproduce (fun _ => "child001") (fun _ _ => Some "prompt")
               0%nat (3 # 10) store_300))
       3%nat [("a", 0%nat)]
     = Some 1%Z.
Proof.
  assert (H : (0 < next_ref store_300)%nat) by (simpl; lia).
  split; [exact H|].
  apply (offspring_lineage_depth (fun _ => "child001")
           (fun _ _ => Some "prompt") 0%nat 3%nat (3 # 10) store_300
           [("a", 0%nat)] 1%nat 0%Z H eq_refl);
    [discriminate|reflexivity|reflexivity].
Defined.

(** Two founders created next to the two agents of [store_50]. *)
Lemma create_civilization_population_founders_witness :
  exists s' : Store,
    create_civilization_population (fun _ => "founder1") 0 2 None 100 store_50
    = (inl [2; 3]%nat, s')
    /\ CivilizationAgent.wealth (objects s' 2%nat) = 100
    /\ objects s' 0%nat = objects store_50 0%nat.
Proof.
  destruct (create_civilization_population_founders (fun _ => "founder1") 0 2
              None 100 store_50)
    as (s' & E & Hnext & _ & Hold & Hnew).
  exists s'. split_all; [exact E| |].
  - apply (Hnew 2%nat). rewrite Hnext. cbn. lia.
  - apply Hold. cbn. lia.
Defined.

(** The default floor of 20 on the four agents of [store_1000]. *)
Lemma welfare_guarantees_floor_witness :
  exists s' : Store,
    _apply_welfare
      (example_rule WELFARE "A welfare guarantee for every agent" true)
      [0; 1; 2; 3]%nat store_1000
    = (inl [0; 1; 2; 3]%nat, s')
    /\ 20 <= wealth_of s' 1%nat.
Proof.
  destruct (welfare_guarantees_floor
              (example_rule WELFARE "A welfare guarantee for every agent" true)
              [0; 1; 2; 3]%nat store_1000 eq_refl)
    as (s' & E & Hfloor & _).
  exists s'. split; [exact E|].
  apply (Hfloor 1%nat). simpl. tauto.
Defined.

(** The founder and the child of [store_family] form one dynasty. *)
Lemma build_dynasty_tree_groups_witness :
  exists dynasties : Py.dict Dynasty.t,
    build_dynasty_tree (fun _ => None) [0; 1]%nat None store_family
    = (inl dynasties, store_family)
    /\ In "a"%string (Py.keys dynasties).
Proof.
  destruct (build_dynasty_tree_groups (fun _ => None) [0; 1]%nat None
              store_family)
    as (dynasties & E & _ & Hkeys & _).
  exists dynasties. split; [exact E|].
  apply Hkeys. exists 1%nat. split; [simpl; tauto|reflexivity].
Defined.
